(* ===== verification/_CoqProject ===== *)
-Q . S2P
Prelude.v
Bytes.v
Codec.v
Oracle.v
Hint.v
Proxy.v
Providers.v
Args.v
Host.v
Cfg.v
Fixtures.v
HostRuns.v
Client.v
Server.v
EndToEnd.v
Source.v
SourceRuns.v
FullStack.v
StoreWf.v
Pipeline.v
Reload.v
Backend.v
Sessions.v
Scenario.v
Interchange.v
Capacity.v
Beacon.v
