(* ===== verification/Prelude.v ===== *)
(** * Verification of hydro's EigenDA data-availability path

    The program (mantle-xyz/hydro) extends an Optimism-style fault-proof
    program so that the rollup chain is derived from blobs kept in EigenDA.
    It is split in an untrusted host, which has the network, and a trusted
    client, which trusts nothing but a content-addressed preimage oracle.
    This development is a shallow embedding of that boundary in Rocq: every
    operation under [src/] that computes or changes state is a definition
    here, written so that it evaluates, and the theorems state what makes
    each part, and their composition, correct.

    ** The parts of the program and where they are modelled

    The files, in the order of their dependencies:

    - [Prelude] (this file): the result type [result] with the notation
      [let? x := e in k] for Rust's [e?]; the state-and-error monad [stE]
      with [let! x := c in k] for a fallible call on a state that keeps its
      changes when the call fails; the loops [for_each] and [fold_res] with
      their induction principles; frame reasoning ([st_preserves] and the
      tactic [st_frame]), two computations on states of two types that
      answer alike ([st_sim] and the tactic [st_simul]) and, as its
      instance, independence of a part of the state ([st_respects] and
      the tactic [st_rel]); the tactics [inv_res],
      [case_res] and [eval_run]; the hint database [hydro].
    - [Bytes]: byte strings as [list byte]; Rust's slice primitives with
      their panics as errors ([copy_from_slice], [slice]); [u64::to_be_bytes]
      as [to_be_bytes] with its inverse; the 64-bit [usize] operations with
      their wrap-around; hexadecimal printing.
    - [Codec]: the interface [BlobCodec] of [EigenDABlobData::encode] and
      [decode] (crate code that is not under [src/]) with the law the client
      relies on, and the default EigenDA blob codec as an instance.
    - [Oracle]: [PreimageKeyType], [preimage_key], the interface
      [KeyValueStore] of the shared store with its [gmap] instance and the
      equivalence [store_equiv], the interface [Keccak] of [keccak256], the
      certificate [BlobInfo] with its decoder, the KZG witness builder.
    - [Hint]: [src/crates/oracle/src/hint.rs], [HintWrapper] with [from_str]
      and [fmt], over the interface [BaseHint] of kona's hint type.
    - [Proxy]: [src/bin/host/src/eigenda/online_provider.rs], the request
      URL, the mapping of the HTTP outcome to [EigenDAProxyError]
      ([map_response], [retrieve_blob_with_commitment]) and
      [OnlineEigenDAProvider::get_blob], over the interface [HttpClient].
    - [Providers]: [src/bin/host/src/eigenda/providers.rs], the record
      [EigenDAChainProviders] with its constructor, accessors and conversion.
    - [Args]: the argument records of [src/bin/host/src/eigenda/cfg.rs],
      [EigenDAChainHost] and [EigenDACfg], with the fields of kona's
      [SingleChainHost] the host reads.
    - [Host]: [src/bin/host/src/eigenda/handler.rs], the unit struct
      [EigenDAChainHintHandler] and the whole of its [fetch_hint] in [stE]
      over the store.  A standard hint goes, with the arguments of the
      single-chain host and the inner providers, to the handler of the base
      hints (the interface [StandardHandler]), whose error is wrapped with
      the hint type and the data.  The arm of [EigenDABlob] is
      [fetch_eigen_da_blob]: the length guard, the fetch, the certificate,
      the size assertion, the loop that writes one lookup key and one field
      element per index ([write_field_element]), the witness, the
      comparison of the commitment ([commitment_matches]), the four final
      writes ([write_witness]); and its closed form [ingest], proved equal
      to it.
    - [Cfg]: the functions of [src/bin/host/src/eigenda/cfg.rs]:
      [parse_duration], [is_offline], [read_rollup_config] over the
      interface of the file system, [create_key_value_store],
      [create_providers], [start_server] with the backend it makes (the
      online one with the handler of [Host]), [start_native] and [start]
      over the interface [Runtime] of what the channels and the awaited
      tasks come to.
    - [Fixtures]: the concrete host the examples run on.
    - [HostRuns]: the specification of the handler as the relations
      [fetch_outcome] and [write_outcome], and its properties.
    - [Client]: [src/crates/oracle/src/provider.rs], the whole of
      [OracleEigenDaProvider::blob_get] against the interface [CommsClient]
      of the oracle, and its closed form [reconstruct], proved equal to it.
    - [Server]: kona's online backend as the client sees it, from its
      description: the store and the last hint ([server]), [route_hint], and
      [get_preimage], which runs the hint handler when a key is missing,
      again when the handler returns an error, and ends with the task of
      the server when the handler panics.
    - [EndToEnd]: the client of [Client] against the host of [Server] with
      the handler of [Host]: ingestion followed by reconstruction.
    - [Source]: [src/crates/eigenda/src/derive/eigenda.rs] and
      [src/crates/eigenda/src/derive/traits.rs], the derivation source
      [EigenDASource] as a record threaded through [stE]
      ([EigenDASource_new], [data_from_eigen_da] with the body [scan_tx] of
      its loop, [load_blobs], [next_data], [next], [clear]) and as the step
      relation [source_step], over the interfaces of the chain provider, the
      blob fetcher, [EigenDAProvider] and the decoders.
    - [SourceRuns]: the properties of the source.
    - [FullStack]: the client as the [EigenDAProvider] of the source, and
      the run of the source over the client, the host and the proxy.
    - [StoreWf]: the type of a key ([key_type], kona's conversion from 32
      bytes) and the typing invariant [store_wf] of the store, followed
      through the handler and through the requests the server serves.
    - [Pipeline]: the source under its caller: the calls of [next] and
      [clear] with their results as the labelled steps [source_event], the
      queue of the specification [queue_step] with the abstraction
      [queue_of], and the loop [pull] that calls [next] until it fails.
    - [Reload]: the second load of a source that was cleared, for
      providers that answer alike in every state ([oblivious]).
    - [Backend]: the behaviour of the backend [Cfg.start_server] makes:
      kona's offline backend, the online backend as the server of
      [Server], and the client on either ([backend_oracle]).
    - [Sessions]: one host serving several commitments one after the
      other.
    - [Scenario]: one block pulled through every part, by evaluation.
    - [Interchange]: the source over the provider of the host
      ([OnlineEigenDAProvider] as an [EigenDAProvider], which
      [online_provider.rs] announces and does not contain) beside the
      source over the client of the oracle, related run by run.
    - [Capacity]: the size assertion and the field elements of the handler
      under the codec of EigenDA, and the first example of the
      specification.
    - [Beacon]: the loop of [load_blobs] over the blobs of the beacon
      chain, beside the concatenation of their payloads.

    ** How state and effects correspond to the code

    The store behind [SharedKeyValueStore] is a value of a type with a
    [KeyValueStore] instance; [kv_lock.set(k, v)?] is [kv_set_m k v] in
    [stE], so a failing call returns the store with the writes made so far,
    as the code leaves them behind the lock.  The source is the record
    [EigenDASource]; a call of one of its providers changes the state of
    that provider inside the record ([on_eigen_da_provider] and the like).
    A Rust panic ([assert!], a slice out of range, [unwrap] of an error) is
    an error value of its own ([HostPanic], [ClientPanic], [SourcePanic]),
    never a stuck term; a caller that goes on after an error does not go
    on after a panic ([Server.retry]).  The proxy is a function of the
    request ([Proxy.HttpClient]): it answers a request alike each time it
    is asked.  The statements about one run of the handler do not depend
    on that; those that follow several runs ([Sessions], [Interchange],
    the lemmas on a second run in [HostRuns] and on the retries in
    [EndToEnd]) hold of a proxy that does not change its answers, and say
    nothing of one that does.  The [for] loops over [0..n] run over the list
    [seqZ 0 n] and the loops over transactions over their list: they
    terminate by structural recursion and need no fuel.  Machine integers
    are [Z] with their range stated: indices are [u64], [data_length] is
    [u32], and [usize] is taken to be 64 bits wide; the arithmetic of the
    handler and of the client is written with its wrap-around ([usize_shl],
    [usize_mul], [usize_add]).

    ** Fuel and bounds

    Two loops of the program have no bound of their own, and both are
    kona's.  The retry loop of the backend is [Server.retry], which takes
    the number of rounds as fuel and answers [KeyNotFound] when it runs
    out; a panic of the handler ends it at once with [task_ended].  One
    round is enough for every read the theorems of [EndToEnd], [Backend]
    and [Sessions] serve; a read served within some number of rounds is
    served alike within every larger number ([Backend]), so the bound does
    not show in an answer; and when the handler returns an error before
    its first write, no number of rounds serves the read as long as the
    proxy answers as before ([EndToEnd]).  The
    loop of the pipeline that pulls frames is [Pipeline.pull], with fuel;
    [pull_bound] is the number of frames the source holds, or is about to
    load, it decreases at every frame, and any fuel above it lets the loop
    end with the error of [next], never for want of fuel.  The list
    decoder of the examples, [flat_list_decode], takes the length of its
    input as fuel, which bounds the number of its chunks.

    Code that the sources call but that is not under [src/] is an interface
    (a type class), with an executable instance written from its
    description where an example needs one: the blob codec, [keccak256],
    the certificate decoder, the witness builder, the key-value store, the
    HTTP client, the RLP and protobuf decoders, the signer recovery and the
    chain and blob providers.  [keccak256] has no collision-freeness law:
    the theorems that need distinct digests assume it of the finite family
    of keys of one certificate, or of two, a hypothesis their examples
    discharge by computation.

    ** What the theorems show

    - [HostRuns]: [fetch_hint] refines [fetch_outcome]; when it succeeds and
      what the store then holds, key by key; that a commitment mismatch
      leaves the field elements written, and which errors leave the store
      untouched; that no key outside those of the certificate changes; that
      a second run that succeeds changes nothing; that the only slice out
      of range is in
      the comparison of the commitment; what the comparison compares.
    - [StoreWf]: every write of the handler is well typed; [fetch_hint]
      keeps [store_wf] on every outcome, and so does the server over every
      sequence of requests; a read from the [Keccak256] key space returns
      the preimage of the key.
    - [Client]: [blob_get] returns a blob exactly when the oracle serves
      the field elements and they decode; no slice is out of range; the
      [unwrap] panics; the test for an empty field element is dead code.
    - [EndToEnd]: the client reads back the blob the host ingested, again
      from the store alone, and also after a commitment mismatch; a short
      commitment is rejected after the hint is sent; a handler that fails
      before its first write does not serve the read.
    - [Sessions]: the entries of one certificate survive the run of the
      handler for another, whatever its outcome; a client that reads two
      blobs in turn and the first again gets the first blob twice.
    - [Backend]: an offline host never fetches; an online host asks the
      proxy of its arguments and the client reads back what that proxy
      returns; more rounds do not change an answer.
    - [SourceRuns]: a closed source holds no frames in every reachable
      state; a closed source loads the frames of a block once and hands
      them out in order, then [Eof]; a failed load leaves the source
      closed; the frames keep the order of the transactions; the
      index of a blob hash is, in every block, its position among the
      blobs of the transactions the scan counts, which is its position in
      the block when the blobs of every transaction are counted and is
      smaller after a blob transaction accepted with calldata; a
      frame reference longer than its blob panics; a reference without
      quorum IDs is dropped.
    - [Pipeline]: the source refines the queue of the specification; the
      loop of the caller terminates; the end of the data lasts until
      [clear]; an open source does not look at the block it is asked for.
    - [Reload]: what a closed source loads depends on its batcher inbox
      and on the answers of the providers only, so [clear] and a second
      load reproduce the frames of the first.
    - [FullStack]: the frames of a referenced blob as the source reads them
      through the client, and how a failure of the client is reported.
    - [Scenario]: the frames the pipeline receives for a block with a
      frame in calldata and a referenced blob, the store the host is left
      with, the load that fails on a commitment the proxy does not
      know, and the block whose only reference has no quorum IDs.
    - [Interchange]: on the commitments the handler accepts, any two with
      distinct keys or the same certificate and blob, the caller receives
      the same frames and the same error from the source over the client
      as from the source over the proxy, and the two sources have the same
      traces of [next] and [clear]; the oracle is read by certificate, so
      a second commitment with the certificate of a first is answered
      with the blob of the first; where the handler rejects a commitment
      the two providers differ.
    - [Capacity]: the handler stops at the size assertion exactly when
      the certificate declares fewer field elements than the header and
      the 31-byte pieces of the blob take; every field element it writes
      is 32 bytes long and starts with a zero byte; the example of the
      specification is rejected for its size.
    - [Beacon]: with a usable blob for every recorded hash the source
      decodes its frames from the payloads of the first blobs of the
      answer, in the order of the answer; it fails with [InvalidLength]
      when the answer is short of blobs and with [MissingData] at a blob
      that is empty or all zeros; a blob that does not decode is left out
      and the load succeeds without it; the frames of the scan come before
      those of the blobs.
    - [Hint]: printing and parsing are inverse; the accepted tags.
    - [Proxy]: the outcome of [retrieve_blob_with_commitment] and of
      [get_blob] on every branch.
    - [Cfg]: [start_server] in closed form: when the server starts, on
      which backend and store, and that an offline host does not look at
      the arguments of EigenDA; that [start_native] ends in an exit whose
      status is that of the client alone; the order of the errors of
      [create_providers]; the strings [parse_duration] accepts.
    - [Bytes], [Codec], [Oracle]: the lemmas the above rest on: round trips
      ([to_be_bytes], [blob_encode] under zero padding), lengths (the
      exact length of an encoding), the zero byte at the head of every
      field element of an encoding, the algebra of sequences of writes.

    ** Not modelled

    Every function under [src/] is a definition of this development; what
    is left of the source files are the imports, the attributes of the
    structs and the two [mod.rs] files, which declare modules.  The
    following is outside the model, and why.

    The tasks and channels of [start_server], [start_native] and [start]
    are tokio's, kona's and the operating system's: [Cfg] has what making
    a channel and awaiting a task come to as the interface [Runtime], the
    task of a server named by the backend it serves, and [Backend] gives
    that backend its behaviour from kona's description; the two file
    channels of [start] are constants and do not appear.  The command
    line attributes of [cfg.rs] are clap's.  The two associated types
    [impl OnlineHostBackendCfg] names are the types the definitions here
    carry in their signatures.  Kona's [SplitKeyValueStore] routes the
    keys of type [Local] to the inputs of the host, which cannot be
    written: it does not satisfy the law of [KeyValueStore] that a write is
    read back, and no operation under [src/] reads or writes a [Local]
    key, so the store is modelled for the other key types only.  Two
    tasks running at once: the client waits for the host at every call,
    and the handler holds the lock of the store while it writes, so the
    runs are the sequences of calls modelled here.  The HTTP transport,
    the KZG witness, RLP, protobuf, the recovery of signers and Keccak are
    libraries the sources call, present as interfaces only: the theorems
    hold for every instance, and say nothing about the libraries.  Logging
    ([debug!], [warn!], [error!]) and the text of error messages built with
    [format!] from library errors, which are kept as their cause. *)

From stdpp Require Export base tactics option list numbers.
From Stdlib Require Export ZArith Lia.

Declare Scope hydro_scope.
Delimit Scope hydro_scope with hydro.
Open Scope hydro_scope.

(** ** Results: Rust's [Result<A, E>] *)

Inductive result (E A : Type) : Type :=
  | Ok (a : A)
  | Err (e : E).
Arguments Ok {E A} a.
Arguments Err {E A} e.

#[export] Instance result_eq_dec `{EqDecision E, EqDecision A} :
  EqDecision (result E A).
Proof. solve_decision. Defined.

Definition res_bind {E A B} (r : result E A) (k : A → result E B) : result E B :=
  match r with
  | Ok a => k a
  | Err e => Err e
  end.

Definition map_err {E F A} (f : E → F) (r : result E A) : result F A :=
  match r with
  | Ok a => Ok a
  | Err e => Err (f e)
  end.

Definition res_map {E A B} (f : A → B) (r : result E A) : result E B :=
  match r with
  | Ok a => Ok (f a)
  | Err e => Err e
  end.

Definition ok_or {E A} (o : option A) (e : E) : result E A :=
  match o with
  | Some a => Ok a
  | None => Err e
  end.

Definition is_ok {E A} (r : result E A) : bool :=
  match r with Ok _ => true | Err _ => false end.

(** [ensure c e] is [anyhow::ensure!(c, e)]. *)
Definition ensure {E} (c : bool) (e : E) : result E unit :=
  if c then Ok tt else Err e.

Notation "'let?' x := c 'in' k" := (res_bind c (fun x => k))
  (at level 10, x pattern, c at level 100, k at level 200,
   format "'[v' 'let?'  x  :=  c  'in' '/' k ']'") : hydro_scope.

(** A loop with an accumulator that stops at the first error. *)
Fixpoint fold_res {E A B} (f : B → A → result E B) (l : list A) (b : B)
  : result E B :=
  match l with
  | [] => Ok b
  | a :: l => let? b' := f b a in fold_res f l b'
  end.

(** ** State and errors: calls that mutate a store and may fail

    The state is returned on failure too: what was written stays written. *)

Definition stE (S E A : Type) : Type := S → S * result E A.

Definition st_ret {S E A} (a : A) : stE S E A := λ s, (s, Ok a).

Definition st_bind {S E A B} (c : stE S E A) (k : A → stE S E B) : stE S E B :=
  λ s, match c s with
       | (s', Ok a) => k a s'
       | (s', Err e) => (s', Err e)
       end.

Definition st_lift {S E A} (r : result E A) : stE S E A := λ s, (s, r).

Definition st_fail {S E A} (e : E) : stE S E A := λ s, (s, Err e).

Definition st_map_err {S E F A} (f : E → F) (c : stE S E A) : stE S F A :=
  λ s, let '(s', r) := c s in (s', map_err f r).

Notation "'let!' x := c 'in' k" := (st_bind c (fun x => k))
  (at level 10, x pattern, c at level 100, k at level 200,
   format "'[v' 'let!'  x  :=  c  'in' '/' k ']'") : hydro_scope.

(** [for x in l { body(x)?; }] with a loop-carried value. *)
Fixpoint for_each {S E A B} (body : B → A → stE S E B) (l : list A) (b : B)
  : stE S E B :=
  match l with
  | [] => st_ret b
  | a :: l => let! b' := body b a in for_each body l b'
  end.

(** [st_preserves R c]: whatever [c] returns, the state it leaves is
    related by [R] to the state it started from.  With [R] a preorder this
    is how a computation is shown to leave part of the state alone. *)
Definition st_preserves {S E A} (R : relation S) (c : stE S E A) : Prop :=
  ∀ s, R s (c s).1.

(** [st_sim R c1 c2 s1 s2]: run from [s1] and from [s2], two computations
    on states of two types return the same result and leave states related
    by [R].  This is how two implementations of an interface are shown to
    answer alike. *)
Definition st_sim {S1 S2 E A} (R : S1 → S2 → Prop)
    (c1 : stE S1 E A) (c2 : stE S2 E A) (s1 : S1) (s2 : S2) : Prop :=
  R (c1 s1).1 (c2 s2).1 ∧ (c1 s1).2 = (c2 s2).2.

(** [st_respects R c]: from two states related by [R], [c] returns the
    same result and leaves two states related by [R].  With [R] relating
    the states that differ in a part [c] does not read, this is how a
    computation is shown not to depend on that part. *)
Definition st_respects {S E A} (R : relation S) (c : stE S E A) : Prop :=
  ∀ s s', R s s' → st_sim R c c s s'.

(** ** Automation *)

Create HintDb hydro discriminated.
Create Rewrite HintDb hydro_rw.

(** [inv_res] uses equations between results and pairs in the context. *)
Ltac inv_res :=
  repeat match goal with
  | H : Ok _ = Ok _ |- _ => injection H as H; try subst
  | H : Err _ = Err _ |- _ => injection H as H; try subst
  | H : Ok _ = Err _ |- _ => discriminate H
  | H : Err _ = Ok _ |- _ => discriminate H
  | H : (_, _) = (_, _) |- _ => injection H as ?; try subst
  | H : res_bind ?r _ = _ |- _ =>
      let E := fresh "E" in destruct r eqn:E; simpl in H
  | H : ensure ?c _ = Ok _ |- _ =>
      let E := fresh "E" in destruct c eqn:E; simpl in H; [clear H|discriminate H]
  | H : ensure ?c _ = Err _ |- _ =>
      let E := fresh "E" in destruct c eqn:E; simpl in H; [discriminate H|]
  | H : map_err _ ?r = _ |- _ =>
      let E := fresh "E" in destruct r eqn:E; simpl in H
  end.

(** [case_res r] splits on a result and names the equation. *)
Tactic Notation "case_res" constr(r) "as" simple_intropattern(p) :=
  let E := fresh "E" in destruct r as p eqn:E; simpl in *; inv_res.

(** ** Laws of the two binds *)

Section monad_laws.
Context {S E A B C : Type}.
Implicit Types (r : result E A) (c : stE S E A).

Lemma res_bind_Ok r (k : A → result E B) a :
  r = Ok a → res_bind r k = k a.
Proof. by intros ->. Qed.

Lemma res_bind_Err r (k : A → result E B) e :
  r = Err e → res_bind r k = Err e.
Proof. by intros ->. Qed.

Lemma res_bind_inv r (k : A → result E B) b :
  res_bind r k = Ok b ↔ ∃ a, r = Ok a ∧ k a = Ok b.
Proof.
  destruct r as [a|e]; simpl; split.
  - by exists a.
  - by intros (a' & [= <-] & Hk).
  - done.
  - by intros (a' & [=] & _).
Qed.

Lemma res_bind_assoc r (k : A → result E B) (h : B → result E C) :
  res_bind (res_bind r k) h = res_bind r (λ a, res_bind (k a) h).
Proof. by destruct r. Qed.

Lemma st_bind_Ok c (k : A → stE S E B) s s' a :
  c s = (s', Ok a) → st_bind c k s = k a s'.
Proof. unfold st_bind. by intros ->. Qed.

Lemma st_bind_Err c (k : A → stE S E B) s s' e :
  c s = (s', Err e) → st_bind c k s = (s', Err e).
Proof. unfold st_bind. by intros ->. Qed.

Lemma st_bind_inv c (k : A → stE S E B) s s2 b :
  st_bind c k s = (s2, Ok b) ↔ ∃ s1 a, c s = (s1, Ok a) ∧ k a s1 = (s2, Ok b).
Proof.
  unfold st_bind. destruct (c s) as [s1 [a|e]]; split.
  - by exists s1, a.
  - by intros (s1' & a' & [= <- <-] & Hk).
  - done.
  - by intros (s1' & a' & [=] & _).
Qed.

Lemma st_bind_assoc c (k : A → stE S E B) (h : B → stE S E C) s :
  st_bind (st_bind c k) h s = st_bind c (λ a, st_bind (k a) h) s.
Proof. unfold st_bind. by destruct (c s) as [? [?|?]]. Qed.

Lemma st_bind_ext c (k1 k2 : A → stE S E B) s :
  (∀ a s', k1 a s' = k2 a s') → st_bind c k1 s = st_bind c k2 s.
Proof. intros Hk. unfold st_bind. by destruct (c s) as [? [?|?]]. Qed.

Lemma st_bind_cong c c' (k : A → stE S E B) s :
  c s = c' s → st_bind c k s = st_bind c' k s.
Proof. unfold st_bind. by intros ->. Qed.

Lemma st_bind_ret (a : A) (k : A → stE S E B) s :
  st_bind (st_ret a) k s = k a s.
Proof. done. Qed.

Lemma st_bind_lift_inv (r : result E A) (k : A → stE S E B) s s' b :
  st_bind (st_lift r) k s = (s', Ok b) ↔ ∃ a, r = Ok a ∧ k a s = (s', Ok b).
Proof.
  destruct r as [a|e]; cbn; split.
  - by exists a.
  - by intros (a' & [= <-] & Hk).
  - done.
  - by intros (a' & [=] & _).
Qed.

Lemma st_bind_lift_Ok (a : A) (k : A → stE S E B) s :
  st_bind (st_lift (Ok a)) k s = k a s.
Proof. done. Qed.

Lemma st_bind_lift_Err (e : E) (k : A → stE S E B) s :
  st_bind (st_lift (Err e)) k s = (s, Err e).
Proof. done. Qed.

Lemma st_bind_ret_r c s : st_bind c st_ret s = c s.
Proof. unfold st_bind. by destruct (c s) as [? [?|?]]. Qed.

(** The continuations need to agree only on what the first step returns. *)
Lemma st_bind_ext_Ok c (k1 k2 : A → stE S E B) s :
  (∀ a s', c s = (s', Ok a) → k1 a s' = k2 a s') →
  st_bind c k1 s = st_bind c k2 s.
Proof. intros Hk. unfold st_bind. destruct (c s) as [? [?|?]]; auto. Qed.

Lemma st_map_err_bind {F} (f : E → F) c (k : A → stE S E B) s :
  st_map_err f (st_bind c k) s
  = st_bind (st_map_err f c) (λ a, st_map_err f (k a)) s.
Proof. unfold st_map_err, st_bind. by destruct (c s) as [? [?|?]]. Qed.

Lemma st_map_err_ret {F} (f : E → F) (a : A) (s : S) :
  st_map_err f (st_ret a) s = st_ret a s.
Proof. done. Qed.

(** The same two laws under a bind. *)
Lemma st_bind_map_err_bind {F} (f : E → F) c (k : A → stE S E B)
    (h : B → stE S F C) s :
  st_bind (st_map_err f (st_bind c k)) h s
  = st_bind (st_map_err f c) (λ a, st_bind (st_map_err f (k a)) h) s.
Proof.
  unfold st_map_err, st_bind. by destruct (c s) as [? [?|?]].
Qed.

Lemma st_bind_map_err_ret {F} (f : E → F) (a : A) (h : A → stE S F B) s :
  st_bind (st_map_err f (st_ret a)) h s = h a s.
Proof. done. Qed.

Lemma st_map_err_Ok {F} (f : E → F) c s s' a :
  st_map_err f c s = (s', Ok a) ↔ c s = (s', Ok a).
Proof.
  unfold st_map_err. destruct (c s) as [? [?|?]]; cbn; naive_solver.
Qed.
End monad_laws.

#[export] Hint Rewrite @st_bind_lift_Ok @st_bind_lift_Err : hydro_rw.

(** ** Loops *)

Section loops.
Context {S E A B : Type}.
Implicit Types (l : list A) (b : B).

Lemma fold_res_app (f : B → A → result E B) l1 l2 b :
  fold_res f (l1 ++ l2) b = let? b' := fold_res f l1 b in fold_res f l2 b'.
Proof.
  revert b. induction l1 as [|a l1 IH]; intros b; simpl; [done|].
  destruct (f b a); simpl; auto.
Qed.

Lemma for_each_app (body : B → A → stE S E B) l1 l2 b s :
  for_each body (l1 ++ l2) b s
  = (let! b' := for_each body l1 b in for_each body l2 b') s.
Proof.
  revert b s. induction l1 as [|a l1 IH]; intros b s; simpl; [done|].
  rewrite st_bind_assoc. unfold st_bind at 1 2.
  destruct (body b a s) as [s1 [b1|e]]; [by rewrite IH|done].
Qed.

(** A loop invariant for loops that cannot fail: if every iteration from a
    state satisfying [I] succeeds and re-establishes [I] for the rest of
    the list, the loop succeeds and [I] holds of the final state. *)
Lemma for_each_ind (I : list A → B → S → Prop) (body : B → A → stE S E B) :
  (∀ a l b s, I (a :: l) b s →
     ∃ b' s', body b a s = (s', Ok b') ∧ I l b' s') →
  ∀ l b s, I l b s →
    ∃ b' s', for_each body l b s = (s', Ok b') ∧ I [] b' s'.
Proof.
  intros Hstep l. induction l as [|a l IH]; intros b s HI; simpl.
  - by exists b, s.
  - destruct (Hstep _ _ _ _ HI) as (b1 & s1 & Hb & HI1).
    rewrite (st_bind_Ok _ _ _ _ _ Hb). by apply IH.
Qed.

(** A loop invariant for loops that can fail: [I l b s] speaks of the
    elements [l] already processed; a loop that succeeds ends in a state
    that satisfies it for the whole list. *)
Lemma for_each_Ok_ind (I : list A → B → S → Prop) (body : B → A → stE S E B) :
  (∀ a l b s b' s', I l b s → body b a s = (s', Ok b') → I (l ++ [a]) b' s') →
  ∀ l b s b' s',
    I [] b s → for_each body l b s = (s', Ok b') → I l b' s'.
Proof.
  intros Hstep l b s b' s' HI Hrun.
  enough (∀ l0 l b s, I l0 b s → for_each body l b s = (s', Ok b')
                      → I (l0 ++ l) b' s') as Hgen
    by by apply (Hgen [] l b s).
  clear HI Hrun. intros l0 l0'. revert l0. clear l b s. rename l0' into l.
  induction l as [|a l IH]; intros l0 b s HI; simpl.
  - intros [= <- <-]. by rewrite app_nil_r.
  - intros (s1 & b1 & Hb & Hrest)%st_bind_inv.
    rewrite cons_middle, app_assoc. eauto.
Qed.
End loops.

(** ** What a computation leaves alone *)

Section preserves.
Context {S E : Type} (R : relation S) `{!PreOrder R}.

Lemma st_preserves_ret {A} (a : A) : st_preserves R (st_ret (E := E) a).
Proof. intros s. reflexivity. Qed.

Lemma st_preserves_fail {A} (e : E) : st_preserves R (st_fail (A := A) e).
Proof. intros s. reflexivity. Qed.

Lemma st_preserves_lift {A} (r : result E A) : st_preserves R (st_lift r).
Proof. intros s. reflexivity. Qed.

Lemma st_preserves_bind {A B} (c : stE S E A) (k : A → stE S E B) :
  st_preserves R c → (∀ a, st_preserves R (k a)) → st_preserves R (st_bind c k).
Proof.
  intros Hc Hk s. specialize (Hc s). unfold st_bind.
  destruct (c s) as [s1 [a|e]]; [|done].
  by etrans; [|apply Hk].
Qed.

Lemma st_preserves_map_err {F A} (f : F → E) (c : stE S F A) :
  st_preserves R c → st_preserves R (st_map_err f c).
Proof. intros Hc s. specialize (Hc s). unfold st_map_err. by destruct (c s). Qed.

Lemma st_preserves_for_each {A B} (body : B → A → stE S E B) l b :
  (∀ b a, st_preserves R (body b a)) → st_preserves R (for_each body l b).
Proof.
  intros Hbody. revert b. induction l as [|a l IH]; intros b; simpl.
  - apply st_preserves_ret.
  - by apply st_preserves_bind.
Qed.

Lemma st_preserves_run {A} (c : stE S E A) s s' r :
  st_preserves R c → c s = (s', r) → R s s'.
Proof. intros Hc Hrun. specialize (Hc s). by rewrite Hrun in Hc. Qed.
End preserves.

#[export] Hint Resolve st_preserves_ret st_preserves_fail st_preserves_lift
  st_preserves_bind st_preserves_map_err st_preserves_for_each : hydro.

(** [st_frame] proves [st_preserves R c] by the structure of [c]; the
    calls it does not know are left to the hints of [hydro]. *)
Ltac st_frame :=
  repeat match goal with
  | |- PreOrder _ => apply _
  | |- st_preserves _ (st_ret _) => apply st_preserves_ret
  | |- st_preserves _ (st_fail _) => apply st_preserves_fail
  | |- st_preserves _ (st_lift _) => apply st_preserves_lift
  | |- st_preserves _ (st_map_err _ _) => apply st_preserves_map_err
  | |- st_preserves _ (for_each _ _ _) => apply st_preserves_for_each
  | |- st_preserves _ (st_bind _ _) => apply st_preserves_bind
  | |- ∀ _, _ => intro
  | |- st_preserves _ (if bool_decide _ then _ else _) => case_bool_decide
  | |- st_preserves _ (match ?x with _ => _ end) => destruct x
  | |- st_preserves _ _ => solve [eauto with hydro]
  end.

(** ** Two computations that answer alike *)

Section sim.
Context {S1 S2 E : Type} (R : S1 → S2 → Prop).
Implicit Types (s : S1) (t : S2).

Lemma st_sim_lift {A} (r : result E A) s t :
  R s t → st_sim R (st_lift r) (st_lift r) s t.
Proof. by split. Qed.

Lemma st_sim_ret {A} (a : A) s t :
  R s t → st_sim R (st_ret (E := E) a) (st_ret a) s t.
Proof. by split. Qed.

(** The continuations are compared on the value and from the state the
    first computation returned. *)
Lemma st_sim_bind {A B} (c1 : stE S1 E A) (c2 : stE S2 E A)
    (k1 : A → stE S1 E B) (k2 : A → stE S2 E B) s t :
  st_sim R c1 c2 s t →
  (∀ a s' t', c1 s = (s', Ok a) → R s' t' →
     st_sim R (k1 a) (k2 a) s' t') →
  st_sim R (st_bind c1 k1) (st_bind c2 k2) s t.
Proof.
  intros [Hs Hr] Hk. unfold st_sim, st_bind in *.
  destruct (c1 s) as [s' r], (c2 t) as [t' r']; cbn in Hs, Hr. subst r'.
  destruct r as [a|e]; [by apply Hk|done].
Qed.

Lemma st_sim_map_err {F A} (f : F → E) (c1 : stE S1 F A) (c2 : stE S2 F A)
    s t :
  st_sim R c1 c2 s t → st_sim R (st_map_err f c1) (st_map_err f c2) s t.
Proof.
  intros [Hs Hr]. unfold st_sim, st_map_err in *.
  destruct (c1 s) as [s' r], (c2 t) as [t' r']; cbn in *. by subst r'.
Qed.

(** A loop over elements that satisfy [P], when the bodies answer alike
    on such elements. *)
Lemma st_sim_for_each {A B} (P : A → Prop)
    (body1 : B → A → stE S1 E B) (body2 : B → A → stE S2 E B) l b s t :
  (∀ b a s t, P a → R s t → st_sim R (body1 b a) (body2 b a) s t) →
  Forall P l → R s t →
  st_sim R (for_each body1 l b) (for_each body2 l b) s t.
Proof.
  intros Hbody Hl. revert b s t.
  induction Hl as [|a l Ha _ IH]; intros b s t Hs; simpl.
  - by apply st_sim_ret.
  - apply st_sim_bind; [by apply Hbody|]. intros b' s' t' _. apply IH.
Qed.
End sim.

(** [st_simul] proves [st_sim R c1 c2 s t] for two computations of the
    same shape whose calls on the state are all lifted results. *)
Ltac st_simul :=
  repeat match goal with
  | |- st_sim _ (st_ret _) (st_ret _) _ _ => by apply st_sim_ret
  | |- st_sim _ (st_fail ?e) (st_fail _) _ _ => by apply (st_sim_lift _ (Err e))
  | |- st_sim _ (st_lift _) (st_lift _) _ _ => by apply st_sim_lift
  | |- st_sim _ (st_map_err _ _) (st_map_err _ _) _ _ => apply st_sim_map_err
  | |- st_sim _ (st_bind _ _) (st_bind _ _) _ _ =>
      apply st_sim_bind; [|intros ? ? ? _ ?]
  | |- st_sim _ (if bool_decide _ then _ else _) _ _ _ => case_bool_decide
  end.

(** ** Computations that do not read a part of the state *)

Section respects.
Context {S E : Type} (R : relation S).

Lemma st_respects_ret {A} (a : A) : st_respects R (st_ret (E := E) a).
Proof. intros s s'. apply st_sim_ret. Qed.

Lemma st_respects_fail {A} (e : E) : st_respects R (st_fail (A := A) e).
Proof. intros s s'. apply (st_sim_lift R (Err e)). Qed.

Lemma st_respects_lift {A} (r : result E A) : st_respects R (st_lift r).
Proof. intros s s'. apply st_sim_lift. Qed.

Lemma st_respects_bind {A B} (c : stE S E A) (k : A → stE S E B) :
  st_respects R c → (∀ a, st_respects R (k a)) → st_respects R (st_bind c k).
Proof.
  intros Hc Hk s s' Hs. apply st_sim_bind; [by apply Hc|].
  intros a s1 s1' _. apply Hk.
Qed.

Lemma st_respects_map_err {F A} (f : F → E) (c : stE S F A) :
  st_respects R c → st_respects R (st_map_err f c).
Proof. intros Hc s s' Hs. by apply st_sim_map_err, Hc. Qed.

Lemma st_respects_for_each {A B} (body : B → A → stE S E B) l b :
  (∀ b a, st_respects R (body b a)) → st_respects R (for_each body l b).
Proof.
  intros Hbody s s'. apply (st_sim_for_each R (λ _, True)).
  - intros b' a s1 s1' _. apply Hbody.
  - by apply Forall_true.
Qed.

Lemma st_respects_run {A} (c : stE S E A) s s' :
  st_respects R c → R s s' → (c s).2 = (c s').2.
Proof. intros Hc Hs. by apply Hc. Qed.
End respects.

#[export] Hint Resolve st_respects_ret st_respects_fail st_respects_lift
  st_respects_bind st_respects_map_err st_respects_for_each : hydro.

(** [st_rel] proves [st_respects R c] by the structure of [c]; the calls
    it does not know are left to the hints of [hydro]. *)
Ltac st_rel :=
  repeat match goal with
  | |- st_respects _ (st_ret _) => apply st_respects_ret
  | |- st_respects _ (st_fail _) => apply st_respects_fail
  | |- st_respects _ (st_lift _) => apply st_respects_lift
  | |- st_respects _ (st_map_err _ _) => apply st_respects_map_err
  | |- st_respects _ (for_each _ _ _) => apply st_respects_for_each
  | |- st_respects _ (st_bind _ _) => apply st_respects_bind
  | |- ∀ _, _ => intro
  | |- st_respects _ (if bool_decide _ then _ else _) => case_bool_decide
  | |- st_respects _ (match ?x with _ => _ end) => destruct x
  | |- st_respects _ _ => solve [eauto with hydro]
  end.

(** ** Lists of integers [0..n) *)

Lemma seqZ_snoc (m : Z) (n : Z) :
  (0 ≤ n)%Z → seqZ m (n + 1) = seqZ m n ++ [(m + n)%Z].
Proof.
  intros Hn. by rewrite seqZ_app by lia.
Qed.

Lemma elem_of_seqZ_0 (n i : Z) : i ∈ seqZ 0 n ↔ (0 ≤ i < n)%Z.
Proof. rewrite elem_of_seqZ. lia. Qed.

(** ** Runs

    A run is a pair of a state and a result.  To show that a run ends with
    a given result it is enough to evaluate the result. *)

Lemma run_result {S R} (run : S * R) (r : R) : run.2 = r → run = (run.1, r).
Proof. destruct run. by intros <-. Qed.

(** [eval_run] proves [run = (run.1, r)] by evaluation of the result. *)
Ltac eval_run := apply run_result; vm_compute; reflexivity.
