(* ===== verification/Bytes.v ===== *)
(** * Bytes: byte strings and Rust's slice primitives

    Byte strings are [list byte].  The slice operations of the sources
    ([buf[a..b].copy_from_slice(src)], [&buf[a..b]], [vec![0u8; n]],
    [u64::to_be_bytes]) are functions whose panics are error values.  The
    file also gives the instances that make byte strings keys of finite
    maps, and the arithmetic of [usize] at 64 bits. *)

From S2P Require Import Prelude.
From stdpp Require Import countable strings.
From Stdlib Require Export Strings.Byte.

Abbreviation byte := Init.Byte.byte.
Abbreviation bytes := (list Init.Byte.byte).

#[export] Instance byte_eq_dec : EqDecision byte := Byte.byte_eq_dec.
#[export] Instance byte_inhabited : Inhabited byte := populate x00.
#[export] Instance byte_countable : Countable byte :=
  inj_countable Byte.to_N Byte.of_N Byte.of_to_N.

(** ** Bytes as numbers *)

Definition byte_to_Z (b : byte) : Z := Z.of_N (Byte.to_N b).

(** [z as u8]: the low eight bits. *)
Definition byte_of_Z (z : Z) : byte :=
  default x00 (Byte.of_N (Z.to_N (z mod 256))).

(** ** Machine widths *)

Definition u32_max : Z := 2 ^ 32 - 1.
Definition u64_modulus : Z := 2 ^ 64.

Definition is_u32 (z : Z) : Prop := (0 ≤ z ≤ u32_max)%Z.
Definition is_u64 (z : Z) : Prop := (0 ≤ z < u64_modulus)%Z.

(** [usize] arithmetic of a release build on a 64-bit target: results wrap. *)
Definition usize_wrap (z : Z) : Z := (z mod u64_modulus)%Z.
Definition usize_shl (z : Z) (k : Z) : Z := usize_wrap (Z.shiftl z k).
Definition usize_mul (a b : Z) : Z := usize_wrap (a * b).
Definition usize_add (a b : Z) : Z := usize_wrap (a + b).

(** ** Buffers and slices *)

(** [vec![0u8; n]] and [[0u8; N]]. *)
Definition zeros (n : nat) : bytes := replicate n x00.
Arguments zeros : simpl never.

(** Why a slice operation panics. *)
Inductive slice_panic : Set :=
  | RangeOutOfBounds
  | LengthMismatch.

#[export] Instance slice_panic_eq_dec : EqDecision slice_panic.
Proof. solve_decision. Defined.

(** [&buf[a..b]] *)
Definition slice (buf : bytes) (a b : nat) : result slice_panic bytes :=
  if bool_decide (a ≤ b ∧ b ≤ length buf)
  then Ok (take (b - a) (drop a buf))
  else Err RangeOutOfBounds.

(** [&buf[a..]] *)
Definition slice_from (buf : bytes) (a : nat) : result slice_panic bytes :=
  slice buf a (length buf).

(** [&buf[..b]] *)
Definition slice_to (buf : bytes) (b : nat) : result slice_panic bytes :=
  slice buf 0 b.

(** [buf[a..b].copy_from_slice(src)]: the range must lie in the buffer and
    the source must have exactly its length. *)
Definition copy_from_slice (buf : bytes) (a b : nat) (src : bytes)
  : result slice_panic bytes :=
  if bool_decide (a ≤ b ∧ b ≤ length buf) then
    if bool_decide (length src = b - a)
    then Ok (take a buf ++ src ++ drop b buf)
    else Err LengthMismatch
  else Err RangeOutOfBounds.

(** ** Big-endian integers *)

(** The [n] low bytes of [z], most significant first. *)
Fixpoint be_bytes (n : nat) (z : Z) : bytes :=
  match n with
  | O => []
  | S n => byte_of_Z (Z.shiftr z (8 * Z.of_nat n)) :: be_bytes n z
  end.

(** [u64::to_be_bytes] and [u32::to_be_bytes]. *)
Definition to_be_bytes (z : Z) : bytes := be_bytes 8 z.
Definition u32_to_be_bytes (z : Z) : bytes := be_bytes 4 z.

Definition be_combine (bs : bytes) : Z :=
  foldl (λ acc b, acc * 256 + byte_to_Z b)%Z 0%Z bs.

(** [u64::from_be_bytes] *)
Definition from_be_bytes (bs : bytes) : Z := be_combine bs.

(** ** Hexadecimal text: [hex::encode] *)

Definition hex_digit (n : Z) : Ascii.ascii :=
  Ascii.ascii_of_nat
    (Z.to_nat (if (n <? 10)%Z then 48 + n else 87 + n)).

Fixpoint hex_encode (bs : bytes) : string :=
  match bs with
  | [] => String.EmptyString
  | b :: bs =>
      String.String (hex_digit (byte_to_Z b / 16))
        (String.String (hex_digit (byte_to_Z b mod 16)) (hex_encode bs))
  end.

(** * Lemmas *)

Section byte_lemmas.
Implicit Types (b : byte) (z : Z).

Lemma byte_to_Z_range b : (0 ≤ byte_to_Z b < 256)%Z.
Proof.
  unfold byte_to_Z. pose proof (Byte.to_N_bounded b). lia.
Qed.

Lemma byte_to_of_Z z : byte_to_Z (byte_of_Z z) = (z mod 256)%Z.
Proof.
  unfold byte_to_Z, byte_of_Z.
  assert (Hr : (0 ≤ z mod 256 < 256)%Z) by (apply Z.mod_pos_bound; lia).
  destruct (Byte.of_N (Z.to_N (z mod 256))) as [b|] eqn:Hb; simpl.
  - apply Byte.to_of_N in Hb. rewrite Hb. lia.
  - apply Byte.of_N_None_iff in Hb. lia.
Qed.

Lemma byte_of_to_Z b : byte_of_Z (byte_to_Z b) = b.
Proof.
  unfold byte_of_Z. rewrite Z.mod_small by apply byte_to_Z_range.
  unfold byte_to_Z. rewrite N2Z.id, Byte.of_to_N. done.
Qed.

Lemma byte_to_Z_inj b1 b2 : byte_to_Z b1 = byte_to_Z b2 → b1 = b2.
Proof. intros H. by rewrite <-(byte_of_to_Z b1), H, byte_of_to_Z. Qed.

Lemma byte_of_Z_0 : byte_of_Z 0 = x00.
Proof. reflexivity. Qed.
End byte_lemmas.

#[export] Hint Rewrite byte_to_of_Z byte_of_to_Z : hydro_rw.

Section usize_lemmas.
Implicit Types (z a b k : Z).

Lemma usize_wrap_small z : is_u64 z → usize_wrap z = z.
Proof. intros [??]. unfold usize_wrap. by apply Z.mod_small. Qed.

Lemma usize_wrap_range z : is_u64 (usize_wrap z).
Proof. unfold usize_wrap, is_u64, u64_modulus. apply Z.mod_pos_bound. lia. Qed.

Lemma is_u32_u64 z : is_u32 z → is_u64 z.
Proof. unfold is_u32, is_u64, u32_max, u64_modulus. lia. Qed.

(** Shifting a 32-bit value by five bits stays below [2 ^ 37]. *)
Lemma usize_shl_5 z : is_u32 z → usize_shl z 5 = (32 * z)%Z.
Proof.
  intros Hz. unfold usize_shl. rewrite Z.shiftl_mul_pow2 by lia.
  rewrite usize_wrap_small; [lia|].
  unfold is_u32, u32_max, is_u64, u64_modulus in *. lia.
Qed.

Lemma usize_mul_32 z : is_u32 z → usize_mul z 32 = (32 * z)%Z.
Proof.
  intros Hz. unfold usize_mul. rewrite usize_wrap_small; [lia|].
  unfold is_u32, u32_max, is_u64, u64_modulus in *. lia.
Qed.

Lemma usize_add_small a b :
  (0 ≤ a)%Z → (0 ≤ b)%Z → (a + b < u64_modulus)%Z → usize_add a b = (a + b)%Z.
Proof. intros. unfold usize_add. apply usize_wrap_small. split; lia. Qed.
End usize_lemmas.

Section slice_lemmas.
Implicit Types (buf src : bytes) (a b n : nat).

Lemma length_zeros n : length (zeros n) = n.
Proof. apply length_replicate. Qed.

Lemma zeros_add n m : zeros (n + m) = zeros n ++ zeros m.
Proof. apply replicate_add. Qed.

Lemma take_zeros n m : take n (zeros m) = zeros (n `min` m).
Proof. apply take_replicate. Qed.

Lemma drop_zeros n m : drop n (zeros m) = zeros (m - n).
Proof. apply drop_replicate. Qed.

Lemma slice_Ok buf a b :
  a ≤ b → b ≤ length buf → slice buf a b = Ok (take (b - a) (drop a buf)).
Proof. intros. unfold slice. by rewrite bool_decide_eq_true_2. Qed.

Lemma slice_Err buf a b :
  b < a ∨ length buf < b → slice buf a b = Err RangeOutOfBounds.
Proof. intros. unfold slice. rewrite bool_decide_eq_false_2; [done|lia]. Qed.

Lemma slice_inv buf a b r :
  slice buf a b = Ok r → a ≤ b ∧ b ≤ length buf ∧ r = take (b - a) (drop a buf).
Proof.
  unfold slice. case_bool_decide as Hc; [|done].
  intros [= <-]. by destruct Hc.
Qed.

Lemma length_slice buf a b r : slice buf a b = Ok r → length r = b - a.
Proof.
  intros (? & ? & ->)%slice_inv. rewrite length_take, length_drop. lia.
Qed.

Lemma slice_from_Ok buf a :
  a ≤ length buf → slice_from buf a = Ok (drop a buf).
Proof.
  intros. unfold slice_from. rewrite slice_Ok by lia.
  by rewrite take_ge by (rewrite length_drop; lia).
Qed.

Lemma slice_to_Ok buf b : b ≤ length buf → slice_to buf b = Ok (take b buf).
Proof.
  intros. unfold slice_to. rewrite slice_Ok by lia.
  by rewrite Nat.sub_0_r.
Qed.

Lemma copy_from_slice_Ok buf a b src :
  a ≤ b → b ≤ length buf → length src = b - a →
  copy_from_slice buf a b src = Ok (take a buf ++ src ++ drop b buf).
Proof.
  intros. unfold copy_from_slice. by rewrite !bool_decide_eq_true_2.
Qed.

Lemma copy_from_slice_inv buf a b src r :
  copy_from_slice buf a b src = Ok r →
  a ≤ b ∧ b ≤ length buf ∧ length src = b - a
  ∧ r = take a buf ++ src ++ drop b buf.
Proof.
  unfold copy_from_slice.
  case_bool_decide as Hc; [|done]. case_bool_decide as Hl; [|done].
  intros [= <-]. by destruct Hc.
Qed.

Lemma length_copy_from_slice buf a b src r :
  copy_from_slice buf a b src = Ok r → length r = length buf.
Proof.
  intros (? & ? & ? & ->)%copy_from_slice_inv.
  rewrite !length_app, length_take, length_drop. lia.
Qed.

(** Reading back the range just written gives the source. *)
Lemma slice_copy_from_slice buf a b src r :
  copy_from_slice buf a b src = Ok r → slice r a b = Ok src.
Proof.
  intros Hc. pose proof (length_copy_from_slice _ _ _ _ _ Hc) as Hl.
  apply copy_from_slice_inv in Hc as (? & ? & Hs & ->).
  rewrite slice_Ok by lia. f_equal.
  rewrite drop_app_length' by (rewrite length_take; lia).
  by rewrite take_app_length' by lia.
Qed.
End slice_lemmas.

#[export] Hint Rewrite length_zeros : hydro_rw.

Section be_lemmas.
Implicit Types (bs : bytes) (n : nat) (z : Z).

Lemma length_be_bytes n z : length (be_bytes n z) = n.
Proof. induction n; simpl; auto. Qed.

Lemma length_to_be_bytes z : length (to_be_bytes z) = 8.
Proof. apply length_be_bytes. Qed.

Lemma be_combine_snoc bs b :
  be_combine (bs ++ [b]) = (be_combine bs * 256 + byte_to_Z b)%Z.
Proof. unfold be_combine. by rewrite foldl_app. Qed.

Lemma be_combine_cons b bs :
  be_combine (b :: bs)
  = (byte_to_Z b * 2 ^ (8 * Z.of_nat (length bs)) + be_combine bs)%Z.
Proof.
  induction bs as [|c bs IH] using rev_ind.
  - unfold be_combine. simpl. lia.
  - rewrite app_comm_cons, !be_combine_snoc, IH, length_app. simpl.
    replace (8 * Z.of_nat (length bs + 1))%Z
      with (8 * Z.of_nat (length bs) + 8)%Z by lia.
    rewrite Z.pow_add_r by lia. lia.
Qed.

Lemma be_combine_range bs :
  (0 ≤ be_combine bs < 2 ^ (8 * Z.of_nat (length bs)))%Z.
Proof.
  induction bs as [|b bs IH].
  - unfold be_combine. simpl. lia.
  - rewrite be_combine_cons. simpl length.
    replace (8 * Z.of_nat (S (length bs)))%Z
      with (8 + 8 * Z.of_nat (length bs))%Z by lia.
    rewrite Z.pow_add_r by lia.
    pose proof (byte_to_Z_range b). nia.
Qed.

(** Decoding what [be_bytes] produced gives the value modulo the width. *)
Lemma be_combine_be_bytes n z :
  be_combine (be_bytes n z) = (z mod 2 ^ (8 * Z.of_nat n))%Z.
Proof.
  induction n as [|n IH]; simpl be_bytes.
  - unfold be_combine. simpl. by rewrite Z.mod_1_r.
  - rewrite be_combine_cons, IH, length_be_bytes, byte_to_of_Z.
    rewrite Z.shiftr_div_pow2 by lia.
    replace (8 * Z.of_nat (S n))%Z with (8 * Z.of_nat n + 8)%Z by lia.
    rewrite Z.pow_add_r by lia. change (2 ^ 8)%Z with 256%Z.
    rewrite (Z.rem_mul_r z (2 ^ (8 * Z.of_nat n)) 256) by lia. lia.
Qed.

Lemma from_to_be_bytes z : is_u64 z → from_be_bytes (to_be_bytes z) = z.
Proof.
  intros [??]. unfold from_be_bytes, to_be_bytes.
  rewrite be_combine_be_bytes. by apply Z.mod_small.
Qed.

(** Distinct 64-bit indices have distinct encodings. *)
Lemma to_be_bytes_inj z1 z2 :
  is_u64 z1 → is_u64 z2 → to_be_bytes z1 = to_be_bytes z2 → z1 = z2.
Proof.
  intros H1 H2 Heq.
  by rewrite <-(from_to_be_bytes z1), <-(from_to_be_bytes z2), Heq.
Qed.

Lemma be_bytes_0 n : be_bytes n 0 = zeros n.
Proof.
  induction n as [|n IH]; simpl; [done|].
  by rewrite Z.shiftr_0_l, IH.
Qed.
End be_lemmas.

#[export] Hint Rewrite length_be_bytes length_to_be_bytes : hydro_rw.

Section hex_lemmas.
Lemma length_hex_encode (bs : bytes) :
  String.length (hex_encode bs) = 2 * length bs.
Proof. induction bs as [|b bs IH]; simpl; [done|]. rewrite IH. lia. Qed.
End hex_lemmas.
