(* ===== verification/Codec.v ===== *)
(** * Codec: the blob transform [EigenDABlobData]

    The host passes the bytes it fetched through [EigenDABlobData::encode]
    before it cuts them into field elements, and the client passes the
    field elements it read through [EigenDABlobData::decode].  Both live in
    the crate's [common] module, which [src/crates/eigenda/src/common/mod.rs]
    re-exports but whose body is not among the sources; they are the
    interface [BlobCodec] here.  The law of the interface is what the
    client needs of the host: decoding survives the zero padding that fills
    the certificate's declared length.

    [default_codec] is the EigenDA default blob codec, written from the
    specification: a 32-byte header (version byte, big-endian 32-bit
    length) followed by the data in 31-byte pieces, each behind a zero byte
    so that every 32-byte field element is below the field modulus.  The
    lemmas give the length of an encoding ([length_default_encode_pieces]),
    the zero byte at the head of each of its field elements
    ([default_encode_head_zero]) and the round trip. *)

From S2P Require Import Prelude Bytes.

(** [BYTES_PER_FIELD_ELEMENT] and [BLOB_ENCODING_VERSION_0] of
    [common/constant.rs], re-exported by [common/mod.rs]. *)
Definition BYTES_PER_FIELD_ELEMENT : nat := 32.
Definition BLOB_ENCODING_VERSION_0 : byte := x00.

Inductive BlobDecodingError : Set :=
  | InvalidLength
  | MissingData.

#[export] Instance BlobDecodingError_eq_dec : EqDecision BlobDecodingError.
Proof. solve_decision. Defined.

Class BlobCodec := {
  (** [EigenDABlobData::encode(data).blob] *)
  blob_encode : bytes → bytes;
  (** [EigenDABlobData::new(blob).decode()] *)
  blob_decode : bytes → result BlobDecodingError bytes;
  (** Data whose length fits the 32-bit length field is recovered from its
      encoding followed by any number of zero bytes. *)
  decode_encode_padded data n :
    (Z.of_nat (length data) ≤ u32_max)%Z →
    blob_decode (blob_encode data ++ zeros n) = Ok data;
}.

(** ** The default codec *)

(** [convert_by_padding_empty_byte]: a zero byte before every 31 bytes. The
    fuel is the number of bytes left, which bounds the number of pieces. *)
Fixpoint pad_chunks (fuel : nat) (data : bytes) : bytes :=
  match fuel, data with
  | S fuel, _ :: _ => x00 :: take 31 data ++ pad_chunks fuel (drop 31 data)
  | _, _ => []
  end.

Definition convert_by_padding_empty_byte (data : bytes) : bytes :=
  pad_chunks (length data) data.

(** [remove_empty_byte_from_padded_bytes_unchecked]: drop the first byte of
    every 32. *)
Fixpoint unpad_chunks (fuel : nat) (input : bytes) : bytes :=
  match fuel, input with
  | S fuel, _ :: rest => take 31 rest ++ unpad_chunks fuel (drop 31 rest)
  | _, _ => []
  end.

Definition remove_empty_byte_from_padded_bytes (input : bytes) : bytes :=
  unpad_chunks (length input) input.

(** The least multiple of 32 that is at least [n]. *)
Definition round_up_32 (n : nat) : nat := (n + 31) / 32 * 32.

(** The header field element: a zero byte, the version, the length of the
    data as a big-endian [u32], zeros. *)
Definition encode_header (data : bytes) : bytes :=
  [x00; BLOB_ENCODING_VERSION_0]
  ++ u32_to_be_bytes (Z.of_nat (length data)) ++ zeros 26.

Definition default_encode (data : bytes) : bytes :=
  let payload := convert_by_padding_empty_byte data in
  let blob_size := round_up_32 (length payload + BYTES_PER_FIELD_ELEMENT) in
  encode_header data ++ payload
  ++ zeros (blob_size - BYTES_PER_FIELD_ELEMENT - length payload).

Definition default_decode (blob : bytes) : result BlobDecodingError bytes :=
  if bool_decide (length blob < 32) then Err InvalidLength else
  let content_size := Z.to_nat (be_combine (take 4 (drop 2 blob))) in
  let content := remove_empty_byte_from_padded_bytes (drop 32 blob) in
  if bool_decide (length content < content_size) then Err InvalidLength
  else Ok (take content_size content).

(** * Lemmas *)

Section chunks.
Implicit Types (data tail input : bytes) (fuel : nat).

Lemma round_up_32_ge n : n ≤ round_up_32 n.
Proof.
  unfold round_up_32.
  pose proof (Nat.div_mod_eq (n + 31) 32).
  pose proof (Nat.mod_upper_bound (n + 31) 32). lia.
Qed.

Lemma round_up_32_divide n : (32 | round_up_32 n).
Proof. exists ((n + 31) / 32). done. Qed.

Lemma length_pad_chunks_ge fuel data :
  length data ≤ fuel → length data ≤ length (pad_chunks fuel data).
Proof.
  revert data. induction fuel as [|fuel IH]; intros data Hf.
  - destruct data; simpl in *; lia.
  - destruct data as [|b data]; [simpl; lia|].
    cbn [pad_chunks]. set (d := b :: data) in *.
    cbn [length]. rewrite length_app, length_take.
    specialize (IH (drop 31 d)). rewrite length_drop in IH.
    subst d. cbn [length] in *. lia.
Qed.

(** The padded data has one byte more for every piece of 31 bytes. *)
Lemma length_pad_chunks fuel data :
  length data ≤ fuel →
  length (pad_chunks fuel data) = length data + (length data + 30) / 31.
Proof.
  revert data. induction fuel as [|fuel IH]; intros data Hf.
  - destruct data; [done|simpl in Hf; lia].
  - destruct data as [|b data]; [done|].
    cbn [pad_chunks]. set (d := b :: data) in *.
    assert (0 < length d) as Hpos by (subst d; simpl; lia).
    cbn [length]. rewrite length_app, length_take, IH, length_drop
      by (rewrite length_drop; subst d; simpl in *; lia).
    destruct (decide (length d ≤ 31)) as [Hle|Hgt].
    + replace (length d - 31) with 0 by lia.
      rewrite (Nat.div_small (0 + 30)) by lia.
      rewrite <-(Nat.div_unique (length d + 30) 31 1 (length d - 1)) by lia.
      lia.
    + rewrite <-(Nat.div_unique (length d + 30) 31
                 (S ((length d - 31 + 30) / 31)) ((length d - 31 + 30) mod 31)).
      * lia.
      * by apply Nat.mod_upper_bound.
      * pose proof (Nat.div_mod_eq (length d - 31 + 30) 31). lia.
Qed.

(** Every piece of 32 bytes of the padded data starts with a zero byte. *)
Lemma pad_chunks_head_zero fuel data k :
  length data ≤ fuel → 32 * k < length (pad_chunks fuel data) →
  pad_chunks fuel data !! (32 * k) = Some x00.
Proof.
  revert data k. induction fuel as [|fuel IH]; intros data k Hf Hk.
  - destruct data; simpl in *; lia.
  - destruct data as [|b data]; [simpl in Hk; lia|].
    cbn [pad_chunks] in *. set (d := b :: data) in *.
    destruct k as [|k]; [done|].
    replace (32 * S k) with (S (31 + 32 * k)) in * by lia.
    cbn [length] in Hk. rewrite length_app, length_take in Hk.
    change ((take 31 d ++ pad_chunks fuel (drop 31 d)) !! (31 + 32 * k)
            = Some x00).
    destruct (decide (31 ≤ length d)) as [Hlen|Hlen].
    + rewrite lookup_app_r by (rewrite length_take; lia).
      rewrite length_take. replace (31 + 32 * k - 31 `min` length d)
        with (32 * k) by lia.
      apply IH; [rewrite length_drop; subst d; simpl in *; lia|lia].
    + rewrite (drop_ge d) in Hk by lia.
      replace (pad_chunks fuel []) with (@nil byte) in Hk by (by destruct fuel).
      change (length (@nil byte)) with 0 in Hk. lia.
Qed.

(** Removing the padding of padded data followed by anything gives the
    data followed by something. *)
Lemma unpad_pad_chunks fuel1 fuel2 data tail :
  length data ≤ fuel1 →
  length (pad_chunks fuel1 data) ≤ fuel2 →
  ∃ rest, unpad_chunks fuel2 (pad_chunks fuel1 data ++ tail) = data ++ rest.
Proof.
  revert fuel2 data.
  induction fuel1 as [|fuel1 IH]; intros fuel2 data Hf1 Hf2.
  { destruct data; [|simpl in Hf1; lia]. simpl. eauto. }
  destruct data as [|b data]; [simpl; eauto|].
  cbn [pad_chunks] in *.
  destruct fuel2 as [|fuel2]; [simpl in Hf2; lia|].
  set (d := b :: data) in *.
  cbn [app unpad_chunks].
  destruct (decide (31 ≤ length d)) as [Hlen|Hlen].
  - rewrite <-app_assoc, take_app_length', drop_app_length'
      by (rewrite length_take; lia).
    destruct (IH fuel2 (drop 31 d)) as [rest Hrest].
    + rewrite length_drop. subst d. simpl length in *. lia.
    + cbn [length] in Hf2. rewrite length_app in Hf2. lia.
    + rewrite Hrest, app_assoc, take_drop. eauto.
  - rewrite (take_ge d), (drop_ge d) by lia.
    replace (pad_chunks fuel1 []) with (@nil byte) by (by destruct fuel1).
    rewrite app_nil_r, take_app_ge by lia.
    rewrite <-app_assoc. eauto.
Qed.
End chunks.

Section default_codec.
Implicit Types (data : bytes) (n : nat).

Lemma length_encode_header data : length (encode_header data) = 32.
Proof.
  unfold encode_header, u32_to_be_bytes.
  by rewrite !length_app, length_be_bytes, length_zeros.
Qed.

(** The length field of the header, read back. *)
Lemma encode_header_size data tail :
  (Z.of_nat (length data) ≤ u32_max)%Z →
  Z.to_nat (be_combine (take 4 (drop 2 (encode_header data ++ tail))))
  = length data.
Proof.
  intros Hlen. unfold encode_header, u32_to_be_bytes.
  rewrite <-!app_assoc. change (drop 2 ([x00; BLOB_ENCODING_VERSION_0] ++ ?l))
    with l.
  rewrite take_app_length' by (by rewrite length_be_bytes).
  rewrite be_combine_be_bytes, Z.mod_small; [lia|].
  change (8 * Z.of_nat 4)%Z with 32%Z. unfold u32_max in Hlen. lia.
Qed.

Lemma length_default_encode data :
  length (default_encode data)
  = round_up_32 (length (convert_by_padding_empty_byte data) + 32).
Proof.
  unfold default_encode, BYTES_PER_FIELD_ELEMENT.
  pose proof (round_up_32_ge (length (convert_by_padding_empty_byte data) + 32)).
  rewrite !length_app, length_encode_header, length_zeros. lia.
Qed.

Lemma default_encode_ge_32 data : 32 ≤ length (default_encode data).
Proof.
  rewrite length_default_encode.
  pose proof (round_up_32_ge (length (convert_by_padding_empty_byte data) + 32)).
  lia.
Qed.

Lemma default_encode_divide data : (32 | length (default_encode data)).
Proof. rewrite length_default_encode. apply round_up_32_divide. Qed.

(** An encoding is its 32-byte header, the padded data and a zero filler. *)
Lemma default_encode_split data :
  default_encode data
  = encode_header data ++ convert_by_padding_empty_byte data
    ++ zeros (length (default_encode data) - 32
              - length (convert_by_padding_empty_byte data)).
Proof.
  rewrite length_default_encode. unfold default_encode, encode_header.
  by rewrite <-!app_assoc.
Qed.

Lemma default_encode_header data :
  take 32 (default_encode data) = encode_header data.
Proof.
  rewrite default_encode_split.
  by rewrite take_app_length' by (by rewrite length_encode_header).
Qed.

(** The length of an encoding: the header and one field element for
    every 31 bytes of the data. *)
Lemma length_default_encode_pieces data :
  length (default_encode data) = 32 + 32 * ((length data + 30) / 31).
Proof.
  rewrite length_default_encode. unfold convert_by_padding_empty_byte.
  rewrite length_pad_chunks by done. unfold round_up_32.
  pose proof (Nat.div_mod_eq (length data + 30) 31) as Hd.
  pose proof (Nat.mod_upper_bound (length data + 30) 31) as Hm.
  set (q := (length data + 30) / 31) in *.
  set (r := (length data + 30) mod 31) in *.
  rewrite <-(Nat.div_unique (length data + q + 32 + 31) 32 (q + 1)
             (if decide (length data = 0) then 31 else r + 1)).
  - lia.
  - case_decide; lia.
  - case_decide; [|lia]. assert (q = 0) by lia. lia.
Qed.

(** Every field element of an encoding starts with a zero byte. *)
Lemma default_encode_head_zero data i :
  32 * i < length (default_encode data) →
  default_encode data !! (32 * i) = Some x00.
Proof.
  intros Hi. pose proof (default_encode_split data) as Hsplit.
  pose proof (f_equal length Hsplit) as Hlen.
  rewrite !length_app, length_encode_header, length_zeros in Hlen.
  rewrite Hsplit. destruct i as [|i]; [done|].
  rewrite lookup_app_r by (rewrite length_encode_header; lia).
  rewrite length_encode_header. replace (32 * S i - 32) with (32 * i) by lia.
  destruct (decide (32 * i < length (convert_by_padding_empty_byte data)))
    as [Hin|Hout].
  - rewrite lookup_app_l by done. by apply pad_chunks_head_zero.
  - rewrite lookup_app_r by lia. apply lookup_replicate_2. lia.
Qed.

Lemma default_decode_encode_padded data n :
  (Z.of_nat (length data) ≤ u32_max)%Z →
  default_decode (default_encode data ++ zeros n) = Ok data.
Proof.
  intros Hlen. unfold default_decode.
  pose proof (default_encode_ge_32 data) as H32.
  rewrite bool_decide_eq_false_2 by (rewrite length_app; lia).
  rewrite default_encode_split, <-!app_assoc.
  rewrite drop_app_length' by (by rewrite length_encode_header).
  rewrite encode_header_size by done.
  unfold remove_empty_byte_from_padded_bytes, convert_by_padding_empty_byte.
  match goal with |- context [pad_chunks _ _ ++ ?t] => set (tail := t) end.
  destruct (unpad_pad_chunks (length data)
    (length (pad_chunks (length data) data ++ tail)) data tail)
    as [rest ->]; [done|rewrite length_app; lia|].
  rewrite bool_decide_eq_false_2 by (rewrite length_app; lia).
  by rewrite take_app_length.
Qed.
End default_codec.

#[export] Instance default_codec : BlobCodec := {|
  blob_encode := default_encode;
  blob_decode := default_decode;
  decode_encode_padded := default_decode_encode_padded;
|}.

(** Consequences of the interface law. *)
Section codec_laws.
Context `{BlobCodec}.

Lemma decode_encode data :
  (Z.of_nat (length data) ≤ u32_max)%Z →
  blob_decode (blob_encode data) = Ok data.
Proof.
  intros Hl. rewrite <-(app_nil_r (blob_encode data)).
  by apply (decode_encode_padded data 0).
Qed.

Lemma blob_encode_inj data1 data2 :
  (Z.of_nat (length data1) ≤ u32_max)%Z →
  (Z.of_nat (length data2) ≤ u32_max)%Z →
  blob_encode data1 = blob_encode data2 → data1 = data2.
Proof.
  intros H1 H2 Heq. apply decode_encode in H1, H2.
  rewrite Heq, H2 in H1. by injection H1.
Qed.
End codec_laws.
