(* ===== verification/Oracle.v ===== *)
(** * Oracle: preimage keys, the shared key-value store, and the
    capabilities the host and the client are given

    The host writes and the client reads one store, keyed by 32-byte
    preimage keys.  The store, [keccak256], the certificate decoder and the
    witness builder are code of other crates (kona's [KeyValueStore] and
    [PreimageKey], alloy's [keccak256], the crate's [BlobInfo] and
    [EigenDABlobWitness]): each is an interface here, a type class whose
    laws are what the handler and the provider rely on.  The instances at
    the end of the file are executable stand-ins used to run the model on
    concrete inputs. *)

From S2P Require Import Prelude Bytes Codec.
From stdpp Require Import gmap.

(** ** Preimage keys *)

(** [PreimageKeyType]: the tag that names the key space. *)
Inductive PreimageKeyType : Set :=
  | Local
  | Keccak256
  | GlobalGeneric
  | Sha256
  | Blob
  | Precompile.

#[export] Instance PreimageKeyType_eq_dec : EqDecision PreimageKeyType.
Proof. solve_decision. Defined.

Definition key_type_byte (ty : PreimageKeyType) : byte :=
  match ty with
  | Local => x01
  | Keccak256 => x02
  | GlobalGeneric => x03
  | Sha256 => x04
  | Blob => x05
  | Precompile => x06
  end.

(** [PreimageKey::new(hash, ty).into()]: the first byte of the digest is
    replaced by the tag, the other 31 are kept. *)
Definition preimage_key (hash : bytes) (ty : PreimageKeyType) : bytes :=
  key_type_byte ty :: drop 1 hash.

(** ** The key-value store *)

Inductive kv_error : Set := KvWriteFailed.

#[export] Instance kv_error_eq_dec : EqDecision kv_error.
Proof. solve_decision. Defined.

(** [KeyValueStore]: [get] and [set] keyed by a 32-byte digest. *)
Class KeyValueStore (St : Type) := {
  kv_get : St → bytes → option bytes;
  kv_set : St → bytes → bytes → result kv_error St;
  kv_get_set_eq s k v s' :
    kv_set s k v = Ok s' → kv_get s' k = Some v;
  kv_get_set_ne s k v s' k' :
    kv_set s k v = Ok s' → k ≠ k' → kv_get s' k' = kv_get s k';
}.
#[global] Hint Mode KeyValueStore ! : typeclass_instances.

(** [kv_lock.set(key, value)?] inside a handler whose error type is [E]. *)
Definition kv_set_m `{KeyValueStore St} {E} (inj : kv_error → E)
    (k v : bytes) : stE St E unit :=
  λ s, match kv_set s k v with
       | Ok s' => (s', Ok tt)
       | Err e => (s, Err (inj e))
       end.

(** Two stores are equivalent when they answer every [get] alike. *)
Definition store_equiv `{KeyValueStore St} (s1 s2 : St) : Prop :=
  ∀ k, kv_get s1 k = kv_get s2 k.

(** [s2] extends [s1]: every entry of [s1] is still there. *)
Definition store_extends `{KeyValueStore St} (s1 s2 : St) : Prop :=
  ∀ k v, kv_get s1 k = Some v → kv_get s2 k = Some v.

(** Writing a list of entries in order. *)
Definition kv_set_all `{KeyValueStore St} (kvs : list (bytes * bytes)) (s : St)
  : result kv_error St :=
  fold_res (λ s kv, kv_set s kv.1 kv.2) kvs s.

(** The same inside a handler: a sequence of [kv_lock.set(k, v)?].  When a
    write fails, the writes before it stay. *)
Definition kv_write_all `{KeyValueStore St} {E} (inj : kv_error → E)
    (kvs : list (bytes * bytes)) : stE St E unit :=
  for_each (λ _ kv, kv_set_m inj kv.1 kv.2) kvs tt.

(** The last value written for [k] in a list of entries. *)
Fixpoint last_write (kvs : list (bytes * bytes)) (k : bytes) : option bytes :=
  match kvs with
  | [] => None
  | (k', v) :: kvs =>
      match last_write kvs k with
      | Some v' => Some v'
      | None => if decide (k' = k) then Some v else None
      end
  end.

(** ** [keccak256] *)

Class Keccak := {
  keccak256 : bytes → bytes;
  keccak256_length b : length (keccak256 b) = 32;
}.

(** ** The certificate *)

(** [G1Commitment], [BlobHeader], [BlobInfo] of [common/certificate.rs], as
    far as the sources read them. *)
Record G1Commitment : Set := {
  g1_x : bytes;
  g1_y : bytes;
}.

Record BlobHeader : Set := {
  commitment : G1Commitment;
  data_length : Z;
}.

Record BlobInfo : Set := {
  blob_header : BlobHeader;
}.

(** What the Rust types guarantee of a decoded certificate: the coordinates
    are [[u8; 32]] and the length is a [u32]. *)
Definition cert_wf (c : BlobInfo) : Prop :=
  length (g1_x (commitment (blob_header c))) = 32
  ∧ length (g1_y (commitment (blob_header c))) = 32
  ∧ is_u32 (data_length (blob_header c)).

#[export] Instance cert_wf_dec c : Decision (cert_wf c).
Proof. unfold cert_wf, is_u32. apply _. Defined.

Inductive cert_error : Set := RlpDecodeFailed.

(** [BlobInfo::decode] *)
Class CertDecoder := {
  decode_blob_info : bytes → result cert_error BlobInfo;
  decode_blob_info_wf b c : decode_blob_info b = Ok c → cert_wf c;
}.

(** ** The witness *)

(** [EigenDABlobWitness]: the commitments and proofs pushed so far. *)
Record EigenDABlobWitness : Set := {
  commitments : list bytes;
  proofs : list bytes;
}.

(** [EigenDABlobWitness::new()] *)
Definition EigenDABlobWitness_new : EigenDABlobWitness :=
  {| commitments := []; proofs := [] |}.

Inductive witness_error : Set := KzgError.

(** [witness.push_witness(&blob)] *)
Class WitnessBuilder := {
  push_witness :
    EigenDABlobWitness → bytes → result witness_error EigenDABlobWitness;
}.

(** * Lemmas *)

Section keys.
Context `{Keccak}.
Implicit Types (h b : bytes) (ty : PreimageKeyType).

Lemma key_type_byte_inj ty1 ty2 :
  key_type_byte ty1 = key_type_byte ty2 → ty1 = ty2.
Proof. by destruct ty1, ty2. Qed.

Lemma length_preimage_key h ty : length h = 32 → length (preimage_key h ty) = 32.
Proof. intros Hl. unfold preimage_key. simpl. rewrite length_drop. lia. Qed.

Lemma length_preimage_key_keccak b ty :
  length (preimage_key (keccak256 b) ty) = 32.
Proof. apply length_preimage_key, keccak256_length. Qed.

(** Keys of different spaces never coincide. *)
Lemma preimage_key_type_ne h1 h2 ty1 ty2 :
  ty1 ≠ ty2 → preimage_key h1 ty1 ≠ preimage_key h2 ty2.
Proof. intros Hne [= Hty%key_type_byte_inj _]. done. Qed.

Lemma preimage_key_inj h1 h2 ty1 ty2 :
  preimage_key h1 ty1 = preimage_key h2 ty2 →
  ty1 = ty2 ∧ drop 1 h1 = drop 1 h2.
Proof. intros [= Hty%key_type_byte_inj Hd]. done. Qed.
End keys.

Section store.
Context `{KeyValueStore St}.
Implicit Types (s : St) (k v : bytes) (kvs : list (bytes * bytes)).

#[export] Instance store_equiv_equivalence : Equivalence (store_equiv (St := St)).
Proof.
  split.
  - by intros s k.
  - intros s1 s2 H12 k. by rewrite H12.
  - intros s1 s2 s3 H12 H23 k. by rewrite H12.
Qed.

#[export] Instance kv_get_proper :
  Proper (store_equiv ==> eq ==> eq) (kv_get (St := St)).
Proof. intros s1 s2 Hs k ? <-. apply Hs. Qed.

#[export] Instance store_extends_preorder : PreOrder (store_extends (St := St)).
Proof.
  split.
  - by intros s k v.
  - intros s1 s2 s3 H12 H23 k v Hk. eauto.
Qed.

#[export] Instance store_extends_proper :
  Proper (store_equiv ==> store_equiv ==> iff) (store_extends (St := St)).
Proof.
  intros s1 s1' H1 s2 s2' H2. unfold store_extends.
  by setoid_rewrite H1; setoid_rewrite H2.
Qed.

Lemma kv_get_set s k v s' k' :
  kv_set s k v = Ok s' →
  kv_get s' k' = if decide (k = k') then Some v else kv_get s k'.
Proof.
  intros Hs. case_decide as Hk.
  - subst. by eapply kv_get_set_eq.
  - by eapply kv_get_set_ne.
Qed.

(** Writing to equivalent stores gives equivalent stores. *)
Lemma kv_set_equiv s1 s2 k v s1' s2' :
  store_equiv s1 s2 → kv_set s1 k v = Ok s1' → kv_set s2 k v = Ok s2' →
  store_equiv s1' s2'.
Proof.
  intros Heq H1 H2 k'.
  rewrite (kv_get_set _ _ _ _ _ H1), (kv_get_set _ _ _ _ _ H2).
  case_decide; [done|apply Heq].
Qed.

(** Writing again what is already there changes nothing observable. *)
Lemma kv_set_same s k v s' :
  kv_get s k = Some v → kv_set s k v = Ok s' → store_equiv s' s.
Proof.
  intros Hg Hs k'. rewrite (kv_get_set _ _ _ _ _ Hs).
  case_decide; by subst.
Qed.

Lemma kv_set_m_Ok {E} (inj : kv_error → E) s k v s' :
  kv_set s k v = Ok s' → kv_set_m inj k v s = (s', Ok tt).
Proof. unfold kv_set_m. by intros ->. Qed.

Lemma kv_set_m_Err {E} (inj : kv_error → E) s k v e :
  kv_set s k v = Err e → kv_set_m inj k v s = (s, Err (inj e)).
Proof. unfold kv_set_m. by intros ->. Qed.

Lemma kv_set_m_inv {E} (inj : kv_error → E) s k v s' :
  kv_set_m inj k v s = (s', Ok tt) → kv_set s k v = Ok s'.
Proof. unfold kv_set_m. destruct (kv_set s k v); by intros [= <-]. Qed.

Lemma kv_set_all_app kvs1 kvs2 s :
  kv_set_all (kvs1 ++ kvs2) s
  = let? s' := kv_set_all kvs1 s in kv_set_all kvs2 s'.
Proof. apply fold_res_app. Qed.

(** After a list of writes, a key holds the last value written for it, or
    what it held before. *)
Lemma kv_get_set_all kvs s s' k :
  kv_set_all kvs s = Ok s' →
  kv_get s' k = match last_write kvs k with
                | Some v => Some v
                | None => kv_get s k
                end.
Proof.
  revert s. induction kvs as [|[k0 v0] kvs IH]; intros s Hs.
  - by injection Hs as ->.
  - unfold kv_set_all in Hs. simpl in Hs.
    destruct (kv_set s k0 v0) as [s1|] eqn:H1; [|done]. simpl in Hs.
    rewrite (IH _ Hs). simpl. destruct (last_write kvs k); [done|].
    rewrite (kv_get_set _ _ _ _ _ H1). by case_decide.
Qed.

Lemma kv_set_all_extends kvs s s' :
  kv_set_all kvs s = Ok s' →
  (∀ k v, kv_get s k = Some v → last_write kvs k = None ∨ last_write kvs k = Some v) →
  store_extends s s'.
Proof.
  intros Hs Hold k v Hk. rewrite (kv_get_set_all _ _ _ _ Hs).
  destruct (Hold _ _ Hk) as [->| ->]; done.
Qed.

Lemma last_write_None kvs k : k ∉ kvs.*1 → last_write kvs k = None.
Proof.
  induction kvs as [|[k0 v0] kvs IH]; simpl; [done|].
  rewrite not_elem_of_cons. intros [Hne Hnin].
  rewrite IH by done. by rewrite decide_False.
Qed.

Lemma last_write_app kvs1 kvs2 k :
  last_write (kvs1 ++ kvs2) k
  = match last_write kvs2 k with
    | Some v => Some v
    | None => last_write kvs1 k
    end.
Proof.
  induction kvs1 as [|[k0 v0] kvs1 IH]; simpl.
  - by destruct (last_write kvs2 k).
  - rewrite IH. by destruct (last_write kvs2 k).
Qed.

(** With distinct keys, each key holds the value it is paired with. *)
Lemma last_write_NoDup kvs k v :
  NoDup kvs.*1 → (k, v) ∈ kvs → last_write kvs k = Some v.
Proof.
  induction kvs as [|[k0 v0] kvs IH]; simpl; [by intros _ ?%elem_of_nil|].
  intros [Hnin Hnd]%NoDup_cons [[= -> ->]|Hin]%elem_of_cons.
  - rewrite last_write_None by done. by rewrite decide_True.
  - by rewrite IH.
Qed.

(** Keys that are not written keep their value. *)
Lemma kv_set_all_frame kvs s s' k :
  kv_set_all kvs s = Ok s' → k ∉ kvs.*1 → kv_get s' k = kv_get s k.
Proof.
  intros Hs Hk. rewrite (kv_get_set_all _ _ _ _ Hs).
  by rewrite last_write_None.
Qed.

(** Writing the same entries again changes no value. *)
Lemma kv_set_all_idempotent kvs s s1 s2 :
  kv_set_all kvs s = Ok s1 → kv_set_all kvs s1 = Ok s2 → store_equiv s2 s1.
Proof.
  intros H1 H2 k.
  rewrite (kv_get_set_all _ _ _ _ H2), (kv_get_set_all _ _ _ k H1).
  by destruct (last_write kvs k).
Qed.

Section write_all.
Context {E : Type} (inj : kv_error → E).

Lemma kv_write_all_nil s : kv_write_all inj [] s = (s, Ok tt).
Proof. done. Qed.

Lemma kv_write_all_cons k v kvs s :
  kv_write_all inj ((k, v) :: kvs) s
  = (let! _ := kv_set_m inj k v in kv_write_all inj kvs) s.
Proof.
  unfold kv_write_all. simpl. unfold st_bind.
  by destruct (kv_set_m inj k v s) as [s1 [[]|e]].
Qed.

Lemma kv_write_all_app kvs1 kvs2 s :
  kv_write_all inj (kvs1 ++ kvs2) s
  = (let! _ := kv_write_all inj kvs1 in kv_write_all inj kvs2) s.
Proof.
  unfold kv_write_all. rewrite for_each_app. unfold st_bind.
  by destruct (for_each _ kvs1 tt s) as [s1 [[]|e]].
Qed.

(** The sequence succeeds exactly when every write does. *)
Lemma kv_write_all_Ok kvs s s' :
  kv_write_all inj kvs s = (s', Ok tt) ↔ kv_set_all kvs s = Ok s'.
Proof.
  revert s. induction kvs as [|[k v] kvs IH]; intros s.
  - rewrite kv_write_all_nil. unfold kv_set_all. simpl. naive_solver.
  - rewrite kv_write_all_cons. unfold kv_set_all, st_bind, kv_set_m. simpl.
    destruct (kv_set s k v) as [s1|e]; simpl; [apply IH|naive_solver].
Qed.

(** Whatever the outcome, the store left behind is the store after a
    prefix of the writes. *)
Lemma kv_write_all_prefix kvs s s' r :
  kv_write_all inj kvs s = (s', r) →
  ∃ kvs1, kvs1 `prefix_of` kvs ∧ kv_set_all kvs1 s = Ok s'.
Proof.
  revert s. induction kvs as [|[k v] kvs IH]; intros s.
  - rewrite kv_write_all_nil. intros [= <- <-]. by exists [].
  - rewrite kv_write_all_cons. unfold st_bind, kv_set_m.
    destruct (kv_set s k v) as [s1|e] eqn:Hk.
    + intros (kvs1 & Hp & Hs)%IH. exists ((k, v) :: kvs1).
      split; [by apply prefix_cons|].
      unfold kv_set_all in *. simpl. by rewrite Hk.
    + intros [= <- <-]. exists []. split; [apply prefix_nil|done].
Qed.

(** Keys that are not written keep their value, whatever the outcome. *)
Lemma kv_write_all_frame kvs s s' r k :
  kv_write_all inj kvs s = (s', r) → k ∉ kvs.*1 → kv_get s' k = kv_get s k.
Proof.
  intros (kvs1 & [kvs2 ->] & Hs)%kv_write_all_prefix Hk.
  rewrite (kv_get_set_all _ _ _ _ Hs), last_write_None; [done|].
  rewrite fmap_app in Hk. set_solver.
Qed.

(** A failure is a failure of [set]. *)
Lemma kv_write_all_Err kvs s s' e :
  kv_write_all inj kvs s = (s', Err e) → ∃ e', e = inj e'.
Proof.
  revert s. induction kvs as [|[k v] kvs IH]; intros s.
  - by rewrite kv_write_all_nil.
  - rewrite kv_write_all_cons. unfold st_bind, kv_set_m.
    destruct (kv_set s k v) as [s1|e']; [apply IH|].
    intros [= <- <-]. by exists e'.
Qed.
End write_all.
End store.

(** * Instances *)

(** [MemoryKeyValueStore]: a finite map; [set] always succeeds. *)
#[export] Program Instance mem_store : KeyValueStore (gmap bytes bytes) := {|
  kv_get s k := s !! k;
  kv_set s k v := Ok (<[k := v]> s);
|}.
Next Obligation. intros s k v s' [= <-]. apply lookup_insert_eq. Qed.
Next Obligation. intros s k v s' k' [= <-] Hne. by apply lookup_insert_ne. Qed.

(** In the memory store, equivalent stores are equal. *)
Lemma mem_store_equiv_eq (s1 s2 : gmap bytes bytes) :
  store_equiv s1 s2 ↔ s1 = s2.
Proof. split; [apply map_eq|by intros ->]. Qed.

(** A store that accepts a bounded number of writes, to exercise the
    failure of [set] (a full disk). *)
Record bounded_store : Type := {
  bs_map : gmap bytes bytes;
  bs_room : nat;
}.

#[export] Program Instance bounded_kv : KeyValueStore bounded_store := {|
  kv_get s k := bs_map s !! k;
  kv_set s k v :=
    match bs_room s with
    | O => Err KvWriteFailed
    | S n => Ok {| bs_map := <[k := v]> (bs_map s); bs_room := n |}
    end;
|}.
Next Obligation.
  intros [m [|n]] k v s'; simpl; intros [= <-]. apply lookup_insert_eq.
Qed.
Next Obligation.
  intros [m [|n]] k v s' k'; simpl; intros [= <-] Hne.
  by apply lookup_insert_ne.
Qed.

(** A stand-in for [keccak256]: a polynomial checksum, 32 bytes wide.  It
    is no hash function; it serves to run the model. *)
Definition toy_digest (b : bytes) : bytes :=
  be_bytes 32 (foldl (λ acc x, acc * 257 + byte_to_Z x + 1)%Z 7%Z b).

#[export] Instance toy_keccak : Keccak := {|
  keccak256 := toy_digest;
  keccak256_length b := length_be_bytes 32 _;
|}.

(** A stand-in for [BlobInfo::decode]: [x] (32 bytes), [y] (32 bytes) and
    the length as a big-endian [u32]. *)
Definition flat_cert_decode (b : bytes) : result cert_error BlobInfo :=
  if bool_decide (length b = 68) then
    Ok {| blob_header := {|
            commitment := {| g1_x := take 32 b; g1_y := take 32 (drop 32 b) |};
            data_length := be_combine (drop 64 b) |} |}
  else Err RlpDecodeFailed.

Definition flat_cert_encode (c : BlobInfo) : bytes :=
  g1_x (commitment (blob_header c)) ++ g1_y (commitment (blob_header c))
  ++ u32_to_be_bytes (data_length (blob_header c)).

Lemma flat_cert_decode_wf b c : flat_cert_decode b = Ok c → cert_wf c.
Proof.
  unfold flat_cert_decode. case_bool_decide as Hl; [|done].
  intros [= <-]. unfold cert_wf; simpl.
  rewrite !length_take, length_drop. split_and!; [lia..|].
  pose proof (be_combine_range (drop 64 b)) as Hr.
  rewrite length_drop, Hl in Hr. change (8 * Z.of_nat (68 - 64))%Z with 32%Z in Hr.
  unfold is_u32, u32_max. lia.
Qed.

#[export] Instance flat_cert_decoder : CertDecoder := {|
  decode_blob_info := flat_cert_decode;
  decode_blob_info_wf := flat_cert_decode_wf;
|}.

(** A stand-in for the KZG witness: the commitment and the proof are fixed
    functions of the blob. *)
#[export] Instance toy_witness : WitnessBuilder := {|
  push_witness w blob :=
    Ok {| commitments := commitments w ++ [take 64 (blob ++ zeros 64)];
          proofs := proofs w ++ [toy_digest blob] |};
|}.
