(* ===== verification/Hint.v ===== *)
(** * Hint: the hint protocol of [src/crates/oracle/src/hint.rs]

    [HintWrapper] adds the hint [EigenDABlob] to the hints of the base
    program.  The base hint type [HintType] with its parser and printer is
    kona's; it is the interface [BaseHint] here, with the two laws that say
    parsing and printing are inverse.  The file models [from_str] and the
    [Display] implementation [fmt], and proves that they are inverse on
    accepted tags as long as the base parser does not claim the new tag. *)

From S2P Require Import Prelude Bytes.
From stdpp Require Import strings.

(** [HintParsingError] carries the message of the error. *)
Inductive HintParsingError : Set :=
  | HintParsingError_msg (msg : string).

#[export] Instance HintParsingError_eq_dec : EqDecision HintParsingError.
Proof. solve_decision. Defined.

(** The base hints: [HintType::from_str] and its [Display]. *)
Class BaseHint (HintType : Type) := {
  hint_type_from_str : string → result HintParsingError HintType;
  hint_type_fmt : HintType → string;
  hint_type_from_str_fmt h : hint_type_from_str (hint_type_fmt h) = Ok h;
  hint_type_fmt_from_str s h :
    hint_type_from_str s = Ok h → hint_type_fmt h = s;
}.
#[global] Hint Mode BaseHint ! : typeclass_instances.

Section hint.
Context `{BaseHint HintType}.

(** [enum HintWrapper] *)
Inductive HintWrapper : Type :=
  | Standard (h : HintType)
  | EigenDABlob.

(** [impl FromStr for HintWrapper] *)
Definition from_str (s : string) : result HintParsingError HintWrapper :=
  match hint_type_from_str s with
  | Ok standard => Ok (Standard standard)
  | Err _ =>
      if String.eqb s "eigen-da-blob" then Ok EigenDABlob
      else Err (HintParsingError_msg "unknown hint")
  end.

(** [impl fmt::Display for HintWrapper] *)
Definition fmt (h : HintWrapper) : string :=
  match h with
  | Standard hint => hint_type_fmt hint
  | EigenDABlob => "eigen-da-blob"
  end.

(** [kona_proof::Hint]: a hint type with its payload. *)
Record Hint : Type := {
  hint_ty : HintWrapper;
  hint_data : bytes;
}.

(** [Hint::new(ty, data)] *)
Definition Hint_new (ty : HintWrapper) (data : bytes) : Hint :=
  {| hint_ty := ty; hint_data := data |}.

(** [Hint::encode]: the tag, a space and the payload in hexadecimal with
    its prefix; this is what [Hint::send] writes to the hint channel. *)
Definition Hint_encode (h : Hint) : string :=
  fmt (hint_ty h) +:+ " 0x" +:+ hex_encode (hint_data h).

(** The tag of the new hint, as the statements below name it; [from_str]
    and [fmt] each have their own literal, as in the source. *)
Definition eigen_da_blob_tag : string := "eigen-da-blob".

(** The base parser leaves the new tag free. *)
Definition tag_free : Prop :=
  ∀ h : HintType, hint_type_from_str eigen_da_blob_tag ≠ Ok h.

(** * Theorems *)

(** A base hint is parsed as itself, wrapped. *)
Lemma from_str_standard s (h : HintType) :
  hint_type_from_str s = Ok h → from_str s = Ok (Standard h).
Proof. unfold from_str. by intros ->. Qed.

(** The base parser has precedence: a tag it accepts never yields
    [EigenDABlob]. *)
Lemma from_str_precedence s (h : HintType) :
  hint_type_from_str s = Ok h → from_str s ≠ Ok EigenDABlob.
Proof. intros Hs. by rewrite (from_str_standard _ _ Hs). Qed.

Lemma from_str_eigen_da_blob :
  tag_free → from_str eigen_da_blob_tag = Ok EigenDABlob.
Proof.
  intros Hfree. unfold from_str.
  destruct (hint_type_from_str eigen_da_blob_tag) as [h|e] eqn:E.
  - by destruct (Hfree h).
  - done.
Qed.

(** C39: printing a hint and parsing the tag gives the hint back, as
    long as no base hint has the tag [eigen-da-blob]. *)
Theorem from_str_fmt h : tag_free → from_str (fmt h) = Ok h.
Proof.
  intros Hfree. destruct h as [h|]; simpl.
  - apply from_str_standard, hint_type_from_str_fmt.
  - by apply from_str_eigen_da_blob.
Qed.

(** Parsing a tag and printing the hint gives the tag back: on
    every accepted tag the printer is the exact inverse of the parser. *)
Theorem fmt_from_str s h : from_str s = Ok h → fmt h = s.
Proof.
  unfold from_str.
  destruct (hint_type_from_str s) as [st|e] eqn:E.
  - intros [= <-]. by apply hint_type_fmt_from_str.
  - destruct (String.eqb_spec s "eigen-da-blob") as [->|Hne]; [|done].
    by intros [= <-].
Qed.

(** Every other tag is rejected with [unknown hint]. *)
Theorem from_str_unknown s :
  (∀ h : HintType, hint_type_from_str s ≠ Ok h) → s ≠ eigen_da_blob_tag →
  from_str s = Err (HintParsingError_msg "unknown hint").
Proof.
  intros Hbase Hne. unfold from_str.
  destruct (hint_type_from_str s) as [st|e] eqn:E; [by destruct (Hbase st)|].
  by destruct (String.eqb_spec s "eigen-da-blob").
Qed.

(** The parser accepts exactly the tags of the base hints and the
    tag [eigen-da-blob]. *)
Theorem from_str_is_ok s :
  is_ok (from_str s) = true
  ↔ is_ok (hint_type_from_str (HintType := HintType) s) = true
    ∨ s = eigen_da_blob_tag.
Proof.
  unfold from_str.
  destruct (hint_type_from_str s) as [st|e]; simpl; [naive_solver|].
  destruct (String.eqb_spec s "eigen-da-blob"); simpl; naive_solver.
Qed.

End hint.

Arguments HintWrapper HintType : clear implicits.
Arguments Hint HintType : clear implicits.

(** * The base hints of the single-chain program

    The tags of kona's [HintType], as an instance of the interface. *)
Inductive KonaHintType : Set :=
  | L1BlockHeader
  | L1Transactions
  | L1Receipts
  | L1Blob
  | L1Precompile
  | L2BlockHeader
  | L2Transactions
  | L2Code
  | StartingL2Output
  | L2StateNode
  | L2AccountProof
  | L2AccountStorageProof
  | L2PayloadWitness.

#[export] Instance KonaHintType_eq_dec : EqDecision KonaHintType.
Proof. solve_decision. Defined.

Definition kona_hint_fmt (h : KonaHintType) : string :=
  match h with
  | L1BlockHeader => "l1-block-header"
  | L1Transactions => "l1-transactions"
  | L1Receipts => "l1-receipts"
  | L1Blob => "l1-blob"
  | L1Precompile => "l1-precompile"
  | L2BlockHeader => "l2-block-header"
  | L2Transactions => "l2-transactions"
  | L2Code => "l2-code"
  | StartingL2Output => "starting-l2-output"
  | L2StateNode => "l2-state-node"
  | L2AccountProof => "l2-account-proof"
  | L2AccountStorageProof => "l2-account-storage-proof"
  | L2PayloadWitness => "l2-payload-witness"
  end.

Definition kona_hints : list KonaHintType :=
  [L1BlockHeader; L1Transactions; L1Receipts; L1Blob; L1Precompile;
   L2BlockHeader; L2Transactions; L2Code; StartingL2Output; L2StateNode;
   L2AccountProof; L2AccountStorageProof; L2PayloadWitness].

Definition kona_hint_from_str (s : string)
  : result HintParsingError KonaHintType :=
  ok_or (list_find (λ h, kona_hint_fmt h = s) kona_hints ≫= λ p, Some p.2)
        (HintParsingError_msg "unknown hint").

Lemma kona_hint_from_str_fmt h : kona_hint_from_str (kona_hint_fmt h) = Ok h.
Proof. by destruct h. Qed.

Lemma kona_hint_fmt_from_str s h :
  kona_hint_from_str s = Ok h → kona_hint_fmt h = s.
Proof.
  unfold kona_hint_from_str.
  destruct (list_find _ kona_hints) as [[i h']|] eqn:E; simpl; [|done].
  intros [= <-]. by apply list_find_Some in E as (_ & ? & _).
Qed.

#[export] Instance kona_base_hint : BaseHint KonaHintType := {|
  hint_type_from_str := kona_hint_from_str;
  hint_type_fmt := kona_hint_fmt;
  hint_type_from_str_fmt := kona_hint_from_str_fmt;
  hint_type_fmt_from_str := kona_hint_fmt_from_str;
|}.

Lemma kona_tag_free : tag_free (HintType := KonaHintType).
Proof. intros h. by vm_compute. Qed.

Lemma from_str_fmt_witness :
  from_str (fmt (EigenDABlob : HintWrapper KonaHintType))
  = Ok (EigenDABlob : HintWrapper KonaHintType).
Proof. apply from_str_fmt, kona_tag_free. Defined.

Lemma fmt_from_str_witness :
  fmt (Standard L1BlockHeader : HintWrapper KonaHintType) = "l1-block-header".
Proof. by apply fmt_from_str. Defined.
