(* ===== verification/Proxy.v ===== *)
(** * Proxy: [src/bin/host/src/eigenda/online_provider.rs]

    [EigenDAProxy] fetches a blob by commitment from the EigenDA proxy with
    one HTTP request; [OnlineEigenDAProvider] wraps it for the hint handler.
    The HTTP client is the interface [HttpClient]: what one [GET] of a URL
    under a time limit comes to.  It is a function, so the proxy of the
    model answers a request alike each time it is asked.  The file models the request URL, the
    mapping of every outcome to [EigenDAProxyError], and [get_blob]. *)

From S2P Require Import Prelude Bytes.
From stdpp Require Import strings.

(** ** Errors of [hydro_eigenda::errors] *)

(** Why a request counts as a network error. *)
Inductive network_cause : Set :=
  | TimeoutElapsed
  | UnexpectedStatus (status : Z).

Inductive EigenDAProxyError : Set :=
  | RetrieveBlobWithCommitment (msg : string)
  | NetworkError (cause : network_cause)
  | NotFound.

Inductive EigenDAProviderError : Set :=
  | RetrieveFramesFromDaIndexer (cause : EigenDAProxyError)
  | ProtoDecodeError (msg : string)
  | Status (msg : string)
  | RLPDecodeError (msg : string)
  | Backend (msg : string).

#[export] Instance network_cause_eq_dec : EqDecision network_cause.
Proof. solve_decision. Defined.
#[export] Instance EigenDAProxyError_eq_dec : EqDecision EigenDAProxyError.
Proof. solve_decision. Defined.
#[export] Instance EigenDAProviderError_eq_dec : EqDecision EigenDAProviderError.
Proof. solve_decision. Defined.

(** ** The HTTP client *)

(** What [timeout(d, client.get(url).send()).await] comes to: the time
    limit expires, the request fails, or a response arrives, whose body
    [response.bytes().await] can still fail to read. *)
Inductive send_result : Set :=
  | Elapsed
  | SendFailed (msg : string)
  | Response (status : Z) (body : result string bytes).

Class HttpClient := {
  http_get : string → Z → send_result;
}.

Definition StatusCode_OK : Z := 200.
Definition StatusCode_NOT_FOUND : Z := 404.

(** ** [EigenDAProxy] *)

Record EigenDAProxy : Set := {
  proxy_url : string;
  retrieve_blob_timeout : Z;
}.

(** [EigenDAProxy::new] *)
Definition EigenDAProxy_new (proxy_url : string) (retrieve_blob_timeout : Z)
  : EigenDAProxy :=
  {| proxy_url := proxy_url; retrieve_blob_timeout := retrieve_blob_timeout |}.

(** [format!("{}/get/0x{}", self.proxy_url, hex::encode(commitment))] *)
Definition request_url (p : EigenDAProxy) (commitment : bytes) : string :=
  proxy_url p +:+ "/get/0x" +:+ hex_encode commitment.

(** [match response.status()] *)
Definition map_response (status : Z) (body : result string bytes)
  : result EigenDAProxyError bytes :=
  if bool_decide (status = StatusCode_OK) then
    map_err RetrieveBlobWithCommitment body
  else if bool_decide (status = StatusCode_NOT_FOUND) then Err NotFound
  else Err (NetworkError (UnexpectedStatus status)).

(** [EigenDAProxy::retrieve_blob_with_commitment] *)
Definition retrieve_blob_with_commitment `{HttpClient}
    (p : EigenDAProxy) (commitment : bytes) : result EigenDAProxyError bytes :=
  match http_get (request_url p commitment) (retrieve_blob_timeout p) with
  | Elapsed => Err (NetworkError TimeoutElapsed)
  | SendFailed e => Err (RetrieveBlobWithCommitment e)
  | Response status body => map_response status body
  end.

(** ** [OnlineEigenDAProvider] *)

Record OnlineEigenDAProvider : Set := {
  eigen_da_proxy_client : EigenDAProxy;
}.

(** [OnlineEigenDAProvider::new] *)
Definition OnlineEigenDAProvider_new (c : EigenDAProxy) : OnlineEigenDAProvider :=
  {| eigen_da_proxy_client := c |}.

(** [OnlineEigenDAProvider::get_blob]; [e.to_string()] is kept as the
    error [e] it is the text of. *)
Definition get_blob `{HttpClient} (p : OnlineEigenDAProvider) (commitment : bytes)
  : result EigenDAProviderError bytes :=
  map_err RetrieveFramesFromDaIndexer
    (retrieve_blob_with_commitment (eigen_da_proxy_client p) commitment).

(** ** Reading hexadecimal text back *)

Definition hex_val (c : Ascii.ascii) : option Z :=
  let n := Z.of_nat (Ascii.nat_of_ascii c) in
  if bool_decide (48 ≤ n ≤ 57)%Z then Some (n - 48)%Z
  else if bool_decide (97 ≤ n ≤ 102)%Z then Some (n - 87)%Z
  else if bool_decide (65 ≤ n ≤ 70)%Z then Some (n - 55)%Z
  else None.

Fixpoint hex_decode (s : string) : option bytes :=
  match s with
  | String.EmptyString => Some []
  | String.String hi (String.String lo rest) =>
      h ← hex_val hi; l ← hex_val lo; bs ← hex_decode rest;
      Some (byte_of_Z (16 * h + l) :: bs)
  | _ => None
  end.

(** * Theorems *)

Section hex.
Implicit Types (n : Z) (b : byte) (bs : bytes).

Lemma hex_val_digit n : (0 ≤ n < 16)%Z → hex_val (hex_digit n) = Some n.
Proof.
  intros Hn.
  assert (Hc : n ∈ seqZ 0 16) by (apply elem_of_seqZ; lia).
  vm_compute seqZ in Hc.
  repeat (apply elem_of_cons in Hc as [->|Hc]; [reflexivity|]).
  by apply elem_of_nil in Hc.
Qed.

(** Decoding the hexadecimal text of a byte string gives it back. *)
Lemma hex_decode_encode bs : hex_decode (hex_encode bs) = Some bs.
Proof.
  induction bs as [|b bs IH]; [done|]. cbn [hex_encode hex_decode].
  pose proof (byte_to_Z_range b) as Hb.
  assert (0 ≤ byte_to_Z b `div` 16 < 16)%Z
    by (split; [apply Z.div_pos|apply Z.div_lt_upper_bound]; lia).
  rewrite !hex_val_digit by (try apply Z.mod_pos_bound; lia).
  rewrite IH. simpl. do 2 f_equal.
  rewrite <-(Z.div_mod (byte_to_Z b) 16) by lia. apply byte_of_to_Z.
Qed.

Lemma hex_encode_inj bs1 bs2 : hex_encode bs1 = hex_encode bs2 → bs1 = bs2.
Proof.
  intros Heq. apply (f_equal hex_decode) in Heq.
  rewrite !hex_decode_encode in Heq. by injection Heq.
Qed.
End hex.

Section proxy.
Context `{HttpClient}.
Implicit Types (p : EigenDAProxy) (c : bytes).

(** Distinct commitments are requested at distinct URLs. *)
Theorem request_url_inj p c1 c2 : request_url p c1 = request_url p c2 → c1 = c2.
Proof.
  unfold request_url. intros Heq.
  apply hex_encode_inj. by repeat apply (inj (String.append _)) in Heq.
Qed.

(** The outcome of a response, by status. *)
Lemma map_response_OK body :
  map_response StatusCode_OK body = map_err RetrieveBlobWithCommitment body.
Proof. done. Qed.

Lemma map_response_NOT_FOUND body :
  map_response StatusCode_NOT_FOUND body = Err NotFound.
Proof. done. Qed.

Lemma map_response_other status body :
  status ≠ StatusCode_OK → status ≠ StatusCode_NOT_FOUND →
  map_response status body = Err (NetworkError (UnexpectedStatus status)).
Proof.
  intros H1 H2. unfold map_response. by rewrite !bool_decide_eq_false_2.
Qed.

(** A blob is returned exactly when the proxy answers 200 with a
    body that can be read, and it is that body. *)
Theorem retrieve_blob_Ok p c blob :
  retrieve_blob_with_commitment p c = Ok blob
  ↔ http_get (request_url p c) (retrieve_blob_timeout p)
    = Response StatusCode_OK (Ok blob).
Proof.
  unfold retrieve_blob_with_commitment, map_response.
  destruct (http_get _ _) as [| |status body]; [done..|].
  repeat case_bool_decide; subst; destruct body; simpl; naive_solver.
Qed.

(** [NotFound] is reported exactly for status 404: absence is told apart
    from every transport failure. *)
Theorem retrieve_blob_NotFound p c :
  retrieve_blob_with_commitment p c = Err NotFound
  ↔ ∃ body, http_get (request_url p c) (retrieve_blob_timeout p)
    = Response StatusCode_NOT_FOUND body.
Proof.
  unfold retrieve_blob_with_commitment, map_response.
  destruct (http_get _ _) as [| |status body]; [naive_solver..|].
  repeat case_bool_decide; subst; destruct body; simpl; naive_solver.
Qed.

(** C37: an expired time limit and every status other than 200 and 404
    are network errors; a request that fails to be sent is not. *)
Theorem retrieve_blob_NetworkError p c cause :
  retrieve_blob_with_commitment p c = Err (NetworkError cause)
  ↔ match http_get (request_url p c) (retrieve_blob_timeout p) with
    | Elapsed => cause = TimeoutElapsed
    | SendFailed _ => False
    | Response status _ =>
        status ≠ StatusCode_OK ∧ status ≠ StatusCode_NOT_FOUND
        ∧ cause = UnexpectedStatus status
    end.
Proof.
  unfold retrieve_blob_with_commitment, map_response.
  destruct (http_get _ _) as [| |status body]; [naive_solver..|].
  repeat case_bool_decide; subst; destruct body; simpl; naive_solver.
Qed.

(** [get_blob] returns what the proxy client returns, errors wrapped. *)
Theorem get_blob_Ok (o : OnlineEigenDAProvider) c blob :
  get_blob o c = Ok blob
  ↔ retrieve_blob_with_commitment (eigen_da_proxy_client o) c = Ok blob.
Proof.
  unfold get_blob. destruct (retrieve_blob_with_commitment _ _); simpl;
    naive_solver.
Qed.

(** The provider fails exactly when the proxy does, and wraps the
    error of the proxy in [RetrieveFramesFromDaIndexer]. *)
Theorem get_blob_Err (o : OnlineEigenDAProvider) c e :
  get_blob o c = Err e
  ↔ ∃ e', retrieve_blob_with_commitment (eigen_da_proxy_client o) c = Err e'
          ∧ e = RetrieveFramesFromDaIndexer e'.
Proof.
  unfold get_blob. destruct (retrieve_blob_with_commitment _ _); simpl;
    naive_solver.
Qed.
End proxy.

(** * A proxy that serves a table of blobs

    An executable [HttpClient]: URLs of the table answer 200 with their
    blob, every other URL answers 404. *)
Definition table_http (table : list (string * bytes)) : HttpClient := {|
  http_get url _ :=
    match list_find (λ e, e.1 = url) table with
    | Some (_, e) => Response StatusCode_OK (Ok e.2)
    | None => Response StatusCode_NOT_FOUND (Err "not found")
    end;
|}.
