(* ===== verification/Providers.v ===== *)
(** * Providers: [src/bin/host/src/eigenda/providers.rs]

    [EigenDAChainProviders] pairs the providers of the single-chain host
    with the EigenDA provider.  The providers of the single-chain host are
    kona's; their types are parameters. *)

From S2P Require Import Prelude Bytes Proxy.

Section providers.
Context {L1 Blobs L2 : Type}.

(** kona's [SingleChainProviders]. *)
Record SingleChainProviders : Type := {
  sc_l1 : L1;
  sc_blobs : Blobs;
  sc_l2 : L2;
}.

(** [struct EigenDAChainProviders] *)
Record EigenDAChainProviders : Type := {
  inner_providers : SingleChainProviders;
  eigen_da : OnlineEigenDAProvider;
}.

(** [EigenDAChainProviders::new] *)
Definition EigenDAChainProviders_new (inner_providers : SingleChainProviders)
    (eigen_da : OnlineEigenDAProvider) : EigenDAChainProviders :=
  {| inner_providers := inner_providers; eigen_da := eigen_da |}.

(** [EigenDAChainProviders::l1] *)
Definition l1 (p : EigenDAChainProviders) : L1 := sc_l1 (inner_providers p).

(** [EigenDAChainProviders::blobs] *)
Definition blobs (p : EigenDAChainProviders) : Blobs :=
  sc_blobs (inner_providers p).

(** [EigenDAChainProviders::l2] *)
Definition l2 (p : EigenDAChainProviders) : L2 := sc_l2 (inner_providers p).

(** [impl From<EigenDAChainProviders> for SingleChainProviders] *)
Definition SingleChainProviders_from (p : EigenDAChainProviders)
  : SingleChainProviders := inner_providers p.

(** Wrapping providers and unwrapping them gives them back, and the
    accessors read the wrapped providers. *)
Lemma SingleChainProviders_from_new inner e :
  SingleChainProviders_from (EigenDAChainProviders_new inner e) = inner
  ∧ l1 (EigenDAChainProviders_new inner e) = sc_l1 inner
  ∧ blobs (EigenDAChainProviders_new inner e) = sc_blobs inner
  ∧ l2 (EigenDAChainProviders_new inner e) = sc_l2 inner
  ∧ eigen_da (EigenDAChainProviders_new inner e) = e.
Proof. done. Qed.
End providers.

Arguments SingleChainProviders : clear implicits.
Arguments EigenDAChainProviders : clear implicits.
