(* ===== verification/Args.v ===== *)
(** * Args: the arguments of the host

    The records of [src/bin/host/src/eigenda/cfg.rs] that hold the
    arguments of the host binary, with the fields of kona's
    [SingleChainHost] the host reads.  The handler of [Host] is given these
    arguments; what the host builds from them is in [Cfg]. *)

From S2P Require Import Prelude.
From stdpp Require Import strings.

(** kona's [SingleChainHost]: the fields this file reads. *)
Record SingleChainHost : Set := {
  l1_node_address : option string;
  l2_node_address : option string;
  l1_beacon_address : option string;
  data_dir : option string;
  server : bool;
  rollup_config_path : option string;
}.

(** [struct EigenDACfg]; [retrieve_timeout] is a [Duration] in whole
    seconds.  The field [proxy_url] is [cfg_proxy_url] here, the name
    [proxy_url] being the field of [EigenDAProxy]. *)
Record EigenDACfg : Set := {
  cfg_proxy_url : option string;
  retrieve_timeout : Z;
}.

(** [struct EigenDAChainHost] *)
Record EigenDAChainHost : Set := {
  single_host : SingleChainHost;
  eigen_da_args : EigenDACfg;
}.
