(* ===== verification/Host.v ===== *)
(** * Host: the hint handler of [src/bin/host/src/eigenda/handler.rs]

    [fetch_hint] is [EigenDAChainHintHandler::fetch_hint].  A standard hint
    goes to the handler of the single-chain host.  For [EigenDABlob] the
    handler fetches the blob from the proxy, decodes the certificate out of
    the commitment, encodes the blob, and writes to the store, for every
    index below the certificate's length, the 96-byte lookup key under its
    Keccak key and the field element under its generic key; then it builds
    the witness, compares the commitment and writes the proof and the
    commitment, each under two keys.

    The model runs in [stE] over the store: a failure returns the store as
    the handler left it.  The steps are separate definitions in the order
    of the code; [fetch_eigen_da_blob] composes them. *)

From S2P Require Import Prelude Bytes Codec Oracle Hint Proxy Providers Args.
From stdpp Require Import strings.

(** ** Errors *)

(** The panics of the handler: the [assert!] on the size of the encoded
    blob, and slice operations out of range. *)
Inductive host_panic : Set :=
  | BlobSizeExceeds (actual expected : Z)
  | SliceIndex (p : slice_panic).

(** The errors [fetch_hint] returns, one for each [anyhow!], [ensure!],
    [bail!] and [?] of the handler. *)
Inductive host_error : Set :=
  | InvalidHintDataLength
  | StandardHintFailed (err standard_hint : string) (data : bytes)
  | FetchBlobFailed (e : EigenDAProviderError)
  | DecodeBlobInfoFailed (e : cert_error)
  | KvSetFailed (e : kv_error)
  | PushWitnessFailed (e : witness_error)
  | CommitmentMismatch
  | HostPanic (p : host_panic).

(** [SingleChainHintHandler::fetch_hint], the handler of the base hints:
    it is given the inner hint (its type and data), the configuration of
    the single-chain host and the three chain providers. *)
Class StandardHandler (St HintType L1 Blobs L2 : Type) := {
  single_chain_fetch_hint :
    HintType → bytes → SingleChainHost → SingleChainProviders L1 Blobs L2 →
    stE St string unit;
}.

(** [pub struct EigenDAChainHintHandler]: a unit struct; its [HintHandler]
    implementation has [type Cfg = EigenDAChainHost]. *)
Inductive EigenDAChainHintHandler : Set := eigen_da_chain_hint_handler.

Section host.
Context {L1 Blobs L2 : Type}.
Context `{KeyValueStore St, Keccak, BlobCodec, CertDecoder, WitnessBuilder,
  HttpClient, BaseHint HintType, StandardHandler St HintType L1 Blobs L2}.

Definition lift_slice {A} (r : result slice_panic A) : stE St host_error A :=
  st_lift (map_err (λ p, HostPanic (SliceIndex p)) r).

Definition cert_x (c : BlobInfo) : bytes := g1_x (commitment (blob_header c)).
Definition cert_y (c : BlobInfo) : bytes := g1_y (commitment (blob_header c)).

(** [let mut blob_key = [0u8; 96]] with the two coordinates copied in. *)
Definition build_blob_key (c : BlobInfo) : result slice_panic bytes :=
  let blob_key := zeros 96 in
  let? blob_key := copy_from_slice blob_key 0 32 (cert_x c) in
  copy_from_slice blob_key 32 64 (cert_y c).

(** The slice of the encoded blob for index [i], padded with zeros to 32
    bytes: [data_slice]. *)
Definition field_element_slice (blob : bytes) (i : Z)
  : result slice_panic bytes :=
  let start := usize_shl i 5 in
  let end_ := usize_add start 32 in
  let len := Z.of_nat (length blob) in
  let actual_end := Z.min len end_ in
  if bool_decide (len ≤ start)%Z then Ok (zeros 32)
  else
    let padded_data := zeros 32 in
    let? src := slice blob (Z.to_nat start) (Z.to_nat actual_end) in
    copy_from_slice padded_data 0 (Z.to_nat (usize_wrap (actual_end - start))) src.

(** The body of [for i in 0..blob_length]: the index goes into the last
    eight bytes of the key, the key is written under its Keccak key and the
    field element under its generic key.  The key buffer is carried to the
    next iteration. *)
Definition write_field_element (blob : bytes) (blob_key : bytes) (i : Z)
  : stE St host_error bytes :=
  let! blob_key := lift_slice (copy_from_slice blob_key 88 96 (to_be_bytes i)) in
  let blob_key_hash := keccak256 blob_key in
  let! _ := kv_set_m KvSetFailed (preimage_key blob_key_hash Keccak256) blob_key in
  let! data_slice := lift_slice (field_element_slice blob i) in
  let! _ := kv_set_m KvSetFailed (preimage_key blob_key_hash GlobalGeneric)
              data_slice in
  st_ret blob_key.

(** [kzg_proof_key]: the first 64 bytes of the key buffer. *)
Definition make_kzg_proof_key (blob_key : bytes) : result slice_panic bytes :=
  let kzg_proof_key := zeros 64 in
  let? prefix := slice_to blob_key 64 in
  copy_from_slice kzg_proof_key 0 64 prefix.

(** [kzg_commitment_key]: the same 64 bytes followed by a zero byte. *)
Definition make_kzg_commitment_key (blob_key : bytes) : result slice_panic bytes :=
  let kzg_commitment_key := zeros 65 in
  let? prefix := slice_to blob_key 64 in
  let? kzg_commitment_key := copy_from_slice kzg_commitment_key 0 64 prefix in
  copy_from_slice kzg_commitment_key 64 65 [x00].

(** The condition of the [if] that guards the mismatch error, with the
    short circuit of [||]: [true] when the handler goes on. *)
Definition commitment_matches (last_commitment : bytes) (c : BlobInfo)
  : result slice_panic bool :=
  let? head := slice_to last_commitment 32 in
  if bool_decide (head ≠ cert_x c) then Ok false
  else
    let? next := slice last_commitment 32 64 in
    Ok (bool_decide (next = cert_y c)).

(** The four writes that end the handler. *)
Definition write_witness (kzg_proof_key kzg_commitment_key : bytes)
    (witness : EigenDABlobWitness) : stE St host_error unit :=
  let kzg_proof_key_hash := keccak256 kzg_proof_key in
  let kzg_commitment_key_hash := keccak256 kzg_commitment_key in
  let proof := concat (proofs witness) in
  let! _ := kv_set_m KvSetFailed
              (preimage_key kzg_proof_key_hash Keccak256) kzg_proof_key in
  let! _ := kv_set_m KvSetFailed
              (preimage_key kzg_proof_key_hash GlobalGeneric) proof in
  let commitment := concat (commitments witness) in
  let! _ := kv_set_m KvSetFailed
              (preimage_key kzg_commitment_key_hash Keccak256)
              kzg_commitment_key in
  kv_set_m KvSetFailed
    (preimage_key kzg_commitment_key_hash GlobalGeneric) commitment.

(** The arm [HintWrapper::EigenDABlob] of [fetch_hint]. *)
Definition fetch_eigen_da_blob (providers : EigenDAChainProviders L1 Blobs L2)
    (data : bytes) : stE St host_error unit :=
  let! _ := st_lift (ensure (bool_decide (32 < length data))
                       InvalidHintDataLength) in
  let commitment := data in
  let! blob := st_lift (map_err FetchBlobFailed
                          (get_blob (eigen_da providers) commitment)) in
  let! cert_bytes := lift_slice (slice_from commitment 3) in
  let! cert_blob_info := st_lift (map_err DecodeBlobInfoFailed
                                    (decode_blob_info cert_bytes)) in
  let blob_length := data_length (blob_header cert_blob_info) in
  let eigenda_blob := blob_encode blob in
  let expected := usize_mul blob_length (Z.of_nat BYTES_PER_FIELD_ELEMENT) in
  let! _ := st_lift (ensure
              (bool_decide (Z.of_nat (length eigenda_blob) ≤ expected)%Z)
              (HostPanic (BlobSizeExceeds (Z.of_nat (length eigenda_blob))
                            expected))) in
  let! blob_key := lift_slice (build_blob_key cert_blob_info) in
  let! blob_key := for_each (write_field_element eigenda_blob)
                     (seqZ 0 blob_length) blob_key in
  let! kzg_proof_key := lift_slice (make_kzg_proof_key blob_key) in
  let! kzg_commitment_key := lift_slice (make_kzg_commitment_key blob_key) in
  let! witness := st_lift (map_err PushWitnessFailed
                             (push_witness EigenDABlobWitness_new blob)) in
  let last_commitment := blob_encode blob in
  let! matches := lift_slice (commitment_matches last_commitment cert_blob_info) in
  let! _ := st_lift (ensure matches CommitmentMismatch) in
  write_witness kzg_proof_key kzg_commitment_key witness.

(** [EigenDAChainHintHandler::fetch_hint] *)
Definition fetch_hint (hint : Hint HintType) (cfg : EigenDAChainHost)
    (providers : EigenDAChainProviders L1 Blobs L2) : stE St host_error unit :=
  match hint_ty hint with
  | Standard standard_hint =>
      st_map_err
        (λ err, StandardHintFailed err (hint_type_fmt standard_hint)
                  (hint_data hint))
        (single_chain_fetch_hint standard_hint (hint_data hint)
           (single_host cfg) (inner_providers providers))
  | EigenDABlob => fetch_eigen_da_blob providers (hint_data hint)
  end.

(** ** What the handler is to write: the reference definition

    The entries of a certificate in closed form, and the handler as the
    guards followed by writing these entries in order. *)

(** The first 88 bytes of every lookup key: the two coordinates and 24
    zero bytes. *)
Definition key_base (c : BlobInfo) : bytes := cert_x c ++ cert_y c ++ zeros 24.

(** The 96-byte lookup key of index [i]. *)
Definition lookup_key (c : BlobInfo) (i : Z) : bytes :=
  key_base c ++ to_be_bytes i.

(** The [i]-th 32-byte piece of the blob, zero-padded. *)
Definition field_element (blob : bytes) (i : Z) : bytes :=
  take 32 (drop (Z.to_nat (32 * i)) blob ++ zeros 32).

(** The key under which the field element of index [i] is stored, and
    under which the client looks for it. *)
Definition field_element_key (c : BlobInfo) (i : Z) : bytes :=
  preimage_key (keccak256 (lookup_key c i)) GlobalGeneric.

(** The two entries of index [i]: the key under its own digest, and the
    field element under the same digest in the generic key space. *)
Definition field_entries (c : BlobInfo) (blob : bytes) (i : Z)
  : list (bytes * bytes) :=
  let k := lookup_key c i in
  [(preimage_key (keccak256 k) Keccak256, k);
   (preimage_key (keccak256 k) GlobalGeneric, field_element blob i)].

Definition blob_entries (c : BlobInfo) (blob : bytes) : list (bytes * bytes) :=
  seqZ 0 (data_length (blob_header c)) ≫= field_entries c blob.

Definition kzg_proof_key (c : BlobInfo) : bytes := cert_x c ++ cert_y c.
Definition kzg_commitment_key (c : BlobInfo) : bytes :=
  cert_x c ++ cert_y c ++ [x00].

Definition witness_entries (c : BlobInfo) (w : EigenDABlobWitness)
  : list (bytes * bytes) :=
  [(preimage_key (keccak256 (kzg_proof_key c)) Keccak256, kzg_proof_key c);
   (preimage_key (keccak256 (kzg_proof_key c)) GlobalGeneric,
    concat (proofs w));
   (preimage_key (keccak256 (kzg_commitment_key c)) Keccak256,
    kzg_commitment_key c);
   (preimage_key (keccak256 (kzg_commitment_key c)) GlobalGeneric,
    concat (commitments w))].

(** Everything a successful run writes, in order. *)
Definition host_entries (c : BlobInfo) (blob : bytes) (w : EigenDABlobWitness)
  : list (bytes * bytes) :=
  blob_entries c (blob_encode blob) ++ witness_entries c w.

(** The part of the handler after the certificate is decoded. *)
Definition ingest_blob (c : BlobInfo) (blob : bytes) : stE St host_error unit :=
  let eblob := blob_encode blob in
  let expected := (32 * data_length (blob_header c))%Z in
  if bool_decide (expected < Z.of_nat (length eblob))%Z then
    st_fail (HostPanic (BlobSizeExceeds (Z.of_nat (length eblob)) expected))
  else
    let! _ := kv_write_all KvSetFailed (blob_entries c eblob) in
    let! w := st_lift (map_err PushWitnessFailed
                         (push_witness EigenDABlobWitness_new blob)) in
    let! matches := lift_slice (commitment_matches eblob c) in
    let! _ := st_lift (ensure matches CommitmentMismatch) in
    kv_write_all KvSetFailed (witness_entries c w).

(** The reference handler. *)
Definition ingest (providers : EigenDAChainProviders L1 Blobs L2)
    (data : bytes) : stE St host_error unit :=
  if bool_decide (length data ≤ 32) then st_fail InvalidHintDataLength else
  match get_blob (eigen_da providers) data with
  | Err e => st_fail (FetchBlobFailed e)
  | Ok blob =>
      match decode_blob_info (drop 3 data) with
      | Err e => st_fail (DecodeBlobInfoFailed e)
      | Ok c => ingest_blob c blob
      end
  end.

(** * Lemmas: the steps in closed form *)

Implicit Types (c : BlobInfo) (blob bk data : bytes) (i : Z) (s : St).

Lemma length_key_base c : cert_wf c → length (key_base c) = 88.
Proof.
  intros (Hx & Hy & _). unfold key_base, cert_x, cert_y.
  rewrite !length_app, Hx, Hy, length_zeros. done.
Qed.

Lemma length_lookup_key c i : cert_wf c → length (lookup_key c i) = 96.
Proof.
  intros Hwf. unfold lookup_key.
  by rewrite length_app, length_key_base, length_to_be_bytes.
Qed.

Lemma length_field_element blob i : length (field_element blob i) = 32.
Proof.
  unfold field_element. rewrite length_take, length_app, length_zeros. lia.
Qed.

(** The key buffer before the loop. *)
Lemma build_blob_key_spec c :
  cert_wf c → build_blob_key c = Ok (key_base c ++ zeros 8).
Proof.
  intros (Hx & Hy & _). unfold build_blob_key, key_base.
  rewrite copy_from_slice_Ok by (rewrite ?length_zeros; unfold cert_x; lia).
  cbn [res_bind].
  rewrite copy_from_slice_Ok
    by (rewrite ?length_app, ?length_take, ?length_drop, ?length_zeros;
        unfold cert_x, cert_y in *; lia).
  f_equal. rewrite take_0, app_nil_l, !drop_zeros.
  rewrite take_app_length' by done.
  rewrite drop_app_ge, drop_zeros by (unfold cert_x; lia).
  rewrite <-!app_assoc. do 2 f_equal. unfold cert_x. rewrite Hx.
  by rewrite <-zeros_add.
Qed.

(** Writing the index into a key buffer gives the lookup key. *)
Lemma copy_index_spec c bk i :
  cert_wf c → length bk = 96 → take 88 bk = key_base c →
  copy_from_slice bk 88 96 (to_be_bytes i) = Ok (lookup_key c i).
Proof.
  intros Hwf Hl Hb.
  rewrite copy_from_slice_Ok by (rewrite ?length_to_be_bytes; lia).
  by rewrite Hb, drop_ge, app_nil_r by lia.
Qed.

Lemma take_88_lookup_key c i : cert_wf c → take 88 (lookup_key c i) = key_base c.
Proof.
  intros Hwf. unfold lookup_key.
  by rewrite take_app_length' by (by rewrite length_key_base).
Qed.

(** The slice computed in the loop is the zero-padded field element, and
    no index operation of it is out of range. *)
Lemma field_element_slice_spec blob i :
  is_u32 i → field_element_slice blob i = Ok (field_element blob i).
Proof.
  intros Hi. unfold field_element_slice, field_element.
  rewrite usize_shl_5 by done.
  rewrite usize_add_small
    by (unfold is_u32, u32_max, u64_modulus in *; lia).
  destruct Hi as [Hi0 Hi1].
  set (k := Z.to_nat (32 * i)).
  case_bool_decide as Hlen.
  - by rewrite drop_ge, app_nil_l, take_zeros by lia.
  - rewrite slice_Ok by lia. cbn [res_bind].
    rewrite usize_wrap_small
      by (unfold is_u64, u32_max, u64_modulus in *; lia).
    rewrite copy_from_slice_Ok
      by (rewrite ?length_take, ?length_drop, ?length_zeros; lia).
    f_equal. rewrite take_0, app_nil_l, drop_zeros.
    replace (Z.to_nat (Z.of_nat (length blob) `min` (32 * i + 32)) - k)
      with (32 `min` (length blob - k)) by lia.
    replace (Z.to_nat (Z.of_nat (length blob) `min` (32 * i + 32) - 32 * i))
      with (32 `min` (length blob - k)) by lia.
    destruct (decide (32 ≤ length blob - k)) as [Hge|Hlt].
    + rewrite Nat.min_l by lia. change (zeros (32 - 32)) with (@nil byte).
      rewrite take_app_le by (rewrite length_drop; lia).
      by rewrite app_nil_r.
    + rewrite Nat.min_r by lia.
      rewrite take_ge by (rewrite length_drop; lia).
      rewrite take_app_ge by (rewrite length_drop; lia).
      by rewrite length_drop, take_zeros, Nat.min_l by lia.
Qed.

(** A field element beyond the end of the blob is all zeros. *)
Lemma field_element_beyond blob i :
  (Z.of_nat (length blob) ≤ 32 * i)%Z → field_element blob i = zeros 32.
Proof.
  intros Hl. unfold field_element.
  by rewrite drop_ge, app_nil_l, take_zeros by lia.
Qed.

(** A field element inside the blob is its 32-byte piece. *)
Lemma field_element_inside blob i :
  (0 ≤ i)%Z → (32 * i + 32 ≤ Z.of_nat (length blob))%Z →
  field_element blob i = take 32 (drop (Z.to_nat (32 * i)) blob).
Proof.
  intros Hi Hl. unfold field_element.
  by rewrite take_app_le by (rewrite length_drop; lia).
Qed.

(** One iteration of the loop writes the two entries of its index and
    leaves the lookup key of that index in the buffer. *)
Lemma write_field_element_spec c blob bk i s :
  cert_wf c → length bk = 96 → take 88 bk = key_base c → is_u32 i →
  write_field_element blob bk i s
  = (let! _ := kv_write_all KvSetFailed (field_entries c blob i) in
     st_ret (lookup_key c i)) s.
Proof.
  intros Hwf Hl Hb Hi. unfold write_field_element, lift_slice, field_entries.
  rewrite (copy_index_spec c), field_element_slice_spec by done.
  unfold kv_write_all. cbn [for_each map_err fst snd].
  unfold st_bind, st_lift, st_ret.
  destruct (kv_set_m _ _ (lookup_key c i) s) as [s1 [[]|e]]; [|done].
  by destruct (kv_set_m _ _ (field_element blob i) s1) as [s2 [[]|e]].
Qed.

(** The loop writes the entries of its indices in order; the buffer it
    leaves still starts with the key base. *)
Lemma write_loop_spec c blob (idx : list Z) bk s :
  cert_wf c → Forall is_u32 idx → length bk = 96 → take 88 bk = key_base c →
  ∃ bk', length bk' = 96 ∧ take 88 bk' = key_base c
    ∧ for_each (write_field_element blob) idx bk s
      = (let! _ := kv_write_all KvSetFailed (idx ≫= field_entries c blob) in
         st_ret bk') s.
Proof.
  intros Hwf Hidx. revert bk s.
  induction Hidx as [|i idx Hi Hidx IH]; intros bk s Hl Hb.
  { by exists bk. }
  pose proof (write_field_element_spec c blob bk i s Hwf Hl Hb Hi) as Hw.
  cbn [for_each mbind list_bind]. unfold st_bind in *.
  setoid_rewrite kv_write_all_app. unfold st_bind. rewrite Hw.
  destruct (kv_write_all _ (field_entries c blob i) s) as [s1 [[]|e]].
  - destruct (IH (lookup_key c i) s1) as (bk' & Hl' & Hb' & Heq);
      [by apply length_lookup_key|by apply take_88_lookup_key|].
    exists bk'. by rewrite <-Heq.
  - by exists bk.
Qed.

Lemma length_kzg_proof_key c : cert_wf c → length (kzg_proof_key c) = 64.
Proof.
  intros (Hx & Hy & _). unfold kzg_proof_key, cert_x, cert_y.
  rewrite length_app. lia.
Qed.

Lemma take_64_blob_key c bk :
  cert_wf c → take 88 bk = key_base c → take 64 bk = kzg_proof_key c.
Proof.
  intros Hwf Hb.
  replace (take 64 bk) with (take 64 (take 88 bk))
    by (rewrite take_take; f_equal; lia).
  rewrite Hb. unfold key_base. rewrite app_assoc.
  by rewrite take_app_length' by (symmetry; by apply length_kzg_proof_key).
Qed.

Lemma make_kzg_proof_key_spec c bk :
  cert_wf c → length bk = 96 → take 88 bk = key_base c →
  make_kzg_proof_key bk = Ok (kzg_proof_key c).
Proof.
  intros Hwf Hl Hb. unfold make_kzg_proof_key.
  rewrite slice_to_Ok by lia. cbn [res_bind].
  rewrite (take_64_blob_key c) by done.
  rewrite copy_from_slice_Ok
    by (rewrite ?length_zeros, ?length_kzg_proof_key; done || lia).
  by rewrite take_0, drop_zeros, app_nil_r.
Qed.

Lemma make_kzg_commitment_key_spec c bk :
  cert_wf c → length bk = 96 → take 88 bk = key_base c →
  make_kzg_commitment_key bk = Ok (kzg_commitment_key c).
Proof.
  intros Hwf Hl Hb. unfold make_kzg_commitment_key.
  pose proof (length_kzg_proof_key c Hwf) as Hk.
  rewrite slice_to_Ok by lia. cbn [res_bind].
  rewrite (take_64_blob_key c) by done.
  rewrite copy_from_slice_Ok by (rewrite ?length_zeros; done || lia).
  cbn [res_bind]. rewrite take_0, drop_zeros, app_nil_l.
  rewrite copy_from_slice_Ok
    by (rewrite ?length_app, ?length_zeros; simpl; lia).
  rewrite take_app_length' by done.
  rewrite drop_ge by (rewrite length_app, length_zeros; lia).
  unfold kzg_commitment_key, kzg_proof_key. by rewrite app_nil_r, <-app_assoc.
Qed.

Lemma write_witness_spec c w s :
  write_witness (kzg_proof_key c) (kzg_commitment_key c) w s
  = kv_write_all KvSetFailed (witness_entries c w) s.
Proof.
  unfold write_witness, witness_entries.
  do 3 (rewrite kv_write_all_cons; apply st_bind_ext; intros [] ?).
  rewrite kv_write_all_cons. unfold st_bind.
  by destruct (kv_set_m _ _ _ _) as [? [[]|?]].
Qed.

Lemma Forall_is_u32_seqZ n : is_u32 n → Forall is_u32 (seqZ 0 n).
Proof.
  intros [_ Hn]. apply Forall_forall. intros i [Hi0 Hi1]%elem_of_seqZ_0.
  split; lia.
Qed.

(** The part of the handler after the certificate is decoded, for a
    well-formed certificate. *)
Lemma fetch_tail_ingest_blob c blob s :
  cert_wf c →
  (let blob_length := data_length (blob_header c) in
   let eigenda_blob := blob_encode blob in
   let expected := usize_mul blob_length (Z.of_nat BYTES_PER_FIELD_ELEMENT) in
   let! _ := st_lift (ensure
               (bool_decide (Z.of_nat (length eigenda_blob) ≤ expected)%Z)
               (HostPanic (BlobSizeExceeds (Z.of_nat (length eigenda_blob))
                             expected))) in
   let! blob_key := lift_slice (build_blob_key c) in
   let! blob_key := for_each (write_field_element eigenda_blob)
                      (seqZ 0 blob_length) blob_key in
   let! kzg_proof_key := lift_slice (make_kzg_proof_key blob_key) in
   let! kzg_commitment_key := lift_slice (make_kzg_commitment_key blob_key) in
   let! witness := st_lift (map_err PushWitnessFailed
                              (push_witness EigenDABlobWitness_new blob)) in
   let last_commitment := blob_encode blob in
   let! matches := lift_slice (commitment_matches last_commitment c) in
   let! _ := st_lift (ensure matches CommitmentMismatch) in
   write_witness kzg_proof_key kzg_commitment_key witness) s
  = ingest_blob c blob s.
Proof.
  intros Hwf. pose proof Hwf as (_ & _ & Hlen).
  cbv zeta. unfold ingest_blob, lift_slice.
  change (Z.of_nat BYTES_PER_FIELD_ELEMENT) with 32%Z.
  rewrite usize_mul_32 by done.
  destruct (decide (32 * data_length (blob_header c)
                    < Z.of_nat (length (blob_encode blob)))%Z) as [Hsize|Hsize].
  { by rewrite bool_decide_eq_false_2, bool_decide_eq_true_2 by lia. }
  rewrite bool_decide_eq_true_2, (bool_decide_eq_false_2 _ Hsize) by lia.
  cbn [ensure].
  rewrite st_bind_lift_Ok, build_blob_key_spec by done. cbn [map_err].
  rewrite st_bind_lift_Ok.
  destruct (write_loop_spec c (blob_encode blob)
    (seqZ 0 (data_length (blob_header c))) (key_base c ++ zeros 8) s)
    as (bk' & Hl' & Hb' & Hloop).
  { done. }
  { by apply Forall_is_u32_seqZ. }
  { by rewrite length_app, length_key_base, length_zeros. }
  { by rewrite take_app_length' by (by rewrite length_key_base). }
  rewrite (st_bind_cong _ _ _ _ Hloop), st_bind_assoc. unfold blob_entries.
  apply st_bind_ext. intros [] s1. rewrite st_bind_ret.
  rewrite (make_kzg_proof_key_spec c), (make_kzg_commitment_key_spec c) by done.
  cbn [map_err]. rewrite !st_bind_lift_Ok.
  do 3 (apply st_bind_ext; intros ??). apply write_witness_spec.
Qed.

(** The handler is the reference handler: the guards in order, then the
    entries of the certificate written in order. *)
Lemma fetch_eigen_da_blob_ingest providers data s :
  fetch_eigen_da_blob providers data s = ingest providers data s.
Proof.
  unfold fetch_eigen_da_blob, ingest.
  destruct (decide (length data ≤ 32)) as [Hlen|Hlen].
  { by rewrite bool_decide_eq_false_2, bool_decide_eq_true_2 by lia. }
  rewrite bool_decide_eq_true_2, (bool_decide_eq_false_2 _ Hlen) by lia.
  cbn [ensure].
  rewrite st_bind_lift_Ok.
  destruct (get_blob _ _) as [blob|e]; cbn [map_err]; [|done].
  rewrite st_bind_lift_Ok. unfold lift_slice at 1.
  rewrite slice_from_Ok by lia. cbn [map_err]. rewrite st_bind_lift_Ok.
  destruct (decode_blob_info _) as [c|e] eqn:Hc; cbn [map_err]; [|done].
  rewrite st_bind_lift_Ok.
  by apply fetch_tail_ingest_blob, (decode_blob_info_wf (drop 3 data)).
Qed.

End host.
