(* ===== verification/Cfg.v ===== *)
(** * Cfg: [src/bin/host/src/eigenda/cfg.rs]

    The arguments of the host binary and what the host builds from them:
    the parser of the retrieval time limit, the choice between the offline
    and the online backend (the latter made with the hint handler of
    [Host]), the key-value store the backend runs on, and the
    providers of the online backend with the order in which missing
    arguments are reported, and how [start] ends.  Channels, tasks and the
    file system are tokio's, kona's and the operating system's: what making
    a channel and awaiting a task come to is the interface [Runtime], and
    the file models which backend is started on which store and what
    [start] does with the results of the tasks, not the run of the
    server. *)

From S2P Require Import Prelude Bytes Codec Oracle Hint Proxy Providers Args Host.
From stdpp Require Import strings.
From Stdlib Require Import Strings.Ascii.

(** ** [parse_duration] *)

(** [core::num::IntErrorKind], the three kinds [u64::from_str] gives. *)
Inductive IntErrorKind : Set := Empty | InvalidDigit | PosOverflow.

(** [Display for ParseIntError] *)
Definition IntErrorKind_text (e : IntErrorKind) : string :=
  match e with
  | Empty => "cannot parse integer from empty string"
  | InvalidDigit => "invalid digit found in string"
  | PosOverflow => "number too large to fit in target type"
  end.

(** [char::to_digit(10)] *)
Definition digit_val (c : ascii) : option Z :=
  let n := Z.of_nat (nat_of_ascii c) in
  if bool_decide (48 ≤ n ≤ 57)%Z then Some (n - 48)%Z else None.

(** The loop of [u64::from_str_radix]: at every character the digit is
    checked first, then the overflow of [result * 10 + digit]. *)
Fixpoint parse_digits (acc : Z) (s : string) : result IntErrorKind Z :=
  match s with
  | EmptyString => Ok acc
  | String c s =>
      match digit_val c with
      | None => Err InvalidDigit
      | Some d =>
          let acc := (acc * 10 + d)%Z in
          if bool_decide (acc < u64_modulus)%Z then parse_digits acc s
          else Err PosOverflow
      end
  end.

(** The digits of an unsigned integer: one leading [+] is dropped. *)
Definition strip_plus (s : string) : string :=
  match s with
  | String c rest => if bool_decide (c = "+"%char) then rest else s
  | EmptyString => s
  end.

(** [str::parse::<u64>] *)
Definition parse_u64 (s : string) : result IntErrorKind Z :=
  if bool_decide (s = "") then Err Empty
  else if bool_decide (s = "+" ∨ s = "-") then Err InvalidDigit
  else parse_digits 0 (strip_plus s).

(** [fn parse_duration] *)
Definition parse_duration (input : string) : result string Z :=
  map_err (λ e, "Failed to parse duration: " +:+ IntErrorKind_text e)
    (parse_u64 input).

(** The value of a string of decimal digits read from the left, started
    at [acc]: the reference [parse_digits] is compared with. *)
Fixpoint decimal_from (acc : Z) (s : string) : Z :=
  match s with
  | EmptyString => acc
  | String c s => decimal_from (acc * 10 + default 0%Z (digit_val c)) s
  end.

Fixpoint all_digits (s : string) : bool :=
  match s with
  | EmptyString => true
  | String c s => bool_decide (is_Some (digit_val c)) && all_digits s
  end.

(** ** The backend *)

(** [SingleChainHostError], the cases this file makes. *)
Inductive SingleChainHostError : Set :=
  | Other (msg : string)
  | ChannelError (cause : string)
  | ExecutionError (cause : string).

(** The store behind kona's local inputs: [DiskKeyValueStore::new] or
    [MemoryKeyValueStore::new]. *)
Inductive remote_store : Set :=
  | DiskKeyValueStore (data_dir : string)
  | MemoryKeyValueStore.

(** [SplitKeyValueStore::new(local, remote)]; the local store is
    [SingleChainLocalInputs::new] of the arguments. *)
Record SplitKeyValueStore : Set := {
  local_store : SingleChainHost;
  remote : remote_store;
}.

(** kona's [http_provider(url)] and
    [OnlineBlobProvider::init(OnlineBeaconClient::new_http(url))], by the
    address they are built on. *)
Inductive HttpProvider : Set := http_provider (url : string).
Inductive OnlineBlobProvider : Set := OnlineBlobProvider_init (beacon : string).

Abbreviation HostProviders :=
  (EigenDAChainProviders HttpProvider OnlineBlobProvider HttpProvider).

(** What the preimage server is started on: [OfflineHostBackend::new] or
    [OnlineHostBackend::new] with the hint handler of this repository. *)
Inductive backend : Type :=
  | OfflineHostBackend (kv_store : SplitKeyValueStore)
  | OnlineHostBackend (cfg : EigenDAChainHost) (kv_store : SplitKeyValueStore)
      (providers : HostProviders) (handler : EigenDAChainHintHandler).

(** How a call of [start] ends when it makes no error: it returns, or
    the process exits with a status. *)
Inductive host_end : Set :=
  | Returned
  | Exited (status : Z).

(** What tokio and the operating system give the host: the two
    [BidirectionalChannel::new()] of [start_native]; what awaiting the
    task of a server over the file channels comes to; and what
    [try_join!] of the task of a server and of the task of the client
    program comes to.  A task is named by the backend it serves; it ends
    with its own result, or fails to be joined. *)
Class Runtime := {
  hint_channel : result string unit;
  preimage_channel : result string unit;
  join_server : backend → result string (result SingleChainHostError unit);
  try_join :
    backend → result string (result SingleChainHostError unit * result string unit);
}.

(** [EigenDAChainHost::is_offline] *)
Definition is_offline (self : EigenDAChainHost) : bool :=
  bool_decide (l1_node_address (single_host self) = None)
  && bool_decide (l2_node_address (single_host self) = None)
  && bool_decide (l1_beacon_address (single_host self) = None)
  && bool_decide (is_Some (data_dir (single_host self))).

(** [EigenDAChainHost::create_key_value_store] *)
Definition create_key_value_store (self : EigenDAChainHost)
  : result SingleChainHostError SplitKeyValueStore :=
  let local_kv_store := single_host self in
  Ok (match data_dir (single_host self) with
      | Some data_dir =>
          {| local_store := local_kv_store;
             remote := DiskKeyValueStore data_dir |}
      | None =>
          {| local_store := local_kv_store; remote := MemoryKeyValueStore |}
      end).

(** [EigenDAChainHost::create_providers] *)
Definition create_providers (self : EigenDAChainHost)
  : result SingleChainHostError HostProviders :=
  let? l1_url :=
    ok_or (l1_node_address (single_host self)) (Other "Provider must be set") in
  let l1_provider := http_provider l1_url in
  let? beacon :=
    ok_or (l1_beacon_address (single_host self))
      (Other "Beacon API URL must be set") in
  let blob_provider := OnlineBlobProvider_init beacon in
  let? l2_url :=
    ok_or (l2_node_address (single_host self))
      (Other "L2 node address must be set") in
  let l2_provider := http_provider l2_url in
  let? url :=
    ok_or (cfg_proxy_url (eigen_da_args self))
      (Other "EigenDA Proxy URL must be set") in
  let eigen_da_proxy_client :=
    EigenDAProxy_new url (retrieve_timeout (eigen_da_args self)) in
  let eigen_da_provider := OnlineEigenDAProvider_new eigen_da_proxy_client in
  Ok {| inner_providers :=
          {| sc_l1 := l1_provider; sc_blobs := blob_provider;
             sc_l2 := l2_provider |};
        eigen_da := eigen_da_provider |}.

(** [EigenDAChainHost::start_server], up to the task it spawns. *)
Definition start_server (self : EigenDAChainHost)
  : result SingleChainHostError backend :=
  let? kv_store := create_key_value_store self in
  if is_offline self then Ok (OfflineHostBackend kv_store)
  else
    let? providers := create_providers self in
    Ok (OnlineHostBackend self kv_store providers eigen_da_chain_hint_handler).

(** [EigenDAChainHost::start_native]: the result of the server is
    dropped, and the status is [client_result.is_err() as i32]. *)
Definition start_native `{Runtime} (self : EigenDAChainHost)
  : result SingleChainHostError host_end :=
  let? hint := map_err ChannelError hint_channel in
  let? preimage := map_err ChannelError preimage_channel in
  let? server_task := start_server self in
  let? joined := map_err ExecutionError (try_join server_task) in
  let client_result := joined.2 in
  Ok (Exited (if is_ok client_result then 0 else 1)).

(** [EigenDAChainHost::start]: over the file channels [start] returns
    what the task of the server returns. *)
Definition start `{Runtime} (self : EigenDAChainHost)
  : result SingleChainHostError host_end :=
  if server (single_host self) then
    let? task := start_server self in
    let? served := map_err ExecutionError (join_server task) in
    res_map (λ _, Returned) served
  else start_native self.

(** ** [read_rollup_config] *)

(** The file system and the JSON parser [read_rollup_config] calls:
    [std::fs::read_to_string] and [serde_json::from_str], with the text of
    their errors. *)
Class RollupConfigFiles (RollupConfig : Type) := {
  read_to_string : string → result string string;
  serde_json_from_str : string → result string RollupConfig;
}.

(** [EigenDAChainHost::read_rollup_config]; the error is the message of
    the [anyhow] error. *)
Definition read_rollup_config `{RollupConfigFiles RollupConfig}
    (self : EigenDAChainHost) : result string RollupConfig :=
  let? path :=
    ok_or (rollup_config_path (single_host self))
      "No rollup config path provided. Please provide a path to the rollup config." in
  let? ser_config :=
    map_err (λ e, "Error reading RollupConfig file: " +:+ e)
      (read_to_string path) in
  map_err (λ e, "Error deserializing RollupConfig: " +:+ e)
    (serde_json_from_str ser_config).

(** The providers are set when the three node addresses and the proxy URL
    are given. *)
Definition providers_set (self : EigenDAChainHost) : bool :=
  bool_decide (is_Some (l1_node_address (single_host self)))
  && bool_decide (is_Some (l1_beacon_address (single_host self)))
  && bool_decide (is_Some (l2_node_address (single_host self)))
  && bool_decide (is_Some (cfg_proxy_url (eigen_da_args self))).

(** Arguments of the examples. *)
Definition offline_host : EigenDAChainHost :=
  {| single_host :=
       {| l1_node_address := None; l2_node_address := None;
          l1_beacon_address := None; data_dir := Some "/data";
          server := true; rollup_config_path := None |};
     eigen_da_args :=
       {| cfg_proxy_url := Some "http://proxy"; retrieve_timeout := 120 |} |}.

Definition online_host : EigenDAChainHost :=
  {| single_host :=
       {| l1_node_address := Some "http://l1"; l2_node_address := Some "http://l2";
          l1_beacon_address := Some "http://beacon"; data_dir := None;
          server := false; rollup_config_path := Some "rollup.json" |};
     eigen_da_args :=
       {| cfg_proxy_url := Some "http://proxy"; retrieve_timeout := 120 |} |}.

(** * The parser of the time limit *)

Lemma decimal_from_ge acc s : (0 ≤ acc)%Z → (acc ≤ decimal_from acc s)%Z.
Proof.
  revert acc. induction s as [|c s IH]; intros acc Hacc; cbn; [lia|].
  assert (0 ≤ default 0 (digit_val c))%Z.
  { unfold digit_val. case_bool_decide; cbn; lia. }
  etrans; [|apply IH]; lia.
Qed.

Lemma digit_val_bounds c d : digit_val c = Some d → (0 ≤ d ≤ 9)%Z.
Proof. unfold digit_val. case_bool_decide; intros [= <-]; lia. Qed.

(** [parse_digits] is the reference value under the bound of [u64]. *)
Lemma parse_digits_spec s acc d :
  (0 ≤ acc < u64_modulus)%Z →
  parse_digits acc s = Ok d
  ↔ all_digits s = true ∧ decimal_from acc s = d ∧ (d < u64_modulus)%Z.
Proof.
  revert acc. induction s as [|c s IH]; intros acc Hacc; cbn.
  { split; [intros [= <-]; split_and!; [done|done|lia]|naive_solver]. }
  destruct (digit_val c) as [digit|] eqn:Hc; cbn; [|naive_solver].
  pose proof (digit_val_bounds _ _ Hc).
  case_bool_decide as Hlt; [rewrite IH by lia; naive_solver|].
  pose proof (decimal_from_ge (acc * 10 + digit) s). split; [done|].
  intros (_ & <- & ?). lia.
Qed.

Lemma parse_u64_spec s d :
  parse_u64 s = Ok d
  ↔ strip_plus s ≠ "" ∧ all_digits (strip_plus s) = true
    ∧ decimal_from 0 (strip_plus s) = d ∧ (d < u64_modulus)%Z.
Proof.
  unfold parse_u64. case_bool_decide as Hempty; [subst; naive_solver|].
  case_bool_decide as Hsign.
  { destruct Hsign as [-> | ->]; cbn; naive_solver. }
  rewrite parse_digits_spec by (unfold u64_modulus; lia).
  destruct s as [|c s]; [done|]. cbn. case_bool_decide; naive_solver.
Qed.

(** [parse_duration] accepts the decimal numerals of the 64-bit
    unsigned integers, with one [+] before them at most, and returns the
    number of seconds they denote; everything else is an error. *)
Theorem parse_duration_Ok input d :
  parse_duration input = Ok d
  ↔ strip_plus input ≠ "" ∧ all_digits (strip_plus input) = true
    ∧ decimal_from 0 (strip_plus input) = d ∧ (0 ≤ d < u64_modulus)%Z.
Proof.
  unfold parse_duration. pose proof (decimal_from_ge 0 (strip_plus input)).
  destruct (parse_u64 input) as [n|e] eqn:Hp; cbn.
  - apply parse_u64_spec in Hp. naive_solver lia.
  - split; [done|]. intros (? & ? & ? & ?).
    assert (parse_u64 input = Ok d) as Hd by (apply parse_u64_spec; naive_solver).
    congruence.
Qed.

(** * The backend *)

Lemma create_providers_is_Ok self :
  is_ok (create_providers self) = providers_set self.
Proof.
  by destruct self as [[[l1|] [l2|] [beacon|] ? ? ?] [[url|] ?]].
Qed.

(** The server starts if and only if the host is offline or the
    three node addresses and the proxy URL are given: an offline host needs
    no provider. *)
Theorem start_server_is_Ok self :
  is_ok (start_server self) = is_offline self || providers_set self.
Proof.
  unfold start_server. cbn. destruct (is_offline self); [done|].
  rewrite <-create_providers_is_Ok. by destruct (create_providers self).
Qed.

(** The offline backend runs on the disk store of the data
    directory, never on a store in memory, and the online backend is built
    on the proxy of the arguments with their time limit. *)
Theorem start_server_backend self b :
  start_server self = Ok b →
  match b with
  | OfflineHostBackend kv_store =>
      is_offline self = true
      ∧ ∃ dir, data_dir (single_host self) = Some dir
               ∧ remote kv_store = DiskKeyValueStore dir
  | OnlineHostBackend cfg kv_store providers _ =>
      is_offline self = false ∧ cfg = self
      ∧ ∃ url, cfg_proxy_url (eigen_da_args self) = Some url
               ∧ eigen_da providers
                 = OnlineEigenDAProvider_new
                     (EigenDAProxy_new url
                        (retrieve_timeout (eigen_da_args self)))
  end.
Proof.
  unfold start_server. cbn. destruct (is_offline self) eqn:Hoff.
  - intros [= <-]. split; [done|].
    unfold is_offline in Hoff. rewrite !andb_true_iff in Hoff.
    destruct Hoff as (_ & [dir Hdir]%bool_decide_eq_true).
    exists dir. by rewrite Hdir.
  - destruct (create_providers self) as [p|e] eqn:Hp; [|done].
    intros [= <-]. do 2 (split; [done|]). unfold create_providers in Hp.
    repeat (inv_res; cbn in * ).
    destruct (cfg_proxy_url (eigen_da_args self)) as [url|]; [|done].
    exists url. cbn in *. by simplify_eq.
Qed.

(** The missing arguments of the online backend are reported in
    the order L1 node, beacon, L2 node, proxy: the proxy URL is reported as
    missing only when the three addresses are given. *)
Theorem create_providers_proxy_last self :
  create_providers self = Err (Other "EigenDA Proxy URL must be set")
  ↔ is_Some (l1_node_address (single_host self))
    ∧ is_Some (l1_beacon_address (single_host self))
    ∧ is_Some (l2_node_address (single_host self))
    ∧ cfg_proxy_url (eigen_da_args self) = None.
Proof.
  unfold create_providers, is_Some.
  destruct self as [[[l1|] [l2|] [beacon|] ? ? ?] [[url|] ?]]; cbn;
    naive_solver.
Qed.

(** C36: [start_server] in closed form.  The server starts offline, on the
    disk store of the data directory, exactly when none of the three node
    addresses is given and the data directory is; the arguments of EigenDA
    play no part in that.  It starts online exactly when the three node
    addresses and the proxy URL are given, with the arguments as the
    configuration of the backend, the store on disk or in memory as the
    data directory is given or not, each provider on its address and the
    proxy client on the URL and the time limit of the arguments. *)
Theorem start_server_Ok self b :
  start_server self = Ok b
  ↔ (l1_node_address (single_host self) = None
     ∧ l2_node_address (single_host self) = None
     ∧ l1_beacon_address (single_host self) = None
     ∧ ∃ dir, data_dir (single_host self) = Some dir
         ∧ b = OfflineHostBackend
                 {| local_store := single_host self;
                    remote := DiskKeyValueStore dir |})
    ∨ (∃ l1 beacon l2 url,
         l1_node_address (single_host self) = Some l1
         ∧ l1_beacon_address (single_host self) = Some beacon
         ∧ l2_node_address (single_host self) = Some l2
         ∧ cfg_proxy_url (eigen_da_args self) = Some url
         ∧ b = OnlineHostBackend self
                 {| local_store := single_host self;
                    remote := from_option DiskKeyValueStore MemoryKeyValueStore
                                (data_dir (single_host self)) |}
                 {| inner_providers :=
                      {| sc_l1 := http_provider l1;
                         sc_blobs := OnlineBlobProvider_init beacon;
                         sc_l2 := http_provider l2 |};
                    eigen_da :=
                      OnlineEigenDAProvider_new
                        (EigenDAProxy_new url
                           (retrieve_timeout (eigen_da_args self))) |}
                 eigen_da_chain_hint_handler).
Proof.
  unfold start_server, create_key_value_store, create_providers, is_offline.
  destruct self as [[[l1|] [l2|] [beacon|] [dir|] ? ?] [[url|] ?]]; cbn;
    naive_solver.
Qed.

Section runtime.
Context `{Runtime}.

(** C38: in one process with the client [start] never returns without an
    error: the process exits, with status 1 when the client program
    failed and 0 when it did not, whatever the server returned.  It fails
    when a channel cannot be made, when the server does not start, and when
    a task cannot be joined. *)
Theorem start_native_exits self e :
  start_native self = Ok e
  ↔ hint_channel = Ok tt ∧ preimage_channel = Ok tt
    ∧ ∃ b server_result client_result,
        start_server self = Ok b
        ∧ try_join b = Ok (server_result, client_result)
        ∧ e = Exited (if client_result is Ok _ then 0 else 1).
Proof.
  unfold start_native. split.
  - destruct hint_channel as [[]|?]; cbn [res_bind map_err]; [|done].
    destruct preimage_channel as [[]|?]; cbn [res_bind map_err]; [|done].
    destruct (start_server self) as [b|?]; cbn [res_bind map_err]; [|done].
    destruct (try_join b) as [[sr cr]|?] eqn:Hjoin; cbn [res_bind map_err];
      [|done].
    intros [= <-]. split_and!; [done..|]. exists b, sr, cr. by destruct cr.
  - intros (-> & -> & b & sr & cr & -> & Hjoin & ->). cbn [res_bind map_err].
    rewrite Hjoin. cbn. by destruct cr.
Qed.

End runtime.

(** The rollup configuration is returned when the path is given, the
    file is read and its text is parsed. *)
Lemma read_rollup_config_Ok `{RollupConfigFiles RollupConfig} self cfg :
  read_rollup_config self = Ok cfg
  ↔ ∃ path text,
      rollup_config_path (single_host self) = Some path
      ∧ read_to_string path = Ok text
      ∧ serde_json_from_str text = Ok cfg.
Proof.
  unfold read_rollup_config. split.
  - destruct (rollup_config_path _) as [path|]; cbn; [|done].
    destruct (read_to_string path) as [text|e] eqn:Hr; cbn; [|done].
    destruct (serde_json_from_str text) as [c|e] eqn:Hp; cbn; [|done].
    intros [= <-]. eauto.
  - intros (path & text & -> & Hr & Hp). cbn. rewrite Hr. cbn. by rewrite Hp.
Qed.

Lemma parse_duration_Ok_witness : parse_duration "120" = Ok 120%Z.
Proof. apply parse_duration_Ok. by vm_compute. Defined.

Lemma start_server_backend_witness :
  is_offline offline_host = true
  ∧ ∃ dir, data_dir (single_host offline_host) = Some dir
           ∧ remote {| local_store := single_host offline_host;
                       remote := DiskKeyValueStore "/data" |}
             = DiskKeyValueStore dir.
Proof.
  exact (start_server_backend offline_host
           (OfflineHostBackend
              {| local_store := single_host offline_host;
                 remote := DiskKeyValueStore "/data" |}) eq_refl).
Defined.

(** A runtime whose channels are made and whose tasks end: the server
    with its result once the client is done, the client program with an
    error. *)
Definition failing_client : Runtime := {|
  hint_channel := Ok tt;
  preimage_channel := Ok tt;
  join_server _ := Ok (Ok tt);
  try_join _ := Ok (Ok tt, Err "client failed");
|}.

Lemma start_native_exits_witness :
  start_native (H := failing_client) online_host = Ok (Exited 1).
Proof.
  apply (start_native_exits (H := failing_client)). split_and!; [done..|].
  by eexists _, (Ok tt), (Err "client failed").
Defined.

(** Offline arguments with a proxy URL: the server starts offline. *)
Lemma start_server_Ok_witness :
  start_server offline_host
  = Ok (OfflineHostBackend
          {| local_store := single_host offline_host;
             remote := DiskKeyValueStore "/data" |}).
Proof. apply start_server_Ok. left. split_and!; [done..|]. by eexists. Defined.
