(* ===== verification/Fixtures.v ===== *)
(** * Fixtures: a concrete host

    The instances the examples run on: the store is a finite map, the
    codec is the default one, the digest, the certificate decoder and the
    witness are the stand-ins of [Oracle], and the proxy answers from a
    table.  The commitments below cover the ways the handler ends: a
    certificate that matches its blob, one whose second coordinate is
    wrong, one whose blob encodes to fewer than 64 bytes, one that declares
    too short a length, and one the proxy does not know. *)

From S2P Require Import Prelude Bytes Codec Oracle Hint Proxy Providers Args Host Cfg.
From stdpp Require Import gmap strings.

(** A certificate for a blob: the two coordinates are the first two
    32-byte pieces of the encoded blob, as the handler compares them. *)
Definition cert_of (blob : bytes) (len : Z) : BlobInfo :=
  let enc := default_encode blob in
  {| blob_header := {|
       commitment := {| g1_x := take 32 (enc ++ zeros 64);
                        g1_y := take 32 (drop 32 (enc ++ zeros 64)) |};
       data_length := len |} |}.

(** The commitment of a certificate: three bytes of metadata and the
    certificate. *)
Definition commitment_of (c : BlobInfo) : bytes :=
  [x01; x00; x00] ++ flat_cert_encode c.

Definition blob1 : bytes := replicate 10 xff.
Definition cert1 : BlobInfo := cert_of blob1 2.
Definition commitment1 : bytes := commitment_of cert1.

(** The second coordinate is not that of the blob. *)
Definition cert2 : BlobInfo :=
  {| blob_header := {|
       commitment := {| g1_x := cert_x cert1; g1_y := zeros 32 |};
       data_length := 2 |} |}.
Definition commitment2 : bytes := commitment_of cert2.

(** The empty blob encodes to its 32-byte header. *)
Definition blob3 : bytes := [].
Definition cert3 : BlobInfo := cert_of blob3 1.
Definition commitment3 : bytes := commitment_of cert3.

(** The certificate declares one field element for a blob of two. *)
Definition cert4 : BlobInfo := cert_of blob1 1.
Definition commitment4 : bytes := commitment_of cert4.

(** A commitment the proxy has no blob for. *)
Definition commitment5 : bytes := commitment_of (cert_of [x01] 7).

(** A blob that is a list of two frames, each after its length. *)
Definition blob6 : bytes := [x02; xaa; xbb; x01; xcc].
Definition cert6 : BlobInfo := cert_of blob6 2.
Definition commitment6 : bytes := commitment_of cert6.

Definition proxy1 : EigenDAProxy := EigenDAProxy_new "http://proxy:3100" 120.

#[export] Instance fixture_http : HttpClient :=
  table_http [(request_url proxy1 commitment1, blob1);
              (request_url proxy1 commitment2, blob1);
              (request_url proxy1 commitment3, blob3);
              (request_url proxy1 commitment4, blob1);
              (request_url proxy1 commitment6, blob6)].

(** A handler of the base hints that stores the hint data under the Keccak
    key of its digest. *)
#[export] Instance fixture_standard
  : StandardHandler (gmap bytes bytes) KonaHintType
      HttpProvider OnlineBlobProvider HttpProvider := {|
  single_chain_fetch_hint _ data _ _ :=
    kv_set_m (λ _, "store") (preimage_key (keccak256 data) Keccak256) data;
|}.

(** The arguments of an online host whose proxy is [proxy1], and the
    providers [create_providers] builds from them. *)
Definition cfg1 : EigenDAChainHost :=
  {| single_host := single_host online_host;
     eigen_da_args :=
       {| cfg_proxy_url := Some "http://proxy:3100"; retrieve_timeout := 120 |} |}.

Definition providers1 : HostProviders :=
  EigenDAChainProviders_new
    {| sc_l1 := http_provider "http://l1";
       sc_blobs := OnlineBlobProvider_init "http://beacon";
       sc_l2 := http_provider "http://l2" |}
    (OnlineEigenDAProvider_new proxy1).

(** The handler on a commitment, from a store. *)
Definition run_on (data : bytes) (s : gmap bytes bytes)
  : gmap bytes bytes * result host_error unit :=
  fetch_hint (Hint_new EigenDABlob data) cfg1 providers1 s.

(** A store with one entry that is no key of a certificate. *)
Definition store0 : gmap bytes bytes := {[ [x07] := [x2a] ]}.
