(* ===== verification/HostRuns.v ===== *)
(** * HostRuns: what the hint handler does, run by run

    [fetch_outcome] is the specification of the [EigenDABlob] arm of
    [fetch_hint] as a relation between the store before, the store after
    and the result: one rule for each way the handler ends.  The handler
    refines it ([fetch_eigen_da_blob_outcome]), and the properties of the
    handler follow by inversion of the rules: which entries a successful
    run leaves, which errors leave the store untouched and which do not,
    which keys can change at all, and what the comparison of the commitment
    compares. *)

From S2P Require Import Prelude Bytes Codec Oracle Hint Proxy Providers Args Host Cfg.
From S2P Require Import Fixtures.
From stdpp Require Import strings.

Section runs.
Context {L1 Blobs L2 : Type}.
Context `{KeyValueStore St, Keccak, BlobCodec, CertDecoder, WitnessBuilder,
  HttpClient, BaseHint HintType, StandardHandler St HintType L1 Blobs L2}.
Implicit Types (c : BlobInfo) (blob data k : bytes) (i : Z) (s : St)
  (providers : EigenDAChainProviders L1 Blobs L2) (r : result host_error unit)
  (cfg : EigenDAChainHost).

(** The runs that pass the size assertion, by the step that ends them. *)
Inductive write_outcome c blob s : St → result host_error unit → Prop :=
  | field_write_failed s1 e :
      kv_write_all KvSetFailed (blob_entries c (blob_encode blob)) s
        = (s1, Err e) →
      write_outcome c blob s s1 (Err e)
  | witness_failed s1 e :
      kv_write_all KvSetFailed (blob_entries c (blob_encode blob)) s
        = (s1, Ok tt) →
      push_witness EigenDABlobWitness_new blob = Err e →
      write_outcome c blob s s1 (Err (PushWitnessFailed e))
  | compare_panicked s1 w p :
      kv_write_all KvSetFailed (blob_entries c (blob_encode blob)) s
        = (s1, Ok tt) →
      push_witness EigenDABlobWitness_new blob = Ok w →
      commitment_matches (blob_encode blob) c = Err p →
      write_outcome c blob s s1 (Err (HostPanic (SliceIndex p)))
  | commitment_mismatch s1 w :
      kv_write_all KvSetFailed (blob_entries c (blob_encode blob)) s
        = (s1, Ok tt) →
      push_witness EigenDABlobWitness_new blob = Ok w →
      commitment_matches (blob_encode blob) c = Ok false →
      write_outcome c blob s s1 (Err CommitmentMismatch)
  | witness_written s1 w s' r :
      kv_write_all KvSetFailed (blob_entries c (blob_encode blob)) s
        = (s1, Ok tt) →
      push_witness EigenDABlobWitness_new blob = Ok w →
      commitment_matches (blob_encode blob) c = Ok true →
      kv_write_all KvSetFailed (witness_entries c w) s1 = (s', r) →
      write_outcome c blob s s' r.

(** The runs of the [EigenDABlob] arm. *)
Inductive fetch_outcome providers data s : St → result host_error unit → Prop :=
  | fetch_short :
      length data ≤ 32 →
      fetch_outcome providers data s s (Err InvalidHintDataLength)
  | fetch_failed e :
      32 < length data →
      get_blob (eigen_da providers) data = Err e →
      fetch_outcome providers data s s (Err (FetchBlobFailed e))
  | fetch_undecodable blob e :
      32 < length data →
      get_blob (eigen_da providers) data = Ok blob →
      decode_blob_info (drop 3 data) = Err e →
      fetch_outcome providers data s s (Err (DecodeBlobInfoFailed e))
  | fetch_too_long blob c :
      32 < length data →
      get_blob (eigen_da providers) data = Ok blob →
      decode_blob_info (drop 3 data) = Ok c →
      (32 * data_length (blob_header c)
       < Z.of_nat (length (blob_encode blob)))%Z →
      fetch_outcome providers data s s
        (Err (HostPanic (BlobSizeExceeds
           (Z.of_nat (length (blob_encode blob)))
           (32 * data_length (blob_header c)))))
  | fetch_written blob c s' r :
      32 < length data →
      get_blob (eigen_da providers) data = Ok blob →
      decode_blob_info (drop 3 data) = Ok c →
      (Z.of_nat (length (blob_encode blob))
       ≤ 32 * data_length (blob_header c))%Z →
      write_outcome c blob s s' r →
      fetch_outcome providers data s s' r.

(** The errors raised before the first write. *)
Definition early_error (e : host_error) : bool :=
  match e with
  | InvalidHintDataLength | FetchBlobFailed _ | DecodeBlobInfoFailed _
  | HostPanic (BlobSizeExceeds _ _) => true
  | _ => false
  end.

(** The keys of a certificate: those of its field elements, in order, and
    those of the proof and of the commitment. *)
Definition field_keys c i : list bytes :=
  [preimage_key (keccak256 (lookup_key c i)) Keccak256;
   preimage_key (keccak256 (lookup_key c i)) GlobalGeneric].

Definition host_keys c : list bytes :=
  (seqZ 0 (data_length (blob_header c)) ≫= field_keys c)
  ++ [preimage_key (keccak256 (kzg_proof_key c)) Keccak256;
      preimage_key (keccak256 (kzg_proof_key c)) GlobalGeneric;
      preimage_key (keccak256 (kzg_commitment_key c)) Keccak256;
      preimage_key (keccak256 (kzg_commitment_key c)) GlobalGeneric].

(** * Lemmas *)

(** The comparison of the commitment in closed form. *)
Lemma commitment_matches_spec c blob :
  commitment_matches blob c
  = if bool_decide (length blob < 32) then Err RangeOutOfBounds
    else if bool_decide (take 32 blob ≠ cert_x c) then Ok false
    else if bool_decide (length blob < 64) then Err RangeOutOfBounds
    else Ok (bool_decide (take 32 (drop 32 blob) = cert_y c)).
Proof.
  unfold commitment_matches.
  case_bool_decide as H32.
  { unfold slice_to. by rewrite slice_Err by lia. }
  rewrite slice_to_Ok by lia. cbn [res_bind].
  case_bool_decide as Hx; [done|].
  case_bool_decide as H64.
  { by rewrite slice_Err by lia. }
  by rewrite slice_Ok by lia.
Qed.

Lemma commitment_matches_true c blob :
  commitment_matches blob c = Ok true ↔
  64 ≤ length blob ∧ take 32 blob = cert_x c
  ∧ take 32 (drop 32 blob) = cert_y c.
Proof.
  rewrite commitment_matches_spec.
  repeat case_bool_decide; split; naive_solver lia.
Qed.

Lemma commitment_matches_Err c blob p :
  commitment_matches blob c = Err p → p = RangeOutOfBounds ∧ length blob < 64.
Proof.
  rewrite commitment_matches_spec.
  repeat case_bool_decide; naive_solver lia.
Qed.

Lemma blob_entries_keys c blob :
  (blob_entries c blob).*1 = seqZ 0 (data_length (blob_header c)) ≫= field_keys c.
Proof.
  unfold blob_entries.
  induction (seqZ 0 (data_length (blob_header c))) as [|i l IH]; [done|].
  cbn [mbind list_bind]. by rewrite fmap_app, IH.
Qed.

Lemma host_entries_keys c blob w : (host_entries c blob w).*1 = host_keys c.
Proof. unfold host_entries. by rewrite fmap_app, blob_entries_keys. Qed.

Lemma length_blob_entries c blob :
  length (blob_entries c blob) = 2 * Z.to_nat (data_length (blob_header c)).
Proof.
  unfold blob_entries. rewrite <-(length_seqZ 0 (data_length (blob_header c))).
  induction (seqZ 0 (data_length (blob_header c))) as [|i l IH]; [done|].
  cbn [mbind list_bind]. rewrite length_app, IH. simpl. lia.
Qed.

Lemma field_entry_in c blob i :
  (0 ≤ i < data_length (blob_header c))%Z →
  (field_element_key c i, field_element blob i) ∈ blob_entries c blob.
Proof.
  intros Hi. unfold blob_entries. apply list_elem_of_bind. exists i.
  split; [|by apply elem_of_seqZ_0]. unfold field_entries, field_element_key. cbn zeta. right; left.
Qed.

(** The runs after decoding are those of [write_outcome], or stop at the
    size assertion. *)
Lemma ingest_blob_outcome c blob s s' r :
  ingest_blob c blob s = (s', r) ↔
  if bool_decide (32 * data_length (blob_header c)
                  < Z.of_nat (length (blob_encode blob)))%Z
  then s' = s ∧ r = Err (HostPanic (BlobSizeExceeds
         (Z.of_nat (length (blob_encode blob)))
         (32 * data_length (blob_header c))))
  else write_outcome c blob s s' r.
Proof.
  unfold ingest_blob, lift_slice. case_bool_decide as Hsize.
  { unfold st_fail. naive_solver. }
  unfold st_bind, st_lift. split.
  - intros Hrun. repeat case_match; inv_res;
      repeat match goal with u : unit |- _ => destruct u end;
      eauto using write_outcome.
  - intros Hout. destruct Hout;
      repeat match goal with Heq : _ = _ |- _ => rewrite Heq; clear Heq end;
      done.
Qed.

(** The handler refines the specification: its runs are exactly those of
    [fetch_outcome]. *)
Lemma fetch_eigen_da_blob_outcome providers data s s' r :
  fetch_eigen_da_blob providers data s = (s', r)
  ↔ fetch_outcome providers data s s' r.
Proof.
  rewrite fetch_eigen_da_blob_ingest. unfold ingest, st_fail. split.
  - intros Hrun. case_bool_decide as Hlen.
    { simplify_eq. by constructor. }
    destruct (get_blob _ _) as [blob|e] eqn:Hg.
    2:{ simplify_eq. constructor; [lia|done]. }
    destruct (decode_blob_info _) as [c|e] eqn:Hc.
    2:{ simplify_eq. eapply fetch_undecodable; [lia|done..]. }
    apply ingest_blob_outcome in Hrun. case_bool_decide as Hsize.
    + destruct Hrun as [-> ->]. eapply fetch_too_long; [lia|done..].
    + eapply fetch_written; [lia|done|done|lia|done].
  - intros Hout. destruct Hout;
      repeat match goal with Heq : _ = _ |- _ => rewrite Heq; clear Heq end.
    + by rewrite bool_decide_eq_true_2.
    + by rewrite bool_decide_eq_false_2 by lia.
    + by rewrite bool_decide_eq_false_2 by lia.
    + rewrite bool_decide_eq_false_2 by lia.
      apply ingest_blob_outcome. by rewrite bool_decide_eq_true_2.
    + rewrite bool_decide_eq_false_2 by lia.
      apply ingest_blob_outcome. by rewrite bool_decide_eq_false_2 by lia.
Qed.

(** The store a run of [write_outcome] leaves is the store after a prefix
    of the entries of the certificate. *)
Lemma write_outcome_prefix c blob s s' r :
  write_outcome c blob s s' r →
  ∃ w kvs, kvs `prefix_of` host_entries c blob w ∧ kv_set_all kvs s = Ok s'.
Proof.
  intros Hout. destruct Hout as [s1 e Hw|s1 e Hw|s1 w p Hw|s1 w Hw|s1 w s' r Hw ?? Hw2].
  1-4: apply kv_write_all_prefix in Hw as (kvs & Hp & Hs);
    exists EigenDABlobWitness_new, kvs; split; [|done];
    by apply prefix_app_r.
  apply kv_write_all_Ok in Hw.
  apply kv_write_all_prefix in Hw2 as (kvs & Hp & Hs).
  exists w, (blob_entries c (blob_encode blob) ++ kvs). split.
  - by apply prefix_app.
  - by rewrite kv_set_all_app, Hw.
Qed.

(** A successful run of [write_outcome] has written all entries. *)
Lemma write_outcome_Ok c blob s s' :
  write_outcome c blob s s' (Ok tt) ↔
  ∃ w, push_witness EigenDABlobWitness_new blob = Ok w
    ∧ commitment_matches (blob_encode blob) c = Ok true
    ∧ kv_set_all (host_entries c blob w) s = Ok s'.
Proof.
  split.
  - inversion 1 as [| | | |s1 w ?? Hw Hp Hm Hw2]; subst.
    apply kv_write_all_Ok in Hw, Hw2. exists w. split_and!; [done..|].
    unfold host_entries. by rewrite kv_set_all_app, Hw.
  - intros (w & Hp & Hm & Hs). unfold host_entries in Hs.
    rewrite kv_set_all_app in Hs.
    destruct (kv_set_all (blob_entries _ _) s) as [s1|] eqn:Hs1; [|done].
    eapply witness_written; [|done..|]; by apply kv_write_all_Ok.
Qed.

(** A value paired with a key of the certificate is read back after the
    writes, provided the digests of the keys are distinct. *)
Lemma kv_get_host_entries c blob w s s' k v :
  kv_set_all (host_entries c blob w) s = Ok s' →
  NoDup (host_keys c) → (k, v) ∈ host_entries c blob w →
  kv_get s' k = Some v.
Proof.
  intros Hs Hnd Hin. rewrite (kv_get_set_all _ _ _ _ Hs).
  rewrite (last_write_NoDup _ k v); [done| |done].
  by rewrite host_entries_keys.
Qed.

Lemma field_element_stored c blob w s s' i :
  kv_set_all (host_entries c blob w) s = Ok s' →
  NoDup (host_keys c) → (0 ≤ i < data_length (blob_header c))%Z →
  kv_get s' (field_element_key c i) = Some (field_element (blob_encode blob) i).
Proof.
  intros Hs Hnd Hi. apply (kv_get_host_entries _ _ _ _ _ _ _ Hs Hnd).
  apply elem_of_app. left. by apply field_entry_in.
Qed.

(** The successful runs of the specification. *)
Lemma fetch_outcome_Ok providers data s s' :
  fetch_outcome providers data s s' (Ok tt) ↔
  32 < length data ∧ ∃ blob c w,
    get_blob (eigen_da providers) data = Ok blob
    ∧ decode_blob_info (drop 3 data) = Ok c
    ∧ (Z.of_nat (length (blob_encode blob))
       ≤ 32 * data_length (blob_header c))%Z
    ∧ push_witness EigenDABlobWitness_new blob = Ok w
    ∧ commitment_matches (blob_encode blob) c = Ok true
    ∧ kv_set_all (host_entries c blob w) s = Ok s'.
Proof.
  split.
  - inversion 1 as [| | | |blob c ?? Hlen Hg Hc Hsize Hw]; subst.
    apply write_outcome_Ok in Hw as (w & ? & ? & ?). naive_solver.
  - intros (Hlen & blob & c & w & Hg & Hc & Hsize & Hp & Hm & Hs).
    eapply fetch_written; [done..|]. apply write_outcome_Ok. eauto.
Qed.

(** Every run leaves the store after a prefix of the entries. *)
Lemma fetch_outcome_prefix providers data s s' r :
  fetch_outcome providers data s s' r →
  s' = s ∨ ∃ blob c w kvs,
    get_blob (eigen_da providers) data = Ok blob
    ∧ decode_blob_info (drop 3 data) = Ok c
    ∧ kvs `prefix_of` host_entries c blob w ∧ kv_set_all kvs s = Ok s'.
Proof.
  destruct 1 as [| | | |blob c s' r ???? Hw]; [by left..|right].
  apply write_outcome_prefix in Hw as (w & kvs & ? & ?). naive_solver.
Qed.

(** On an [EigenDABlob] hint, [fetch_hint] is the arm. *)
Lemma fetch_blob_hint_outcome cfg providers data s s' r :
  fetch_hint (Hint_new EigenDABlob data) cfg providers s = (s', r)
  ↔ fetch_outcome providers data s s' r.
Proof. apply fetch_eigen_da_blob_outcome. Qed.

(** A failed write returns the error of the store. *)
Ltac inv_write_errors :=
  repeat match goal with
  | Hf : kv_write_all _ _ _ = (_, Err _) |- _ =>
      apply kv_write_all_Err in Hf as [? ?]
  end; simplify_eq.

(** A run that does not end in the error of a write has written all the
    field elements. *)
Lemma write_outcome_field_elements c blob s s' r :
  write_outcome c blob s s' r →
  (∀ e, r ≠ Err (KvSetFailed e)) →
  (r = Ok tt → False) →
  kv_set_all (blob_entries c (blob_encode blob)) s = Ok s'.
Proof.
  intros Hw Hkv Hok.
  destruct Hw as [?? Hf|?? Hf|??? Hf|?? Hf|???? Hf ?? Hf2];
    try by apply (kv_write_all_Ok KvSetFailed).
  - apply kv_write_all_Err in Hf as [e' ->]. by destruct (Hkv e').
  - destruct r as [[]|e]; [done|].
    apply kv_write_all_Err in Hf2 as [e' ->]. by destruct (Hkv e').
Qed.

(** A run that ends in an early error has made no write. *)
Lemma fetch_outcome_early providers data s s' e :
  fetch_outcome providers data s s' (Err e) → early_error e = true → s' = s.
Proof.
  intros Hrun He.
  inversion Hrun as [| | | |blob c ?? Hlen Hg Hc Hsize Hw]; subst; try done.
  by inversion Hw; subst; inv_write_errors.
Qed.

(** The runs that end in the size assertion. *)
Lemma fetch_outcome_exceeds providers data s s' n m :
  fetch_outcome providers data s s' (Err (HostPanic (BlobSizeExceeds n m))) →
  s' = s
  ∧ ∃ blob c,
      get_blob (eigen_da providers) data = Ok blob
      ∧ decode_blob_info (drop 3 data) = Ok c
      ∧ (32 * data_length (blob_header c)
         < Z.of_nat (length (blob_encode blob)))%Z.
Proof.
  intros Hrun.
  inversion Hrun as [| | |blob c Hlen Hg Hc Hsize|blob c ?? Hlen Hg Hc Hsize Hw];
    subst; [by eauto 10|].
  by inversion Hw; subst; inv_write_errors.
Qed.

(** A run of the specification changes no key outside the keys of the
    certificate. *)
Lemma fetch_outcome_frame providers data s s' r k :
  fetch_outcome providers data s s' r →
  (∀ c, decode_blob_info (drop 3 data) = Ok c → k ∉ host_keys c) →
  kv_get s' k = kv_get s k.
Proof.
  intros Hrun Hk.
  apply fetch_outcome_prefix in Hrun
    as [->|(blob & c & w & kvs & _ & Hc & [rest Hp] & Hs)]; [done|].
  apply (kv_set_all_frame _ _ _ _ Hs). intros Hin. apply (Hk c Hc).
  rewrite <-(host_entries_keys c blob w), Hp, fmap_app.
  apply elem_of_app. by left.
Qed.

(** * The properties of the handler *)

(** C1: [fetch_hint] refines its specification.  A standard hint runs the
    handler of the single-chain host on the same data, with the arguments
    of the single-chain host and the inner providers, and wraps its error
    with the hint type and the data; on an [EigenDABlob] hint the runs of the handler, with the store they
    leave and the result they return, are exactly the runs the rules of
    [fetch_outcome] allow. *)
Theorem fetch_hint_refines hint cfg providers s s' r :
  fetch_hint hint cfg providers s = (s', r) ↔
  match hint_ty hint with
  | Standard h =>
      ∃ res : result string unit,
        single_chain_fetch_hint h (hint_data hint) (single_host cfg)
          (inner_providers providers) s = (s', res)
        ∧ r = map_err (λ err, StandardHintFailed err (hint_type_fmt h)
                               (hint_data hint)) res
  | EigenDABlob => fetch_outcome providers (hint_data hint) s s' r
  end.
Proof.
  unfold fetch_hint. destruct (hint_ty hint) as [h|].
  - unfold st_map_err.
    destruct (single_chain_fetch_hint h (hint_data hint) (single_host cfg)
          (inner_providers providers) s) as [s0 r0].
    naive_solver.
  - apply fetch_eigen_da_blob_outcome.
Qed.

(** C2: the handler succeeds on an [EigenDABlob] hint exactly when the
    hint data is longer than 32 bytes, the proxy returns a blob, the
    certificate decodes, the encoded blob fits the declared length, the
    witness is built, the first 64 bytes of the encoded blob are the
    certificate's coordinates, and every write succeeds; the store it leaves
    is the store after writing the [2 * L + 4] entries of the certificate in
    order. *)
Theorem fetch_hint_Ok cfg providers data s s' :
  fetch_hint (Hint_new EigenDABlob data) cfg providers s = (s', Ok tt) ↔
  32 < length data ∧ ∃ blob c w,
    get_blob (eigen_da providers) data = Ok blob
    ∧ decode_blob_info (drop 3 data) = Ok c
    ∧ (Z.of_nat (length (blob_encode blob))
       ≤ 32 * data_length (blob_header c))%Z
    ∧ push_witness EigenDABlobWitness_new blob = Ok w
    ∧ commitment_matches (blob_encode blob) c = Ok true
    ∧ kv_set_all (host_entries c blob w) s = Ok s'.
Proof.
  by rewrite fetch_blob_hint_outcome, fetch_outcome_Ok.
Qed.

(** C7: after a successful run, every index below the certificate's
    length has its lookup key stored under the Keccak key of its digest and
    its field element of the encoded blob, zero-padded to 32 bytes, stored
    under the generic key of the same digest, provided the keys of the
    certificate are pairwise distinct. *)
Theorem fetch_hint_field_element cfg providers data s s' blob c i :
  fetch_hint (Hint_new EigenDABlob data) cfg providers s = (s', Ok tt) →
  get_blob (eigen_da providers) data = Ok blob →
  decode_blob_info (drop 3 data) = Ok c →
  NoDup (host_keys c) →
  (0 ≤ i < data_length (blob_header c))%Z →
  kv_get s' (preimage_key (keccak256 (lookup_key c i)) Keccak256)
    = Some (lookup_key c i)
  ∧ kv_get s' (field_element_key c i)
    = Some (field_element (blob_encode blob) i).
Proof.
  intros Hrun%fetch_blob_hint_outcome%fetch_outcome_Ok Hg Hc Hnd Hi.
  destruct Hrun as (_ & blob' & c' & w & ? & ? & _ & _ & _ & Hs).
  replace blob' with blob in Hs by congruence.
  replace c' with c in Hs by congruence.
  split; apply (kv_get_host_entries _ _ _ _ _ _ _ Hs Hnd);
    apply elem_of_app; left; apply list_elem_of_bind; exists i;
    (split; [|by apply elem_of_seqZ_0]); [left|right; left].
Qed.

(** C8: a run that ends in [CommitmentMismatch] has written the field
    elements before it compared: the store it leaves is the store after all
    [2 * L] field-element entries, so the error does not leave the store as
    it was. *)
Theorem mismatch_keeps_field_elements cfg providers data s s' :
  fetch_hint (Hint_new EigenDABlob data) cfg providers s
    = (s', Err CommitmentMismatch) →
  ∃ blob c,
    get_blob (eigen_da providers) data = Ok blob
    ∧ decode_blob_info (drop 3 data) = Ok c
    ∧ commitment_matches (blob_encode blob) c = Ok false
    ∧ kv_set_all (blob_entries c (blob_encode blob)) s = Ok s'.
Proof.
  intros Hrun%fetch_blob_hint_outcome.
  inversion Hrun as [| | | |blob c ?? Hlen Hg Hc Hsize Hw]; subst.
  exists blob, c. split_and!; [done..| |].
  - by inversion Hw; subst; inv_write_errors.
  - by apply (write_outcome_field_elements _ _ _ _ _ Hw).
Qed.

(** The errors raised before the first write (the length of the hint
    data, the fetch from the proxy, the decoding of the certificate, the
    size assertion) leave the store as it was. *)
Theorem early_error_no_write cfg providers data s s' e :
  fetch_hint (Hint_new EigenDABlob data) cfg providers s = (s', Err e) →
  early_error e = true → s' = s.
Proof.
  intros Hrun%fetch_blob_hint_outcome He. by eapply fetch_outcome_early.
Qed.

(** Whatever the outcome, a run changes no key outside the keys of the
    certificate in the hint: every other key reads as before. *)
Theorem fetch_hint_frame cfg providers data s s' r k :
  fetch_hint (Hint_new EigenDABlob data) cfg providers s = (s', r) →
  (∀ c, decode_blob_info (drop 3 data) = Ok c → k ∉ host_keys c) →
  kv_get s' k = kv_get s k.
Proof.
  intros Hrun%fetch_blob_hint_outcome Hk. by eapply fetch_outcome_frame.
Qed.

(** When the same hint is handled again after a success and the second
    run succeeds too, for a proxy that answers as before, the store reads
    the same under every key as after the first. *)
Theorem fetch_hint_idempotent cfg providers data s s1 s2 :
  fetch_hint (Hint_new EigenDABlob data) cfg providers s = (s1, Ok tt) →
  fetch_hint (Hint_new EigenDABlob data) cfg providers s1 = (s2, Ok tt) →
  store_equiv s2 s1.
Proof.
  intros (_ & blob & c & w & ? & ? & _ & ? & _ & Hs1)
           %fetch_blob_hint_outcome%fetch_outcome_Ok
         (_ & blob' & c' & w' & ? & ? & _ & ? & _ & Hs2)
           %fetch_blob_hint_outcome%fetch_outcome_Ok.
  replace blob' with blob in Hs2 by congruence.
  replace c' with c in Hs2 by congruence.
  replace w' with w in Hs2 by congruence.
  by eapply kv_set_all_idempotent.
Qed.

(** C24: the only slice operation of the handler that can be out of range
    is the comparison of the commitment, on an encoded blob shorter than 64
    bytes; it is reached after the field elements are written. *)
Theorem slice_panic_only_in_comparison cfg providers data s s' p :
  fetch_hint (Hint_new EigenDABlob data) cfg providers s
    = (s', Err (HostPanic (SliceIndex p))) →
  ∃ blob c,
    get_blob (eigen_da providers) data = Ok blob
    ∧ decode_blob_info (drop 3 data) = Ok c
    ∧ (p = RangeOutOfBounds ∧ length (blob_encode blob) < 64)
    ∧ kv_set_all (blob_entries c (blob_encode blob)) s = Ok s'.
Proof.
  intros Hrun%fetch_blob_hint_outcome.
  inversion Hrun as [| | | |blob c ?? Hlen Hg Hc Hsize Hw]; subst.
  exists blob, c. do 2 (split; [done|]). split.
  - inversion Hw; subst; inv_write_errors.
    by eapply commitment_matches_Err.
  - by apply (write_outcome_field_elements _ _ _ _ _ Hw).
Qed.

(** C25: what a successful run has checked of the certificate: its two
    coordinates are the first two 32-byte pieces of the encoded blob.  The
    witness the handler built takes no part in the comparison. *)
Theorem fetch_hint_Ok_commitment cfg providers data s s' :
  fetch_hint (Hint_new EigenDABlob data) cfg providers s = (s', Ok tt) →
  ∃ blob c,
    get_blob (eigen_da providers) data = Ok blob
    ∧ decode_blob_info (drop 3 data) = Ok c
    ∧ cert_x c = take 32 (blob_encode blob)
    ∧ cert_y c = take 32 (drop 32 (blob_encode blob)).
Proof.
  intros (_ & blob & c & w & ? & ? & _ & _ & Hm & _)
    %fetch_blob_hint_outcome%fetch_outcome_Ok.
  apply commitment_matches_true in Hm as (_ & ? & ?). by exists blob, c.
Qed.

(** A successful run makes two writes for each index below the
    certificate's length and four more for the proof and the commitment. *)
Lemma length_host_entries c blob w :
  length (host_entries c blob w)
  = 2 * Z.to_nat (data_length (blob_header c)) + 4.
Proof.
  unfold host_entries. by rewrite length_app, length_blob_entries.
Qed.

(** Under one certificate two 64-bit indices that differ have lookup
    keys that differ: the index is the last eight bytes of the key, so no
    field element is written over the key of another before hashing. *)
Theorem lookup_key_ne c i j :
  is_u64 i → is_u64 j → i ≠ j → lookup_key c i ≠ lookup_key c j.
Proof.
  intros Hi Hj Hne Heq%app_inv_head. by apply Hne, to_be_bytes_inj.
Qed.

End runs.

Lemma lookup_key_ne_witness : lookup_key cert1 0 ≠ lookup_key cert1 1.
Proof.
  apply lookup_key_ne; [by vm_compute|by vm_compute|lia].
Defined.

(** * The properties on the concrete host of [Fixtures] *)

Lemma fetch_hint_Ok_witness :
  ∃ blob c w,
    get_blob (eigen_da providers1) commitment1 = Ok blob
    ∧ decode_blob_info (drop 3 commitment1) = Ok c
    ∧ kv_set_all (host_entries c blob w) store0
      = Ok (run_on commitment1 store0).1.
Proof.
  destruct (proj1 (fetch_hint_Ok cfg1 providers1 commitment1 store0
                     (run_on commitment1 store0).1))
    as (_ & blob & c & w & Hg & Hc & _ & _ & _ & Hs); [eval_run|].
  by exists blob, c, w.
Defined.

Lemma fetch_hint_field_element_witness :
  kv_get (run_on commitment1 store0).1
    (preimage_key (keccak256 (lookup_key cert1 1)) Keccak256)
    = Some (lookup_key cert1 1)
  ∧ kv_get (run_on commitment1 store0).1 (field_element_key cert1 1)
    = Some (field_element (blob_encode blob1) 1).
Proof.
  apply (fetch_hint_field_element cfg1 providers1 commitment1 store0
           (run_on commitment1 store0).1 blob1 cert1 1);
    [eval_run|by vm_compute..| |by vm_compute].
  apply (bool_decide_unpack _). by vm_compute.
Defined.

Lemma mismatch_keeps_field_elements_witness :
  ∃ blob c,
    get_blob (eigen_da providers1) commitment2 = Ok blob
    ∧ decode_blob_info (drop 3 commitment2) = Ok c
    ∧ commitment_matches (blob_encode blob) c = Ok false
    ∧ kv_set_all (blob_entries c (blob_encode blob)) store0
      = Ok (run_on commitment2 store0).1.
Proof.
  apply (mismatch_keeps_field_elements cfg1 providers1 commitment2 store0).
  eval_run.
Defined.

Lemma early_error_no_write_witness : (run_on commitment4 store0).1 = store0.
Proof.
  apply (early_error_no_write cfg1 providers1 commitment4 store0 _
           (HostPanic (BlobSizeExceeds 64 32))); [eval_run|done].
Defined.

Lemma fetch_hint_frame_witness :
  kv_get (run_on commitment2 store0).1 [x07] = kv_get store0 [x07].
Proof.
  apply (fetch_hint_frame cfg1 providers1 commitment2 store0 _
           (Err CommitmentMismatch)); [eval_run|].
  intros c Hc. vm_compute in Hc. injection Hc as <-.
  apply (bool_decide_unpack _). by vm_compute.
Defined.

Lemma fetch_hint_idempotent_witness :
  store_equiv (run_on commitment1 (run_on commitment1 store0).1).1
              (run_on commitment1 store0).1.
Proof.
  apply (fetch_hint_idempotent cfg1 providers1 commitment1 store0); eval_run.
Defined.

Lemma slice_panic_only_in_comparison_witness :
  ∃ blob c,
    get_blob (eigen_da providers1) commitment3 = Ok blob
    ∧ decode_blob_info (drop 3 commitment3) = Ok c
    ∧ (RangeOutOfBounds = RangeOutOfBounds ∧ length (blob_encode blob) < 64)
    ∧ kv_set_all (blob_entries c (blob_encode blob)) store0
      = Ok (run_on commitment3 store0).1.
Proof.
  apply (slice_panic_only_in_comparison cfg1 providers1 commitment3 store0).
  eval_run.
Defined.

Lemma fetch_hint_Ok_commitment_witness :
  ∃ blob c,
    get_blob (eigen_da providers1) commitment1 = Ok blob
    ∧ decode_blob_info (drop 3 commitment1) = Ok c
    ∧ cert_x c = take 32 (blob_encode blob)
    ∧ cert_y c = take 32 (drop 32 (blob_encode blob)).
Proof.
  apply (fetch_hint_Ok_commitment cfg1 providers1 commitment1 store0
           (run_on commitment1 store0).1).
  eval_run.
Defined.
