(* ===== verification/Client.v ===== *)
(** * Client: the oracle-backed provider of [src/crates/oracle/src/provider.rs]

    [blob_get] is [OracleEigenDaProvider::blob_get]: it sends the hint,
    checks the length of the commitment, decodes the certificate, reads one
    field element for each index from the oracle into its slot of a zeroed
    buffer, and decodes the buffer.  The oracle is the interface
    [CommsClient]; its state is threaded through the reads in the order the
    code makes them.  [unwrap] and the slice operations panic: a panic is
    an error of its own kind here.

    [reconstruct] is the reference: the guards, then the reads of the keys
    of the certificate in order, concatenated, then the decoder.
    [blob_get_reconstruct] proves that the code is the reference. *)

From S2P Require Import Prelude Bytes Codec Oracle Hint Host Fixtures.
From stdpp Require Import strings.

(** ** Errors *)

(** What the message of [PreimageOracleError::Other] says. *)
Inductive other_cause : Set :=
  | DoesNotContainHeader
  | FieldElementIsEmpty
  | DecodeFailed (err : BlobDecodingError)
  | OtherMessage (msg : string).

(** [kona_preimage::errors::PreimageOracleError] *)
Inductive PreimageOracleError : Set :=
  | OracleOther (cause : other_cause)
  | BufferLengthMismatch (expected actual : nat)
  | KeyNotFound
  | OracleIOError (msg : string).

(** [kona_proof::errors::OracleProviderError] *)
Inductive OracleProviderError : Set :=
  | Preimage (e : PreimageOracleError).

(** The panics of [blob_get]. *)
Inductive client_panic : Set :=
  | UnwrapFailed (e : cert_error)
  | ClientSliceIndex (p : slice_panic).

Inductive client_error : Set :=
  | ProviderError (e : OracleProviderError)
  | ClientPanic (p : client_panic).

#[export] Instance other_cause_eq_dec : EqDecision other_cause.
Proof. solve_decision. Defined.
#[export] Instance PreimageOracleError_eq_dec : EqDecision PreimageOracleError.
Proof. solve_decision. Defined.
#[export] Instance OracleProviderError_eq_dec : EqDecision OracleProviderError.
Proof. solve_decision. Defined.

(** The conversion [?] applies to an error of the oracle. *)
Definition preimage_err (e : PreimageOracleError) : client_error :=
  ProviderError (Preimage e).

(** ** The oracle

    [kona_preimage::CommsClient]: [write] of the hint channel and
    [get_exact] of the preimage channel, which fills a buffer of the given
    length or fails. *)
Class CommsClient (Ch : Type) := {
  oracle_write : string → stE Ch PreimageOracleError unit;
  oracle_get_exact : bytes → nat → stE Ch PreimageOracleError bytes;
  oracle_get_exact_length key n o o' buf :
    oracle_get_exact key n o = (o', Ok buf) → length buf = n;
}.
#[global] Hint Mode CommsClient ! : typeclass_instances.

(** An executable oracle: it logs the hints written to it and answers
    reads from a table. *)
Definition table_get_exact (table : list (bytes * bytes)) (key : bytes)
    (n : nat) : stE (list string) PreimageOracleError bytes :=
  λ log,
    match list_find (λ e, e.1 = key) table with
    | Some (_, e) =>
        if bool_decide (length e.2 = n) then (log, Ok e.2)
        else (log, Err (BufferLengthMismatch (length e.2) n))
    | None => (log, Err KeyNotFound)
    end.

Lemma table_get_exact_length table key n log log' buf :
  table_get_exact table key n log = (log', Ok buf) → length buf = n.
Proof.
  unfold table_get_exact. destruct (list_find _ table) as [[? e]|]; [|done].
  case_bool_decide; [|done]. by intros [= _ <-].
Qed.

Definition table_oracle (table : list (bytes * bytes))
  : CommsClient (list string) := {|
  oracle_write hint := λ log, (log ++ [hint], Ok tt);
  oracle_get_exact := table_get_exact table;
  oracle_get_exact_length := table_get_exact_length table;
|}.

Section client.
Context `{CommsClient Ch, Keccak, BlobCodec, CertDecoder, BaseHint HintType}.

(** [Hint::send] *)
Definition Hint_send (hint : Hint HintType)
  : stE Ch PreimageOracleError unit :=
  oracle_write (Hint_encode hint).

Definition client_slice {A} (r : result slice_panic A) : stE Ch client_error A :=
  st_lift (map_err (λ p, ClientPanic (ClientSliceIndex p)) r).

(** [let mut blob_key = [0u8; 96]] with the two coordinates copied in. *)
Definition client_blob_key (c : BlobInfo) : result slice_panic bytes :=
  let blob_key := zeros 96 in
  let? blob_key := copy_from_slice blob_key 0 32 (cert_x c) in
  copy_from_slice blob_key 32 64 (cert_y c).

(** The body of [for i in 0..data_length], on the key buffer and the
    blob buffer. *)
Definition read_field_element (bufs : bytes * bytes) (i : Z)
  : stE Ch client_error (bytes * bytes) :=
  let blob_key := bufs.1 in
  let blob := bufs.2 in
  let! blob_key := client_slice (copy_from_slice blob_key 88 96 (to_be_bytes i)) in
  let field_element := zeros 32 in
  let! field_element :=
    st_map_err preimage_err
      (oracle_get_exact (preimage_key (keccak256 blob_key) GlobalGeneric)
         (length field_element)) in
  if bool_decide (length field_element = 0) then
    st_fail (preimage_err (OracleOther FieldElementIsEmpty))
  else
    let! blob := client_slice
      (copy_from_slice blob (Z.to_nat (usize_shl i 5))
         (Z.to_nat (usize_shl (usize_add i 1) 5)) field_element) in
    st_ret (blob_key, blob).

(** [OracleEigenDaProvider::blob_get] *)
Definition blob_get (commitment : bytes) : stE Ch client_error bytes :=
  let encoded := [] ++ commitment in
  let hint := Hint_new EigenDABlob encoded in
  let! _ := st_map_err preimage_err (Hint_send hint) in
  if bool_decide (length commitment ≤ 32 + 3) then
    st_fail (preimage_err (OracleOther DoesNotContainHeader))
  else
    let! cert_bytes := client_slice (slice_from commitment 3) in
    let! cert_blob_info :=
      st_lift (map_err (λ e, ClientPanic (UnwrapFailed e))
                 (decode_blob_info cert_bytes)) in
    let blob := zeros (Z.to_nat
      (usize_mul (data_length (blob_header cert_blob_info))
         (Z.of_nat BYTES_PER_FIELD_ELEMENT))) in
    let! blob_key := client_slice (client_blob_key cert_blob_info) in
    let data_length := data_length (blob_header cert_blob_info) in
    let! bufs := for_each read_field_element (seqZ 0 data_length)
                   (blob_key, blob) in
    let eigenda_blob_data := bufs.2 in
    st_lift (map_err (λ err, preimage_err (OracleOther (DecodeFailed err)))
               (blob_decode eigenda_blob_data)).

(** ** The reference *)

(** The body of the loop without the test for an empty field element. *)
Definition read_field_element_unchecked (bufs : bytes * bytes) (i : Z)
  : stE Ch client_error (bytes * bytes) :=
  let! blob_key := client_slice (copy_from_slice bufs.1 88 96 (to_be_bytes i)) in
  let! field_element :=
    st_map_err preimage_err
      (oracle_get_exact (preimage_key (keccak256 blob_key) GlobalGeneric) 32) in
  let! blob := client_slice
    (copy_from_slice bufs.2 (Z.to_nat (usize_shl i 5))
       (Z.to_nat (usize_shl (usize_add i 1) 5)) field_element) in
  st_ret (blob_key, blob).

(** The keys the client reads, in order. *)
Definition client_keys (c : BlobInfo) : list bytes :=
  field_element_key c <$> seqZ 0 (data_length (blob_header c)).

(** Reading 32 bytes under each key in order and concatenating them. *)
Fixpoint read_all (keys : list bytes) : stE Ch PreimageOracleError bytes :=
  match keys with
  | [] => st_ret []
  | key :: keys =>
      let! v := oracle_get_exact key 32 in
      let! rest := read_all keys in
      st_ret (v ++ rest)
  end.

Definition reconstruct (commitment : bytes) : stE Ch client_error bytes :=
  let! _ := st_map_err preimage_err
              (oracle_write (Hint_encode (HintType := HintType)
                               (Hint_new EigenDABlob commitment))) in
  if bool_decide (length commitment ≤ 35) then
    st_fail (preimage_err (OracleOther DoesNotContainHeader))
  else
    match decode_blob_info (drop 3 commitment) with
    | Err e => st_fail (ClientPanic (UnwrapFailed e))
    | Ok c =>
        let! blob := st_map_err preimage_err (read_all (client_keys c)) in
        st_lift (map_err (λ err, preimage_err (OracleOther (DecodeFailed err)))
                   (blob_decode blob))
    end.

(** * Lemmas *)

Implicit Types (c : BlobInfo) (blob bk commitment : bytes) (i n : Z) (o : Ch).

Lemma client_blob_key_spec c :
  cert_wf c → client_blob_key c = Ok (key_base c ++ zeros 8).
Proof. apply build_blob_key_spec. Qed.

(** Every read returns 32 bytes for each key. *)
Lemma length_read_all keys o o' v :
  read_all keys o = (o', Ok v) → length v = 32 * length keys.
Proof.
  revert o o' v. induction keys as [|key keys IH]; intros o o' v; simpl.
  { by intros [= _ <-]. }
  unfold st_bind, st_ret.
  destruct (oracle_get_exact key 32 o) as [o1 [v1|e]] eqn:Hget; [|done].
  destruct (read_all keys o1) as [o2 [v2|e]] eqn:Hrest; [|done].
  intros [= _ <-]. rewrite length_app, (IH _ _ _ Hrest).
  rewrite (oracle_get_exact_length _ _ _ _ _ Hget). lia.
Qed.

(** Replacing one 32-byte slot and then the slots after it. *)
Lemma splice_slots blob (a m : nat) v vs :
  length v = 32 → a + 32 ≤ length blob →
  let blob1 := take a blob ++ v ++ drop (a + 32) blob in
  take (a + 32) blob1 ++ vs ++ drop (a + 32 + m) blob1
  = take a blob ++ (v ++ vs) ++ drop (a + 32 + m) blob.
Proof.
  intros Hv Ha blob1. unfold blob1.
  rewrite (app_assoc (take a blob) v).
  rewrite take_app_length' by (rewrite length_app, length_take; lia).
  rewrite drop_app_ge by (rewrite length_app, length_take; lia).
  rewrite length_app, length_take, drop_drop, <-!app_assoc.
  repeat f_equal. lia.
Qed.

(** One iteration reads the field element of its index into its slot. *)
Lemma read_field_element_spec c bk blob i o :
  cert_wf c → length bk = 96 → take 88 bk = key_base c →
  (0 ≤ i < u32_max)%Z → (32 * i + 32 ≤ Z.of_nat (length blob))%Z →
  read_field_element (bk, blob) i o
  = (let! v := st_map_err preimage_err
                 (oracle_get_exact (field_element_key c i) 32) in
     st_ret (lookup_key c i,
             take (Z.to_nat (32 * i)) blob ++ v
             ++ drop (Z.to_nat (32 * i) + 32) blob)) o.
Proof.
  intros Hwf Hl Hb Hi Hlen. unfold read_field_element, client_slice.
  cbn [fst snd]. rewrite (copy_index_spec c) by done.
  cbn [map_err]. rewrite st_bind_lift_Ok, length_zeros.
  unfold st_bind at 1 3, st_map_err, field_element_key.
  destruct (oracle_get_exact _ 32 o) as [o1 [v|e]] eqn:Hget; [|done].
  pose proof (oracle_get_exact_length _ _ _ _ _ Hget) as Hv. cbn [map_err].
  rewrite bool_decide_eq_false_2 by lia.
  rewrite usize_add_small by (unfold u32_max, u64_modulus in *; lia).
  rewrite !usize_shl_5 by (unfold is_u32; lia).
  rewrite copy_from_slice_Ok by lia.
  cbn [map_err]. rewrite st_bind_lift_Ok. unfold st_ret. repeat f_equal. lia.
Qed.

(** The loop over the indices [n, n + m) fills their slots with what the
    oracle returns for their keys and leaves the rest of the buffer. *)
Lemma read_loop_spec c (m : nat) n bk blob o :
  cert_wf c → length bk = 96 → take 88 bk = key_base c →
  (0 ≤ n)%Z → (n + Z.of_nat m ≤ u32_max)%Z →
  (32 * (n + Z.of_nat m) ≤ Z.of_nat (length blob))%Z →
  (let! bufs := for_each read_field_element (seqZ n (Z.of_nat m)) (bk, blob) in
   st_ret bufs.2) o
  = (let! vs := st_map_err preimage_err
                  (read_all (field_element_key c <$> seqZ n (Z.of_nat m))) in
     st_ret (take (Z.to_nat (32 * n)) blob ++ vs
             ++ drop (Z.to_nat (32 * n) + 32 * m) blob)) o.
Proof.
  intros Hwf. revert n bk blob o.
  induction m as [|m IH]; intros n bk blob o Hl Hb Hn Hm Hlen.
  { rewrite seqZ_nil by lia. cbn.
    by rewrite Nat.add_0_r, take_drop. }
  rewrite seqZ_cons by lia. cbn [for_each fmap list_fmap read_all].
  replace (Z.pred (Z.of_nat (S m))) with (Z.of_nat m) by lia.
  rewrite st_bind_assoc, st_bind_map_err_bind.
  rewrite (st_bind_cong _ _ _ _ (read_field_element_spec c bk blob n o
             Hwf Hl Hb ltac:(lia) ltac:(lia))).
  rewrite st_bind_assoc.
  apply st_bind_ext_Ok; intros v o1 Hv%st_map_err_Ok%oracle_get_exact_length.
  rewrite st_bind_ret, st_bind_map_err_bind.
  rewrite IH; [|by apply length_lookup_key|by apply take_88_lookup_key|lia..|].
  2:{ rewrite !length_app, length_take, length_drop. lia. }
  apply st_bind_ext; intros vs o2. rewrite st_bind_map_err_ret.
  replace (Z.to_nat (32 * Z.succ n)) with (Z.to_nat (32 * n) + 32) by lia.
  rewrite splice_slots by lia. unfold st_ret. do 5 f_equal. lia.
Qed.

(** The whole loop, from the zeroed buffer: what reaches the decoder is
    what the oracle returned, concatenated. *)
Lemma read_slots_spec c {A} (k : bytes → stE Ch client_error A) o :
  cert_wf c →
  (let! bufs := for_each read_field_element
                  (seqZ 0 (data_length (blob_header c)))
                  (key_base c ++ zeros 8,
                   zeros (Z.to_nat (usize_mul (data_length (blob_header c))
                                      (Z.of_nat BYTES_PER_FIELD_ELEMENT)))) in
   k bufs.2) o
  = (let! blob := st_map_err preimage_err (read_all (client_keys c)) in
     k blob) o.
Proof.
  intros Hwf. pose proof Hwf as (_ & _ & HL).
  rewrite usize_mul_32 by done. unfold is_u32 in HL.
  set (L := data_length (blob_header c)) in *.
  transitivity
    (st_bind (let! bufs := for_each read_field_element (seqZ 0 L)
                (key_base c ++ zeros 8, zeros (Z.to_nat (32 * L))) in
              st_ret bufs.2) k o); [by rewrite st_bind_assoc|].
  unshelve epose proof (read_loop_spec c (Z.to_nat L) 0 (key_base c ++ zeros 8)
    (zeros (Z.to_nat (32 * L))) o Hwf _ _ _ _ _) as Hloop.
  { by rewrite length_app, length_key_base, length_zeros. }
  { by rewrite take_app_length' by (by rewrite length_key_base). }
  { done. }
  { lia. }
  { rewrite length_zeros. lia. }
  rewrite Z2Nat.id in Hloop by lia.
  rewrite (st_bind_cong _ _ _ _ Hloop), st_bind_assoc.
  apply st_bind_ext_Ok; intros vs o2 Hvs%st_map_err_Ok%length_read_all.
  rewrite st_bind_ret. f_equal.
  by rewrite drop_ge, app_nil_r by (rewrite length_zeros; lia).
Qed.

(** [blob_get] is the reference. *)
Lemma blob_get_reconstruct commitment o :
  blob_get commitment o = reconstruct commitment o.
Proof.
  unfold blob_get, reconstruct, Hint_send, client_slice. rewrite app_nil_l.
  apply st_bind_ext; intros _ o1.
  change (32 + 3) with 35.
  case_bool_decide as Hlen; [done|].
  rewrite slice_from_Ok by lia. cbn [map_err]. rewrite st_bind_lift_Ok.
  destruct (decode_blob_info (drop 3 commitment)) as [c|e] eqn:Hc; [|done].
  pose proof (decode_blob_info_wf _ _ Hc) as Hwf.
  cbn [map_err]. rewrite st_bind_lift_Ok.
  rewrite client_blob_key_spec by done. cbn [map_err]. rewrite st_bind_lift_Ok.
  by apply (read_slots_spec c (λ blob, st_lift (map_err
    (λ err, preimage_err (OracleOther (DecodeFailed err)))
    (blob_decode blob)))).
Qed.

(** * The properties of the client *)

(** C6: [blob_get] returns a blob exactly when the hint is written, the
    commitment is longer than 35 bytes, the certificate decodes, the
    oracle returns 32 bytes for each key of the certificate in order, and
    their concatenation decodes to the blob; the oracle is left as the
    last read left it. *)
Theorem blob_get_Ok commitment o o' blob :
  blob_get commitment o = (o', Ok blob) ↔
  ∃ o1 c vs,
    oracle_write (Hint_encode (HintType := HintType)
                    (Hint_new EigenDABlob commitment)) o = (o1, Ok tt)
    ∧ 35 < length commitment
    ∧ decode_blob_info (drop 3 commitment) = Ok c
    ∧ read_all (client_keys c) o1 = (o', Ok vs)
    ∧ blob_decode vs = Ok blob.
Proof.
  rewrite blob_get_reconstruct. unfold reconstruct.
  unfold st_bind, st_map_err, st_fail, st_lift. split.
  - destruct (oracle_write _ o) as [o1 [[]|e]]; cbn [map_err]; [|done].
    case_bool_decide as Hlen; [done|].
    destruct (decode_blob_info _) as [c|e]; [|done].
    destruct (read_all _ o1) as [o2 [vs|e]] eqn:Hr; cbn [map_err]; [|done].
    destruct (blob_decode vs) as [b|e] eqn:Hd; cbn [map_err]; [|done].
    intros [= <- <-]. exists o1, c, vs. split_and!; [done|lia|done..].
  - intros (o1 & c & vs & -> & Hlen & -> & Hr & Hd). cbn [map_err].
    rewrite bool_decide_eq_false_2 by lia. rewrite Hr. cbn [map_err].
    by rewrite Hd.
Qed.

(** C28: no slice operation of [blob_get] is out of range: the key
    buffer, the slots of the blob buffer and the index arithmetic are in
    bounds for every certificate the decoder returns; the only panic is
    the [unwrap] of the decoder. *)
Theorem blob_get_no_slice_panic commitment o o' p :
  blob_get commitment o ≠ (o', Err (ClientPanic (ClientSliceIndex p))).
Proof.
  rewrite blob_get_reconstruct. unfold reconstruct.
  unfold st_bind, st_map_err, st_fail, st_lift.
  destruct (oracle_write _ o) as [o1 [[]|e]]; cbn [map_err]; [|done].
  case_bool_decide; [done|].
  destruct (decode_blob_info _) as [c|e]; [|done].
  destruct (read_all _ o1) as [o2 [vs|e]]; cbn [map_err]; [|done].
  by destruct (blob_decode vs).
Qed.

(** C29: a commitment longer than 35 bytes whose certificate does not
    decode makes [blob_get] panic, after the hint is written. *)
Theorem blob_get_unwrap_panics commitment o o1 e :
  oracle_write (Hint_encode (HintType := HintType)
                  (Hint_new EigenDABlob commitment)) o = (o1, Ok tt) →
  35 < length commitment →
  decode_blob_info (drop 3 commitment) = Err e →
  blob_get commitment o = (o1, Err (ClientPanic (UnwrapFailed e))).
Proof.
  intros Hw Hlen Hc. rewrite blob_get_reconstruct. unfold reconstruct.
  unfold st_bind, st_map_err. rewrite Hw. cbn [map_err].
  rewrite bool_decide_eq_false_2 by lia. by rewrite Hc.
Qed.

(** C30: the test for an empty field element never fires: the buffer has
    32 bytes, so the body of the loop is the body without the test. *)
Theorem field_element_check_dead bufs i o :
  read_field_element bufs i o = read_field_element_unchecked bufs i o.
Proof.
  unfold read_field_element, read_field_element_unchecked.
  apply st_bind_ext; intros blob_key o1. rewrite length_zeros.
  apply st_bind_ext_Ok; intros v o2 Hv%st_map_err_Ok%oracle_get_exact_length.
  by rewrite bool_decide_eq_false_2 by lia.
Qed.

End client.

(** * The client on a table

    The table holds the two field elements of the blob of [Fixtures] under
    the keys of its certificate. *)

#[local] Instance fixture_table_oracle : CommsClient (list string) :=
  table_oracle
    ((λ i, (field_element_key cert1 i, field_element (blob_encode blob1) i))
     <$> seqZ 0 2).

Lemma blob_get_Ok_witness :
  blob_get (HintType := KonaHintType) commitment1 []
  = ([Hint_encode (HintType := KonaHintType)
        (Hint_new EigenDABlob commitment1)], Ok blob1).
Proof.
  apply blob_get_Ok.
  exists [Hint_encode (HintType := KonaHintType)
            (Hint_new EigenDABlob commitment1)], cert1,
         (blob_encode blob1).
  split_and!; [done|vm_compute; lia|by vm_compute..].
Defined.

Lemma blob_get_unwrap_panics_witness :
  blob_get (HintType := KonaHintType) (replicate 40 x01) []
  = ([Hint_encode (HintType := KonaHintType)
        (Hint_new EigenDABlob (replicate 40 x01))],
     Err (ClientPanic (UnwrapFailed RlpDecodeFailed))).
Proof.
  apply (blob_get_unwrap_panics (replicate 40 x01) []);
    [done|vm_compute; lia|by vm_compute].
Defined.
