(* ===== verification/Server.v ===== *)
(** * Server: the host as the oracle of the client

    The client and the host talk over two channels.  On the hint channel
    the client writes the text of a hint ([Hint::encode]); the host parses
    it ([Hint::from_str]) and keeps it as the last hint.  On the preimage
    channel the client asks for a key; the host answers from the store and,
    when the key is missing, runs [fetch_hint] on the last hint and looks
    again.  The channels and this backend are kona's; they are modelled
    from their description, around the handler [Host.fetch_hint] of this
    repository.

    The loop of the backend retries while the key is missing and the
    handler returns.  The model bounds the retries by [rounds] and then
    answers [KeyNotFound]; the theorems that a read succeeds hold for
    every bound of at least one, so they hold for the unbounded loop.  A
    panic of the handler ends the loop and the task of the server: the
    read is answered with [task_ended].  The state of the server does not
    record that its task has ended, so a run of the model is a run of the
    program up to the first answer [task_ended]. *)

From S2P Require Import Prelude Bytes Codec Oracle Hint Proxy Providers Args Host Cfg.
From S2P Require Import Client.
From Stdlib Require Import Strings.Ascii.
From stdpp Require Import strings.

(** ** The text of a hint *)

(** [s.split(' ')] *)
Fixpoint split_space (s : string) : list string :=
  match s with
  | String.EmptyString => [String.EmptyString]
  | String.String c s =>
      if Ascii.eqb c " "%char then String.EmptyString :: split_space s
      else match split_space s with
           | [] => [String.String c String.EmptyString]
           | w :: ws => String.String c w :: ws
           end
  end.

Fixpoint no_space (s : string) : bool :=
  match s with
  | String.EmptyString => true
  | String.String c s => negb (Ascii.eqb c " "%char) && no_space s
  end.

(** [hex::decode] accepts the prefix [0x]. *)
Definition strip_0x (s : string) : string :=
  match s with
  | String.String "0"%char (String.String "x"%char rest) => rest
  | _ => s
  end.

Section server.
Context {L1 Blobs L2 : Type}.
Context `{KeyValueStore St, Keccak, BlobCodec, CertDecoder, WitnessBuilder,
  HttpClient, BaseHint HintType, StandardHandler St HintType L1 Blobs L2}.

(** [impl FromStr for Hint]: two parts separated by one space, the tag
    and the payload in hexadecimal. *)
Definition Hint_from_str (s : string)
  : result HintParsingError (Hint HintType) :=
  match split_space s with
  | [ty; data] =>
      let? hint_type := from_str ty in
      let? hint_data := ok_or (hex_decode (strip_0x data))
                          (HintParsingError_msg "invalid hex") in
      Ok (Hint_new hint_type hint_data)
  | _ => Err (HintParsingError_msg "Invalid hint format")
  end.

(** The state of the backend: the store and the last hint. *)
Record server : Type := {
  server_kv : St;
  last_hint : option (Hint HintType);
}.

Context (cfg : EigenDAChainHost)
  (providers : EigenDAChainProviders L1 Blobs L2) (rounds : nat).

(** [route_hint]: a hint that parses replaces the last hint. *)
Definition route_hint (hint : string) : stE server HintParsingError unit :=
  λ sv,
    match Hint_from_str hint with
    | Err e => (sv, Err e)
    | Ok parsed_hint =>
        ({| server_kv := server_kv sv; last_hint := Some parsed_hint |},
         Ok tt)
    end.

(** What the client reads once the task of the server has ended. *)
Definition task_ended : PreimageOracleError :=
  OracleIOError "preimage server task ended".

(** The retries of [get_preimage]: run the handler on the last hint; when
    it returns an error, try again; when it succeeds, look the key up
    again.  A panic of the handler is not an error it returns: it unwinds
    through [get_preimage] and ends the task of the server, with the writes
    made so far in the store. *)
Fixpoint retry (n : nat) (key : bytes) (sv : server)
  : server * result PreimageOracleError bytes :=
  match n with
  | 0 => (sv, Err KeyNotFound)
  | S n =>
      match last_hint sv with
      | None => retry n key sv
      | Some hint =>
          let '(kv, value) := fetch_hint hint cfg providers (server_kv sv) in
          let sv' := {| server_kv := kv; last_hint := last_hint sv |} in
          match value with
          | Err (HostPanic _) => (sv', Err task_ended)
          | Err _ => retry n key sv'
          | Ok _ =>
              match kv_get kv key with
              | Some preimage => (sv', Ok preimage)
              | None => retry n key sv'
              end
          end
      end
  end.

(** [get_preimage] *)
Definition get_preimage (key : bytes) : stE server PreimageOracleError bytes :=
  λ sv,
    match kv_get (server_kv sv) key with
    | Some preimage => (sv, Ok preimage)
    | None => retry rounds key sv
    end.

(** What the client sees of a write to the hint channel: the host
    acknowledges the hint whether it could route it or not. *)
Definition server_write (hint : string) : stE server PreimageOracleError unit :=
  λ sv, ((route_hint hint sv).1, Ok tt).

(** What the client sees of [get_exact]: the preimage when it has the
    length of the buffer. *)
Definition server_get_exact (key : bytes) (n : nat)
  : stE server PreimageOracleError bytes :=
  let! preimage := get_preimage key in
  if bool_decide (length preimage = n) then st_ret preimage
  else st_fail (BufferLengthMismatch (length preimage) n).

Lemma server_get_exact_length key n sv sv' buf :
  server_get_exact key n sv = (sv', Ok buf) → length buf = n.
Proof.
  unfold server_get_exact, st_bind.
  destruct (get_preimage key sv) as [sv1 [v|e]]; [|done].
  case_bool_decide; [|done]. by intros [= _ <-].
Qed.

(** The host is an oracle for the client. *)
Definition host_oracle : CommsClient server := {|
  oracle_write := server_write;
  oracle_get_exact := server_get_exact;
  oracle_get_exact_length := server_get_exact_length;
|}.

(** * Lemmas *)

Implicit Types (s : string) (sv : server) (key : bytes).

Lemma split_space_no_space s : no_space s = true → split_space s = [s].
Proof.
  induction s as [|c s IH]; [done|]. cbn.
  destruct (Ascii.eqb c " "%char); [done|]. cbn. by intros ->%IH.
Qed.

Lemma split_space_app s1 s2 :
  no_space s1 = true →
  split_space (s1 +:+ " " +:+ s2) = s1 :: split_space s2.
Proof.
  induction s1 as [|c s1 IH]; [done|]. simpl.
  destruct (Ascii.eqb c " "%char); [done|]. simpl.
  intros Hns. by rewrite (IH Hns).
Qed.

Lemma no_space_hex_encode (bs : bytes) : no_space (hex_encode bs) = true.
Proof.
  induction bs as [|b bs IH]; [done|]. cbn [hex_encode no_space].
  rewrite IH, !andb_true_r.
  pose proof (byte_to_Z_range b) as Hb.
  assert (0 ≤ byte_to_Z b `div` 16 < 16)%Z as Hhi
    by (split; [apply Z.div_pos|apply Z.div_lt_upper_bound]; lia).
  assert (0 ≤ byte_to_Z b `mod` 16 < 16)%Z as Hlo
    by (apply Z.mod_pos_bound; lia).
  apply hex_val_digit in Hhi, Hlo.
  destruct (Ascii.eqb_spec (hex_digit (byte_to_Z b `div` 16)) " "%char)
    as [Heq|_]; [by rewrite Heq in Hhi|].
  destruct (Ascii.eqb_spec (hex_digit (byte_to_Z b `mod` 16)) " "%char)
    as [Heq|_]; [by rewrite Heq in Hlo|done].
Qed.

(** The text of a hint parses to the hint. *)
Lemma Hint_from_str_encode (h : Hint HintType) :
  tag_free (HintType := HintType) → no_space (fmt (hint_ty h)) = true →
  Hint_from_str (Hint_encode h) = Ok h.
Proof.
  intros Hfree Hns. unfold Hint_from_str, Hint_encode.
  change (" 0x" +:+ ?s) with (" " +:+ ("0x" +:+ s)).
  rewrite split_space_app by done.
  rewrite split_space_no_space by (cbn; apply no_space_hex_encode).
  assert (from_str (fmt (hint_ty h)) = Ok (hint_ty h)) as ->.
  { destruct (hint_ty h) as [ty|]; simpl.
    - apply from_str_standard, hint_type_from_str_fmt.
    - by apply from_str_eigen_da_blob. }
  change (strip_0x ("0x" +:+ ?s)) with s. rewrite hex_decode_encode.
  by destruct h.
Qed.

Lemma get_preimage_hit key sv v :
  kv_get (server_kv sv) key = Some v → get_preimage key sv = (sv, Ok v).
Proof. unfold get_preimage. by intros ->. Qed.

(** A missing key is served after one run of the handler that succeeds
    and stores it. *)
Lemma get_preimage_fetch key sv hint kv v :
  0 < rounds →
  kv_get (server_kv sv) key = None →
  last_hint sv = Some hint →
  fetch_hint hint cfg providers (server_kv sv) = (kv, Ok tt) →
  kv_get kv key = Some v →
  get_preimage key sv
  = ({| server_kv := kv; last_hint := Some hint |}, Ok v).
Proof.
  intros Hr Hmiss Hh Hrun Hget. unfold get_preimage. rewrite Hmiss.
  destruct rounds as [|n]; [lia|]. cbn [retry].
  by rewrite Hh, Hrun, Hget.
Qed.

End server.

Arguments server : clear implicits.
