(* ===== verification/EndToEnd.v ===== *)
(** * EndToEnd: the client reads back what the host stored

    The client of [Client] runs against the host of [Server]: it writes the
    hint, the host keeps it; the first read misses the store, the host runs
    [fetch_hint], and every read is then served from the store.  What the
    client decodes is the encoded blob, padded with zeros to the declared
    length, so that [blob_get] returns the blob the proxy returned. *)

From S2P Require Import Prelude Bytes Codec Oracle Hint Proxy Providers Args Host Cfg.
From S2P Require Import Fixtures HostRuns Client Server.
From stdpp Require Import strings gmap.

Section end_to_end.
Context {L1 Blobs L2 : Type}.
Context `{KeyValueStore St, Keccak, BlobCodec, CertDecoder, WitnessBuilder,
  HttpClient, BaseHint HintType, StandardHandler St HintType L1 Blobs L2}.
Context (cfg : EigenDAChainHost)
  (providers : EigenDAChainProviders L1 Blobs L2) (rounds : nat).

#[local] Instance end_to_end_oracle : CommsClient (server St HintType) :=
  host_oracle cfg providers rounds.

Implicit Types (c : BlobInfo) (blob commitment key : bytes) (i : Z) (s : St)
  (sv : server St HintType).

(** The field elements of a blob, concatenated, are the blob padded with
    zeros. *)
Lemma concat_field_elements blob (n : nat) :
  mjoin (field_element blob <$> seqZ 0 (Z.of_nat n))
  = take (32 * n) blob ++ zeros (32 * n - length blob).
Proof.
  induction n as [|n IH]; [done|].
  replace (Z.of_nat (S n)) with (Z.of_nat n + 1)%Z by lia.
  rewrite seqZ_snoc, fmap_app, join_app, IH by lia.
  cbn [fmap list_fmap mjoin list_join].
  rewrite app_nil_r, Z.add_0_l. unfold field_element.
  replace (Z.to_nat (32 * Z.of_nat n)) with (32 * n) by lia.
  destruct (decide (length blob ≤ 32 * n)) as [Hle|Hgt].
  - rewrite !(take_ge blob), drop_ge, app_nil_l, take_zeros by lia.
    rewrite <-app_assoc, <-zeros_add. do 2 f_equal. lia.
  - replace (32 * n - length blob) with 0 by lia.
    change (zeros 0) with (@nil byte). rewrite app_nil_r.
    destruct (decide (32 * S n ≤ length blob)) as [Hin|Hout].
    + rewrite take_app_le by (rewrite length_drop; lia).
      rewrite take_take_drop.
      replace (32 * S n - length blob) with 0 by lia.
      change (zeros 0) with (@nil byte). rewrite app_nil_r. f_equal. lia.
    + rewrite take_app_ge by (rewrite length_drop; lia).
      rewrite length_drop, take_zeros, app_assoc, take_drop.
      rewrite (take_ge blob) by lia. do 2 f_equal. lia.
Qed.

Lemma concat_field_elements_padded blob (len : Z) :
  (Z.of_nat (length blob) ≤ 32 * len)%Z →
  mjoin (field_element blob <$> seqZ 0 len)
  = blob ++ zeros (Z.to_nat (32 * len) - length blob).
Proof.
  intros Hlen. rewrite <-(Z2Nat.id len) at 1 by lia.
  rewrite concat_field_elements, take_ge by lia. do 2 f_equal. lia.
Qed.

(** Reads of keys the store holds return their values and leave the
    host as it is. *)
Lemma read_all_hits sv (keys : list bytes) (vals : list bytes) :
  Forall2 (λ key v, kv_get (server_kv sv) key = Some v ∧ length v = 32)
    keys vals →
  read_all keys sv = (sv, Ok (mjoin vals)).
Proof.
  induction 1 as [|key v keys vals [Hget Hlen] _ IH]; [done|].
  cbn [read_all]. unfold st_bind at 1. cbn [oracle_get_exact end_to_end_oracle
    host_oracle]. unfold server_get_exact, st_bind at 1.
  rewrite (get_preimage_hit _ _ _ _ _ _ Hget).
  rewrite bool_decide_eq_true_2 by done. cbn [st_ret].
  unfold st_bind. by rewrite IH.
Qed.

(** The first read runs the handler; the others are served from the
    store. *)
Lemma read_all_after_fetch c blob w commitment s s' lh :
  0 < rounds →
  (0 < data_length (blob_header c))%Z →
  kv_get s (field_element_key c 0) = None →
  fetch_hint (Hint_new EigenDABlob commitment) cfg providers s = (s', Ok tt) →
  kv_set_all (host_entries c blob w) s = Ok s' →
  NoDup (host_keys c) →
  lh = Some (Hint_new EigenDABlob commitment) →
  read_all (client_keys c) {| server_kv := s; last_hint := lh |}
  = ({| server_kv := s'; last_hint := lh |},
     Ok (mjoin (field_element (blob_encode blob)
                <$> seqZ 0 (data_length (blob_header c))))).
Proof.
  intros Hr HL Hmiss Hrun Hs Hnd ->. unfold client_keys.
  rewrite seqZ_cons by lia. cbn [fmap list_fmap read_all mjoin].
  unfold st_bind at 1. cbn [oracle_get_exact end_to_end_oracle host_oracle].
  unfold server_get_exact, st_bind at 1.
  rewrite (get_preimage_fetch cfg providers rounds (field_element_key c 0)
             {| server_kv := s;
                last_hint := Some (Hint_new EigenDABlob commitment) |}
             (Hint_new EigenDABlob commitment) s'
             (field_element (blob_encode blob) 0) Hr Hmiss eq_refl Hrun)
    by (apply (field_element_stored _ _ _ _ _ _ Hs Hnd); lia).
  rewrite bool_decide_eq_true_2 by apply length_field_element.
  cbn [st_ret]. unfold st_bind.
  rewrite (read_all_hits _ _ (field_element (blob_encode blob)
     <$> seqZ (Z.succ 0) (Z.pred (data_length (blob_header c))))); [done|].
  apply Forall2_fmap, Forall_Forall2_diag, Forall_forall.
  intros i Hi%elem_of_seqZ. split; [|apply length_field_element].
  apply (field_element_stored _ _ _ _ _ _ Hs Hnd). lia.
Qed.

(** Writing the hint records it and is acknowledged. *)
Lemma write_hint_recorded commitment sv :
  tag_free (HintType := HintType) →
  oracle_write (Hint_encode (HintType := HintType)
                  (Hint_new EigenDABlob commitment)) sv
  = ({| server_kv := server_kv sv;
        last_hint := Some (Hint_new EigenDABlob commitment) |}, Ok tt).
Proof.
  intros Hfree. cbn [oracle_write end_to_end_oracle host_oracle].
  unfold server_write, route_hint. by rewrite Hint_from_str_encode.
Qed.

(** The client returns the blob whose field elements the host serves for
    the keys of the certificate. *)
Lemma blob_get_of_reads commitment blob c sv sv' :
  tag_free (HintType := HintType) →
  35 < length commitment →
  decode_blob_info (drop 3 commitment) = Ok c →
  (Z.of_nat (length (blob_encode blob)) ≤ 32 * data_length (blob_header c))%Z →
  (Z.of_nat (length blob) ≤ u32_max)%Z →
  read_all (client_keys c)
    {| server_kv := server_kv sv;
       last_hint := Some (Hint_new EigenDABlob commitment) |}
  = (sv', Ok (mjoin (field_element (blob_encode blob)
                     <$> seqZ 0 (data_length (blob_header c))))) →
  blob_get (HintType := HintType) commitment sv = (sv', Ok blob).
Proof.
  intros Hfree Hlen Hc Hsize Hu32 Hreads.
  rewrite blob_get_reconstruct. unfold reconstruct.
  unfold st_bind at 1, st_map_err at 1. rewrite write_hint_recorded by done.
  cbn [map_err]. rewrite bool_decide_eq_false_2 by lia. rewrite Hc.
  unfold st_bind, st_map_err. rewrite Hreads.
  cbn [map_err]. rewrite concat_field_elements_padded by done.
  unfold st_lift. by rewrite decode_encode_padded.
Qed.

(** A store that holds the field elements of a blob under the keys of a
    certificate serves the client: no run of the handler is needed. *)
Lemma blob_get_served commitment blob c sv :
  tag_free (HintType := HintType) →
  35 < length commitment →
  decode_blob_info (drop 3 commitment) = Ok c →
  (Z.of_nat (length (blob_encode blob)) ≤ 32 * data_length (blob_header c))%Z →
  (Z.of_nat (length blob) ≤ u32_max)%Z →
  (∀ i, (0 ≤ i < data_length (blob_header c))%Z →
        kv_get (server_kv sv) (field_element_key c i)
        = Some (field_element (blob_encode blob) i)) →
  blob_get (HintType := HintType) commitment sv
  = ({| server_kv := server_kv sv;
        last_hint := Some (Hint_new EigenDABlob commitment) |}, Ok blob).
Proof.
  intros Hfree Hlen Hc Hsize Hu32 Hheld.
  apply (blob_get_of_reads commitment blob c); [done..|].
  apply read_all_hits, Forall2_fmap, Forall_Forall2_diag, Forall_forall.
  intros i Hi%elem_of_seqZ. split; [|apply length_field_element].
  apply Hheld. lia.
Qed.

(** A store that misses the first field element and on which the handler
    writes the entries of the certificate serves the client after one run
    of the handler. *)
Lemma blob_get_fetched commitment blob c w s s' lh :
  0 < rounds →
  tag_free (HintType := HintType) →
  35 < length commitment →
  decode_blob_info (drop 3 commitment) = Ok c →
  (Z.of_nat (length blob) ≤ u32_max)%Z →
  NoDup (host_keys c) →
  kv_get s (field_element_key c 0) = None →
  fetch_hint (Hint_new EigenDABlob commitment) cfg providers s = (s', Ok tt) →
  (Z.of_nat (length (blob_encode blob)) ≤ 32 * data_length (blob_header c))%Z →
  64 ≤ length (blob_encode blob) →
  kv_set_all (host_entries c blob w) s = Ok s' →
  blob_get (HintType := HintType) commitment
    {| server_kv := s; last_hint := lh |}
  = ({| server_kv := s';
        last_hint := Some (Hint_new EigenDABlob commitment) |}, Ok blob).
Proof.
  intros Hr Hfree Hlen Hc Hu32 Hnd Hmiss Hrun Hsize H64 Hs.
  apply (blob_get_of_reads commitment blob c); [done..|].
  by apply (read_all_after_fetch c blob w commitment s s'); [|lia|..].
Qed.

(** What a successful run of the handler on a commitment has established,
    for the blob of the proxy and the certificate of the commitment. *)
Lemma fetch_hint_Ok_facts commitment blob c s s' :
  get_blob (eigen_da providers) commitment = Ok blob →
  decode_blob_info (drop 3 commitment) = Ok c →
  fetch_hint (Hint_new EigenDABlob commitment) cfg providers s = (s', Ok tt) →
  (Z.of_nat (length (blob_encode blob)) ≤ 32 * data_length (blob_header c))%Z
  ∧ 64 ≤ length (blob_encode blob)
  ∧ ∃ w, kv_set_all (host_entries c blob w) s = Ok s'.
Proof.
  intros Hg Hc
    (_ & blob' & c' & w & ? & ? & Hsize & _ & Hm & Hs)
      %fetch_blob_hint_outcome%fetch_outcome_Ok.
  replace blob' with blob in * by congruence.
  replace c' with c in * by congruence.
  apply commitment_matches_true in Hm as (H64 & _). eauto.
Qed.

(** * The properties of the composition *)

(** C3: the client reads back the blob the host ingested.  From a store
    that does not hold the first field element of the certificate, when the
    handler succeeds on the hint, [blob_get] returns the blob the proxy
    returned for the commitment, and leaves the host with the store the
    handler left; one round of the handler is enough. *)
Theorem blob_get_after_fetch_hint commitment blob c s s' lh :
  0 < rounds →
  tag_free (HintType := HintType) →
  35 < length commitment →
  get_blob (eigen_da providers) commitment = Ok blob →
  decode_blob_info (drop 3 commitment) = Ok c →
  (Z.of_nat (length blob) ≤ u32_max)%Z →
  NoDup (host_keys c) →
  kv_get s (field_element_key c 0) = None →
  fetch_hint (Hint_new EigenDABlob commitment) cfg providers s = (s', Ok tt) →
  blob_get (HintType := HintType) commitment
    {| server_kv := s; last_hint := lh |}
  = ({| server_kv := s';
        last_hint := Some (Hint_new EigenDABlob commitment) |}, Ok blob).
Proof.
  intros Hr Hfree Hlen Hg Hc Hu32 Hnd Hmiss Hrun.
  destruct (fetch_hint_Ok_facts commitment blob c s s')
    as (Hsize & H64 & w & Hs); [done..|].
  by apply (blob_get_fetched commitment blob c w s s').
Qed.

(** A store the handler has filled serves the client again without
    the proxy: after a successful run, [blob_get] on the same commitment
    returns the blob and leaves the store as it is, whatever the last hint
    was. *)
Theorem blob_get_replay commitment blob c s s' lh :
  tag_free (HintType := HintType) →
  35 < length commitment →
  get_blob (eigen_da providers) commitment = Ok blob →
  decode_blob_info (drop 3 commitment) = Ok c →
  (Z.of_nat (length blob) ≤ u32_max)%Z →
  NoDup (host_keys c) →
  fetch_hint (Hint_new EigenDABlob commitment) cfg providers s = (s', Ok tt) →
  blob_get (HintType := HintType) commitment
    {| server_kv := s'; last_hint := lh |}
  = ({| server_kv := s';
        last_hint := Some (Hint_new EigenDABlob commitment) |}, Ok blob).
Proof.
  intros Hfree Hlen Hg Hc Hu32 Hnd Hrun.
  destruct (fetch_hint_Ok_facts commitment blob c s s')
    as (Hsize & _ & w & Hs); [done..|].
  apply (blob_get_served commitment blob c); try done.
  intros i Hi. by apply (field_element_stored _ _ _ _ _ _ Hs Hnd).
Qed.

(** C9: a blob the handler rejected is served all the same.  After a
    run that ended in [CommitmentMismatch] the store holds the field
    elements, and [blob_get] on that store returns the blob: the client
    does not see that the comparison failed. *)
Theorem blob_get_after_mismatch commitment blob c s s' lh :
  tag_free (HintType := HintType) →
  35 < length commitment →
  get_blob (eigen_da providers) commitment = Ok blob →
  decode_blob_info (drop 3 commitment) = Ok c →
  (Z.of_nat (length blob) ≤ u32_max)%Z →
  NoDup (host_keys c) →
  fetch_hint (Hint_new EigenDABlob commitment) cfg providers s
    = (s', Err CommitmentMismatch) →
  blob_get (HintType := HintType) commitment
    {| server_kv := s'; last_hint := lh |}
  = ({| server_kv := s';
        last_hint := Some (Hint_new EigenDABlob commitment) |}, Ok blob).
Proof.
  intros Hfree Hlen Hg Hc Hu32 Hnd Hrun%fetch_blob_hint_outcome.
  inversion Hrun as [| | | |blob' c' ?? _ Hg' Hc' Hsize Hw]; subst.
  replace blob' with blob in * by congruence.
  replace c' with c in * by congruence.
  apply (write_outcome_field_elements _ _ _ _ _) in Hw as Hs; [|done..].
  apply (blob_get_served commitment blob c); try done.
  intros i Hi. cbn [server_kv]. rewrite (kv_get_set_all _ _ _ _ Hs).
  rewrite (last_write_NoDup _ _ (field_element (blob_encode blob) i));
    [done| |by apply field_entry_in].
  rewrite blob_entries_keys. apply NoDup_app in Hnd as (Hnd & _). done.
Qed.

(** C26: the client sends the hint before it checks the commitment: on a
    commitment of at most 35 bytes [blob_get] fails, and the host has
    recorded the hint. *)
Theorem blob_get_short_commitment commitment sv :
  tag_free (HintType := HintType) →
  length commitment ≤ 35 →
  blob_get (HintType := HintType) commitment sv
  = ({| server_kv := server_kv sv;
        last_hint := Some (Hint_new EigenDABlob commitment) |},
     Err (preimage_err (OracleOther DoesNotContainHeader))).
Proof.
  intros Hfree Hlen. rewrite blob_get_reconstruct. unfold reconstruct.
  unfold st_bind, st_map_err. rewrite write_hint_recorded by done.
  cbn [map_err]. by rewrite bool_decide_eq_true_2.
Qed.

(** When the handler fails before its first write, a missing key is not
    served.  On an error the handler returns (the proxy has no blob, the
    certificate does not decode) every retry runs it again, and for a proxy
    that answers as before it fails as before: the bounded loop runs out.
    On the panic for a blob that is too long the task of the server ends
    with the first run. *)
Lemma retry_never_serves n key commitment (s s' : St) e :
  fetch_hint (Hint_new EigenDABlob commitment) cfg providers s = (s', Err e) →
  early_error e = true →
  retry cfg providers (S n) key
    {| server_kv := s; last_hint := Some (Hint_new EigenDABlob commitment) |}
  = ({| server_kv := s;
        last_hint := Some (Hint_new EigenDABlob commitment) |},
     Err (if e is HostPanic _ then task_ended else KeyNotFound)).
Proof.
  intros Hrun He.
  assert (s' = s) as ->
    by (apply fetch_blob_hint_outcome in Hrun; by eapply fetch_outcome_early).
  induction n as [|n IH].
  - cbn [retry last_hint server_kv]. rewrite Hrun. by destruct e.
  - remember (S n) as m eqn:Hm. cbn [retry last_hint server_kv].
    rewrite Hrun. by destruct e.
Qed.

End end_to_end.

(** * The composition on the concrete host of [Fixtures] *)

#[local] Instance fixture_oracle
  : CommsClient (server (gmap bytes bytes) KonaHintType) :=
  end_to_end_oracle cfg1 providers1 1.

Lemma blob_get_after_fetch_hint_witness :
  blob_get (HintType := KonaHintType) commitment1
    {| server_kv := store0; last_hint := None |}
  = ({| server_kv := (run_on commitment1 store0).1;
        last_hint := Some (Hint_new EigenDABlob commitment1) |}, Ok blob1).
Proof.
  apply (blob_get_after_fetch_hint cfg1 providers1 1 commitment1 blob1 cert1);
    [lia|apply kona_tag_free|vm_compute; lia|by vm_compute..| | |eval_run].
  - apply (bool_decide_unpack _). by vm_compute.
  - by vm_compute.
Defined.

Lemma blob_get_replay_witness :
  blob_get (HintType := KonaHintType) commitment1
    {| server_kv := (run_on commitment1 store0).1; last_hint := None |}
  = ({| server_kv := (run_on commitment1 store0).1;
        last_hint := Some (Hint_new EigenDABlob commitment1) |}, Ok blob1).
Proof.
  apply (blob_get_replay cfg1 providers1 1 commitment1 blob1 cert1 store0);
    [apply kona_tag_free|vm_compute; lia|by vm_compute..| |eval_run].
  apply (bool_decide_unpack _). by vm_compute.
Defined.

Lemma blob_get_after_mismatch_witness :
  blob_get (HintType := KonaHintType) commitment2
    {| server_kv := (run_on commitment2 store0).1; last_hint := None |}
  = ({| server_kv := (run_on commitment2 store0).1;
        last_hint := Some (Hint_new EigenDABlob commitment2) |}, Ok blob1).
Proof.
  apply (blob_get_after_mismatch cfg1 providers1 1 commitment2 blob1 cert2 store0);
    [apply kona_tag_free|vm_compute; lia|by vm_compute..| |eval_run].
  apply (bool_decide_unpack _). by vm_compute.
Defined.

Lemma blob_get_short_commitment_witness :
  blob_get (HintType := KonaHintType) (replicate 33 x01)
    {| server_kv := store0; last_hint := None |}
  = ({| server_kv := store0;
        last_hint := Some (Hint_new EigenDABlob (replicate 33 x01)) |},
     Err (preimage_err (OracleOther DoesNotContainHeader))).
Proof.
  apply (blob_get_short_commitment cfg1 providers1 1 (replicate 33 x01)
           {| server_kv := store0; last_hint := None |});
    [apply kona_tag_free|vm_compute; lia].
Defined.

Lemma retry_never_serves_witness :
  retry cfg1 providers1 5 [x00]
    {| server_kv := store0;
       last_hint := Some (Hint_new EigenDABlob commitment5) |}
  = ({| server_kv := store0;
        last_hint := Some (Hint_new EigenDABlob commitment5) |},
     Err KeyNotFound).
Proof.
  apply (retry_never_serves cfg1 providers1 4 [x00] commitment5 store0
           (run_on commitment5 store0).1
           (FetchBlobFailed (RetrieveFramesFromDaIndexer NotFound)));
    [eval_run|done].
Defined.
