(* ===== verification/Source.v ===== *)
(** * Source: the data source of [src/crates/eigenda/src/derive/eigenda.rs]

    [EigenDASource] turns the transactions of an L1 block into frames.  It
    scans the transactions in order ([data_from_eigen_da]): a transaction
    to the batcher inbox, signed by the batcher, contributes the frame of
    its calldata, or the frames of the EigenDA blob its calldata refers to,
    or, when it is a blob transaction without calldata, the hashes of its
    blobs with their index in the block.  [load_blobs] fetches the blobs of
    these hashes and appends their frames, and opens the source; [next]
    loads once and then hands the frames out one by one until [Eof];
    [clear] closes the source.

    The source is a state machine on the record [EigenDASource]: the three
    providers (whose own state the calls may change), the frames left and
    the flag [open].  The providers, the signature recovery, the protobuf
    and RLP decoders and kona's [BlobData] are interfaces.  Indexing a
    slice out of range panics: a panic is an error of its own kind. *)

From S2P Require Import Prelude Bytes Proxy.
From stdpp Require Import strings.

(** ** Transactions *)

Definition DERIVATION_VERSION_EIGEN_DA : byte := xed.

Abbreviation Address := bytes (only parsing).

(** [Address::default()] *)
Definition Address_default : Address := zeros 20.

(** What the source reads of a transaction: [to()], [input], the
    versioned hashes of a blob transaction, and the signature. *)
Record tx_fields : Set := {
  to : option Address;
  input : bytes;
  blob_versioned_hashes : list bytes;
  signature : bytes;
}.

Inductive TxEip4844Variant : Set :=
  | TxEip4844 (tx : tx_fields)
  | TxEip4844WithSidecar (tx : tx_fields) (sidecar : bytes).

Inductive TxEnvelope : Set :=
  | Legacy (tx : tx_fields)
  | Eip2930 (tx : tx_fields)
  | Eip1559 (tx : tx_fields)
  | Eip4844 (blob_tx_wrapper : TxEip4844Variant)
  | Eip7702 (tx : tx_fields).

Inductive TxType : Set :=
  | TxType_Legacy | TxType_Eip2930 | TxType_Eip1559 | TxType_Eip4844
  | TxType_Eip7702.

#[export] Instance TxType_eq_dec : EqDecision TxType.
Proof. solve_decision. Defined.

(** [TxEnvelope::tx_type] *)
Definition tx_type (tx : TxEnvelope) : TxType :=
  match tx with
  | Legacy _ => TxType_Legacy
  | Eip2930 _ => TxType_Eip2930
  | Eip1559 _ => TxType_Eip1559
  | Eip4844 _ => TxType_Eip4844
  | Eip7702 _ => TxType_Eip7702
  end.

(** [recover_signer] *)
Class SignerRecovery := {
  recover_signer : TxEnvelope → result unit Address;
}.

(** [Result::unwrap_or_default] *)
Definition unwrap_or_default {E} (r : result E Address) : Address :=
  match r with
  | Ok a => a
  | Err _ => Address_default
  end.

(** [IndexedBlobHash] *)
Record IndexedBlobHash : Set := {
  hash : bytes;
  index : Z;
}.

(** [kona_protocol::BlockInfo] *)
Record BlockInfo : Set := {
  block_hash : bytes;
  block_number : Z;
  parent_hash : bytes;
  timestamp : Z;
}.

(** ** Frames in calldata *)

(** [proto::FrameRef] *)
Record FrameRef : Set := {
  frame_commitment : bytes;
  blob_length : Z;
  quorum_ids : list Z;
}.

(** [proto::calldata_frame::Value] *)
Inductive calldata_value : Set :=
  | Value_Frame (frame : bytes)
  | Value_FrameRef (frame_ref : FrameRef).

(** [proto::CalldataFrame] *)
Record CalldataFrame : Set := {
  value : option calldata_value;
}.

(** [CalldataFrame::decode], the protobuf decoder. *)
Class ProtoDecoder := {
  decode_calldata_frame : bytes → result string CalldataFrame;
}.

(** [rlp::decode::<VecOfBytes>]: a list of byte strings. *)
Class RlpListDecoder := {
  rlp_decode_list : bytes → result string (list bytes);
}.

(** ** Blobs of the beacon chain *)

(** [kona_derive::errors::BlobDecodingError] *)
Inductive blob_data_error : Set :=
  | BlobInvalidFieldElement
  | BlobInvalidEncodingVersion
  | BlobInvalidLength
  | BlobMissingData.

(** [BlobData] *)
Record BlobData : Set := {
  bd_data : option bytes;
  bd_calldata : option bytes;
}.

(** [BlobData::default()] *)
Definition BlobData_default : BlobData :=
  {| bd_data := None; bd_calldata := None |}.

(** [Blob::is_zero] *)
Definition is_zero (b : bytes) : bool := bool_decide (Forall (λ x, x = x00) b).

(** [BlobData::fill]: takes the blob at [index] unless the entry holds
    calldata; the flag says whether the index is to advance. *)
Definition BlobData_fill (self : BlobData) (blobs : list bytes) (index : nat)
  : result blob_data_error (BlobData * bool) :=
  match bd_calldata self with
  | Some _ => Ok (self, false)
  | None =>
      match blobs !! index with
      | None => Err BlobInvalidLength
      | Some blob =>
          if bool_decide (blob = []) || is_zero blob then Err BlobMissingData
          else Ok ({| bd_data := Some blob; bd_calldata := None |}, true)
      end
  end.

(** [BlobData::decode], the decoder of the blob encoding, and the texts
    of the errors the source renders. *)
Class BlobDataDecoder := {
  BlobData_decode : BlobData → result blob_data_error bytes;
  blob_data_error_text : blob_data_error → string;
  blob_provider_backend_text : string → string;
}.

(** ** The providers *)

(** [kona_derive::traits::ChainProvider], as far as the source uses it. *)
Class ChainProvider (F : Type) := {
  block_info_and_transactions_by_hash :
    bytes → stE F string (BlockInfo * list TxEnvelope);
}.
#[global] Hint Mode ChainProvider ! : typeclass_instances.

(** [kona_derive::traits::BlobProvider] *)
Class BlobProvider (B : Type) := {
  get_blobs : BlockInfo → list IndexedBlobHash → stE B string (list bytes);
}.
#[global] Hint Mode BlobProvider ! : typeclass_instances.

(** How a call of [blob_get] fails: with an error, of which the source
    uses the text, or with a panic. *)
Inductive provider_failure : Set :=
  | ProviderFailed (text : string)
  | ProviderPanicked.

(** [trait EigenDAProvider] of [traits.rs] *)
Class EigenDAProvider (E : Type) := {
  provider_blob_get : bytes → stE E provider_failure bytes;
}.
#[global] Hint Mode EigenDAProvider ! : typeclass_instances.

(** ** Errors *)

Inductive source_panic : Set :=
  | SourceSliceIndex (p : slice_panic)
  | BlobGetPanicked.

(** What [data_from_eigen_da] and [load_blobs] return when they fail. *)
Inductive source_error : Set :=
  | SourceError (e : EigenDAProviderError)
  | SourcePanic (p : source_panic).

(** [kona_derive::errors::PipelineError], the two values the source
    builds: the text of [Provider] is kept as its two parts. *)
Inductive PipelineError : Set :=
  | Eof
  | Provider (block : bytes) (e : EigenDAProviderError).

(** [PipelineErrorKind] *)
Inductive PipelineErrorKind : Set :=
  | Temporary (e : PipelineError)
  | Critical (e : PipelineError)
  | Reset (e : PipelineError).

(** [PipelineError::temp] *)
Definition temp (e : PipelineError) : PipelineErrorKind := Temporary e.

(** What [next] returns when it fails. *)
Inductive next_error : Set :=
  | Pipeline (e : PipelineErrorKind)
  | NextPanic (p : source_panic).

#[export] Instance source_panic_eq_dec : EqDecision source_panic.
Proof. solve_decision. Defined.
#[export] Instance source_error_eq_dec : EqDecision source_error.
Proof. solve_decision. Defined.
#[export] Instance PipelineError_eq_dec : EqDecision PipelineError.
Proof. solve_decision. Defined.
#[export] Instance PipelineErrorKind_eq_dec : EqDecision PipelineErrorKind.
Proof. solve_decision. Defined.
#[export] Instance next_error_eq_dec : EqDecision next_error.
Proof. solve_decision. Defined.

(** ** Executable providers

    The chain provider and the blob provider answer from a table and count
    their calls; so does the EigenDA provider.  The protobuf frames and the
    RLP lists have a flat stand-in encoding. *)

Definition table_chain (table : list (bytes * (BlockInfo * list TxEnvelope)))
  : ChainProvider nat := {|
  block_info_and_transactions_by_hash h := λ calls,
    (S calls,
     match list_find (λ e, e.1 = h) table with
     | Some (_, e) => Ok e.2
     | None => Err "unknown block"
     end);
|}.

Definition table_blobs (table : list (bytes * bytes)) : BlobProvider nat := {|
  get_blobs _ hashes := λ calls,
    (S calls,
     fold_res (λ acc h,
        match list_find (λ e, e.1 = hash h) table with
        | Some (_, e) => Ok (acc ++ [e.2])
        | None => Err "blob not found"
        end) hashes []);
|}.

Definition table_eigen_da (table : list (bytes * bytes))
  : EigenDAProvider nat := {|
  provider_blob_get commitment := λ calls,
    (S calls,
     match list_find (λ e, e.1 = commitment) table with
     | Some (_, e) => Ok e.2
     | None => Err (ProviderFailed "not found")
     end);
|}.

(** The signature is the signer. *)
Definition plain_signer : SignerRecovery := {|
  recover_signer tx :=
    let sig := match tx with
               | Legacy t | Eip2930 t | Eip1559 t | Eip7702 t
               | Eip4844 (TxEip4844 t) | Eip4844 (TxEip4844WithSidecar t _) =>
                   signature t
               end in
    if bool_decide (length sig = 20) then Ok sig else Err tt;
|}.

(** A frame is a tag byte and a payload: [0] a frame, [1] a reference
    (the number of quorums, the length, the commitment), [2] no value. *)
Definition flat_proto : ProtoDecoder := {|
  decode_calldata_frame b :=
    match b with
    | x00 :: frame => Ok {| value := Some (Value_Frame frame) |}
    | x01 :: q :: len :: commitment =>
        Ok {| value := Some (Value_FrameRef
                {| frame_commitment := commitment;
                   blob_length := byte_to_Z len;
                   quorum_ids := seqZ 0 (byte_to_Z q) |}) |}
    | x02 :: _ => Ok {| value := None |}
    | _ => Err "invalid frame"
    end;
|}.

(** A list is a sequence of chunks, each a length byte and that many
    bytes. *)
Fixpoint flat_list_decode (fuel : nat) (b : bytes) : result string (list bytes) :=
  match fuel, b with
  | _, [] => Ok []
  | 0, _ => Err "out of fuel"
  | S fuel, n :: rest =>
      let k := Z.to_nat (byte_to_Z n) in
      if bool_decide (k ≤ length rest) then
        let? chunks := flat_list_decode fuel (drop k rest) in
        Ok (take k rest :: chunks)
      else Err "truncated"
  end.

Definition flat_rlp : RlpListDecoder := {|
  rlp_decode_list b := flat_list_decode (length b) b;
|}.

(** A blob decodes to itself. *)
Definition plain_blob_data : BlobDataDecoder := {|
  BlobData_decode self := ok_or (bd_data self) BlobMissingData;
  blob_data_error_text e :=
    match e with
    | BlobInvalidFieldElement => "invalid field element"
    | BlobInvalidEncodingVersion => "invalid encoding version"
    | BlobInvalidLength => "invalid length"
    | BlobMissingData => "missing data"
    end;
  blob_provider_backend_text msg := "blob provider: " +:+ msg;
|}.

Section source.
Context `{ChainProvider F, BlobProvider B, EigenDAProvider E, SignerRecovery,
  ProtoDecoder, RlpListDecoder, BlobDataDecoder}.

(** [struct EigenDASource] *)
Record EigenDASource : Type := {
  chain_provider : F;
  blob_fetcher : B;
  eigen_da_provider : E;
  batcher_address : Address;
  data : list bytes;
  open : bool;
}.

(** [EigenDASource::new] *)
Definition EigenDASource_new (chain_provider : F) (blob_fetcher : B)
    (eigen_da_provider : E) (batcher_address : Address) : EigenDASource :=
  {| chain_provider := chain_provider;
     blob_fetcher := blob_fetcher;
     eigen_da_provider := eigen_da_provider;
     batcher_address := batcher_address;
     data := [];
     open := false |}.

(** A call on one of the providers changes that provider only. *)
Definition on_chain_provider {X A} (call : stE F X A) : stE EigenDASource X A :=
  λ self,
    let '(p, r) := call (chain_provider self) in
    ({| chain_provider := p; blob_fetcher := blob_fetcher self;
        eigen_da_provider := eigen_da_provider self;
        batcher_address := batcher_address self;
        data := data self; open := open self |}, r).

Definition on_blob_fetcher {X A} (call : stE B X A) : stE EigenDASource X A :=
  λ self,
    let '(p, r) := call (blob_fetcher self) in
    ({| chain_provider := chain_provider self; blob_fetcher := p;
        eigen_da_provider := eigen_da_provider self;
        batcher_address := batcher_address self;
        data := data self; open := open self |}, r).

Definition on_eigen_da_provider {X A} (call : stE E X A)
  : stE EigenDASource X A :=
  λ self,
    let '(p, r) := call (eigen_da_provider self) in
    ({| chain_provider := chain_provider self;
        blob_fetcher := blob_fetcher self; eigen_da_provider := p;
        batcher_address := batcher_address self;
        data := data self; open := open self |}, r).

(** The first [match] of the loop: the recipient, the calldata and the
    blob hashes of a transaction; [None] for the kinds the loop skips. *)
Definition tx_parts (tx : TxEnvelope)
  : option (option Address * bytes * option (list bytes)) :=
  match tx with
  | Legacy tx => Some (to tx, input tx, None)
  | Eip2930 tx => Some (to tx, input tx, None)
  | Eip1559 tx => Some (to tx, input tx, None)
  | Eip4844 blob_tx_wrapper =>
      match blob_tx_wrapper with
      | TxEip4844 tx =>
          Some (to tx, input tx, Some (blob_versioned_hashes tx))
      | TxEip4844WithSidecar tx _ =>
          Some (to tx, input tx, Some (blob_versioned_hashes tx))
      end
  | _ => None
  end.

(** The variables of the loop of [data_from_eigen_da]. *)
Record scan : Set := {
  scan_data : list bytes;
  scan_hashes : list IndexedBlobHash;
  scan_index : Z;
}.

(** [index += blob_hashes.map_or(0, |h| h.len() as u64)] *)
Definition skip_blobs (st : scan) (blob_hashes : option (list bytes)) : scan :=
  {| scan_data := scan_data st;
     scan_hashes := scan_hashes st;
     scan_index := usize_add (scan_index st)
       (from_option (λ h, Z.of_nat (length h)) 0%Z blob_hashes) |}.

(** [for blob in blob_hashes { hashes.push(..); index += 1 }] *)
Definition push_hashes (st : scan) (blob_hashes : list bytes) : scan :=
  foldl (λ st blob,
    {| scan_data := scan_data st;
       scan_hashes := scan_hashes st
         ++ [{| hash := blob; index := scan_index st |}];
       scan_index := usize_add (scan_index st) 1 |}) st blob_hashes.

Definition push_data (st : scan) (frames : list bytes) : scan :=
  {| scan_data := scan_data st ++ frames;
     scan_hashes := scan_hashes st;
     scan_index := scan_index st |}.

(** The frames of calldata that starts with the version byte. *)
Definition calldata_frames (st : scan) (calldata : bytes)
  : stE EigenDASource source_error scan :=
  let blob_data := drop 1 calldata in
  let! calldata_frame :=
    st_lift (map_err (λ e, SourceError (ProtoDecodeError e))
               (decode_calldata_frame blob_data)) in
  match value calldata_frame with
  | None => st_ret st
  | Some (Value_Frame frame) => st_ret (push_data st [frame])
  | Some (Value_FrameRef frame_ref) =>
      if bool_decide (quorum_ids frame_ref = []) then st_ret st
      else
        let! blob_data :=
          st_map_err (λ e, match e with
                           | ProviderFailed text => SourceError (Status text)
                           | ProviderPanicked => SourcePanic BlobGetPanicked
                           end)
            (on_eigen_da_provider
               (provider_blob_get (frame_commitment frame_ref))) in
        let! blobs :=
          st_lift (map_err (λ p, SourcePanic (SourceSliceIndex p))
                     (slice_to blob_data (Z.to_nat (blob_length frame_ref)))) in
        let! blob_data :=
          st_lift (map_err (λ e, SourceError (RLPDecodeError e))
                     (rlp_decode_list blobs)) in
        st_ret (push_data st blob_data)
  end.

(** The body of [for tx in txs]. *)
Definition scan_tx (batcher_address' : Address) (st : scan) (tx : TxEnvelope)
  : stE EigenDASource source_error scan :=
  λ self,
    match tx_parts tx with
    | None => (self, Ok st)
    | Some (tx_kind, calldata, blob_hashes) =>
        match tx_kind with
        | None => (self, Ok st)
        | Some to =>
            if bool_decide (to ≠ batcher_address self) then
              (self, Ok (skip_blobs st blob_hashes))
            else if bool_decide
                      (unwrap_or_default (recover_signer tx) ≠ batcher_address')
            then (self, Ok (skip_blobs st blob_hashes))
            else if bool_decide (calldata = []) then
              if bool_decide (tx_type tx = TxType_Eip4844) then
                match blob_hashes with
                | Some b => (self, Ok (push_hashes st b))
                | None => (self, Ok st)
                end
              else (self, Ok st)
            else if bool_decide (head calldata = Some DERIVATION_VERSION_EIGEN_DA)
            then calldata_frames st calldata self
            else (self, Ok st)
        end
    end.

(** [EigenDASource::data_from_eigen_da] *)
Definition data_from_eigen_da (txs : list TxEnvelope)
    (batcher_address' : Address)
  : stE EigenDASource source_error (list bytes * list IndexedBlobHash) :=
  let! st := for_each (scan_tx batcher_address') txs
               {| scan_data := []; scan_hashes := []; scan_index := 0 |} in
  st_ret (scan_data st, scan_hashes st).

(** The body of [for _ in blob_hashes] of [load_blobs], on
    [whole_blob_data] and [blob_index]. *)
Definition fill_blob (blobs : list bytes) (acc : bytes * nat)
  : result source_error (bytes * nat) :=
  let blob := BlobData_default in
  match BlobData_fill blob blobs acc.2 with
  | Err e => Err (SourceError (Backend (blob_data_error_text e)))
  | Ok (blob, should_increment) =>
      let blob_index := if should_increment then acc.2 + 1 else acc.2 in
      match BlobData_decode blob with
      | Ok d => Ok (acc.1 ++ d, blob_index)
      | Err _ => Ok (acc.1, blob_index)
      end
  end.

Definition set_loaded (blob_data : list bytes) : stE EigenDASource source_error unit :=
  λ self,
    ({| chain_provider := chain_provider self;
        blob_fetcher := blob_fetcher self;
        eigen_da_provider := eigen_da_provider self;
        batcher_address := batcher_address self;
        data := blob_data; open := true |}, Ok tt).

(** The frames of the blobs of the beacon chain: the part of [load_blobs]
    under [if !blob_hashes.is_empty()]. *)
Definition blob_frames (block_ref : BlockInfo)
    (blob_hashes : list IndexedBlobHash)
  : stE EigenDASource source_error (list bytes) :=
  let! blobs :=
    st_map_err (λ e, SourceError (Backend (blob_provider_backend_text e)))
      (on_blob_fetcher (get_blobs block_ref blob_hashes)) in
  let! filled :=
    st_lift (fold_res (λ acc _, fill_blob blobs acc) blob_hashes ([], 0)) in
  let whole_blob_data := filled.1 in
  st_lift (map_err (λ e, SourceError (RLPDecodeError e))
             (rlp_decode_list whole_blob_data)).

(** What [load_blobs] computes before it opens the source. *)
Definition fetch_frames (block_ref : BlockInfo) (batcher_address' : Address)
  : stE EigenDASource source_error (list bytes) :=
  let! info :=
    st_map_err (λ e, SourceError (Backend e))
      (on_chain_provider
         (block_info_and_transactions_by_hash (block_hash block_ref))) in
  let! found := data_from_eigen_da info.2 batcher_address' in
  let blob_data := found.1 in
  let blob_hashes := found.2 in
  if bool_decide (blob_hashes ≠ []) then
    let! rlp_blob := blob_frames block_ref blob_hashes in
    st_ret (blob_data ++ rlp_blob)
  else st_ret blob_data.

(** [EigenDASource::load_blobs] *)
Definition load_blobs (block_ref : BlockInfo) (batcher_address' : Address)
  : stE EigenDASource source_error unit :=
  λ self,
    if open self then (self, Ok tt)
    else
      (let! blob_data := fetch_frames block_ref batcher_address' in
       set_loaded blob_data) self.

(** [EigenDASource::next_data] *)
Definition next_data (self : EigenDASource)
  : EigenDASource * result (result PipelineErrorKind bytes) bytes :=
  match data self with
  | [] => (self, Err (Err (temp Eof)))
  | d :: rest =>
      ({| chain_provider := chain_provider self;
          blob_fetcher := blob_fetcher self;
          eigen_da_provider := eigen_da_provider self;
          batcher_address := batcher_address self;
          data := rest; open := open self |}, Ok d)
  end.

(** [DataAvailabilityProvider::next] *)
Definition next (block_ref : BlockInfo) (batcher_address' : Address)
  : stE EigenDASource next_error bytes :=
  λ self,
    let '(self, result) := load_blobs block_ref batcher_address' self in
    match result with
    | Err (SourceError e) =>
        (self, Err (Pipeline (temp (Provider (block_hash block_ref) e))))
    | Err (SourcePanic p) => (self, Err (NextPanic p))
    | Ok _ =>
        let '(self, next_data) := next_data self in
        match next_data with
        | Ok d => (self, Ok d)
        | Err (Ok d) => (self, Ok d)
        | Err (Err e) => (self, Err (Pipeline e))
        end
    end.

(** [DataAvailabilityProvider::clear] *)
Definition clear (self : EigenDASource) : EigenDASource :=
  {| chain_provider := chain_provider self;
     blob_fetcher := blob_fetcher self;
     eigen_da_provider := eigen_da_provider self;
     batcher_address := batcher_address self;
     data := []; open := false |}.

(** ** The source as a state machine *)

(** The source with other frames, open. *)
Definition opened (self : EigenDASource) (frames : list bytes) : EigenDASource :=
  {| chain_provider := chain_provider self;
     blob_fetcher := blob_fetcher self;
     eigen_da_provider := eigen_da_provider self;
     batcher_address := batcher_address self;
     data := frames; open := true |}.

(** The pipeline calls [next] and [clear]. *)
Inductive source_step : EigenDASource → EigenDASource → Prop :=
  | step_next block_ref batcher_address' self self' r :
      next block_ref batcher_address' self = (self', r) →
      source_step self self'
  | step_clear self : source_step self (clear self).

(** A closed source holds no frames. *)
Definition closed_empty (self : EigenDASource) : Prop :=
  open self = false → data self = [].

(** States that differ in the state of the providers only. *)
Definition same_frames (self self' : EigenDASource) : Prop :=
  batcher_address self' = batcher_address self
  ∧ data self' = data self ∧ open self' = open self.

(** States that differ in the state of the EigenDA provider only. *)
Definition same_but_eigen_da (self self' : EigenDASource) : Prop :=
  same_frames self self'
  ∧ chain_provider self' = chain_provider self
  ∧ blob_fetcher self' = blob_fetcher self.

(** [n] calls of [next] and what they return. *)
Fixpoint next_n (n : nat) (block_ref : BlockInfo) (batcher_address' : Address)
    (self : EigenDASource)
  : EigenDASource * list (result next_error bytes) :=
  match n with
  | 0 => (self, [])
  | S n =>
      let '(self, r) := next block_ref batcher_address' self in
      let '(self, rs) := next_n n block_ref batcher_address' self in
      (self, r :: rs)
  end.

(** ** The index of a blob in its block *)

(** The versioned hashes of the blobs of a transaction. *)
Definition tx_blob_hashes (tx : TxEnvelope) : list bytes :=
  match tx with
  | Eip4844 (TxEip4844 tx) => blob_versioned_hashes tx
  | Eip4844 (TxEip4844WithSidecar tx _) => blob_versioned_hashes tx
  | _ => []
  end.

(** The versioned hashes of the blobs of a block, in order: a blob is
    fetched by its position in this list. *)
Definition block_blob_hashes (txs : list TxEnvelope) : list bytes :=
  txs ≫= tx_blob_hashes.

(** The transactions whose blobs the scan counts: those without blobs,
    those the scan does not accept, and those it accepts for their blobs. *)
Definition counted (inbox batcher : Address) (tx : TxEnvelope) : bool :=
  bool_decide (tx_blob_hashes tx = [])
  || match tx_parts tx with
     | Some (Some to, calldata, _) =>
         bool_decide (to ≠ inbox)
         || bool_decide (unwrap_or_default (recover_signer tx) ≠ batcher)
         || bool_decide (calldata = [])
     | _ => false
     end.

(** The hashes of the transactions whose blobs the scan counts. *)
Definition counted_hashes (inbox batcher : Address) (tx : TxEnvelope)
  : list bytes :=
  if counted inbox batcher tx then tx_blob_hashes tx else [].

Definition counted_blob_hashes (inbox batcher : Address)
    (txs : list TxEnvelope) : list bytes :=
  txs ≫= counted_hashes inbox batcher.

End source.

Arguments EigenDASource : clear implicits.
