(* ===== verification/SourceRuns.v ===== *)
(** * SourceRuns: the properties of the data source

    What the state machine of [Source] guarantees: a closed source holds no
    frames, in every state the pipeline can reach; a closed source loads
    once, and hands its frames out in order and then reports [Eof] without
    another call to a provider; a source that fails to load stays closed.
    What the scan computes: frames and blob hashes in the order of the
    transactions; the index it gives a blob is its position among the
    blobs of the transactions whose blobs the scan counts, which is the
    position of the blob in the block as long as no accepted blob
    transaction carries calldata, and is smaller after one that does; a
    frame reference is cut to its declared length, and
    panics when the blob is shorter. *)

From S2P Require Import Prelude Bytes Proxy Source.
From stdpp Require Import strings relations.

(** ** A block for the examples

    Four transactions: a blob transaction to another address, a frame in
    calldata, a reference to an EigenDA blob, and a blob transaction of the
    batcher. *)

Definition inbox : Address := replicate 20 x11.
Definition batcher : Address := replicate 20 x22.

Definition tx_other : TxEnvelope :=
  Eip4844 (TxEip4844 {| to := Some (replicate 20 x33); input := [];
                        blob_versioned_hashes := [[xb0]];
                        signature := batcher |}).

Definition tx_frame : TxEnvelope :=
  Legacy {| to := Some inbox; input := [xed; x00; x0a; x0b];
            blob_versioned_hashes := []; signature := batcher |}.

Definition tx_ref : TxEnvelope :=
  Eip1559 {| to := Some inbox; input := [xed; x01; x01; x04; xc1];
             blob_versioned_hashes := []; signature := batcher |}.

Definition tx_blob : TxEnvelope :=
  Eip4844 (TxEip4844 {| to := Some inbox; input := [];
                        blob_versioned_hashes := [[xb1]];
                        signature := batcher |}).

(** A blob transaction of the batcher that carries calldata. *)
Definition tx_blob_calldata : TxEnvelope :=
  Eip4844 (TxEip4844 {| to := Some inbox; input := [x01];
                        blob_versioned_hashes := [[xb2]];
                        signature := batcher |}).

Definition block1 : BlockInfo :=
  {| block_hash := [x01]; block_number := 1; parent_hash := [x00];
     timestamp := 12 |}.

Definition txs1 : list TxEnvelope := [tx_other; tx_frame; tx_ref; tx_blob].

#[local] Instance example_chain : ChainProvider nat :=
  table_chain [([x01], (block1, txs1))].
#[local] Instance example_blobs : BlobProvider nat :=
  table_blobs [([xb1], [x01; xdd])].
#[local] Instance example_eigen_da : EigenDAProvider nat :=
  table_eigen_da [([xc1], [x01; xaa; x01; xbb; xff])].
#[local] Existing Instances plain_signer flat_proto flat_rlp plain_blob_data.

Definition source1 : EigenDASource nat nat nat := EigenDASource_new 0 0 0 inbox.

Section runs.
Context `{ChainProvider F, BlobProvider B, EigenDAProvider E, SignerRecovery,
  ProtoDecoder, RlpListDecoder, BlobDataDecoder}.
Implicit Types (self : EigenDASource F B E) (st : scan) (tx : TxEnvelope)
  (txs : list TxEnvelope) (block_ref : BlockInfo) (addr : Address).

(** ** What a step leaves alone *)

#[export] Instance same_frames_preorder :
  PreOrder (same_frames (F := F) (B := B) (E := E)).
Proof.
  split; [done|]. intros s1 s2 s3 (? & ? & ?) (? & ? & ?).
  unfold same_frames. split_and!; congruence.
Qed.

#[export] Instance same_but_eigen_da_preorder :
  PreOrder (same_but_eigen_da (F := F) (B := B) (E := E)).
Proof.
  split; [done|]. intros s1 s2 s3 (? & ? & ?) (? & ? & ?).
  split; [by etrans|]. split; congruence.
Qed.

Lemma st_preserves_same_frames {X A} (c : stE (EigenDASource F B E) X A) :
  st_preserves same_but_eigen_da c → st_preserves same_frames c.
Proof. intros Hc s. apply Hc. Qed.

Lemma on_chain_provider_same {X A} (call : stE F X A) :
  st_preserves same_frames (on_chain_provider (B := B) (E := E) call).
Proof. intros s. unfold on_chain_provider. by destruct (call _). Qed.

Lemma on_blob_fetcher_same {X A} (call : stE B X A) :
  st_preserves same_frames (on_blob_fetcher (F := F) (E := E) call).
Proof. intros s. unfold on_blob_fetcher. by destruct (call _). Qed.

Lemma on_eigen_da_provider_same {X A} (call : stE E X A) :
  st_preserves same_but_eigen_da (on_eigen_da_provider (F := F) (B := B) call).
Proof. intros s. unfold on_eigen_da_provider. by destruct (call _). Qed.

#[local] Hint Resolve on_chain_provider_same on_blob_fetcher_same
  on_eigen_da_provider_same st_preserves_same_frames : hydro.

Lemma calldata_frames_same st calldata :
  st_preserves same_but_eigen_da
    (calldata_frames (F := F) (B := B) (E := E) st calldata).
Proof.
  unfold calldata_frames. st_frame.
Qed.

Lemma scan_tx_same addr st tx :
  st_preserves same_but_eigen_da
    (scan_tx (F := F) (B := B) (E := E) addr st tx).
Proof.
  intros self. unfold scan_tx.
  repeat case_match; try reflexivity. apply calldata_frames_same.
Qed.

#[local] Hint Resolve scan_tx_same : hydro.

Lemma data_from_eigen_da_same txs addr :
  st_preserves same_but_eigen_da
    (data_from_eigen_da (F := F) (B := B) (E := E) txs addr).
Proof.
  unfold data_from_eigen_da. st_frame.
Qed.

#[local] Hint Resolve data_from_eigen_da_same : hydro.

Lemma fetch_frames_same block_ref addr :
  st_preserves same_frames
    (fetch_frames (F := F) (B := B) (E := E) block_ref addr).
Proof.
  unfold fetch_frames, blob_frames. st_frame.
Qed.

(** ** [load_blobs] and [next] by the state of the source *)

Lemma load_blobs_open block_ref addr self :
  open self = true → load_blobs block_ref addr self = (self, Ok tt).
Proof. unfold load_blobs. by intros ->. Qed.

Lemma load_blobs_closed block_ref addr self :
  open self = false →
  load_blobs block_ref addr self
  = match fetch_frames block_ref addr self with
    | (self', Ok frames) => (opened self' frames, Ok tt)
    | (self', Err e) => (self', Err e)
    end.
Proof.
  unfold load_blobs. intros ->. unfold st_bind.
  by destruct (fetch_frames _ _ self) as [self' [frames|e]].
Qed.

Lemma next_data_open self :
  open self = true →
  next_data self
  = match data self with
    | [] => (self, Err (Err (temp Eof)))
    | d :: rest => (opened self rest, Ok d)
    end.
Proof.
  intros Hopen. unfold next_data, opened.
  destruct (data self); [done|]. by rewrite Hopen.
Qed.

Lemma next_open_run block_ref addr self :
  open self = true →
  next block_ref addr self
  = match data self with
    | [] => (self, Err (Pipeline (temp Eof)))
    | d :: rest => (opened self rest, Ok d)
    end.
Proof.
  intros Hopen. unfold next.
  rewrite load_blobs_open, next_data_open by done.
  by destruct (data self).
Qed.

Lemma next_closed_run block_ref addr self :
  open self = false →
  next block_ref addr self
  = match fetch_frames block_ref addr self with
    | (self', Err (SourceError e)) =>
        (self', Err (Pipeline (temp (Provider (block_hash block_ref) e))))
    | (self', Err (SourcePanic p)) => (self', Err (NextPanic p))
    | (self', Ok []) => (opened self' [], Err (Pipeline (temp Eof)))
    | (self', Ok (d :: rest)) => (opened self' rest, Ok d)
    end.
Proof.
  intros Hclosed. unfold next. rewrite load_blobs_closed by done.
  destruct (fetch_frames _ _ self) as [self' [frames|[e|p]]]; [|done..].
  rewrite next_data_open by done. by destruct frames.
Qed.

(** A step keeps the invariant. *)
Lemma source_step_closed_empty self self' :
  source_step self self' → closed_empty self → closed_empty self'.
Proof.
  intros [block_ref addr s s' r Hnext|s] Hinv; [|done].
  destruct (open s) eqn:Hopen.
  - rewrite next_open_run in Hnext by done.
    destruct (data s); by injection Hnext as <- _.
  - rewrite next_closed_run in Hnext by done.
    pose proof (fetch_frames_same block_ref addr s) as Hsame.
    destruct (fetch_frames _ _ s) as [s1 [frames|[e|p]]]; cbn in Hsame.
    + destruct frames; by injection Hnext as <- _.
    + injection Hnext as <- _. destruct Hsame as (_ & Hd & Ho).
      intros _. rewrite Hd. apply Hinv. done.
    + injection Hnext as <- _. destruct Hsame as (_ & Hd & Ho).
      intros _. rewrite Hd. apply Hinv. done.
Qed.

(** ** The scan *)

(** The hashes [push_hashes] adds carry consecutive indices. *)
Lemma push_hashes_spec st (hs : list bytes) :
  (0 ≤ scan_index st)%Z →
  (scan_index st + Z.of_nat (length hs) < u64_modulus)%Z →
  push_hashes st hs
  = {| scan_data := scan_data st;
       scan_hashes := scan_hashes st
         ++ imap (λ j h, {| hash := h;
                            index := scan_index st + Z.of_nat j |}) hs;
       scan_index := scan_index st + Z.of_nat (length hs) |}.
Proof.
  unfold push_hashes. revert st.
  induction hs as [|h hs IH]; intros st Hpos Hlt; cbn [foldl imap length].
  { rewrite app_nil_r, Z.add_0_r. by destruct st. }
  cbn [length] in Hlt.
  rewrite IH; cbn [scan_data scan_hashes scan_index];
    rewrite ?usize_add_small by lia; [|lia..].
  f_equal.
  - rewrite <-app_assoc. cbn [app]. do 2 f_equal; [f_equal; lia|].
    apply imap_ext. intros j h' _. cbn. f_equal. lia.
  - lia.
Qed.

(** The frames of calldata change neither the hashes nor the index. *)
Lemma calldata_frames_index st calldata self self' st' :
  calldata_frames st calldata self = (self', Ok st') →
  scan_hashes st' = scan_hashes st ∧ scan_index st' = scan_index st.
Proof.
  unfold calldata_frames, st_bind, st_lift, st_map_err, st_ret.
  intros Hrun. repeat case_match; by simplify_eq.
Qed.

(** What one transaction adds to the hashes and to the index, when its
    blobs are counted. *)
Lemma scan_tx_index addr st tx self self' st' :
  counted (batcher_address self) addr tx = true →
  (0 ≤ scan_index st)%Z →
  (scan_index st + Z.of_nat (length (tx_blob_hashes tx)) < u64_modulus)%Z →
  scan_tx addr st tx self = (self', Ok st') →
  scan_index st' = (scan_index st + Z.of_nat (length (tx_blob_hashes tx)))%Z
  ∧ ∃ new,
      scan_hashes st' = scan_hashes st ++ new
      ∧ Forall (λ ih, ∃ j : nat,
                  tx_blob_hashes tx !! j = Some (hash ih)
                  ∧ index ih = (scan_index st + Z.of_nat j)%Z) new.
Proof.
  intros Hc Hpos Hlt. unfold scan_tx, counted in *.
  assert (∀ st0, scan_index st0 = scan_index st →
                 scan_hashes st0 = scan_hashes st →
                 tx_blob_hashes tx = [] →
    scan_index st0
      = (scan_index st + Z.of_nat (length (tx_blob_hashes tx)))%Z
    ∧ ∃ new, scan_hashes st0 = scan_hashes st ++ new
        ∧ Forall (λ ih, ∃ j : nat,
                    tx_blob_hashes tx !! j = Some (hash ih)
                    ∧ index ih = (scan_index st + Z.of_nat j)%Z) new)
    as Hnone.
  { intros st0 Hi Hh ->. split; [cbn; lia|].
    exists []. by rewrite app_nil_r. }
  assert (∀ bh, from_option (λ h : list bytes, Z.of_nat (length h)) 0%Z bh
                = Z.of_nat (length (tx_blob_hashes tx)) →
    scan_index (skip_blobs st bh)
      = (scan_index st + Z.of_nat (length (tx_blob_hashes tx)))%Z
    ∧ ∃ new, scan_hashes (skip_blobs st bh) = scan_hashes st ++ new
        ∧ Forall (λ ih, ∃ j : nat,
                    tx_blob_hashes tx !! j = Some (hash ih)
                    ∧ index ih = (scan_index st + Z.of_nat j)%Z) new)
    as Hskip.
  { intros bh Hbh. cbn. rewrite Hbh, usize_add_small by lia. split; [done|].
    exists []. by rewrite app_nil_r. }
  destruct tx as [t|t|t|[t|t sc]|t]; cbn [tx_parts tx_blob_hashes] in *;
    destruct (to t) as [a|]; cbn [orb] in *;
    repeat (case_bool_decide; cbn [orb] in *; try done);
    intros Hrun;
    try (simplify_eq; first [by apply Hnone|by apply Hskip]);
    try (apply calldata_frames_index in Hrun as [? ?]; by apply Hnone).
  all: injection Hrun as _ <-; rewrite push_hashes_spec by done;
    cbn [scan_index scan_hashes]; (split; [done|]);
    eexists; (split; [done|]); apply Forall_forall;
    intros ih (j & h & -> & Hj)%elem_of_lookup_imap; by exists j.
Qed.

(** A transaction whose blobs are not counted leaves the hashes and the
    index as they are. *)
Lemma scan_tx_uncounted addr st tx self self' st' :
  counted (batcher_address self) addr tx = false →
  scan_tx addr st tx self = (self', Ok st') →
  scan_hashes st' = scan_hashes st ∧ scan_index st' = scan_index st.
Proof.
  unfold scan_tx, counted.
  destruct tx as [t|t|t|[t|t sc]|t]; cbn [tx_parts tx_blob_hashes];
    destruct (to t) as [a|]; cbn [orb];
    repeat (case_bool_decide; cbn [orb]; try done);
    intros _ Hrun; try (by simplify_eq);
    by apply calldata_frames_index in Hrun.
Qed.

(** What one transaction adds to the hashes and to the index: the hashes
    of its blobs when they are counted, and nothing when they are not. *)
Lemma scan_tx_counted_index addr st tx self self' st' :
  (0 ≤ scan_index st)%Z →
  (scan_index st
   + Z.of_nat (length (counted_hashes (batcher_address self) addr tx))
   < u64_modulus)%Z →
  scan_tx addr st tx self = (self', Ok st') →
  scan_index st'
  = (scan_index st
     + Z.of_nat (length (counted_hashes (batcher_address self) addr tx)))%Z
  ∧ ∃ new,
      scan_hashes st' = scan_hashes st ++ new
      ∧ Forall (λ ih, ∃ j : nat,
                  counted_hashes (batcher_address self) addr tx !! j
                  = Some (hash ih)
                  ∧ index ih = (scan_index st + Z.of_nat j)%Z) new.
Proof.
  unfold counted_hashes.
  destruct (counted _ _ tx) eqn:Hc; [by apply scan_tx_index|].
  intros _ _ [Hh Hi]%scan_tx_uncounted; [|done]. cbn. split; [lia|].
  exists []. by rewrite app_nil_r.
Qed.

(** The index of a hash is the position of the hash among the hashes of
    the transactions whose blobs are counted. *)
Lemma scan_counted addr txs st0 self self' st inbox_address :
  batcher_address self = inbox_address →
  (Z.of_nat (length (counted_blob_hashes inbox_address addr txs))
   < u64_modulus)%Z →
  scan_hashes st0 = [] → scan_index st0 = 0%Z →
  for_each (scan_tx addr) txs st0 self = (self', Ok st) →
  Forall (λ ih, counted_blob_hashes inbox_address addr txs
                  !! Z.to_nat (index ih) = Some (hash ih))
    (scan_hashes st).
Proof.
  intros Hb Hlen Hh0 Hi0 Hrun.
  apply (for_each_Ok_ind
    (λ l st s,
       (Z.of_nat (length (counted_blob_hashes inbox_address addr l))
        < u64_modulus)%Z →
       batcher_address s = inbox_address
       ∧ scan_index st
         = Z.of_nat (length (counted_blob_hashes inbox_address addr l))
       ∧ Forall (λ ih, counted_blob_hashes inbox_address addr l
                         !! Z.to_nat (index ih) = Some (hash ih))
           (scan_hashes st))) in Hrun.
  { by destruct Hrun as (_ & _ & ?). }
  all: try done.
  2:{ intros _. by rewrite Hh0, Hi0. }
  clear. intros tx l st s st' s' IH Hrun.
  unfold counted_blob_hashes. rewrite bind_app, length_app. cbn [mbind list_bind].
  rewrite app_nil_r. intros Hlen.
  destruct IH as (Hb & Hi & Hhs); [unfold counted_blob_hashes; lia|].
  pose proof (scan_tx_same addr st tx s) as [[Hb' _] _].
  rewrite Hrun in Hb'. cbn in Hb'.
  unfold counted_blob_hashes in *. rewrite Nat2Z.inj_add in Hlen.
  subst inbox_address.
  apply (scan_tx_counted_index addr st tx s s' st') in Hrun
    as (Hi' & new & -> & Hnew); [|lia..].
  split_and!; [congruence|lia|].
  apply Forall_app. split.
  - eapply Forall_impl; [done|]. intros ih Hih. by apply lookup_app_l_Some.
  - eapply Forall_impl; [done|]. intros ih (j & Hj & ->).
    rewrite Hi, <-Nat2Z.inj_add, Nat2Z.id.
    by rewrite lookup_app_r, Nat.add_comm, Nat.add_sub by lia.
Qed.

Lemma counted_blob_hashes_all inbox addr txs :
  Forall (λ tx, counted inbox addr tx = true) txs →
  counted_blob_hashes inbox addr txs = block_blob_hashes txs.
Proof.
  unfold counted_blob_hashes, block_blob_hashes, counted_hashes.
  induction 1 as [|tx txs Htx _ IH]; [done|]. cbn. by rewrite Htx, IH.
Qed.

(** As long as the blobs of every transaction are counted, the index of a
    hash is the position of the hash among the hashes of the block. *)
Lemma scan_aligned addr txs st0 self self' st inbox_address :
  batcher_address self = inbox_address →
  Forall (λ tx, counted inbox_address addr tx = true) txs →
  (Z.of_nat (length (block_blob_hashes txs)) < u64_modulus)%Z →
  scan_hashes st0 = [] → scan_index st0 = 0%Z →
  for_each (scan_tx addr) txs st0 self = (self', Ok st) →
  Forall (λ ih, block_blob_hashes txs !! Z.to_nat (index ih) = Some (hash ih))
    (scan_hashes st).
Proof.
  intros Hb Hc%(counted_blob_hashes_all _ addr). rewrite <-Hc.
  by apply scan_counted.
Qed.

(** What a reference to an EigenDA blob adds to the frames. *)
Lemma calldata_frames_frame_ref st calldata frame_ref self :
  decode_calldata_frame (drop 1 calldata)
    = Ok {| value := Some (Value_FrameRef frame_ref) |} →
  quorum_ids frame_ref ≠ [] →
  calldata_frames st calldata self
  = (let! blob_data :=
       st_map_err (λ e, match e with
                        | ProviderFailed text => SourceError (Status text)
                        | ProviderPanicked => SourcePanic BlobGetPanicked
                        end)
         (on_eigen_da_provider
            (provider_blob_get (frame_commitment frame_ref))) in
     if bool_decide (Z.to_nat (blob_length frame_ref) ≤ length blob_data) then
       let! frames :=
         st_lift (map_err (λ e, SourceError (RLPDecodeError e))
                    (rlp_decode_list
                       (take (Z.to_nat (blob_length frame_ref)) blob_data))) in
       st_ret (push_data st frames)
     else st_fail (SourcePanic (SourceSliceIndex RangeOutOfBounds))) self.
Proof.
  intros Hd Hq. unfold calldata_frames. rewrite Hd. cbn [map_err].
  rewrite st_bind_lift_Ok. cbn [value].
  rewrite bool_decide_eq_false_2 by done.
  apply st_bind_ext; intros blob_data s.
  case_bool_decide as Hlen.
  - by rewrite slice_to_Ok by lia.
  - unfold slice_to. by rewrite slice_Err by lia.
Qed.

Lemma next_n_succ n block_ref addr (self : EigenDASource F B E) :
  next_n (S n) block_ref addr self
  = ((next_n n block_ref addr (next block_ref addr self).1).1,
     (next block_ref addr self).2
       :: (next_n n block_ref addr (next block_ref addr self).1).2).
Proof.
  cbn [next_n]. destruct (next block_ref addr self) as [s1 r]. cbn [fst snd].
  by destruct (next_n n block_ref addr s1).
Qed.

(** ** The order of the frames *)

Lemma push_hashes_extends st (hs : list bytes) :
  scan_data (push_hashes st hs) = scan_data st
  ∧ scan_hashes st `prefix_of` scan_hashes (push_hashes st hs).
Proof.
  unfold push_hashes. revert st.
  induction hs as [|h hs IH]; intros st; cbn [foldl]; [done|].
  destruct (IH {| scan_data := scan_data st;
                  scan_hashes := scan_hashes st
                    ++ [{| hash := h; index := scan_index st |}];
                  scan_index := usize_add (scan_index st) 1 |}) as [-> Hp].
  split; [done|]. etrans; [|exact Hp]. by apply prefix_app_r.
Qed.

Lemma calldata_frames_extends st calldata self self' st' :
  calldata_frames st calldata self = (self', Ok st') →
  scan_data st `prefix_of` scan_data st'.
Proof.
  unfold calldata_frames, st_bind, st_lift, st_map_err, st_ret.
  intros Hrun. repeat case_match; simplify_eq; by try apply prefix_app_r.
Qed.

(** A transaction adds to the frames and to the hashes found so far. *)
Lemma scan_tx_extends addr st tx self self' st' :
  scan_tx addr st tx self = (self', Ok st') →
  scan_data st `prefix_of` scan_data st'
  ∧ scan_hashes st `prefix_of` scan_hashes st'.
Proof.
  unfold scan_tx. intros Hrun.
  repeat case_match; simplify_eq; try done.
  - match goal with
    | |- context [push_hashes st ?b] =>
        by destruct (push_hashes_extends st b) as [-> ?]
    end.
  - split; [by eapply calldata_frames_extends|].
    by apply calldata_frames_index in Hrun as [-> _].
Qed.

Lemma scan_extends addr txs st self self' st' :
  for_each (scan_tx addr) txs st self = (self', Ok st') →
  scan_data st `prefix_of` scan_data st'
  ∧ scan_hashes st `prefix_of` scan_hashes st'.
Proof.
  intros Hrun.
  apply (for_each_Ok_ind
    (λ _ st' _, scan_data st `prefix_of` scan_data st'
                ∧ scan_hashes st `prefix_of` scan_hashes st')) in Hrun;
    [done| |done].
  intros tx _ st1 s1 st2 s2 [Hd Hh] [Hd' Hh']%scan_tx_extends.
  split; by etrans.
Qed.

(** * The properties of the source *)

(** C10: in every state the pipeline can reach from a new source by
    calls of [next] and [clear], a closed source holds no frames. *)
Theorem closed_empty_reachable chain_provider blob_fetcher eigen_da_provider
    addr self :
  rtc source_step
    (EigenDASource_new chain_provider blob_fetcher eigen_da_provider addr)
    self →
  closed_empty self.
Proof.
  intros Hreach.
  refine (rtc_ind_r (λ s, closed_empty s) _ _ _ self Hreach); [done|].
  intros s1 s2 _ Hstep Hinv. by eapply source_step_closed_empty.
Qed.

(** An open source hands out its frames in order and then reports the
    end of the data, and it calls no provider. *)
Lemma next_n_open block_ref addr frames (self : EigenDASource F B E) :
  open self = true → data self = frames →
  next_n (S (length frames)) block_ref addr self
  = (opened self [], (Ok <$> frames) ++ [Err (Pipeline (temp Eof))]).
Proof.
  revert self. induction frames as [|d frames IH]; intros s Hopen Hdata;
    cbn [length]; rewrite next_n_succ, next_open_run, Hdata by done;
    cbn [fst snd].
  - cbn. destruct s; cbn in *; by subst.
  - by rewrite (IH (opened s frames)).
Qed.

(** C11: a closed source loads the frames of a block once and hands them
    out in order.  When the load of a closed source finds [n] frames,
    [n + 1] calls of [next] return the frames in order and then [Eof]; the
    providers are left as the one load left them, and the source open and
    empty. *)
Theorem next_n_loads_once block_ref addr self self' frames :
  open self = false →
  fetch_frames block_ref addr self = (self', Ok frames) →
  next_n (S (length frames)) block_ref addr self
  = (opened self' [], (Ok <$> frames) ++ [Err (Pipeline (temp Eof))]).
Proof.
  intros Hclosed Hload. destruct frames as [|d rest]; cbn [length];
    rewrite next_n_succ, next_closed_run, Hload by done; cbn [fst snd].
  - done.
  - by rewrite (next_n_open _ _ rest).
Qed.

(** A closed source whose load fails stays closed and keeps its
    frames and its batcher address; the failure is reported as a temporary
    provider error that names the block, or is a panic. *)
Theorem next_load_failure block_ref addr self self' e :
  open self = false →
  next block_ref addr self = (self', Err e) →
  e ≠ Pipeline (temp Eof) →
  same_frames self self'
  ∧ ((∃ cause, e = Pipeline (temp (Provider (block_hash block_ref) cause)))
     ∨ ∃ p, e = NextPanic p).
Proof.
  intros Hclosed Hnext Hne. rewrite next_closed_run in Hnext by done.
  pose proof (fetch_frames_same block_ref addr self) as Hsame.
  destruct (fetch_frames _ _ self) as [s1 [[|d rest]|[cause|p]]];
    cbn in Hsame; simplify_eq; eauto.
Qed.

(** C12: as long as the blobs of every transaction are counted (no
    accepted blob transaction carries calldata, and none lacks a
    recipient), the index the scan gives a hash is the position of the hash
    among the blob hashes of the block. *)
Theorem scan_index_aligned txs addr self self' frames hashes :
  Forall (λ tx, counted (batcher_address self) addr tx = true) txs →
  (Z.of_nat (length (block_blob_hashes txs)) < u64_modulus)%Z →
  data_from_eigen_da txs addr self = (self', Ok (frames, hashes)) →
  Forall (λ ih, block_blob_hashes txs !! Z.to_nat (index ih) = Some (hash ih))
    hashes.
Proof.
  intros Hc Hlen. unfold data_from_eigen_da.
  intros (s1 & st & Hrun & [= _ _ <-])%st_bind_inv.
  eapply scan_aligned; [| | | | |exact Hrun]; done.
Qed.

(** C33: the index the scan gives a hash is, for every block, the
    position of the hash among the blobs of the transactions the scan
    counts.  The blobs of a blob transaction the scan accepts with calldata,
    and of one without a recipient, are in the block and are not counted, so
    the hashes recorded after such a transaction carry indices that are
    smaller than their positions in the block. *)
Theorem scan_index_counted txs addr self self' frames hashes :
  (Z.of_nat (length (counted_blob_hashes (batcher_address self) addr txs))
   < u64_modulus)%Z →
  data_from_eigen_da txs addr self = (self', Ok (frames, hashes)) →
  Forall (λ ih, counted_blob_hashes (batcher_address self) addr txs
                  !! Z.to_nat (index ih) = Some (hash ih))
    hashes.
Proof.
  intros Hlen. unfold data_from_eigen_da.
  intros (s1 & st & Hrun & [= _ _ <-])%st_bind_inv.
  eapply scan_counted; [| | | |exact Hrun]; done.
Qed.

(** After a transaction whose blobs are not counted, the position of a
    hash in the block is its index and the number of those blobs. *)
Lemma scan_index_shifted tx txs addr self self' frames hashes :
  counted (batcher_address self) addr tx = false →
  Forall (λ tx, counted (batcher_address self) addr tx = true) txs →
  (Z.of_nat (length (block_blob_hashes txs)) < u64_modulus)%Z →
  data_from_eigen_da (tx :: txs) addr self = (self', Ok (frames, hashes)) →
  tx_blob_hashes tx ≠ []
  ∧ Forall (λ ih, block_blob_hashes (tx :: txs)
                    !! (length (tx_blob_hashes tx) + Z.to_nat (index ih))
                  = Some (hash ih)) hashes.
Proof.
  intros Hun Hc%(counted_blob_hashes_all _ addr) Hlen. unfold data_from_eigen_da.
  intros (s1 & st & Hrun & [= _ _ <-])%st_bind_inv. split.
  { unfold counted in Hun. by apply orb_false_iff in Hun as [?%bool_decide_eq_false _]. }
  assert (counted_blob_hashes (batcher_address self) addr (tx :: txs)
          = block_blob_hashes txs) as Heq.
  { rewrite <-Hc. unfold counted_blob_hashes, counted_hashes. cbn. by rewrite Hun. }
  apply (scan_counted _ _ _ _ _ _ (batcher_address self)) in Hrun;
    [|by rewrite ?Heq..].
  rewrite Heq in Hrun. eapply Forall_impl; [done|]. intros ih Hih. cbn beta in *.
  change (block_blob_hashes (tx :: txs))
    with (tx_blob_hashes tx ++ block_blob_hashes txs).
  by rewrite lookup_app_r, Nat.add_comm, Nat.add_sub by lia.
Qed.

(** C34: the frames keep the order of the transactions.  The frames and
    the blob hashes found in the first transactions of a block are the
    first of those found in the block: a later transaction adds after
    them, and removes or reorders none. *)
Theorem scan_order txs1 txs2 addr self self' frames hashes :
  data_from_eigen_da (txs1 ++ txs2) addr self = (self', Ok (frames, hashes)) →
  ∃ self1 frames1 hashes1,
    data_from_eigen_da txs1 addr self = (self1, Ok (frames1, hashes1))
    ∧ frames1 `prefix_of` frames ∧ hashes1 `prefix_of` hashes.
Proof.
  unfold data_from_eigen_da.
  intros (s2 & st2 & Hrun & [= <- <- <-])%st_bind_inv.
  rewrite for_each_app in Hrun.
  apply st_bind_inv in Hrun as (s1 & st1 & Hrun1 & Hrun2).
  apply scan_extends in Hrun2 as [Hd Hh].
  exists s1, (scan_data st1), (scan_hashes st1).
  unfold st_bind. by rewrite Hrun1.
Qed.

(** C32: a reference to an EigenDA blob that declares more bytes than
    the blob has makes the scan panic: the slice is taken without a check
    of the length. *)
Theorem frame_ref_too_short_panics st calldata frame_ref self provider blob :
  decode_calldata_frame (drop 1 calldata)
    = Ok {| value := Some (Value_FrameRef frame_ref) |} →
  quorum_ids frame_ref ≠ [] →
  provider_blob_get (frame_commitment frame_ref) (eigen_da_provider self)
    = (provider, Ok blob) →
  length blob < Z.to_nat (blob_length frame_ref) →
  (calldata_frames st calldata self).2
  = Err (SourcePanic (SourceSliceIndex RangeOutOfBounds)).
Proof.
  intros Hd Hq Hget Hlen.
  rewrite (calldata_frames_frame_ref st calldata frame_ref) by done.
  unfold st_bind, st_map_err, on_eigen_da_provider. rewrite Hget.
  cbn [map_err]. by rewrite bool_decide_eq_false_2 by lia.
Qed.

(** A reference without quorum IDs is dropped: the blob is not
    fetched and the scan goes on with what it had. *)
Theorem empty_quorum_skipped st calldata frame_ref self :
  decode_calldata_frame (drop 1 calldata)
    = Ok {| value := Some (Value_FrameRef frame_ref) |} →
  quorum_ids frame_ref = [] →
  calldata_frames st calldata self = (self, Ok st).
Proof.
  intros Hd Hq. unfold calldata_frames. rewrite Hd. cbn [map_err].
  rewrite st_bind_lift_Ok. cbn [value]. by rewrite bool_decide_eq_true_2.
Qed.

End runs.

(** * The source on the block of the examples *)

(** A blob transaction of the batcher that carries calldata is
    accepted but its blobs are not counted: the blob of the transaction
    after it gets index 0, where it is the second blob of the block. *)
Example scan_index_misaligned :
  (data_from_eigen_da [tx_blob_calldata; tx_blob] batcher source1).2
    = Ok ([], [{| hash := [xb1]; index := 0 |}])
  ∧ block_blob_hashes [tx_blob_calldata; tx_blob] !! 0 = Some [xb2]
  ∧ block_blob_hashes [tx_blob_calldata; tx_blob] !! 1 = Some [xb1].
Proof. by vm_compute. Qed.

Lemma closed_empty_reachable_witness :
  closed_empty (clear (next block1 batcher source1).1).
Proof.
  apply (closed_empty_reachable 0 0 0 inbox).
  eapply rtc_l; [|apply rtc_once, step_clear].
  apply (step_next block1 batcher source1 _ (next block1 batcher source1).2).
  by destruct (next block1 batcher source1).
Defined.

Lemma next_n_loads_once_witness :
  next_n 5 block1 batcher source1
  = (opened (fetch_frames block1 batcher source1).1 [],
     [Ok [x0a; x0b]; Ok [xaa]; Ok [xbb]; Ok [xdd];
      Err (Pipeline (temp Eof))]).
Proof.
  apply (next_n_loads_once block1 batcher source1 _
           [[x0a; x0b]; [xaa]; [xbb]; [xdd]]); [done|eval_run].
Defined.

Lemma next_load_failure_witness :
  same_frames source1
    (next {| block_hash := [x09]; block_number := 9; parent_hash := [x08];
             timestamp := 108 |} batcher source1).1
  ∧ ((∃ cause, Pipeline (temp (Provider [x09] (Backend "unknown block")))
               = Pipeline (temp (Provider [x09] cause)))
     ∨ ∃ p, Pipeline (temp (Provider [x09] (Backend "unknown block")))
            = NextPanic p).
Proof.
  apply (next_load_failure
           {| block_hash := [x09]; block_number := 9; parent_hash := [x08];
              timestamp := 108 |} batcher source1);
    [done|eval_run|done].
Defined.

Lemma scan_order_witness :
  ∃ self1 frames1 hashes1,
    data_from_eigen_da [tx_other; tx_frame] batcher source1
      = (self1, Ok (frames1, hashes1))
    ∧ frames1 `prefix_of` [[x0a; x0b]; [xaa]; [xbb]]
    ∧ hashes1 `prefix_of` [{| hash := [xb1]; index := 1 |}].
Proof.
  apply (scan_order [tx_other; tx_frame] [tx_ref; tx_blob] batcher source1
           (data_from_eigen_da txs1 batcher source1).1).
  eval_run.
Defined.

Lemma scan_index_aligned_witness :
  Forall (λ ih, block_blob_hashes txs1 !! Z.to_nat (index ih) = Some (hash ih))
    [{| hash := [xb1]; index := 1 |}].
Proof.
  apply (scan_index_aligned txs1 batcher source1
           (data_from_eigen_da txs1 batcher source1).1
           [[x0a; x0b]; [xaa]; [xbb]]);
    [by apply (bool_decide_unpack _); vm_compute|by vm_compute|eval_run].
Defined.

Lemma scan_index_counted_witness :
  Forall (λ ih, counted_blob_hashes (batcher_address source1) batcher
                  [tx_blob_calldata; tx_blob] !! Z.to_nat (index ih)
                = Some (hash ih))
    [{| hash := [xb1]; index := 0 |}].
Proof.
  apply (scan_index_counted [tx_blob_calldata; tx_blob] batcher source1
           (data_from_eigen_da [tx_blob_calldata; tx_blob] batcher source1).1
           []); [by vm_compute|eval_run].
Defined.

Lemma frame_ref_too_short_panics_witness :
  (calldata_frames {| scan_data := []; scan_hashes := []; scan_index := 0 |}
     [xed; x01; x01; x09; xc1] source1).2
  = Err (SourcePanic (SourceSliceIndex RangeOutOfBounds)).
Proof.
  apply (frame_ref_too_short_panics _ [xed; x01; x01; x09; xc1]
           {| frame_commitment := [xc1]; blob_length := 9;
              quorum_ids := [0%Z] |} source1 1
           [x01; xaa; x01; xbb; xff]);
    [done|done|done|vm_compute; lia].
Defined.

Lemma empty_quorum_skipped_witness :
  calldata_frames {| scan_data := []; scan_hashes := []; scan_index := 0 |}
    [xed; x01; x00; x04; xc1] source1
  = (source1, Ok {| scan_data := []; scan_hashes := []; scan_index := 0 |}).
Proof.
  apply (empty_quorum_skipped _ [xed; x01; x00; x04; xc1]
           {| frame_commitment := [xc1]; blob_length := 4;
              quorum_ids := [] |} source1); done.
Defined.
