(* ===== verification/FullStack.v ===== *)
(** * FullStack: the source reads through the client and the host

    The data source of [Source] takes the blob of a frame reference from an
    [EigenDAProvider].  In the fault proof program that provider is the
    client of [Client], [impl EigenDAProvider for OracleEigenDaProvider],
    whose oracle is the host.  This file makes the client the provider of
    the source and states what a frame reference in calldata comes to: the
    frames of the blob the client returns, or the client's failure as the
    source reports it.  With the host of [Server] as the oracle of the
    client, the blob is the one the handler of [Host] ingested from the
    proxy: the section [stack] states the run of the source over the
    client, the host and the proxy, and the example runs it on the
    fixtures. *)

From S2P Require Import Prelude Bytes Codec Oracle Hint Proxy Providers Args Host Cfg.
From S2P Require Import Fixtures HostRuns Client Server EndToEnd.
From S2P Require Import Source SourceRuns.
From stdpp Require Import strings gmap.

Section full_stack.
Context `{CommsClient Ch, Keccak, BlobCodec, CertDecoder, BaseHint HintType}.
Context `{SignerRecovery, ProtoDecoder, RlpListDecoder, BlobDataDecoder}.
Context `{ChainProvider F, BlobProvider B}.
Context (to_string : OracleProviderError → string).

(** What a failure of the client is to the source: an error by its text,
    a panic as a panic. *)
Definition client_failure (e : client_error) : provider_failure :=
  match e with
  | ProviderError e => ProviderFailed (to_string e)
  | ClientPanic _ => ProviderPanicked
  end.

(** [impl EigenDAProvider for OracleEigenDaProvider] *)
Definition OracleEigenDaProvider : EigenDAProvider Ch := {|
  provider_blob_get commitment :=
    st_map_err client_failure (blob_get (HintType := HintType) commitment);
|}.
#[local] Existing Instance OracleEigenDaProvider.

(** The source with another state of the client. *)
Definition with_client (self : EigenDASource F B Ch) (ch : Ch)
  : EigenDASource F B Ch :=
  {| chain_provider := chain_provider self;
     blob_fetcher := blob_fetcher self; eigen_da_provider := ch;
     batcher_address := batcher_address self;
     data := data self; open := open self |}.

(** How the source reports a failure of the client. *)
Definition reported (e : client_error) : source_error :=
  match e with
  | ProviderError e => SourceError (Status (to_string e))
  | ClientPanic _ => SourcePanic BlobGetPanicked
  end.

Implicit Types (self : EigenDASource F B Ch) (st : scan).

Lemma frame_ref_through_client st calldata frame_ref self :
  decode_calldata_frame (drop 1 calldata)
    = Ok {| value := Some (Value_FrameRef frame_ref) |} →
  quorum_ids frame_ref ≠ [] →
  calldata_frames st calldata self
  = match blob_get (HintType := HintType) (frame_commitment frame_ref)
            (eigen_da_provider self) with
    | (ch, Ok blob) =>
        if bool_decide (Z.to_nat (blob_length frame_ref) ≤ length blob) then
          (with_client self ch,
           let? frames :=
             map_err (λ e, SourceError (RLPDecodeError e))
               (rlp_decode_list
                  (take (Z.to_nat (blob_length frame_ref)) blob)) in
           Ok (push_data st frames))
        else
          (with_client self ch,
           Err (SourcePanic (SourceSliceIndex RangeOutOfBounds)))
    | (ch, Err e) => (with_client self ch, Err (reported e))
    end.
Proof.
  intros Hd Hq. rewrite (calldata_frames_frame_ref st calldata frame_ref) by done.
  unfold st_bind, st_map_err at 1, on_eigen_da_provider.
  cbn [provider_blob_get OracleEigenDaProvider]. unfold st_map_err.
  destruct (blob_get _ _) as [ch [blob|[e|p]]]; cbn [map_err]; [|done..].
  case_bool_decide; [|done].
  unfold st_lift, st_ret. by destruct (rlp_decode_list _).
Qed.

(** When the client returns a blob for the commitment of a frame
    reference with quorum IDs, and the blob is as long as the reference
    declares, the scan goes on with the frames of the list encoded in the
    declared prefix of the blob. *)
Lemma frames_of_client_blob st calldata frame_ref self ch blob frames :
  decode_calldata_frame (drop 1 calldata)
    = Ok {| value := Some (Value_FrameRef frame_ref) |} →
  quorum_ids frame_ref ≠ [] →
  blob_get (HintType := HintType) (frame_commitment frame_ref)
    (eigen_da_provider self) = (ch, Ok blob) →
  Z.to_nat (blob_length frame_ref) ≤ length blob →
  rlp_decode_list (take (Z.to_nat (blob_length frame_ref)) blob) = Ok frames →
  calldata_frames st calldata self
  = (with_client self ch, Ok (push_data st frames)).
Proof.
  intros Hd Hq Hget Hlen Hrlp.
  rewrite (frame_ref_through_client st calldata frame_ref) by done.
  by rewrite Hget, bool_decide_eq_true_2, Hrlp.
Qed.

(** A failure of the client ends the scan: an error of the oracle
    is reported as [Status] with its text, and a panic of the client, the
    [unwrap] of a certificate that does not decode included, is a panic of
    the source. *)
Theorem source_client_failure st calldata frame_ref self ch e :
  decode_calldata_frame (drop 1 calldata)
    = Ok {| value := Some (Value_FrameRef frame_ref) |} →
  quorum_ids frame_ref ≠ [] →
  blob_get (HintType := HintType) (frame_commitment frame_ref)
    (eigen_da_provider self) = (ch, Err e) →
  calldata_frames st calldata self = (with_client self ch, Err (reported e)).
Proof.
  intros Hd Hq Hget.
  rewrite (frame_ref_through_client st calldata frame_ref) by done.
  by rewrite Hget.
Qed.

End full_stack.

(** * The source over the client, the host and the proxy *)

Section stack.
Context {L1 Blobs L2 : Type}.
Context `{KeyValueStore St, Keccak, BlobCodec, CertDecoder, WitnessBuilder,
  HttpClient, BaseHint HintType, StandardHandler St HintType L1 Blobs L2}.
Context (cfg : EigenDAChainHost)
  (providers : EigenDAChainProviders L1 Blobs L2) (rounds : nat).
Context `{SignerRecovery, ProtoDecoder, RlpListDecoder, BlobDataDecoder}.
Context `{ChainProvider F, BlobProvider B}.
Context (to_string : OracleProviderError → string).

#[local] Instance stack_comms : CommsClient (server St HintType) :=
  host_oracle cfg providers rounds.
#[local] Instance stack_eigen_da : EigenDAProvider (server St HintType) :=
  OracleEigenDaProvider (HintType := HintType) to_string.

(** C4: the source reads a referenced blob through the client, the host
    and the proxy.  The calldata holds a reference with quorum IDs to a
    commitment; the store of the host does not hold the first field element
    of its certificate; the handler succeeds on the hint of the commitment.
    Then the scan goes on with the frames of the list encoded in the
    declared prefix of the blob the proxy returned, and the host is left
    with the store the handler left and with the hint. *)
Theorem source_reads_proxy_blob st calldata frame_ref
    (self : EigenDASource F B (server St HintType)) blob c s s' lh frames :
  0 < rounds →
  tag_free (HintType := HintType) →
  decode_calldata_frame (drop 1 calldata)
    = Ok {| value := Some (Value_FrameRef frame_ref) |} →
  quorum_ids frame_ref ≠ [] →
  35 < length (frame_commitment frame_ref) →
  get_blob (eigen_da providers) (frame_commitment frame_ref) = Ok blob →
  decode_blob_info (drop 3 (frame_commitment frame_ref)) = Ok c →
  (Z.of_nat (length blob) ≤ u32_max)%Z →
  NoDup (host_keys c) →
  eigen_da_provider self = {| server_kv := s; last_hint := lh |} →
  kv_get s (field_element_key c 0) = None →
  fetch_hint (Hint_new EigenDABlob (frame_commitment frame_ref)) cfg providers s
    = (s', Ok tt) →
  Z.to_nat (blob_length frame_ref) ≤ length blob →
  rlp_decode_list (take (Z.to_nat (blob_length frame_ref)) blob) = Ok frames →
  calldata_frames st calldata self
  = (with_client self
       {| server_kv := s';
          last_hint :=
            Some (Hint_new EigenDABlob (frame_commitment frame_ref)) |},
     Ok (push_data st frames)).
Proof.
  intros Hr Hfree Hd Hq Hlen Hg Hc Hu32 Hnd Hself Hmiss Hrun Hblob Hrlp.
  apply (frames_of_client_blob to_string st calldata frame_ref self _ blob);
    [done..| |done|done].
  destruct (fetch_hint_Ok_facts cfg providers (frame_commitment frame_ref)
              blob c s s') as (Hsize & H64 & w & Hs); [done..|].
  rewrite Hself.
  by apply (blob_get_fetched cfg providers rounds (frame_commitment frame_ref)
              blob c w s s').
Qed.

End stack.

(** * The whole stack on the fixtures *)

#[local] Instance stack_oracle
  : CommsClient (server (gmap bytes bytes) KonaHintType) :=
  host_oracle cfg1 providers1 1.
#[local] Instance stack_provider
  : EigenDAProvider (server (gmap bytes bytes) KonaHintType) :=
  OracleEigenDaProvider (HintType := KonaHintType) (λ _, "oracle").
#[local] Existing Instances plain_signer flat_proto flat_rlp plain_blob_data.
#[local] Instance stack_chain : ChainProvider nat := table_chain [].
#[local] Instance stack_blobs : BlobProvider nat := table_blobs [].

(** A source whose provider is the client on a host with an empty store. *)
Definition stack_source
  : EigenDASource nat nat (server (gmap bytes bytes) KonaHintType) :=
  EigenDASource_new 0 0 {| server_kv := ∅; last_hint := None |} (zeros 20).

Definition scan0 : scan :=
  {| scan_data := []; scan_hashes := []; scan_index := 0 |}.

Lemma source_reads_proxy_blob_witness :
  calldata_frames scan0 ([xed; x01; x01; x05] ++ commitment6) stack_source
  = (with_client stack_source
       {| server_kv := (run_on commitment6 ∅).1;
          last_hint := Some (Hint_new EigenDABlob commitment6) |},
     Ok (push_data scan0 [[xaa; xbb]; [xcc]])).
Proof.
  apply (source_reads_proxy_blob cfg1 providers1 1 (λ _, "oracle") scan0
           ([xed; x01; x01; x05] ++ commitment6)
           {| frame_commitment := commitment6; blob_length := 5;
              quorum_ids := [0%Z] |} stack_source blob6 cert6 ∅ _ None);
    [lia|apply kona_tag_free|done|done|vm_compute; lia|by vm_compute
    |by vm_compute|by vm_compute| |done|by vm_compute|eval_run
    |vm_compute; lia|done].
  apply (bool_decide_unpack _). by vm_compute.
Defined.

Lemma source_client_failure_witness :
  calldata_frames scan0 ([xed; x01; x01; x05] ++ commitment5) stack_source
  = (with_client stack_source
       (blob_get (HintType := KonaHintType) commitment5
          {| server_kv := ∅; last_hint := None |}).1,
     Err (SourceError (Status "oracle"))).
Proof.
  apply (source_client_failure (HintType := KonaHintType)
           (λ _, "oracle") scan0
           ([xed; x01; x01; x05] ++ commitment5)
           {| frame_commitment := commitment5; blob_length := 5;
              quorum_ids := [0%Z] |} stack_source _
           (ProviderError (Preimage KeyNotFound)));
    [done|done|eval_run].
Defined.
