(* ===== verification/StoreWf.v ===== *)
(** * StoreWf: the store holds typed preimages

    The keys of the store are [PreimageKey]s: 32 bytes whose first byte is
    a key type.  Under a key of type [Keccak256] the store is to hold the
    preimage of the key, which is what lets the client trust what it reads
    from that key space.  [store_wf] states both of every entry; it is the
    typing invariant of the store.

    The file shows that every write of the handler is well typed, that
    [fetch_hint] keeps the invariant on every outcome, the failed runs that
    have written part of their entries included, that the server keeps it
    over any sequence of requests, and that a read from the [Keccak256] key
    space returns the preimage of the key. *)

From S2P Require Import Prelude Bytes Codec Oracle Hint Proxy Providers Args Host Cfg.
From S2P Require Import Fixtures HostRuns Client Server.
From stdpp Require Import gmap strings.

(** ** The type of a key *)

(** kona's [PreimageKeyType::try_from(u8)] *)
Definition key_type_of_byte (b : byte) : option PreimageKeyType :=
  match b with
  | x01 => Some Local
  | x02 => Some Keccak256
  | x03 => Some GlobalGeneric
  | x04 => Some Sha256
  | x05 => Some Blob
  | x06 => Some Precompile
  | _ => None
  end.

(** kona's [PreimageKey::try_from([u8; 32])]: the type of a stored key,
    when it is one. *)
Definition key_type (k : bytes) : option PreimageKeyType :=
  if bool_decide (length k = 32) then head k ≫= key_type_of_byte else None.

(** The requests of a client, as the server sees them. *)
Inductive request : Set :=
  | WriteHint (hint : string)
  | GetPreimage (key : bytes).

Section store_wf.
Context {L1 Blobs L2 : Type}.
Context `{KeyValueStore St, Keccak, BlobCodec, CertDecoder, WitnessBuilder,
  HttpClient, BaseHint HintType, StandardHandler St HintType L1 Blobs L2}.
Implicit Types (k v h : bytes) (s : St) (ty : PreimageKeyType)
  (kvs : list (bytes * bytes)) (cfg : EigenDAChainHost)
  (providers : EigenDAChainProviders L1 Blobs L2).

(** An entry is well typed: its key is a [PreimageKey], and a key of type
    [Keccak256] is the key of the value it holds. *)
Definition entry_wfb (k v : bytes) : bool :=
  match key_type k with
  | None => false
  | Some Keccak256 => bool_decide (k = preimage_key (keccak256 v) Keccak256)
  | Some _ => true
  end.

Definition entry_wf (kv : bytes * bytes) : Prop := entry_wfb kv.1 kv.2 = true.

(** The typing invariant of the store. *)
Definition store_wf (s : St) : Prop :=
  ∀ k v, kv_get s k = Some v → entry_wf (k, v).

(** The handler of the base hints keeps the invariant. *)
Definition standard_wf : Prop :=
  ∀ (standard_hint : HintType) data single
    (inner : SingleChainProviders L1 Blobs L2) s,
    store_wf s →
    store_wf (single_chain_fetch_hint standard_hint data single inner s).1.

(** One request served. *)
Definition serve cfg providers (rounds : nat) (sv : server St HintType)
    (rq : request) : server St HintType :=
  match rq with
  | WriteHint hint => (server_write hint sv).1
  | GetPreimage key => (get_preimage cfg providers rounds key sv).1
  end.

(** * Lemmas *)

#[export] Instance entry_wf_dec kv : Decision (entry_wf kv).
Proof. unfold entry_wf. apply _. Defined.

(** The invariant is a property of what the store answers. *)
#[export] Instance store_wf_proper : Proper (store_equiv ==> iff) store_wf.
Proof.
  intros s1 s2 Heq. unfold store_wf.
  split; intros Hwf k v Hget; apply Hwf; [by rewrite (Heq k)|by rewrite <-(Heq k)].
Qed.

Lemma key_type_of_byte_spec b ty :
  key_type_of_byte b = Some ty ↔ key_type_byte ty = b.
Proof.
  split.
  - destruct b; try done; by intros [= <-].
  - intros <-. by destruct ty.
Qed.

Lemma key_type_preimage_key h ty :
  length h = 32 → key_type (preimage_key h ty) = Some ty.
Proof.
  intros Hh. unfold key_type.
  rewrite bool_decide_eq_true_2 by by apply length_preimage_key.
  by destruct ty.
Qed.

(** A typed key is [preimage_key] of its own bytes. *)
Lemma key_type_inv k ty :
  key_type k = Some ty → length k = 32 ∧ k = preimage_key k ty.
Proof.
  unfold key_type. case_bool_decide as Hlen; [|done].
  destruct k as [|b k]; [done|]. cbn.
  intros <-%key_type_of_byte_spec. split; [done|].
  unfold preimage_key. cbn. by rewrite drop_0.
Qed.

Lemma entry_wf_keccak v :
  entry_wf (preimage_key (keccak256 v) Keccak256, v).
Proof.
  unfold entry_wf, entry_wfb. cbn.
  rewrite key_type_preimage_key by apply keccak256_length.
  by apply bool_decide_eq_true_2.
Qed.

Lemma entry_wf_generic h v :
  length h = 32 → entry_wf (preimage_key h GlobalGeneric, v).
Proof.
  intros Hh. unfold entry_wf, entry_wfb. cbn.
  by rewrite key_type_preimage_key.
Qed.

(** What the invariant says of a key of type [Keccak256]. *)
Lemma entry_wf_keccak_inv k v :
  entry_wf (k, v) → key_type k = Some Keccak256 →
  k = preimage_key (keccak256 v) Keccak256.
Proof.
  unfold entry_wf, entry_wfb. cbn. intros Hwf Hty. rewrite Hty in Hwf.
  by apply bool_decide_eq_true_1 in Hwf.
Qed.

Lemma kv_set_wf s k v s' :
  store_wf s → entry_wf (k, v) → kv_set s k v = Ok s' → store_wf s'.
Proof.
  intros Hs Hkv Hset k' v'. rewrite (kv_get_set _ _ _ _ _ Hset).
  case_decide; [|by apply Hs]. by intros [= <-]; subst.
Qed.

Lemma kv_set_all_wf kvs s s' :
  store_wf s → Forall entry_wf kvs → kv_set_all kvs s = Ok s' → store_wf s'.
Proof.
  intros Hs Hkvs. revert s Hs.
  induction Hkvs as [|[k v] kvs Hkv _ IH]; intros s Hs.
  - by intros [= <-].
  - unfold kv_set_all. cbn.
    destruct (kv_set s k v) as [s1|] eqn:Hset; [|done].
    apply IH. by eapply kv_set_wf.
Qed.

Lemma kv_set_m_wf {E} (inj : kv_error → E) k v s :
  store_wf s → entry_wf (k, v) → store_wf (kv_set_m inj k v s).1.
Proof.
  intros Hs Hkv. unfold kv_set_m.
  destruct (kv_set s k v) as [s1|] eqn:Hset; [|done].
  by eapply kv_set_wf.
Qed.

(** Every entry of a certificate is well typed. *)
Lemma field_entries_wf c blob i : Forall entry_wf (field_entries c blob i).
Proof.
  repeat constructor;
    [apply entry_wf_keccak|apply entry_wf_generic, keccak256_length].
Qed.

Lemma host_entries_wf c blob w : Forall entry_wf (host_entries c blob w).
Proof.
  apply Forall_app. split.
  - apply Forall_bind, Forall_forall. intros i _. apply field_entries_wf.
  - repeat constructor;
      first [apply entry_wf_keccak|apply entry_wf_generic, keccak256_length].
Qed.

(** Every run of the [EigenDABlob] arm keeps the invariant. *)
Lemma fetch_outcome_wf providers data s s' r :
  fetch_outcome providers data s s' r → store_wf s → store_wf s'.
Proof.
  intros [->|(blob & c & w & kvs & _ & _ & Hpre & Hset)]%fetch_outcome_prefix Hs;
    [done|].
  eapply kv_set_all_wf; [done| |done].
  destruct Hpre as [rest Hrest].
  pose proof (host_entries_wf c blob w) as Hall.
  rewrite Hrest in Hall. by apply Forall_app in Hall as [? _].
Qed.

Lemma fetch_hint_wf hint cfg providers s :
  standard_wf → store_wf s → store_wf (fetch_hint hint cfg providers s).1.
Proof.
  intros Hstd Hs. unfold fetch_hint.
  destruct (hint_ty hint) as [standard_hint|].
  - unfold st_map_err.
    specialize (Hstd standard_hint (hint_data hint) (single_host cfg)
                  (inner_providers providers) s Hs).
    by destruct (single_chain_fetch_hint _ _ _ _ s).
  - eapply fetch_outcome_wf; [|done].
    apply fetch_eigen_da_blob_outcome, surjective_pairing.
Qed.

Lemma retry_wf cfg providers n key (sv : server St HintType) :
  standard_wf → store_wf (server_kv sv) →
  store_wf (server_kv (retry cfg providers n key sv).1).
Proof.
  intros Hstd. revert sv. induction n as [|n IH]; intros sv Hs; [done|].
  cbn [retry]. destruct (last_hint sv) as [hint|]; [|by apply IH].
  pose proof (fetch_hint_wf hint cfg providers _ Hstd Hs) as Hkv.
  destruct (fetch_hint hint cfg providers (server_kv sv)) as [kv [[]|e]];
    [|destruct e; by (done || apply IH)].
  destruct (kv_get kv key); [done|by apply IH].
Qed.

Lemma get_preimage_wf cfg providers rounds key (sv : server St HintType) :
  standard_wf → store_wf (server_kv sv) →
  store_wf (server_kv (get_preimage cfg providers rounds key sv).1).
Proof.
  intros Hstd Hs. unfold get_preimage.
  destruct (kv_get (server_kv sv) key); [done|by apply retry_wf].
Qed.

Lemma route_hint_kv hint (sv : server St HintType) :
  server_kv (route_hint hint sv).1 = server_kv sv.
Proof. unfold route_hint. by destruct (Hint_from_str hint). Qed.

Lemma serve_wf cfg providers rounds (sv : server St HintType) rq :
  standard_wf → store_wf (server_kv sv) →
  store_wf (server_kv (serve cfg providers rounds sv rq)).
Proof.
  intros Hstd Hs. destruct rq as [hint|key]; cbn.
  - by rewrite route_hint_kv.
  - by apply get_preimage_wf.
Qed.

(** What [get_preimage] returns is in the store it leaves. *)
Lemma retry_stored cfg providers n key (sv sv' : server St HintType) v :
  retry cfg providers n key sv = (sv', Ok v) →
  kv_get (server_kv sv') key = Some v.
Proof.
  revert sv. induction n as [|n IH]; intros sv; [done|]. cbn [retry].
  destruct (last_hint sv) as [hint|]; [|by apply IH].
  destruct (fetch_hint hint cfg providers (server_kv sv)) as [kv [[]|e]];
    [|destruct e; by (done || apply IH)].
  destruct (kv_get kv key) eqn:Hget; [|by apply IH].
  by intros [= <- <-].
Qed.

Lemma get_preimage_stored cfg providers rounds key
    (sv sv' : server St HintType) v :
  get_preimage cfg providers rounds key sv = (sv', Ok v) →
  kv_get (server_kv sv') key = Some v.
Proof.
  unfold get_preimage. destruct (kv_get (server_kv sv) key) eqn:Hget.
  - by intros [= <- <-].
  - apply retry_stored.
Qed.

(** * The typing invariant *)

(** C13: [fetch_hint] keeps the typing invariant of the store on every
    outcome: when every entry of the store has a 32-byte key with a key
    type and every entry under a [Keccak256] key is the preimage of its
    key, the same holds of the store the handler leaves, whatever the hint
    is and whether the handler returns [Ok], an error or a panic, provided
    the handler of the base hints keeps the invariant. *)
Theorem fetch_hint_store_wf hint cfg providers s s' r :
  standard_wf → store_wf s →
  fetch_hint hint cfg providers s = (s', r) → store_wf s'.
Proof.
  intros Hstd Hs Hrun.
  pose proof (fetch_hint_wf hint cfg providers s Hstd Hs) as Hwf.
  by rewrite Hrun in Hwf.
Qed.

(** The server keeps the typing invariant of its store over every
    sequence of requests of the client, hints that do not parse and reads
    that fail included. *)
Theorem served_store_wf cfg providers rounds (sv : server St HintType) rqs :
  standard_wf → store_wf (server_kv sv) →
  store_wf (server_kv (foldl (serve cfg providers rounds) sv rqs)).
Proof.
  intros Hstd. revert sv.
  induction rqs as [|rq rqs IH]; intros sv Hs; [done|].
  cbn. by apply IH, serve_wf.
Qed.

(** C22: a read from the [Keccak256] key space returns the preimage of
    the key: when the store of the server is well typed and [get_preimage]
    answers a key of type [Keccak256] with a value, the key is the
    Keccak key of that value. *)
Theorem keccak_read_is_preimage cfg providers rounds key
    (sv sv' : server St HintType) v :
  standard_wf → store_wf (server_kv sv) →
  key_type key = Some Keccak256 →
  get_preimage cfg providers rounds key sv = (sv', Ok v) →
  key = preimage_key (keccak256 v) Keccak256.
Proof.
  intros Hstd Hs Hty Hrun.
  pose proof (get_preimage_wf cfg providers rounds key sv Hstd Hs) as Hwf.
  rewrite Hrun in Hwf.
  apply entry_wf_keccak_inv; [|done].
  by apply Hwf, (get_preimage_stored _ _ _ _ _ _ _ Hrun).
Qed.

End store_wf.

(** * The fixtures *)

Lemma store_wf_empty : store_wf (∅ : gmap bytes bytes).
Proof. by intros k v Hget. Qed.

(** The handler of the base hints of the fixtures writes a typed entry. *)
Lemma fixture_standard_wf : standard_wf (St := gmap bytes bytes).
Proof. intros h data single inner s Hs. apply kv_set_m_wf, entry_wf_keccak. done. Qed.

(** The server of the fixtures on the empty store, after the hint for
    [commitment1]. *)
Definition server1 : server (gmap bytes bytes) KonaHintType :=
  {| server_kv := ∅; last_hint := Some (Hint_new EigenDABlob commitment1) |}.

(** The Keccak key of the first lookup key of [cert1]. *)
Definition lookup_hash1 : bytes :=
  preimage_key (keccak256 (lookup_key cert1 0)) Keccak256.

Lemma fetch_hint_store_wf_witness : store_wf (run_on commitment1 ∅).1.
Proof.
  apply (fetch_hint_store_wf (Hint_new EigenDABlob commitment1) cfg1 providers1
           ∅ _ (run_on commitment1 ∅).2 fixture_standard_wf store_wf_empty).
  apply surjective_pairing.
Defined.

Lemma served_store_wf_witness :
  store_wf (server_kv (foldl (serve cfg1 providers1 1) server1
              [GetPreimage lookup_hash1; WriteHint "bad"; GetPreimage [x00]])).
Proof.
  apply (served_store_wf cfg1 providers1 1 server1 _
           fixture_standard_wf store_wf_empty).
Defined.

Lemma keccak_read_is_preimage_witness :
  lookup_hash1
  = preimage_key
      (keccak256 (default (zeros 0)
         (match (get_preimage cfg1 providers1 1 lookup_hash1 server1).2 with
          | Ok v => Some v
          | Err _ => None
          end))) Keccak256.
Proof.
  apply (keccak_read_is_preimage cfg1 providers1 1 lookup_hash1 server1
           (get_preimage cfg1 providers1 1 lookup_hash1 server1).1 _
           fixture_standard_wf store_wf_empty eq_refl).
  eval_run.
Defined.
