(* ===== verification/Pipeline.v ===== *)
(** * Pipeline: the source as its caller sees it

    The derivation pipeline drives the source of [Source] by two calls:
    [next], until it fails, and [clear].  This file holds

    - the queue of the specification: a source is closed or open with a
      queue of frames; a pull on a closed source loads a queue or fails and
      stays closed, a pull on an open source pops the oldest frame or
      reports the end of the data, [clear] closes the source;
    - the refinement: every call of [next] and [clear], with what it
      returns, is a step of the queue, so every run of the source is a run
      of the queue;
    - the loop of the caller, [pull], which calls [next] until it fails,
      with the bound [pull_bound] on the number of frames it receives: the
      bound decreases at every frame, and a loop with more fuel than the
      bound ends with the error of the last call. *)

From S2P Require Import Prelude Bytes Proxy Source SourceRuns.
From stdpp Require Import strings.

(** ** The queue of the specification *)

Inductive queue_state : Set :=
  | Closed
  | Open (queue : list bytes).

(** What the caller observes: the result of a call of [next], or a call
    of [clear]. *)
Inductive event : Set :=
  | EvNext (r : result next_error bytes)
  | EvClear.

Definition end_of_data : result next_error bytes := Err (Pipeline (temp Eof)).

Inductive queue_step : queue_state → event → queue_state → Prop :=
  | queue_pop d q : queue_step (Open (d :: q)) (EvNext (Ok d)) (Open q)
  | queue_eof : queue_step (Open []) (EvNext end_of_data) (Open [])
  | queue_load_pop d q : queue_step Closed (EvNext (Ok d)) (Open q)
  | queue_load_eof : queue_step Closed (EvNext end_of_data) (Open [])
  | queue_load_failed e :
      Err e ≠ end_of_data → queue_step Closed (EvNext (Err e)) Closed
  | queue_clear st : queue_step st EvClear Closed.

(** A run: steps in sequence, with the events they show. *)
Inductive run {S : Type} (step : S → event → S → Prop)
  : S → list event → S → Prop :=
  | run_nil s : run step s [] s
  | run_cons s1 ev s2 evs s3 :
      step s1 ev s2 → run step s2 evs s3 → run step s1 (ev :: evs) s3.

Definition is_next (ev : event) : Prop :=
  match ev with EvNext _ => True | EvClear => False end.

Section pipeline.
Context `{ChainProvider F, BlobProvider B, EigenDAProvider E, SignerRecovery,
  ProtoDecoder, RlpListDecoder, BlobDataDecoder}.
Implicit Types (self : EigenDASource F B E) (block_ref : BlockInfo)
  (addr : Address) (ev : event) (evs : list event).

(** The calls of the pipeline on the source, with what they return. *)
Inductive source_event : EigenDASource F B E → event → EigenDASource F B E → Prop :=
  | event_next block_ref addr self :
      source_event self (EvNext (next block_ref addr self).2)
        (next block_ref addr self).1
  | event_clear self : source_event self EvClear (clear self).

(** The queue a state of the source stands for. *)
Definition queue_of self : queue_state :=
  if open self then Open (data self) else Closed.

(** The loop of the caller: [next] until it fails.  It returns the frames
    and the error that ended it, or no error when the fuel ran out. *)
Fixpoint pull (fuel : nat) block_ref addr self
  : EigenDASource F B E * (list bytes * option next_error) :=
  match fuel with
  | 0 => (self, ([], None))
  | S fuel =>
      let '(self, r) := next block_ref addr self in
      match r with
      | Ok d =>
          let '(self, (frames, e)) := pull fuel block_ref addr self in
          (self, (d :: frames, e))
      | Err e => (self, ([], Some e))
      end
  end.

(** The number of frames the source has for the caller: those it holds
    when it is open, those of the load when it is closed. *)
Definition pull_bound block_ref addr self : nat :=
  if open self then length (data self)
  else match (fetch_frames block_ref addr self).2 with
       | Ok frames => length frames
       | Err _ => 0
       end.

(** * Lemmas *)

Lemma queue_of_opened self frames : queue_of (opened self frames) = Open frames.
Proof. done. Qed.

Lemma queue_of_closed self : open self = false → queue_of self = Closed.
Proof. unfold queue_of. by intros ->. Qed.

Lemma queue_of_open self : open self = true → queue_of self = Open (data self).
Proof. unfold queue_of. by intros ->. Qed.

(** A load that fails leaves the source closed. *)
Lemma fetch_frames_closed block_ref addr self :
  open self = false → open (fetch_frames block_ref addr self).1 = false.
Proof.
  intros Hclosed.
  destruct (fetch_frames_same block_ref addr self) as (_ & _ & Ho).
  by rewrite Ho.
Qed.

(** A call of [next] is a step of the queue. *)
Lemma next_queue_step block_ref addr self :
  queue_step (queue_of self) (EvNext (next block_ref addr self).2)
    (queue_of (next block_ref addr self).1).
Proof.
  destruct (open self) eqn:Hopen.
  - rewrite next_open_run, queue_of_open by done.
    destruct (data self) as [|d rest] eqn:Hdata; cbn [fst snd].
    + rewrite queue_of_open, Hdata by done. constructor.
    + constructor.
  - rewrite next_closed_run, queue_of_closed by done.
    pose proof (fetch_frames_closed block_ref addr self Hopen) as Hc.
    destruct (fetch_frames _ _ self) as [s1 [[|d rest]|[e|p]]];
      cbn [fst snd] in *; rewrite ?queue_of_opened, ?queue_of_closed by done;
      by constructor.
Qed.

Lemma source_event_queue_step self ev self' :
  source_event self ev self' → queue_step (queue_of self) ev (queue_of self').
Proof.
  intros [block_ref addr s|s]; [apply next_queue_step|].
  rewrite (queue_of_closed (clear s)) by done. constructor.
Qed.

Lemma run_source_queue self evs self' :
  run source_event self evs self' →
  run queue_step (queue_of self) evs (queue_of self').
Proof.
  induction 1 as [|s1 ev s2 evs s3 Hstep _ IH]; [constructor|].
  econstructor; [|done]. by apply source_event_queue_step.
Qed.

(** In the queue, the end of the data lasts until [clear]. *)
Lemma queue_eof_lasts evs q :
  run queue_step (Open []) evs q → Forall is_next evs →
  Forall (λ ev, ev = EvNext end_of_data) evs ∧ q = Open [].
Proof.
  remember (Open []) as q0 eqn:Hq0. intros Hrun. revert Hq0.
  induction Hrun as [|q1 ev q2 evs q3 Hstep _ IH]; intros -> Hall; [done|].
  apply Forall_cons in Hall as [Hev Hall].
  inversion Hstep; subst; try done.
  destruct (IH eq_refl Hall) as [? ->]. by split; [constructor|].
Qed.

Lemma queue_step_eof q q' : queue_step q (EvNext end_of_data) q' → q' = Open [].
Proof. by inversion 1. Qed.

(** [pull] on an open source. *)
Lemma pull_open fuel block_ref addr self :
  open self = true → length (data self) < fuel →
  pull fuel block_ref addr self
  = (opened self [], (data self, Some (Pipeline (temp Eof)))).
Proof.
  revert self. induction fuel as [|fuel IH]; intros s Hopen Hlen; [lia|].
  cbn [pull]. rewrite next_open_run by done.
  destruct (data s) as [|d rest] eqn:Hdata.
  - destruct s; cbn in *; by subst.
  - rewrite (IH (opened s rest)) by (cbn in *; done || lia). done.
Qed.

(** [pull] on a closed source. *)
Lemma pull_closed fuel block_ref addr self :
  open self = false → pull_bound block_ref addr self < fuel →
  pull fuel block_ref addr self
  = match fetch_frames block_ref addr self with
    | (self', Ok frames) =>
        (opened self' [], (frames, Some (Pipeline (temp Eof))))
    | (self', Err (SourceError e)) =>
        (self', ([], Some (Pipeline (temp (Provider (block_hash block_ref) e)))))
    | (self', Err (SourcePanic p)) => (self', ([], Some (NextPanic p)))
    end.
Proof.
  unfold pull_bound. intros Hclosed. rewrite Hclosed.
  destruct fuel as [|fuel]; [lia|]. cbn [pull].
  rewrite next_closed_run by done.
  destruct (fetch_frames _ _ self) as [s1 [[|d rest]|[e|p]]]; cbn [snd];
    intros Hlen; try done.
  by rewrite (pull_open fuel _ _ (opened s1 rest)) by (cbn in *; done || lia).
Qed.

Lemma pull_ends fuel block_ref addr self :
  pull_bound block_ref addr self < fuel →
  ∃ e, (pull fuel block_ref addr self).2.2 = Some e.
Proof.
  intros Hfuel. destruct (open self) eqn:Hopen.
  - rewrite pull_open; [by eexists|done|].
    unfold pull_bound in Hfuel. by rewrite Hopen in Hfuel.
  - rewrite pull_closed by done.
    destruct (fetch_frames _ _ self) as [s1 [frames|[e|p]]]; by eexists.
Qed.

(** * The properties of the source under its caller *)

(** C14: the source refines the queue of the specification.  Every run
    of calls of [next] and [clear] on the source, with the results the
    calls return, is a run of the queue from the queue the first state
    stands for to the queue the last state stands for; a new source stands
    for the closed queue. *)
Theorem source_refines_queue chain_provider blob_fetcher eigen_da_provider
    addr evs self :
  run source_event
    (EigenDASource_new chain_provider blob_fetcher eigen_da_provider addr)
    evs self →
  run queue_step Closed evs (queue_of self).
Proof. apply run_source_queue. Qed.

(** The bound on the frames the caller receives decreases at every
    frame: when [next] returns a frame, the source it leaves has
    fewer frames for the caller than the source it was called on. *)
Theorem next_decreases block_ref addr self self' d :
  next block_ref addr self = (self', Ok d) →
  pull_bound block_ref addr self' < pull_bound block_ref addr self.
Proof.
  unfold pull_bound. destruct (open self) eqn:Hopen.
  - rewrite next_open_run by done.
    destruct (data self) as [|d' rest]; [done|]. intros [= <- _]. cbn. lia.
  - rewrite next_closed_run by done.
    destruct (fetch_frames _ _ self) as [s1 [[|d' rest]|[e|p]]]; try done.
    intros [= <- _]. cbn. lia.
Qed.

(** C16: the loop of the caller terminates.  With more fuel than the
    bound, [pull] ends with the error of a call of [next], not for want of
    fuel, and it has received as many frames as the bound says; more fuel
    changes nothing. *)
Theorem pull_terminates fuel block_ref addr self :
  pull_bound block_ref addr self < fuel →
  is_Some (pull fuel block_ref addr self).2.2
  ∧ length (pull fuel block_ref addr self).2.1 = pull_bound block_ref addr self
  ∧ pull fuel block_ref addr self
    = pull (S (pull_bound block_ref addr self)) block_ref addr self.
Proof.
  intros Hfuel. destruct (open self) eqn:Hopen.
  - assert (pull_bound block_ref addr self = length (data self)) as Hb
      by (unfold pull_bound; by rewrite Hopen).
    rewrite Hb in *. rewrite !pull_open by (done || lia). eauto.
  - rewrite !(pull_closed _ _ _ _ Hopen) by lia.
    unfold pull_bound. rewrite Hopen.
    destruct (fetch_frames _ _ self) as [s1 [frames|[e|p]]]; cbn; eauto.
Qed.

(** C31: once [next] has reported the end of the data, every later call
    of [next] reports it again, whatever block it is called for, until the
    pipeline calls [clear]. *)
Theorem eof_until_clear block_ref addr self evs self' :
  (next block_ref addr self).2 = end_of_data →
  run source_event (next block_ref addr self).1 evs self' →
  Forall is_next evs →
  Forall (λ ev, ev = EvNext end_of_data) evs.
Proof.
  intros Heof Hrun Hall.
  pose proof (next_queue_step block_ref addr self) as Hstep.
  rewrite Heof in Hstep. apply queue_step_eof in Hstep.
  apply run_source_queue in Hrun. rewrite Hstep in Hrun.
  by apply (queue_eof_lasts _ _ Hrun).
Qed.

(** An open source does not look at the block it is asked for: a
    call of [next] for another block, or with another batcher address,
    returns the next frame of the block the source was loaded for. *)
Theorem next_open_ignores_block block_ref addr block_ref' addr' self :
  open self = true →
  next block_ref' addr' self = next block_ref addr self.
Proof. intros Hopen. by rewrite !next_open_run. Qed.

End pipeline.

(** * The source on the block of the examples *)

#[local] Existing Instances example_chain example_blobs example_eigen_da.
#[local] Existing Instances plain_signer flat_proto flat_rlp plain_blob_data.

(** A block the chain provider of the examples does not know. *)
Definition block9 : BlockInfo :=
  {| block_hash := [x09]; block_number := 9; parent_hash := [x08];
     timestamp := 108 |}.

Lemma source_refines_queue_witness :
  run queue_step Closed
    [EvNext (next block1 batcher source1).2; EvClear]
    (queue_of (clear (next block1 batcher source1).1)).
Proof.
  apply (source_refines_queue 0 0 0 inbox).
  eapply run_cons; [apply event_next|].
  eapply run_cons; [apply event_clear|apply run_nil].
Defined.

Lemma next_decreases_witness :
  pull_bound block1 batcher (next block1 batcher source1).1
  < pull_bound block1 batcher source1.
Proof.
  apply (next_decreases block1 batcher source1 _ [x0a; x0b]). eval_run.
Defined.

Lemma pull_terminates_witness :
  is_Some (pull 7 block1 batcher source1).2.2
  ∧ length (pull 7 block1 batcher source1).2.1
    = pull_bound block1 batcher source1
  ∧ pull 7 block1 batcher source1
    = pull (S (pull_bound block1 batcher source1)) block1 batcher source1.
Proof. apply (pull_terminates 7 block1 batcher source1). vm_compute. lia. Defined.

Lemma eof_until_clear_witness :
  Forall (λ ev, ev = EvNext end_of_data)
    [EvNext (next block1 batcher
               (next block9 batcher (opened source1 [])).1).2].
Proof.
  apply (eof_until_clear block9 batcher (opened source1 []) _
           (next block1 batcher (next block9 batcher (opened source1 [])).1).1);
    [done| |by repeat constructor].
  eapply run_cons; [apply event_next|apply run_nil].
Defined.

Lemma next_open_ignores_block_witness :
  next block9 inbox (next block1 batcher source1).1
  = next block1 batcher (next block1 batcher source1).1.
Proof. by apply (next_open_ignores_block block1 batcher block9 inbox). Defined.
