(* ===== verification/Reload.v ===== *)
(** * Reload: [clear] and a second load

    The specification promises that a source that was drained and cleared
    hands out the same frames when it is pulled again.  The frames come
    from the three providers, so the promise is theirs to keep: it holds
    for providers whose answers do not depend on their own state
    ([oblivious]), such as a provider that reads a chain that does not
    change.  For such providers [fetch_frames] depends on the batcher
    address of the source and on nothing else of its state
    ([fetch_frames_respects]), and the loop of the caller returns the same
    frames and the same error after [clear] as before. *)

From S2P Require Import Prelude Bytes Proxy Source SourceRuns Pipeline.
From stdpp Require Import strings.

(** A call whose answer does not depend on the state it is made in. *)
Definition oblivious {P X A : Type} (call : stE P X A) : Prop :=
  ∀ p p', (call p).2 = (call p').2.

Section reload.
Context `{ChainProvider F, BlobProvider B, EigenDAProvider E, SignerRecovery,
  ProtoDecoder, RlpListDecoder, BlobDataDecoder}.
Implicit Types (self : EigenDASource F B E) (st : scan) (tx : TxEnvelope)
  (txs : list TxEnvelope) (block_ref : BlockInfo) (addr : Address).

(** The three providers answer the same in every state. *)
Definition oblivious_providers : Prop :=
  (∀ h, oblivious (block_info_and_transactions_by_hash (F := F) h))
  ∧ (∀ block_ref hashes, oblivious (get_blobs (B := B) block_ref hashes))
  ∧ (∀ commitment, oblivious (provider_blob_get (E := E) commitment)).

(** Two states of the source with the same batcher inbox. *)
Definition same_inbox self self' : Prop :=
  batcher_address self = batcher_address self'.

(** * Lemmas *)

Lemma on_chain_provider_respects {X A} (call : stE F X A) :
  oblivious call →
  st_respects same_inbox (on_chain_provider (B := B) (E := E) call).
Proof.
  intros Hcall s s' Hs. unfold st_sim, on_chain_provider.
  specialize (Hcall (chain_provider s) (chain_provider s')).
  by destruct (call (chain_provider s)), (call (chain_provider s')).
Qed.

Lemma on_blob_fetcher_respects {X A} (call : stE B X A) :
  oblivious call →
  st_respects same_inbox (on_blob_fetcher (F := F) (E := E) call).
Proof.
  intros Hcall s s' Hs. unfold st_sim, on_blob_fetcher.
  specialize (Hcall (blob_fetcher s) (blob_fetcher s')).
  by destruct (call (blob_fetcher s)), (call (blob_fetcher s')).
Qed.

Lemma on_eigen_da_provider_respects {X A} (call : stE E X A) :
  oblivious call →
  st_respects same_inbox (on_eigen_da_provider (F := F) (B := B) call).
Proof.
  intros Hcall s s' Hs. unfold st_sim, on_eigen_da_provider.
  specialize (Hcall (eigen_da_provider s) (eigen_da_provider s')).
  by destruct (call (eigen_da_provider s)), (call (eigen_da_provider s')).
Qed.

Section oblivious.
Context (Hobl : oblivious_providers).

Lemma calldata_frames_respects st calldata :
  st_respects same_inbox (calldata_frames (F := F) (B := B) (E := E) st calldata).
Proof.
  destruct Hobl as (_ & _ & He). unfold calldata_frames. st_rel.
  by apply on_eigen_da_provider_respects.
Qed.

Lemma scan_tx_respects addr st tx :
  st_respects same_inbox (scan_tx (F := F) (B := B) (E := E) addr st tx).
Proof.
  intros s s' Hs. unfold st_sim, scan_tx. rewrite <-Hs.
  repeat case_match; try done. by apply calldata_frames_respects.
Qed.

Lemma data_from_eigen_da_respects txs addr :
  st_respects same_inbox
    (data_from_eigen_da (F := F) (B := B) (E := E) txs addr).
Proof.
  unfold data_from_eigen_da. st_rel. apply scan_tx_respects.
Qed.

Lemma fetch_frames_respects block_ref addr :
  st_respects same_inbox
    (fetch_frames (F := F) (B := B) (E := E) block_ref addr).
Proof.
  destruct Hobl as (Hc & Hb & _). unfold fetch_frames, blob_frames. st_rel;
    first [by apply on_chain_provider_respects
          |by apply on_blob_fetcher_respects
          |apply data_from_eigen_da_respects].
Qed.

(** What the loop of the caller returns from a closed source depends on
    the batcher inbox of the source only. *)
Lemma pull_closed_respects fuel block_ref addr self self' :
  open self = false → open self' = false → same_inbox self self' →
  pull_bound block_ref addr self < fuel →
  (pull fuel block_ref addr self').2 = (pull fuel block_ref addr self).2.
Proof.
  intros Ho Ho' Hs Hfuel.
  destruct (fetch_frames_respects block_ref addr self self' Hs) as [_ Hr].
  assert (pull_bound block_ref addr self' = pull_bound block_ref addr self)
    as Hb by (unfold pull_bound; by rewrite Ho, Ho', Hr).
  rewrite !pull_closed by (done || lia).
  destruct (fetch_frames _ _ self) as [s1 r1],
    (fetch_frames _ _ self') as [s1' r1']; cbn in Hr. subst r1'.
  by destruct r1 as [frames|[e|p]].
Qed.

End oblivious.

(** The state [pull] leaves has the batcher inbox it started with. *)
Lemma pull_same_inbox fuel block_ref addr self :
  same_inbox self (pull fuel block_ref addr self).1.
Proof.
  revert self. induction fuel as [|fuel IH]; intros self; [done|].
  cbn [pull].
  assert (same_inbox self (next block_ref addr self).1) as Hnext.
  { destruct (open self) eqn:Ho.
    - rewrite next_open_run by done. by destruct (data self).
    - rewrite next_closed_run by done.
      destruct (fetch_frames_same block_ref addr self) as (Ha & _).
      unfold same_inbox.
      by destruct (fetch_frames _ _ self) as [s1 [[|d rest]|[e|p]]]. }
  destruct (next block_ref addr self) as [s1 [d|e]]; [|done].
  specialize (IH s1). unfold same_inbox in *.
  destruct (pull fuel block_ref addr s1) as [s2 [frames e]]. cbn in *.
  congruence.
Qed.

(** * The property *)

(** C27: [clear] and a second load reproduce the sequence.  With
    providers whose answers do not depend on their state, a closed source
    that was pulled until [next] failed and then cleared returns, when it
    is pulled again, the same frames in the same order and the same error
    as the first time. *)
Theorem pull_clear_pull fuel block_ref addr self :
  oblivious_providers →
  open self = false →
  pull_bound block_ref addr self < fuel →
  (pull fuel block_ref addr (clear (pull fuel block_ref addr self).1)).2
  = (pull fuel block_ref addr self).2.
Proof.
  intros Hobl Ho Hfuel.
  apply (pull_closed_respects Hobl); [done..| |done].
  apply (pull_same_inbox fuel block_ref addr self).
Qed.

End reload.

(** * The source on the block of the examples *)

#[local] Existing Instances example_chain example_blobs example_eigen_da.
#[local] Existing Instances plain_signer flat_proto flat_rlp plain_blob_data.

(** The providers of the examples count their calls and answer from a
    table. *)
Lemma example_providers_oblivious :
  oblivious_providers (F := nat) (B := nat) (E := nat).
Proof. by split_and!. Qed.

Lemma pull_clear_pull_witness :
  (pull 7 block1 batcher (clear (pull 7 block1 batcher source1).1)).2
  = (pull 7 block1 batcher source1).2.
Proof.
  apply (pull_clear_pull 7 block1 batcher source1 example_providers_oblivious);
    [done|vm_compute; lia].
Defined.
