(* ===== verification/Backend.v ===== *)
(** * Backend: from the arguments to the answers of the host

    [Cfg.start_server] chooses the backend the preimage server runs on.
    This file gives each backend its behaviour towards the client and
    composes the parts: the arguments ([Cfg]), the backend ([Server]), the
    handler ([Host]), the proxy client ([Proxy]) and the client ([Client]).

    - The offline backend of kona ignores hints and answers from the store.
    - The online backend is the server of [Server], run with the arguments
      and the providers it was made with.

    The theorems: an offline host never fetches; an online host asks the
    proxy of its arguments, with their time limit, and the client reads
    back the blob that proxy returns; and a read that is served within a
    number of rounds is served alike with any larger number, so that the
    bound on the rounds does not show in what the client is answered. *)

From S2P Require Import Prelude Bytes Codec Oracle Hint Proxy Providers Args Host Cfg.
From S2P Require Import Fixtures HostRuns Client Server EndToEnd.
From stdpp Require Import strings gmap.

Section backend.
Context `{KeyValueStore St, Keccak, BlobCodec, CertDecoder, WitnessBuilder,
  HttpClient, BaseHint HintType,
  StandardHandler St HintType HttpProvider OnlineBlobProvider HttpProvider}.
Context (rounds : nat).
Implicit Types (b : backend) (self cfg : EigenDAChainHost) (key : bytes)
  (sv : server St HintType) (providers : HostProviders).

(** kona's [OfflineHostBackend]: [route_hint] does nothing. *)
Definition offline_route_hint (hint : string)
  : stE (server St HintType) HintParsingError unit := st_ret tt.

(** kona's [OfflineHostBackend]: [get_preimage] reads the store. *)
Definition offline_get_preimage key
  : stE (server St HintType) PreimageOracleError bytes :=
  λ sv, (sv, ok_or (kv_get (server_kv sv) key) KeyNotFound).

(** [HintRouter::route_hint] of the backend. *)
Definition backend_route_hint b (hint : string)
  : stE (server St HintType) HintParsingError unit :=
  match b with
  | OfflineHostBackend _ => offline_route_hint hint
  | OnlineHostBackend _ _ _ _ => route_hint hint
  end.

(** [PreimageFetcher::get_preimage] of the backend. *)
Definition backend_get_preimage b key
  : stE (server St HintType) PreimageOracleError bytes :=
  match b with
  | OfflineHostBackend _ => offline_get_preimage key
  | OnlineHostBackend cfg _ providers _ =>
      get_preimage cfg providers rounds key
  end.

(** What the client sees of the two channels of a backend. *)
Definition backend_write b (hint : string)
  : stE (server St HintType) PreimageOracleError unit :=
  λ sv, ((backend_route_hint b hint sv).1, Ok tt).

Definition backend_get_exact b key (n : nat)
  : stE (server St HintType) PreimageOracleError bytes :=
  let! preimage := backend_get_preimage b key in
  if bool_decide (length preimage = n) then st_ret preimage
  else st_fail (BufferLengthMismatch (length preimage) n).

Lemma backend_get_exact_length b key n sv sv' buf :
  backend_get_exact b key n sv = (sv', Ok buf) → length buf = n.
Proof.
  unfold backend_get_exact, st_bind.
  destruct (backend_get_preimage b key sv) as [sv1 [v|e]]; [|done].
  case_bool_decide; [|done]. by intros [= _ <-].
Qed.

Definition backend_oracle b : CommsClient (server St HintType) := {|
  oracle_write := backend_write b;
  oracle_get_exact := backend_get_exact b;
  oracle_get_exact_length := backend_get_exact_length b;
|}.

(** * Lemmas *)

(** The online backend is the server of [Server]. *)
Lemma online_backend_oracle cfg kv providers handler commitment sv :
  blob_get (H := backend_oracle (OnlineHostBackend cfg kv providers handler))
    (HintType := HintType) commitment sv
  = blob_get (H := host_oracle cfg providers rounds) (HintType := HintType)
      commitment sv.
Proof. done. Qed.

(** The backends [start_server] makes. *)
Lemma start_server_offline self b :
  is_offline self = true → start_server self = Ok b →
  ∃ kv, b = OfflineHostBackend kv.
Proof. unfold start_server. cbn. intros -> [= <-]. eauto. Qed.

Lemma start_server_online self b :
  is_offline self = false → start_server self = Ok b →
  ∃ kv providers,
    create_providers self = Ok providers
    ∧ b = OnlineHostBackend self kv providers eigen_da_chain_hint_handler.
Proof.
  unfold start_server. cbn. intros ->.
  destruct (create_providers self) as [providers|e]; [|done].
  intros [= <-]. eauto.
Qed.

(** The EigenDA provider [create_providers] builds. *)
Lemma create_providers_eigen_da self providers :
  create_providers self = Ok providers →
  ∃ url, cfg_proxy_url (eigen_da_args self) = Some url
    ∧ eigen_da providers
      = OnlineEigenDAProvider_new
          (EigenDAProxy_new url (retrieve_timeout (eigen_da_args self))).
Proof.
  unfold create_providers.
  destruct (l1_node_address _), (l1_beacon_address _), (l2_node_address _),
    (cfg_proxy_url _) as [url|]; try done.
  intros [= <-]. eauto.
Qed.

(** A response of the proxy is what [get_blob] returns. *)
Lemma get_blob_response url timeout commitment blob :
  http_get (url +:+ "/get/0x" +:+ hex_encode commitment) timeout
    = Response StatusCode_OK (Ok blob) →
  get_blob (OnlineEigenDAProvider_new (EigenDAProxy_new url timeout)) commitment
  = Ok blob.
Proof.
  intros Hget. unfold get_blob, retrieve_blob_with_commitment, request_url.
  cbn. by rewrite Hget.
Qed.

(** More rounds do not change a read that was served. *)
Lemma retry_mono cfg providers n m key sv sv' v :
  n ≤ m →
  retry cfg providers n key sv = (sv', Ok v) →
  retry cfg providers m key sv = (sv', Ok v).
Proof.
  revert m sv. induction n as [|n IH]; intros m sv Hle; [done|].
  destruct m as [|m]; [lia|]. cbn [retry].
  assert (n ≤ m) as Hnm by lia.
  destruct (last_hint sv) as [hint|]; [|by apply IH].
  destruct (fetch_hint hint cfg providers (server_kv sv)) as [kv [[]|e]];
    [|destruct e; by (done || apply IH)].
  destruct (kv_get kv key); [done|by apply IH].
Qed.

(** * The properties of the host *)

(** An offline host never fetches.  The backend [start_server]
    makes for offline arguments ignores every hint and answers every read
    from the store, which it leaves as it is: a key the store lacks is
    [KeyNotFound], whatever the last hint. *)
Theorem offline_host_never_fetches self b hint key sv :
  is_offline self = true →
  start_server self = Ok b →
  backend_route_hint b hint sv = (sv, Ok tt)
  ∧ backend_get_preimage b key sv
    = (sv, ok_or (kv_get (server_kv sv) key) KeyNotFound).
Proof.
  intros Hoff Hb. by apply (start_server_offline _ _ Hoff) in Hb as [kv ->].
Qed.

(** C15: an online host serves the client from the proxy of its
    arguments.  When the host is started online and the proxy at the URL
    of the arguments answers the request for the commitment, within the
    time limit of the arguments, with a blob on which the handler
    succeeds, the client's [blob_get] on the backend returns that blob,
    after one run of the handler. *)
Theorem online_host_reads_configured_proxy self b providers url commitment
    blob c s s' lh :
  is_offline self = false →
  start_server self = Ok b →
  create_providers self = Ok providers →
  cfg_proxy_url (eigen_da_args self) = Some url →
  http_get (url +:+ "/get/0x" +:+ hex_encode commitment)
    (retrieve_timeout (eigen_da_args self))
    = Response StatusCode_OK (Ok blob) →
  0 < rounds →
  tag_free (HintType := HintType) →
  35 < length commitment →
  decode_blob_info (drop 3 commitment) = Ok c →
  (Z.of_nat (length blob) ≤ u32_max)%Z →
  NoDup (host_keys c) →
  kv_get s (field_element_key c 0) = None →
  fetch_hint (Hint_new EigenDABlob commitment) self providers s = (s', Ok tt) →
  blob_get (H := backend_oracle b) (HintType := HintType) commitment
    {| server_kv := s; last_hint := lh |}
  = ({| server_kv := s';
        last_hint := Some (Hint_new EigenDABlob commitment) |}, Ok blob).
Proof.
  intros Hon Hb Hp Hurl Hget Hr Hfree Hlen Hc Hu32 Hnd Hmiss Hrun.
  apply (start_server_online _ _ Hon) in Hb as (kv & providers' & Hp' & ->).
  replace providers' with providers in * by congruence.
  apply create_providers_eigen_da in Hp as (url' & Hurl' & Hp).
  replace url' with url in Hp by congruence.
  apply get_blob_response in Hget. rewrite <-Hp in Hget.
  rewrite online_backend_oracle.
  destruct (fetch_hint_Ok_facts self providers commitment blob c s s')
    as (Hsize & H64 & w & Hs); [done..|].
  by apply (blob_get_fetched self providers rounds commitment blob c w s s').
Qed.

(** The bound on the retries does not show in the answers.  A read
    that [get_preimage] serves within [n] rounds is served with the same
    value and the same store within every larger number of rounds: the
    loop of the backend, which has no bound, ends with that answer. *)
Theorem get_preimage_rounds_mono cfg providers n m key sv sv' v :
  n ≤ m →
  get_preimage cfg providers n key sv = (sv', Ok v) →
  get_preimage cfg providers m key sv = (sv', Ok v).
Proof.
  unfold get_preimage. intros Hle.
  destruct (kv_get (server_kv sv) key); [done|by apply retry_mono].
Qed.

End backend.

(** * The fixtures *)

(** The arguments of the fixtures start an online backend on the
    providers of the fixtures. *)
Lemma start_server_cfg1 :
  start_server cfg1
  = Ok (OnlineHostBackend cfg1
          {| local_store := single_host cfg1; remote := MemoryKeyValueStore |}
          providers1 eigen_da_chain_hint_handler).
Proof. reflexivity. Qed.

Definition backend1 : backend :=
  OnlineHostBackend cfg1
    {| local_store := single_host cfg1; remote := MemoryKeyValueStore |}
    providers1 eigen_da_chain_hint_handler.

Definition offline_backend1 : backend :=
  OfflineHostBackend
    {| local_store := single_host offline_host;
       remote := DiskKeyValueStore "/data" |}.

(** A server that holds the hint for [commitment1] and has not run it. *)
Definition server0 : server (gmap bytes bytes) KonaHintType :=
  {| server_kv := store0;
     last_hint := Some (Hint_new EigenDABlob commitment1) |}.

Lemma offline_host_never_fetches_witness :
  backend_route_hint offline_backend1 "eigen-da-blob 0x00" server0
  = (server0, Ok tt)
  ∧ backend_get_preimage 1 offline_backend1 [x00] server0
    = (server0, ok_or (kv_get (server_kv server0) [x00]) KeyNotFound).
Proof.
  by apply (offline_host_never_fetches 1 offline_host offline_backend1).
Defined.

Lemma online_host_reads_configured_proxy_witness :
  blob_get (H := backend_oracle 1 backend1) (HintType := KonaHintType)
    commitment1 {| server_kv := store0; last_hint := None |}
  = ({| server_kv := (run_on commitment1 store0).1;
        last_hint := Some (Hint_new EigenDABlob commitment1) |}, Ok blob1).
Proof.
  apply (online_host_reads_configured_proxy 1 cfg1 backend1 providers1
           "http://proxy:3100" commitment1 blob1 cert1);
    [done|done|done|done|by vm_compute|lia|apply kona_tag_free|vm_compute; lia
    |by vm_compute|by vm_compute| |by vm_compute|eval_run].
  apply (bool_decide_unpack _). by vm_compute.
Defined.

Lemma get_preimage_rounds_mono_witness :
  get_preimage cfg1 providers1 3 (field_element_key cert1 0) server0
  = ((get_preimage cfg1 providers1 1 (field_element_key cert1 0) server0).1,
     Ok (field_element (blob_encode blob1) 0)).
Proof.
  apply (get_preimage_rounds_mono cfg1 providers1 1 3); [lia|eval_run].
Defined.
