(* ===== verification/Sessions.v ===== *)
(** * Sessions: several commitments on one host

    The client asks for blobs one after the other, and the host keeps one
    store for the whole run.  This file follows a store through the hints
    of two commitments: the entries of one certificate are not touched by
    the run of the handler for another, whatever the outcome of that run,
    as long as the keys of the two certificates are distinct; so a blob
    that was read once is read again after the host has handled another
    hint, and a client that asks for a first blob, a second, and the first
    again gets the first blob twice. *)

From S2P Require Import Prelude Bytes Codec Oracle Hint Proxy Providers Args Host Cfg.
From S2P Require Import Fixtures HostRuns Client Server EndToEnd.
From stdpp Require Import strings gmap.

(** Lists that concatenate without duplicates are disjoint. *)
Lemma NoDup_app_disjoint {A} (l1 l2 : list A) : NoDup (l1 ++ l2) → l1 ## l2.
Proof. intros (_ & Hd & _)%NoDup_app x H1 H2. exact (Hd x H1 H2). Qed.

Section sessions.
Context {L1 Blobs L2 : Type}.
Context `{KeyValueStore St, Keccak, BlobCodec, CertDecoder, WitnessBuilder,
  HttpClient, BaseHint HintType, StandardHandler St HintType L1 Blobs L2}.
Context (cfg : EigenDAChainHost)
  (providers : EigenDAChainProviders L1 Blobs L2) (rounds : nat).

(** [blob_get] of the client on the host of [EndToEnd]. *)
Local Abbreviation host_blob_get :=
  (blob_get (H := end_to_end_oracle cfg providers rounds)
     (HintType := HintType)).

Implicit Types (c : BlobInfo) (blob commitment key : bytes) (i : Z) (s : St)
  (sv : server St HintType).

(** The client asks for the blob of [commitment1], then for that of
    [commitment2], then for the first again. *)
Definition blob_get_three (commitment1 commitment2 : bytes)
  : stE (server St HintType) client_error (bytes * bytes * bytes) :=
  let! first := host_blob_get commitment1 in
  let! second := host_blob_get commitment2 in
  let! again := host_blob_get commitment1 in
  st_ret (first, second, again).

(** The store holds the field elements of a blob under the keys of a
    certificate. *)
Definition holds_blob s c blob : Prop :=
  ∀ i, (0 ≤ i < data_length (blob_header c))%Z →
    kv_get s (field_element_key c i)
    = Some (field_element (blob_encode blob) i).

(** * Lemmas *)

Lemma field_element_key_in c i :
  (0 ≤ i < data_length (blob_header c))%Z → field_element_key c i ∈ host_keys c.
Proof.
  intros Hi. rewrite <-(host_entries_keys c [] EigenDABlobWitness_new).
  apply list_elem_of_fmap. exists (field_element_key c i, field_element (blob_encode []) i).
  split; [done|]. apply elem_of_app. left. by apply field_entry_in.
Qed.

(** A successful run makes the store hold the blob. *)
Lemma fetch_hint_holds commitment blob c s s' :
  get_blob (eigen_da providers) commitment = Ok blob →
  decode_blob_info (drop 3 commitment) = Ok c →
  NoDup (host_keys c) →
  fetch_hint (Hint_new EigenDABlob commitment) cfg providers s = (s', Ok tt) →
  holds_blob s' c blob.
Proof.
  intros Hg Hc Hnd Hrun i Hi.
  destruct (fetch_hint_Ok_facts cfg providers commitment blob c s s')
    as (_ & _ & w & Hs); [done..|].
  by apply (field_element_stored _ _ _ _ _ _ Hs Hnd).
Qed.

(** The run of the handler for another certificate keeps the blob. *)
Lemma holds_blob_frame c blob data c' s s' r :
  holds_blob s c blob →
  decode_blob_info (drop 3 data) = Ok c' →
  host_keys c ## host_keys c' →
  fetch_hint (Hint_new EigenDABlob data) cfg providers s = (s', r) →
  holds_blob s' c blob.
Proof.
  intros Hheld Hc' Hdisj Hrun%fetch_blob_hint_outcome i Hi.
  rewrite (fetch_outcome_frame _ _ _ _ _ _ Hrun); [by apply Hheld|].
  intros c'' Hc''. replace c'' with c' by congruence.
  intros Hin. by apply (Hdisj (field_element_key c i));
    [apply field_element_key_in|].
Qed.

(** A key of another certificate that the store lacks is still missing
    after the run. *)
Lemma miss_frame c commitment c' s s' r :
  kv_get s (field_element_key c' 0) = None →
  decode_blob_info (drop 3 commitment) = Ok c →
  (0 < data_length (blob_header c'))%Z →
  host_keys c ## host_keys c' →
  fetch_hint (Hint_new EigenDABlob commitment) cfg providers s = (s', r) →
  kv_get s' (field_element_key c' 0) = None.
Proof.
  intros Hmiss Hc Hpos Hdisj Hrun%fetch_blob_hint_outcome.
  rewrite (fetch_outcome_frame _ _ _ _ _ _ Hrun); [done|].
  intros c'' Hc''. replace c'' with c by congruence.
  intros Hin. apply (Hdisj (field_element_key c' 0)); [done|].
  apply field_element_key_in. lia.
Qed.

(** A store that holds a blob serves it. *)
Lemma blob_get_kept commitment blob c s lh :
  tag_free (HintType := HintType) →
  35 < length commitment →
  decode_blob_info (drop 3 commitment) = Ok c →
  (Z.of_nat (length (blob_encode blob)) ≤ 32 * data_length (blob_header c))%Z →
  (Z.of_nat (length blob) ≤ u32_max)%Z →
  holds_blob s c blob →
  host_blob_get commitment
    {| server_kv := s; last_hint := lh |}
  = ({| server_kv := s;
        last_hint := Some (Hint_new EigenDABlob commitment) |}, Ok blob).
Proof.
  intros. by apply (blob_get_served cfg providers rounds commitment blob c).
Qed.

(** * The properties of a session *)

(** C23: a blob stays readable after the host has handled the hint of
    another commitment.  When the store holds the field elements of a blob
    and the handler then runs on a hint whose certificate has other keys,
    [blob_get] still returns the blob from the store, whether that run
    succeeded or failed, and at whichever write it stopped. *)
Theorem blob_get_after_other_hint commitment blob c data c' s s' r lh :
  tag_free (HintType := HintType) →
  35 < length commitment →
  decode_blob_info (drop 3 commitment) = Ok c →
  (Z.of_nat (length (blob_encode blob)) ≤ 32 * data_length (blob_header c))%Z →
  (Z.of_nat (length blob) ≤ u32_max)%Z →
  holds_blob s c blob →
  decode_blob_info (drop 3 data) = Ok c' →
  host_keys c ## host_keys c' →
  fetch_hint (Hint_new EigenDABlob data) cfg providers s = (s', r) →
  host_blob_get commitment
    {| server_kv := s'; last_hint := lh |}
  = ({| server_kv := s';
        last_hint := Some (Hint_new EigenDABlob commitment) |}, Ok blob).
Proof.
  intros Hfree Hlen Hc Hsize Hu32 Hheld Hc' Hdisj Hrun.
  apply (blob_get_kept commitment blob c); [done..|].
  by eapply holds_blob_frame.
Qed.

(** C21: a client that reads a first blob, a second, and the first
    again is answered with the first blob both times.  From a store that
    holds neither, when the handler succeeds on both hints and the keys of
    the two certificates are distinct, the three calls return the blobs of
    the proxy, the host runs the handler twice, and the third call is
    served from the store. *)
Theorem blob_get_three_Ok commitment1 commitment2 blob1 blob2 c1 c2 s s1 s2 lh :
  0 < rounds →
  tag_free (HintType := HintType) →
  35 < length commitment1 → 35 < length commitment2 →
  get_blob (eigen_da providers) commitment1 = Ok blob1 →
  get_blob (eigen_da providers) commitment2 = Ok blob2 →
  decode_blob_info (drop 3 commitment1) = Ok c1 →
  decode_blob_info (drop 3 commitment2) = Ok c2 →
  (Z.of_nat (length blob1) ≤ u32_max)%Z →
  (Z.of_nat (length blob2) ≤ u32_max)%Z →
  NoDup (host_keys c1) → NoDup (host_keys c2) →
  host_keys c1 ## host_keys c2 →
  kv_get s (field_element_key c1 0) = None →
  kv_get s (field_element_key c2 0) = None →
  fetch_hint (Hint_new EigenDABlob commitment1) cfg providers s = (s1, Ok tt) →
  fetch_hint (Hint_new EigenDABlob commitment2) cfg providers s1 = (s2, Ok tt) →
  blob_get_three commitment1 commitment2 {| server_kv := s; last_hint := lh |}
  = ({| server_kv := s2;
        last_hint := Some (Hint_new EigenDABlob commitment1) |},
     Ok (blob1, blob2, blob1)).
Proof.
  intros Hr Hfree Hlen1 Hlen2 Hg1 Hg2 Hc1 Hc2 Hu1 Hu2 Hnd1 Hnd2 Hdisj
    Hmiss1 Hmiss2 Hrun1 Hrun2.
  destruct (fetch_hint_Ok_facts cfg providers commitment1 blob1 c1 s s1)
    as (Hsize1 & H641 & w1 & Hs1); [done..|].
  destruct (fetch_hint_Ok_facts cfg providers commitment2 blob2 c2 s1 s2)
    as (Hsize2 & H642 & w2 & Hs2); [done..|].
  assert (0 < data_length (blob_header c2))%Z as Hpos by lia.
  assert (kv_get s1 (field_element_key c2 0) = None) as Hmiss
    by by apply (miss_frame c1 commitment1 c2 s s1 (Ok tt)).
  assert (holds_blob s2 c1 blob1) as Hheld.
  { apply (holds_blob_frame c1 blob1 commitment2 c2 s1 s2 (Ok tt)); [|done..].
    by apply (fetch_hint_holds commitment1 blob1 c1 s s1). }
  unfold blob_get_three, st_bind.
  rewrite (blob_get_fetched cfg providers rounds commitment1 blob1 c1 w1 s s1)
    by done.
  rewrite (blob_get_fetched cfg providers rounds commitment2 blob2 c2 w2 s1 s2)
    by done.
  by rewrite (blob_get_kept commitment1 blob1 c1 s2).
Qed.

End sessions.

(** * A session on the concrete host of [Fixtures] *)

(** The store after the hint of [commitment1], and after that of
    [commitment6] on top of it. *)
Definition store1 : gmap bytes bytes := (run_on commitment1 store0).1.
Definition store16 : gmap bytes bytes := (run_on commitment6 store1).1.

Lemma host_keys_1_6 : host_keys cert1 ## host_keys cert6.
Proof. apply NoDup_app_disjoint, (bool_decide_unpack _). by vm_compute. Qed.

Lemma blob_get_after_other_hint_witness :
  blob_get (H := end_to_end_oracle cfg1 providers1 1) (HintType := KonaHintType)
    commitment1 {| server_kv := store16; last_hint := None |}
  = ({| server_kv := store16;
        last_hint := Some (Hint_new EigenDABlob commitment1) |}, Ok blob1).
Proof.
  apply (blob_get_after_other_hint cfg1 providers1 1 commitment1 blob1 cert1
           commitment6 cert6 store1 store16 (run_on commitment6 store1).2);
    [apply kona_tag_free|vm_compute; lia|by vm_compute|by vm_compute
    |by vm_compute| |by vm_compute|apply host_keys_1_6|apply surjective_pairing].
  apply (fetch_hint_holds cfg1 providers1 commitment1 blob1 cert1 store0);
    [by vm_compute..| |eval_run].
  apply (bool_decide_unpack _). by vm_compute.
Defined.

Lemma blob_get_three_Ok_witness :
  blob_get_three cfg1 providers1 1 commitment1 commitment6
    {| server_kv := store0; last_hint := None |}
  = ({| server_kv := store16;
        last_hint := Some (Hint_new EigenDABlob commitment1) |},
     Ok (blob1, blob6, blob1)).
Proof.
  apply (blob_get_three_Ok cfg1 providers1 1 commitment1 commitment6 blob1 blob6
           cert1 cert6 store0 store1 store16);
    [lia|apply kona_tag_free|vm_compute; lia|vm_compute; lia|by vm_compute..
    | | |apply host_keys_1_6|by vm_compute|by vm_compute|eval_run|eval_run];
    apply (bool_decide_unpack _); by vm_compute.
Defined.
