(* ===== verification/Scenario.v ===== *)
(** * Scenario: a block derived through every part

    The definitions of the development evaluate, and this file runs them
    together on one block: the pipeline pulls the frames of a block from
    the source ([Pipeline.pull]); the source scans the transactions of the
    block ([Source.data_from_eigen_da]); for the transaction that refers to
    an EigenDA blob it calls the client ([Client.blob_get]); the client
    writes the hint and reads the field elements from the host
    ([Server.get_preimage]); the host runs the handler
    ([Host.fetch_hint]), which asks the proxy ([Proxy.get_blob]) and fills
    the store.  The examples state what the pipeline receives, what the
    store of the host holds afterwards, that a second load after [clear]
    is served from the store, how a commitment the proxy does not know
    comes back to the pipeline, and that a reference without quorum IDs
    yields no frame. *)

From S2P Require Import Prelude Bytes Codec Oracle Hint Proxy Providers Args Host Cfg.
From S2P Require Import Fixtures HostRuns Client Server EndToEnd.
From S2P Require Import Source SourceRuns FullStack Pipeline.
From stdpp Require Import strings gmap.

#[local] Instance scenario_oracle
  : CommsClient (server (gmap bytes bytes) KonaHintType) :=
  host_oracle cfg1 providers1 1.
#[local] Instance scenario_provider
  : EigenDAProvider (server (gmap bytes bytes) KonaHintType) :=
  OracleEigenDaProvider (HintType := KonaHintType) (λ _, "oracle").
#[local] Existing Instances plain_signer flat_proto flat_rlp plain_blob_data.

(** A frame in calldata, a reference to the blob of [commitment6], whose
    five bytes are a list of two frames, and a reference to a commitment
    the proxy has no blob for. *)
Definition tx_inline : TxEnvelope :=
  Eip1559 {| to := Some inbox; input := [xed; x00; x11; x22];
             blob_versioned_hashes := []; signature := batcher |}.

Definition tx_reference : TxEnvelope :=
  Eip1559 {| to := Some inbox; input := [xed; x01; x01; x05] ++ commitment6;
             blob_versioned_hashes := []; signature := batcher |}.

Definition tx_unknown : TxEnvelope :=
  Eip1559 {| to := Some inbox; input := [xed; x01; x01; x05] ++ commitment5;
             blob_versioned_hashes := []; signature := batcher |}.

Definition block7 : BlockInfo :=
  {| block_hash := [x07]; block_number := 7; parent_hash := [x06];
     timestamp := 84 |}.

Definition block8 : BlockInfo :=
  {| block_hash := [x08]; block_number := 8; parent_hash := [x07];
     timestamp := 96 |}.

(** A reference without quorum IDs, alone in its block. *)
Definition tx_no_quorum : TxEnvelope :=
  Eip1559 {| to := Some inbox; input := [xed; x01; x00; x05] ++ commitment6;
             blob_versioned_hashes := []; signature := batcher |}.

Definition block10 : BlockInfo :=
  {| block_hash := [x0a]; block_number := 10; parent_hash := [x09];
     timestamp := 120 |}.

#[local] Instance scenario_chain : ChainProvider nat :=
  table_chain [([x07], (block7, [tx_inline; tx_reference]));
               ([x08], (block8, [tx_inline; tx_unknown]));
               ([x0a], (block10, [tx_no_quorum]))].
#[local] Instance scenario_blobs : BlobProvider nat := table_blobs [].

(** A new source whose EigenDA provider is the client, on a host with an
    empty store. *)
Definition scenario_source
  : EigenDASource nat nat (server (gmap bytes bytes) KonaHintType) :=
  EigenDASource_new 0 0 {| server_kv := ∅; last_hint := None |} inbox.

(** The host as the source holds it after the pull of [block7]. *)
Definition host_after : server (gmap bytes bytes) KonaHintType :=
  eigen_da_provider (pull 5 block7 batcher scenario_source).1.

(** The pipeline receives the frame of the calldata and the two frames of
    the blob, in this order, and then the end of the data. *)
Example pull_block7 :
  (pull 5 block7 batcher scenario_source).2
  = ([[x11; x22]; [xaa; xbb]; [xcc]], Some (Pipeline (temp Eof))).
Proof. by vm_compute. Qed.

(** The host has kept the hint of the client, and its store holds the
    two field elements of the blob and nothing under the key of a third. *)
Example host_after_block7 :
  last_hint host_after = Some (Hint_new EigenDABlob commitment6)
  ∧ kv_get (server_kv host_after) (field_element_key cert6 0)
    = Some (field_element (blob_encode blob6) 0)
  ∧ kv_get (server_kv host_after) (field_element_key cert6 1)
    = Some (field_element (blob_encode blob6) 1)
  ∧ kv_get (server_kv host_after) (field_element_key cert6 2) = None.
Proof. by vm_compute. Qed.

(** The block was read once from the chain, and the source is left open
    and empty. *)
Example source_after_block7 :
  chain_provider (pull 5 block7 batcher scenario_source).1 = 1
  ∧ open (pull 5 block7 batcher scenario_source).1 = true
  ∧ data (pull 5 block7 batcher scenario_source).1 = [].
Proof. by vm_compute. Qed.

(** After [clear] the same frames are loaded again; the chain is read a
    second time. *)
Example pull_block7_again :
  (pull 5 block7 batcher
     (clear (pull 5 block7 batcher scenario_source).1)).2
  = ([[x11; x22]; [xaa; xbb]; [xcc]], Some (Pipeline (temp Eof)))
  ∧ chain_provider (pull 5 block7 batcher
       (clear (pull 5 block7 batcher scenario_source).1)).1 = 2.
Proof. by vm_compute. Qed.

(** Without [clear], a pull for the next block is answered with the end
    of the data of the block before. *)
Example pull_block8_without_clear :
  (pull 5 block8 batcher (pull 5 block7 batcher scenario_source).1).2
  = ([], Some (Pipeline (temp Eof))).
Proof. by vm_compute. Qed.

(** A commitment the proxy does not know: the handler fails before its
    first write, the host answers [KeyNotFound] after its round, the
    client fails, and the load of the block fails with the text of the
    error of the client.  The frame of the calldata before it is lost with
    the load, and the source stays closed. *)
Example pull_block8 :
  (pull 5 block8 batcher scenario_source).2
  = ([], Some (Pipeline (temp (Provider [x08] (Status "oracle")))))
  ∧ open (pull 5 block8 batcher scenario_source).1 = false.
Proof. by vm_compute. Qed.

(** The second example of the specification: a block whose only
    transaction refers to a blob without quorum IDs yields no frame; the
    first call of [next] reports the end of the data, and the client was
    not asked for the blob. *)
Example pull_block10 :
  (next block10 batcher scenario_source).2 = Err (Pipeline (temp Eof))
  ∧ (pull 5 block10 batcher scenario_source).2
    = ([], Some (Pipeline (temp Eof)))
  ∧ last_hint (eigen_da_provider (pull 5 block10 batcher scenario_source).1)
    = None.
Proof. by vm_compute. Qed.
