(* ===== verification/Interchange.v ===== *)
(** * Interchange: the provider of the proxy and the provider of the oracle

    The source takes its blobs from an [EigenDAProvider].  The host has a
    provider that asks the proxy ([Proxy.get_blob]); the client has one
    that asks the oracle ([Client.blob_get]), behind which the host runs
    the handler on the blob of the same proxy.  The specification wants
    the two interchangeable: the same commitment, the same bytes.

    This file runs the source of [Source] twice, once over each provider,
    and relates the two runs ([Prelude.st_sim]): on the blocks whose
    references the host can ingest the caller receives the same frames
    and the same error, whatever the host has ingested before.  What the
    host can ingest is a list of commitments with their certificates and
    blobs ([servable]): the handler succeeds on each, and two of them have
    distinct keys or the same certificate and blob.  The second condition
    is needed because the oracle is read by certificate and the proxy by
    commitment, and the examples at the end show the two providers apart
    where a condition fails. *)

From S2P Require Import Prelude Bytes Codec Oracle Hint Proxy Providers Args Host Cfg.
From S2P Require Import Fixtures HostRuns Client Server EndToEnd.
From S2P Require Import Source SourceRuns FullStack Pipeline Sessions Scenario.
From stdpp Require Import strings gmap.

(** The provider of the host as an [EigenDAProvider]: [blob_get] is
    [get_blob], and an error is reported by its text. *)
Definition online_eigen_da `{HttpClient} (text : EigenDAProviderError → string)
  : EigenDAProvider OnlineEigenDAProvider := {|
  provider_blob_get commitment := λ p,
    (p, map_err (λ e, ProviderFailed (text e)) (get_blob p commitment));
|}.

(** A blob the host serves: the commitment, its certificate, and the blob
    the proxy has for the commitment. *)
Record served : Set := {
  served_commitment : bytes;
  served_cert : BlobInfo;
  served_blob : bytes;
}.

(** The commitment the scan of a transaction asks the provider for: that
    of a frame reference with quorum IDs in the calldata. *)
Definition referenced `{ProtoDecoder} (calldata : bytes) : option bytes :=
  match decode_calldata_frame (drop 1 calldata) with
  | Ok calldata_frame =>
      match value calldata_frame with
      | Some (Value_FrameRef frame_ref) =>
          if bool_decide (quorum_ids frame_ref = []) then None
          else Some (frame_commitment frame_ref)
      | _ => None
      end
  | Err _ => None
  end.

(** The reference in the calldata, if any, is to a blob of the list. *)
Definition calldata_known `{ProtoDecoder} (known : list served)
    (calldata : bytes) : Prop :=
  match referenced calldata with
  | Some commitment => commitment ∈ served_commitment <$> known
  | None => True
  end.

Definition tx_known `{ProtoDecoder} (known : list served) (tx : TxEnvelope)
  : Prop :=
  match tx_parts tx with
  | Some (_, calldata, _) => calldata_known known calldata
  | None => True
  end.

#[export] Instance calldata_known_dec `{ProtoDecoder} known calldata :
  Decision (calldata_known known calldata).
Proof. unfold calldata_known. destruct (referenced calldata); apply _. Defined.

#[export] Instance tx_known_dec `{ProtoDecoder} known tx :
  Decision (tx_known known tx).
Proof.
  unfold tx_known. destruct (tx_parts tx) as [[[? calldata] ?]|]; apply _.
Defined.

Section interchange.
Context {L1 Blobs L2 : Type}.
Context `{KeyValueStore St, Keccak, BlobCodec, CertDecoder, WitnessBuilder,
  HttpClient, BaseHint HintType, StandardHandler St HintType L1 Blobs L2}.
Context (cfg : EigenDAChainHost)
  (providers : EigenDAChainProviders L1 Blobs L2) (rounds : nat).
Context `{SignerRecovery, ProtoDecoder, RlpListDecoder, BlobDataDecoder}.
Context `{ChainProvider F, BlobProvider B}.
Context (to_string : OracleProviderError → string)
  (text : EigenDAProviderError → string).

(** The two providers of the source. *)
#[local] Instance oracle_side : EigenDAProvider (server St HintType) :=
  OracleEigenDaProvider (H := end_to_end_oracle cfg providers rounds)
    (HintType := HintType) to_string.
#[local] Instance online_side : EigenDAProvider OnlineEigenDAProvider :=
  online_eigen_da text.

Implicit Types (e : served) (known : list served) (s : St)
  (sv : server St HintType) (p : OnlineEigenDAProvider)
  (so : EigenDASource F B (server St HintType))
  (sp : EigenDASource F B OnlineEigenDAProvider)
  (block_ref : BlockInfo) (addr : Address) (st : scan).

(** The handler succeeds on the hint of the entry, whatever the store
    holds, and the client accepts the commitment. *)
Definition ingestible e : Prop :=
  35 < length (served_commitment e)
  ∧ get_blob (eigen_da providers) (served_commitment e) = Ok (served_blob e)
  ∧ decode_blob_info (drop 3 (served_commitment e)) = Ok (served_cert e)
  ∧ (Z.of_nat (length (served_blob e)) ≤ u32_max)%Z
  ∧ NoDup (host_keys (served_cert e))
  ∧ ∀ s, (fetch_hint (Hint_new EigenDABlob (served_commitment e))
            cfg providers s).2 = Ok tt.

(** Two entries do not clash: their keys are distinct, or they have the
    same certificate and the same blob. *)
Definition apart e1 e2 : Prop :=
  host_keys (served_cert e1) ## host_keys (served_cert e2)
  ∨ (served_cert e1 = served_cert e2 ∧ served_blob e1 = served_blob e2).

Definition servable known : Prop :=
  Forall ingestible known
  ∧ ∀ e1 e2, e1 ∈ known → e2 ∈ known → apart e1 e2.

(** The store holds all the field elements of an entry or not the first. *)
Definition consistent known s : Prop :=
  ∀ e, e ∈ known →
    kv_get s (field_element_key (served_cert e) 0) = None
    ∨ holds_blob s (served_cert e) (served_blob e).

(** The provider of the host is that of the handler, and the store behind
    the oracle is consistent. *)
Definition provider_sim known sv p : Prop :=
  p = eigen_da providers ∧ consistent known (server_kv sv).

(** The two sources differ in their providers only. *)
Definition similar known so sp : Prop :=
  chain_provider so = chain_provider sp
  ∧ blob_fetcher so = blob_fetcher sp
  ∧ batcher_address so = batcher_address sp
  ∧ data so = data sp
  ∧ open so = open sp
  ∧ provider_sim known (eigen_da_provider so) (eigen_da_provider sp).

(** The references of the block the chain provider returns are known. *)
Definition block_known known block_ref (f : F) : Prop :=
  ∀ f' info,
    block_info_and_transactions_by_hash (block_hash block_ref) f
      = (f', Ok info) →
    Forall (tx_known known) info.2.

(** * The oracle serves the entries of the list *)

Section served.
Context (Hrounds : 0 < rounds) (Hfree : tag_free (HintType := HintType)).
Context (known : list served) (Hknown : servable known).

Lemma known_ingestible e : e ∈ known → ingestible e.
Proof. destruct Hknown as [Hall _]. by apply Forall_forall. Qed.

(** The run of the handler on an entry. *)
Lemma ingestible_run e s :
  ingestible e →
  ∃ s' w,
    fetch_hint (Hint_new EigenDABlob (served_commitment e)) cfg providers s
      = (s', Ok tt)
    ∧ (Z.of_nat (length (blob_encode (served_blob e)))
       ≤ 32 * data_length (blob_header (served_cert e)))%Z
    ∧ 64 ≤ length (blob_encode (served_blob e))
    ∧ kv_set_all (host_entries (served_cert e) (served_blob e) w) s = Ok s'.
Proof.
  intros (_ & Hg & Hc & _ & _ & Hrun). specialize (Hrun s).
  destruct (fetch_hint _ cfg providers s) as [s' r] eqn:Hf. cbn in Hrun. subst r.
  destruct (fetch_hint_Ok_facts cfg providers _ _ _ s s' Hg Hc Hf)
    as (Hsize & H64 & w & Hs).
  by exists s', w.
Qed.

(** The run of the handler on one entry keeps the store consistent. *)
Lemma consistent_run e s s' :
  e ∈ known → consistent known s →
  fetch_hint (Hint_new EigenDABlob (served_commitment e)) cfg providers s
    = (s', Ok tt) →
  consistent known s'.
Proof.
  intros He Hcons Hf e' He'.
  destruct (known_ingestible e He) as (_ & Hg & Hc & _ & Hnd & _).
  destruct Hknown as [_ Hapart].
  destruct (Hapart e' e He' He) as [Hdisj|[-> ->]].
  - destruct (Hcons e' He') as [Hmiss|Hheld].
    + left.
      destruct (ingestible_run e' s (known_ingestible e' He'))
        as (_ & _ & _ & Hsize & H64 & _).
      apply (miss_frame cfg providers (served_cert e) (served_commitment e)
               (served_cert e') s s' (Ok tt)); [done|done|lia| |done].
      intros k Hk Hk'. exact (Hdisj k Hk' Hk).
    + right. by apply (holds_blob_frame cfg providers _ _
                         (served_commitment e) (served_cert e) s s' (Ok tt)).
  - right. by apply (fetch_hint_holds cfg providers (served_commitment e)
                       (served_blob e) (served_cert e) s s').
Qed.

(** The client reads the blob of an entry from a consistent store, and
    leaves the store consistent. *)
Lemma blob_get_entry e s lh :
  e ∈ known → consistent known s →
  ∃ s',
    blob_get (H := end_to_end_oracle cfg providers rounds)
      (HintType := HintType) (served_commitment e)
      {| server_kv := s; last_hint := lh |}
    = ({| server_kv := s';
          last_hint := Some (Hint_new EigenDABlob (served_commitment e)) |},
       Ok (served_blob e))
    ∧ consistent known s'.
Proof.
  intros He Hcons.
  pose proof (known_ingestible e He) as Hing.
  destruct (ingestible_run e s Hing) as (s' & w & Hf & Hsize & H64 & Hs).
  destruct Hing as (Hlen & Hg & Hc & Hu32 & Hnd & _).
  destruct (Hcons e He) as [Hmiss|Hheld].
  - exists s'. split; [|by apply (consistent_run e s)].
    by apply (blob_get_fetched cfg providers rounds _ _ (served_cert e) w).
  - exists s. split; [|done].
    by apply (blob_get_kept cfg providers rounds _ _ (served_cert e)).
Qed.

(** * The two runs of the source *)

(** The two providers answer alike for an entry of the list. *)
Lemma provider_blob_get_sim e sv p :
  e ∈ known → provider_sim known sv p →
  st_sim (provider_sim known)
    (provider_blob_get (served_commitment e))
    (provider_blob_get (served_commitment e)) sv p.
Proof.
  intros He [-> Hcons]. destruct sv as [s lh].
  destruct (blob_get_entry e s lh He Hcons) as (s' & Hget & Hcons').
  destruct (known_ingestible e He) as (_ & Hg & _).
  unfold st_sim. cbn [provider_blob_get oracle_side OracleEigenDaProvider
    online_side online_eigen_da]. unfold st_map_err.
  by rewrite Hget, Hg.
Qed.

Lemma on_chain_provider_sim {X A} (call : stE F X A) so sp :
  similar known so sp →
  st_sim (similar known) (on_chain_provider call) (on_chain_provider call)
    so sp.
Proof.
  intros (Hc & Hsim). unfold st_sim, on_chain_provider. rewrite Hc.
  by destruct (call (chain_provider sp)).
Qed.

Lemma on_blob_fetcher_sim {X A} (call : stE B X A) so sp :
  similar known so sp →
  st_sim (similar known) (on_blob_fetcher call) (on_blob_fetcher call) so sp.
Proof.
  intros (Hc & Hb & Hsim). unfold st_sim, on_blob_fetcher. rewrite Hb.
  by destruct (call (blob_fetcher sp)).
Qed.

Lemma on_eigen_da_provider_sim {X A} (call1 : stE (server St HintType) X A)
    (call2 : stE OnlineEigenDAProvider X A) so sp :
  similar known so sp →
  st_sim (provider_sim known) call1 call2
    (eigen_da_provider so) (eigen_da_provider sp) →
  st_sim (similar known)
    (on_eigen_da_provider call1) (on_eigen_da_provider call2) so sp.
Proof.
  intros (Hc & Hb & Ha & Hd & Ho & _) [Hp Hr].
  unfold st_sim, on_eigen_da_provider.
  by destruct (call1 (eigen_da_provider so)),
    (call2 (eigen_da_provider sp)).
Qed.

(** The frames of calldata whose reference is known. *)
Lemma calldata_frames_sim st calldata so sp :
  calldata_known known calldata → similar known so sp →
  st_sim (similar known)
    (calldata_frames st calldata) (calldata_frames st calldata) so sp.
Proof.
  intros Hk Hsim. unfold calldata_frames, calldata_known, referenced in *.
  apply st_sim_bind; [by apply st_sim_lift|].
  intros calldata_frame so' sp' Hd Hsim'. unfold st_lift in Hd.
  destruct (decode_calldata_frame (drop 1 calldata)) as [frame'|]; [|done].
  injection Hd as <- <-.
  destruct (value frame') as [[frame|frame_ref]|]; try by apply st_sim_ret.
  case_bool_decide; [by apply st_sim_ret|].
  apply list_elem_of_fmap in Hk as (e & -> & He).
  apply st_sim_bind.
  { apply st_sim_map_err, on_eigen_da_provider_sim; [done|].
    apply provider_blob_get_sim; [done|apply Hsim']. }
  intros blob so1 sp1 _ Hsim1. st_simul.
Qed.

(** The body of the scan on a transaction whose reference is known. *)
Lemma scan_tx_sim addr st tx so sp :
  tx_known known tx → similar known so sp →
  st_sim (similar known) (scan_tx addr st tx) (scan_tx addr st tx) so sp.
Proof.
  intros Hk Hsim. pose proof Hsim as (_ & _ & Ha & _).
  unfold st_sim, scan_tx, tx_known in *. rewrite Ha.
  destruct (tx_parts tx) as [[[[to|] calldata] blob_hashes]|]; [|done..].
  repeat case_bool_decide; try done; [by destruct blob_hashes|].
  by apply calldata_frames_sim.
Qed.

Lemma data_from_eigen_da_sim txs addr so sp :
  Forall (tx_known known) txs → similar known so sp →
  st_sim (similar known)
    (data_from_eigen_da txs addr) (data_from_eigen_da txs addr) so sp.
Proof.
  intros Htxs Hsim. unfold data_from_eigen_da. apply st_sim_bind.
  - apply (st_sim_for_each _ (tx_known known)); [|done..].
    intros. by apply scan_tx_sim.
  - intros. by apply st_sim_ret.
Qed.

(** The load of a block whose references are known. *)
Lemma fetch_frames_sim block_ref addr so sp :
  block_known known block_ref (chain_provider so) → similar known so sp →
  st_sim (similar known)
    (fetch_frames block_ref addr) (fetch_frames block_ref addr) so sp.
Proof.
  intros Hblock Hsim. unfold fetch_frames, blob_frames.
  apply st_sim_bind; [by apply st_sim_map_err, on_chain_provider_sim|].
  intros info so1 sp1 Hinfo Hsim1.
  assert (Forall (tx_known known) info.2) as Htxs.
  { unfold st_map_err, on_chain_provider in Hinfo.
    destruct (block_info_and_transactions_by_hash _ _) as [f' [info'|?]]
      eqn:Hcall; [|done].
    injection Hinfo as _ <-. by apply (Hblock f'). }
  apply st_sim_bind; [by apply data_from_eigen_da_sim|].
  intros found so2 sp2 _ Hsim2. case_bool_decide; [|by apply st_sim_ret].
  apply st_sim_bind; [|intros; by apply st_sim_ret].
  apply st_sim_bind; [by apply st_sim_map_err, on_blob_fetcher_sim|].
  intros blobs so3 sp3 _ Hsim3. st_simul.
Qed.

Lemma similar_opened so sp frames :
  similar known so sp → similar known (opened so frames) (opened sp frames).
Proof. by intros (? & ? & ? & ? & ? & ?). Qed.

(** A call of [next]; the references of the block matter when the source
    is closed. *)
Lemma next_sim block_ref addr so sp :
  (open so = false → block_known known block_ref (chain_provider so)) →
  similar known so sp →
  st_sim (similar known) (next block_ref addr) (next block_ref addr) so sp.
Proof.
  intros Hblock Hsim. pose proof Hsim as (_ & _ & _ & Hd & Ho & _).
  unfold st_sim. destruct (open so) eqn:Hopen.
  - rewrite !next_open_run, <-Hd by done.
    destruct (data so); [done|]. by split; [apply similar_opened|].
  - rewrite !next_closed_run by done.
    destruct (fetch_frames_sim block_ref addr so sp (Hblock eq_refl) Hsim)
      as [Hs Hr].
    destruct (fetch_frames _ _ so) as [so' r], (fetch_frames _ _ sp) as [sp' r'].
    cbn in Hs, Hr. subst r'.
    destruct r as [[|d rest]|[e|q]]; try done;
      by split; [apply similar_opened|].
Qed.

(** A frame is returned by an open source. *)
Lemma next_Ok_open {E} `{EigenDAProvider E} block_ref addr
    (self self' : EigenDASource F B E) d :
  next block_ref addr self = (self', Ok d) → open self' = true.
Proof.
  destruct (open self) eqn:Hopen.
  - rewrite next_open_run by done. destruct (data self); [done|].
    by intros [= <- _].
  - rewrite next_closed_run by done.
    destruct (fetch_frames _ _ self) as [s1 [[|d' rest]|[e|q]]]; try done.
    by intros [= <- _].
Qed.

(** The loop of the caller. *)
Lemma pull_sim fuel block_ref addr so sp :
  (open so = false → block_known known block_ref (chain_provider so)) →
  similar known so sp →
  similar known (pull fuel block_ref addr so).1 (pull fuel block_ref addr sp).1
  ∧ (pull fuel block_ref addr so).2 = (pull fuel block_ref addr sp).2.
Proof.
  revert so sp. induction fuel as [|fuel IH]; intros so sp Hblock Hsim; [done|].
  cbn [pull].
  destruct (next_sim block_ref addr so sp Hblock Hsim) as [Hs Hr].
  destruct (next _ _ so) as [so1 r] eqn:Hnext, (next _ _ sp) as [sp1 r'].
  cbn in Hs, Hr. subst r'. destruct r as [d|e]; [|done].
  apply next_Ok_open in Hnext.
  destruct (IH so1 sp1) as [Hs1 Hr1]; [congruence|done|].
  destruct (pull fuel _ _ so1) as [so2 [frames e]],
    (pull fuel _ _ sp1) as [sp2 [frames' e']].
  cbn in *. split; [done|congruence].
Qed.

Lemma similar_clear so sp :
  similar known so sp → similar known (clear so) (clear sp).
Proof. by intros (? & ? & ? & ? & ? & ?). Qed.

(** ** The two sources as transition systems

    On a chain all of whose references are known, a call on one source is
    matched by the same call on the other, with the same result. *)

Context (Hchain : ∀ block_ref f, block_known known block_ref f).

Lemma source_event_sim so sp ev so' :
  similar known so sp → source_event so ev so' →
  ∃ sp', source_event sp ev sp' ∧ similar known so' sp'.
Proof.
  intros Hsim Hstep. revert sp Hsim.
  destruct Hstep as [block_ref addr so|so]; intros sp Hsim.
  - destruct (next_sim block_ref addr so sp) as [Hs Hr]; [by intros _|done|].
    exists (next block_ref addr sp).1. rewrite Hr. by split; [constructor|].
  - exists (clear sp). by split; [constructor|apply similar_clear].
Qed.

Lemma source_event_sim_inv so sp ev sp' :
  similar known so sp → source_event sp ev sp' →
  ∃ so', source_event so ev so' ∧ similar known so' sp'.
Proof.
  intros Hsim Hstep. revert so Hsim.
  destruct Hstep as [block_ref addr sp|sp]; intros so Hsim.
  - destruct (next_sim block_ref addr so sp) as [Hs Hr]; [by intros _|done|].
    exists (next block_ref addr so).1. rewrite <-Hr. by split; [constructor|].
  - exists (clear so). by split; [constructor|apply similar_clear].
Qed.

Lemma run_source_sim so sp evs so' :
  similar known so sp → run source_event so evs so' →
  ∃ sp', run source_event sp evs sp' ∧ similar known so' sp'.
Proof.
  intros Hsim Hrun. revert sp Hsim.
  induction Hrun as [|so1 ev so2 evs so3 Hstep _ IH]; intros sp Hsim.
  - exists sp. by split; [constructor|].
  - destruct (source_event_sim so1 sp ev so2 Hsim Hstep) as (sp2 & Hstep2 & Hsim2).
    destruct (IH sp2 Hsim2) as (sp3 & Hrun3 & Hsim3).
    exists sp3. by split; [econstructor|].
Qed.

Lemma run_source_sim_inv so sp evs sp' :
  similar known so sp → run source_event sp evs sp' →
  ∃ so', run source_event so evs so' ∧ similar known so' sp'.
Proof.
  intros Hsim Hrun. revert so Hsim.
  induction Hrun as [|sp1 ev sp2 evs sp3 Hstep _ IH]; intros so Hsim.
  - exists so. by split; [constructor|].
  - destruct (source_event_sim_inv so sp1 ev sp2 Hsim Hstep)
      as (so2 & Hstep2 & Hsim2).
    destruct (IH so2 Hsim2) as (so3 & Hrun3 & Hsim3).
    exists so3. by split; [econstructor|].
Qed.

End served.

(** An entry is ingestible when the store takes every write and the
    handler finds nothing wrong with the blob of the proxy. *)
Lemma ingestible_intro e w :
  (∀ kvs s, ∃ s', kv_set_all kvs s = Ok s') →
  35 < length (served_commitment e) →
  get_blob (eigen_da providers) (served_commitment e) = Ok (served_blob e) →
  decode_blob_info (drop 3 (served_commitment e)) = Ok (served_cert e) →
  (Z.of_nat (length (served_blob e)) ≤ u32_max)%Z →
  NoDup (host_keys (served_cert e)) →
  (Z.of_nat (length (blob_encode (served_blob e)))
   ≤ 32 * data_length (blob_header (served_cert e)))%Z →
  push_witness EigenDABlobWitness_new (served_blob e) = Ok w →
  commitment_matches (blob_encode (served_blob e)) (served_cert e) = Ok true →
  ingestible e.
Proof.
  intros Htotal Hlen Hg Hc Hu32 Hnd Hsize Hw Hm. split_and!; try done.
  intros s.
  destruct (Htotal (host_entries (served_cert e) (served_blob e) w) s)
    as [s' Hs'].
  enough (fetch_hint (Hint_new EigenDABlob (served_commitment e))
            cfg providers s = (s', Ok tt)) as -> by done.
  apply fetch_blob_hint_outcome, fetch_outcome_Ok. split; [lia|].
  by exists (served_blob e), (served_cert e), w.
Qed.

(** * The properties *)

(** C5: the provider of the oracle and the provider of the proxy are
    interchangeable for the source.  Take a list of commitments on each
    of which the handler succeeds, any two with distinct keys or with
    the same certificate and blob, a host whose store holds all the field
    elements of a listed blob or not the first, and a block whose frame
    references are to listed commitments.  Then the caller of a new
    source receives the same frames in the same order and the same error
    whether the source asks the client, behind which the host ingests the
    blobs of the proxy, or the proxy itself. *)
Theorem providers_interchangeable known fuel block_ref addr
    (chain_provider : F) (blob_fetcher : B) inbox s lh :
  0 < rounds →
  tag_free (HintType := HintType) →
  servable known →
  consistent known s →
  block_known known block_ref chain_provider →
  (pull fuel block_ref addr
     (EigenDASource_new chain_provider blob_fetcher
        {| server_kv := s; last_hint := lh |} inbox)).2
  = (pull fuel block_ref addr
       (EigenDASource_new chain_provider blob_fetcher
          (eigen_da providers) inbox)).2.
Proof.
  intros Hr Hfree Hknown Hcons Hblock.
  by apply (pull_sim Hr Hfree known Hknown).
Qed.

(** C17: the two sources have the same traces.  On a chain all of
    whose frame references are to listed commitments, and from two
    sources that differ in their providers only, the one over a host with
    a consistent store, every sequence of calls of [next] and [clear] with
    the results the calls return is a run of the source over the client
    exactly when it is a run of the source over the proxy. *)
Theorem source_traces_agree known so sp evs :
  0 < rounds →
  tag_free (HintType := HintType) →
  servable known →
  (∀ block_ref f, block_known known block_ref f) →
  similar known so sp →
  (∃ so', run source_event so evs so') ↔ (∃ sp', run source_event sp evs sp').
Proof.
  intros Hr Hfree Hknown Hchain Hsim. split.
  - intros [so' Hrun].
    destruct (run_source_sim Hr Hfree known Hknown Hchain so sp evs so')
      as (sp' & Hrun' & _); eauto.
  - intros [sp' Hrun].
    destruct (run_source_sim_inv Hr Hfree known Hknown Hchain so sp evs sp')
      as (so' & Hrun' & _); eauto.
Qed.

(** C35: the oracle is read by certificate, the proxy by commitment.
    After the host has ingested the blob of a commitment, a second
    commitment with the same certificate is answered with the blob of the
    first: the client reads the field elements the store holds, the store
    stays as it is, and the proxy is not asked for the second
    commitment. *)
Theorem same_certificate_first_blob commitment1 commitment2 blob c s s' lh :
  0 < rounds →
  tag_free (HintType := HintType) →
  35 < length commitment1 → 35 < length commitment2 →
  get_blob (eigen_da providers) commitment1 = Ok blob →
  decode_blob_info (drop 3 commitment1) = Ok c →
  decode_blob_info (drop 3 commitment2) = Ok c →
  (Z.of_nat (length blob) ≤ u32_max)%Z →
  NoDup (host_keys c) →
  kv_get s (field_element_key c 0) = None →
  fetch_hint (Hint_new EigenDABlob commitment1) cfg providers s = (s', Ok tt) →
  (let! first := blob_get (H := end_to_end_oracle cfg providers rounds)
                   (HintType := HintType) commitment1 in
   let! second := blob_get (H := end_to_end_oracle cfg providers rounds)
                    (HintType := HintType) commitment2 in
   st_ret (first, second)) {| server_kv := s; last_hint := lh |}
  = ({| server_kv := s';
        last_hint := Some (Hint_new EigenDABlob commitment2) |},
     Ok (blob, blob)).
Proof.
  intros Hr Hfree Hlen1 Hlen2 Hg Hc1 Hc2 Hu32 Hnd Hmiss Hrun.
  destruct (fetch_hint_Ok_facts cfg providers commitment1 blob c s s')
    as (Hsize & H64 & w & Hs); [done..|].
  unfold st_bind.
  rewrite (blob_get_fetched cfg providers rounds commitment1 blob c w s s')
    by done.
  rewrite (blob_get_kept cfg providers rounds commitment2 blob c s'); [done..|].
  by apply (fetch_hint_holds cfg providers commitment1 blob c s s').
Qed.

End interchange.

(** * The two providers on the fixtures *)

(** The memory store takes every write. *)
Lemma mem_store_total (kvs : list (bytes * bytes)) (s : gmap bytes bytes) :
  ∃ s', kv_set_all kvs s = Ok s'.
Proof.
  revert s. induction kvs as [|[k v] kvs IH]; intros s; [by exists s|].
  apply (IH (<[k := v]> s)).
Qed.

Definition served1 : served :=
  {| served_commitment := commitment1; served_cert := cert1;
     served_blob := blob1 |}.

Definition served6 : served :=
  {| served_commitment := commitment6; served_cert := cert6;
     served_blob := blob6 |}.

(** Another commitment with the certificate of [commitment6]; the proxy
    has no blob for it. *)
Definition commitment7 : bytes := [x02; x00; x00] ++ flat_cert_encode cert6.

#[local] Instance fixture_oracle_side
  : EigenDAProvider (server (gmap bytes bytes) KonaHintType) :=
  oracle_side cfg1 providers1 1 (λ _, "oracle").
#[local] Instance fixture_online_side : EigenDAProvider OnlineEigenDAProvider :=
  online_side (λ _, "proxy").
#[local] Existing Instances plain_signer flat_proto flat_rlp plain_blob_data.
#[local] Existing Instances scenario_chain scenario_blobs.

(** The source of [Scenario] with the provider of the host. *)
Definition online_source : EigenDASource nat nat OnlineEigenDAProvider :=
  EigenDASource_new 0 0 (eigen_da providers1) inbox.

(** An entry of the fixtures is ingestible when its parts evaluate so. *)
Lemma fixture_ingestible e :
  35 < length (served_commitment e) →
  get_blob (eigen_da providers1) (served_commitment e) = Ok (served_blob e) →
  decode_blob_info (drop 3 (served_commitment e)) = Ok (served_cert e) →
  (Z.of_nat (length (served_blob e)) ≤ u32_max)%Z →
  NoDup (host_keys (served_cert e)) →
  (Z.of_nat (length (blob_encode (served_blob e)))
   ≤ 32 * data_length (blob_header (served_cert e)))%Z →
  commitment_matches (blob_encode (served_blob e)) (served_cert e) = Ok true →
  ingestible cfg1 providers1 e.
Proof.
  intros. eapply ingestible_intro; [apply mem_store_total|done..].
Qed.

Lemma served1_ingestible : ingestible cfg1 providers1 served1.
Proof.
  apply fixture_ingestible;
    [vm_compute; lia|by vm_compute..| |by vm_compute|by vm_compute].
  apply (bool_decide_unpack _). by vm_compute.
Qed.

Lemma served6_ingestible : ingestible cfg1 providers1 served6.
Proof.
  apply fixture_ingestible;
    [vm_compute; lia|by vm_compute..| |by vm_compute|by vm_compute].
  apply (bool_decide_unpack _). by vm_compute.
Qed.

(** The host serves the blobs of [commitment1] and [commitment6]. *)
Definition known1 : list served := [served6; served1].

Lemma known1_servable : servable cfg1 providers1 known1.
Proof.
  split.
  - apply Forall_cons_2; [apply served6_ingestible|].
    apply Forall_cons_2; [apply served1_ingestible|apply Forall_nil_2].
  - intros e1 e2 He1 He2. unfold known1 in *. set_unfold.
    destruct He1 as [->|[->|[]]], He2 as [->|[->|[]]];
      try (by right); left; [|apply host_keys_1_6].
    intros k Hk Hk'. exact (host_keys_1_6 k Hk' Hk).
Qed.

Lemma block7_known : block_known known1 block7 0.
Proof.
  intros f' info Hcall. vm_compute in Hcall. injection Hcall as _ <-.
  apply (bool_decide_unpack _). by vm_compute.
Qed.

Lemma providers_interchangeable_witness :
  (pull 5 block7 batcher scenario_source).2
  = (pull 5 block7 batcher online_source).2.
Proof.
  apply (providers_interchangeable cfg1 providers1 1 (λ _, "oracle")
           (λ _, "proxy") known1 5 block7 batcher 0 0 inbox ∅ None);
    [lia|apply kona_tag_free|apply known1_servable| |apply block7_known].
  intros e _. by left.
Defined.

Lemma same_certificate_first_blob_witness :
  (let! first := blob_get (H := end_to_end_oracle cfg1 providers1 1)
                   (HintType := KonaHintType) commitment6 in
   let! second := blob_get (H := end_to_end_oracle cfg1 providers1 1)
                    (HintType := KonaHintType) commitment7 in
   st_ret (first, second)) {| server_kv := ∅; last_hint := None |}
  = ({| server_kv := (run_on commitment6 ∅).1;
        last_hint := Some (Hint_new EigenDABlob commitment7) |},
     Ok (blob6, blob6)).
Proof.
  apply (same_certificate_first_blob cfg1 providers1 1 commitment6 commitment7
           blob6 cert6 ∅);
    [lia|apply kona_tag_free|vm_compute; lia|vm_compute; lia|by vm_compute..
    | |by vm_compute|eval_run].
  apply (bool_decide_unpack _). by vm_compute.
Defined.

(** The proxy has no blob for [commitment7]: the provider of the host
    fails where the client has answered with the blob of [commitment6]. *)
Example online_unknown_commitment :
  (provider_blob_get commitment7 (eigen_da providers1)).2
  = Err (ProviderFailed "proxy").
Proof. by vm_compute. Qed.

(** The provider of the host checks nothing: for [commitment2], whose
    certificate the handler rejects, it returns the blob of the proxy,
    and the client on a host with an empty store fails. *)
Example online_unchecked_commitment :
  (provider_blob_get commitment2 (eigen_da providers1)).2 = Ok blob1
  ∧ (provider_blob_get commitment2
       {| server_kv := (∅ : gmap bytes bytes);
          last_hint := (None : option (Hint KonaHintType)) |}).2
    = Err (ProviderFailed "oracle").
Proof. by vm_compute. Qed.

(** A chain that has [block7] only: all its references are known. *)
Definition chain7 : ChainProvider nat :=
  table_chain [([x07], (block7, [tx_inline; tx_reference]))].

Section chain7.
#[local] Existing Instance chain7.

Lemma chain7_known block_ref (f : nat) : block_known known1 block_ref f.
Proof.
  intros f' info. cbn. case_decide; [|done]. intros [= _ <-].
  apply (bool_decide_unpack _). by vm_compute.
Qed.

Lemma source_traces_agree_witness :
  (∃ so', run source_event scenario_source
            [EvNext (Ok [x11; x22]); EvClear; EvNext (Ok [x11; x22])] so')
  ↔ (∃ sp', run source_event online_source
              [EvNext (Ok [x11; x22]); EvClear; EvNext (Ok [x11; x22])] sp').
Proof.
  apply (source_traces_agree cfg1 providers1 1 (λ _, "oracle") (λ _, "proxy")
           known1);
    [lia|apply kona_tag_free|apply known1_servable|apply chain7_known|].
  split_and!; try done. split; [done|]. intros e _. by left.
Defined.

(** The trace is one of the source over the proxy, and so one of the
    source over the client. *)
Example online_source_trace :
  ∃ sp', run source_event online_source
           [EvNext (Ok [x11; x22]); EvClear; EvNext (Ok [x11; x22])] sp'.
Proof.
  eexists.
  eapply run_cons; [exact (event_next block7 batcher online_source)|].
  eapply run_cons; [apply event_clear|].
  eapply run_cons; [exact (event_next block7 batcher _)|]. apply run_nil.
Qed.

End chain7.
