(* ===== verification/Capacity.v ===== *)
(** * Capacity: what a certificate holds

    The handler measures the encoded blob against the length the
    certificate declares, and it cuts the encoded blob into the field
    elements it writes.  With the codec of EigenDA ([Codec.default_codec])
    both are arithmetic on the length of the blob of the proxy: the encoded
    blob takes one field element for its header and one for every 31 bytes,
    so a certificate of [L] field elements holds a blob of at most
    [31 * (L - 1)] bytes, and every field element starts with a zero byte,
    the padded ones included.

    The first example of the specification, a blob of 64 bytes under a
    certificate of two field elements, is run at the end: the handler
    rejects it for its size, and the certificates that hold the blob have
    four field elements or more. *)

From S2P Require Import Prelude Bytes Codec Oracle Hint Proxy Providers Args Host Cfg.
From S2P Require Import Fixtures HostRuns Client Server EndToEnd.
From stdpp Require Import strings gmap.

(** The field elements the encoding of a blob takes: the header, and one
    for every 31 bytes of the blob. *)
Definition symbols (blob : bytes) : Z :=
  1 + Z.of_nat ((length blob + 30) / 31).

(** * Lemmas *)

Lemma length_blob_encode blob :
  Z.of_nat (length (blob_encode blob)) = (32 * symbols blob)%Z.
Proof.
  unfold symbols. cbn [blob_encode default_codec].
  rewrite length_default_encode_pieces. lia.
Qed.

(** Every field element of an encoded blob starts with a zero byte,
    those beyond its end too. *)
Lemma field_element_head_zero blob i :
  (0 ≤ i)%Z → head (field_element (blob_encode blob) i) = Some x00.
Proof.
  intros Hi. unfold field_element. cbn [blob_encode default_codec].
  rewrite head_lookup, lookup_take_lt by lia.
  replace (Z.to_nat (32 * i)) with (32 * Z.to_nat i) by lia.
  destruct (decide (32 * Z.to_nat i < length (default_encode blob)))
    as [Hin|Hout].
  - rewrite lookup_app_l by (rewrite length_drop; lia).
    rewrite lookup_drop, Nat.add_0_r. by apply default_encode_head_zero.
  - by rewrite drop_ge by lia.
Qed.

Section capacity.
Context {L1 Blobs L2 : Type}.
Context `{KeyValueStore St, Keccak, CertDecoder, WitnessBuilder,
  HttpClient, BaseHint HintType, StandardHandler St HintType L1 Blobs L2}.
Implicit Types (cfg : EigenDAChainHost)
  (providers : EigenDAChainProviders L1 Blobs L2) (c : BlobInfo)
  (data blob : bytes) (s : St) (i : Z).

(** * The properties *)

(** C19: the capacity of a certificate.  The handler stops at its
    size assertion, with the store untouched, exactly when the certificate
    declares fewer field elements than the header and the 31-byte pieces
    of the blob take: a certificate of [L] field elements holds a blob of
    at most [31 * (L - 1)] bytes. *)
Theorem declared_length_capacity cfg providers data blob c s :
  32 < length data →
  get_blob (eigen_da providers) data = Ok blob →
  decode_blob_info (drop 3 data) = Ok c →
  (∃ n m, fetch_hint (Hint_new EigenDABlob data) cfg providers s
          = (s, Err (HostPanic (BlobSizeExceeds n m))))
  ↔ (data_length (blob_header c) < symbols blob)%Z.
Proof.
  intros Hlen Hg Hc. pose proof (length_blob_encode blob) as Henc. split.
  - intros (n & m & Hrun%fetch_blob_hint_outcome).
    apply fetch_outcome_exceeds in Hrun as (_ & blob' & c' & Hg' & Hc' & Hsize).
    replace blob' with blob in * by congruence.
    replace c' with c in * by congruence. lia.
  - intros Hsize. do 2 eexists.
    apply fetch_blob_hint_outcome, (fetch_too_long _ _ _ blob c); [done..|lia].
Qed.

(** C20: the field elements the handler writes are field elements.
    After a successful run every entry under the key of an index below
    the declared length is 32 bytes long and starts with a zero byte, so
    that it is below the modulus of the field, whether it is a piece of
    the encoded blob or padding. *)
Theorem field_elements_canonical cfg providers data blob c s s' i :
  fetch_hint (Hint_new EigenDABlob data) cfg providers s = (s', Ok tt) →
  get_blob (eigen_da providers) data = Ok blob →
  decode_blob_info (drop 3 data) = Ok c →
  NoDup (host_keys c) →
  (0 ≤ i < data_length (blob_header c))%Z →
  ∃ v, kv_get s' (field_element_key c i) = Some v
       ∧ length v = 32 ∧ head v = Some x00.
Proof.
  intros Hrun Hg Hc Hnd Hi.
  destruct (fetch_hint_Ok_facts cfg providers data blob c s s')
    as (_ & _ & w & Hs); [done..|].
  exists (field_element (blob_encode blob) i). split_and!.
  - by apply (field_element_stored c blob w s s').
  - apply length_field_element.
  - apply field_element_head_zero. lia.
Qed.

End capacity.

(** * The first example of the specification

    A commitment of three bytes and a certificate that declares two field
    elements with the coordinates [01..01] and [02..02]; the proxy returns
    a blob of 64 bytes, 32 zero bytes and 32 bytes [ff]. *)

Definition spec_blob : bytes := zeros 32 ++ replicate 32 xff.

Definition spec_cert (len : Z) : BlobInfo :=
  {| blob_header := {|
       commitment := {| g1_x := replicate 32 x01; g1_y := replicate 32 x02 |};
       data_length := len |} |}.

Definition spec_commitment (len : Z) : bytes := commitment_of (spec_cert len).

(** The certificate of four field elements whose coordinates are those
    the handler compares with. *)
Definition spec_commitment_4 : bytes := commitment_of (cert_of spec_blob 4).

Definition spec_http : HttpClient :=
  table_http [(request_url proxy1 (spec_commitment 2), spec_blob);
              (request_url proxy1 (spec_commitment 4), spec_blob);
              (request_url proxy1 spec_commitment_4, spec_blob)].

Section spec_example.
#[local] Existing Instance spec_http.
#[local] Instance spec_oracle
  : CommsClient (server (gmap bytes bytes) KonaHintType) :=
  host_oracle cfg1 providers1 1.

Lemma declared_length_capacity_witness :
  (∃ n m, fetch_hint (Hint_new EigenDABlob (spec_commitment 2)) cfg1 providers1
            (∅ : gmap bytes bytes)
          = (∅, Err (HostPanic (BlobSizeExceeds n m))))
  ↔ (data_length (blob_header (spec_cert 2)) < symbols spec_blob)%Z.
Proof.
  apply (declared_length_capacity cfg1 providers1 (spec_commitment 2)
           spec_blob (spec_cert 2) ∅); [vm_compute; lia|by vm_compute..].
Defined.

(** The blob takes four field elements; the certificate of the example
    declares two, and the handler stops with 128 bytes against 64. *)
Example spec_example_exceeds :
  symbols spec_blob = 4%Z
  ∧ fetch_hint (Hint_new EigenDABlob (spec_commitment 2)) cfg1 providers1
      (∅ : gmap bytes bytes)
    = (∅, Err (HostPanic (BlobSizeExceeds 128 64))).
Proof. split; [done|]. eval_run. Qed.

(** With four field elements declared and the coordinates of the
    example, the handler writes the eight entries of the field elements
    and stops at the comparison. *)
Example spec_example_mismatch :
  (fetch_hint (Hint_new EigenDABlob (spec_commitment 4)) cfg1 providers1
     (∅ : gmap bytes bytes)).2 = Err CommitmentMismatch
  ∧ size (fetch_hint (Hint_new EigenDABlob (spec_commitment 4)) cfg1 providers1
            (∅ : gmap bytes bytes)).1 = 8.
Proof. by vm_compute. Qed.

(** With the coordinates the handler compares with, it makes twelve
    writes, and the client reads back the 64 bytes. *)
Example spec_example_accepted :
  (fetch_hint (Hint_new EigenDABlob spec_commitment_4) cfg1 providers1
     (∅ : gmap bytes bytes)).2 = Ok tt
  ∧ size (fetch_hint (Hint_new EigenDABlob spec_commitment_4) cfg1 providers1
            (∅ : gmap bytes bytes)).1 = 12
  ∧ (blob_get (HintType := KonaHintType) spec_commitment_4
       {| server_kv := ∅; last_hint := None |}).2 = Ok spec_blob.
Proof. by vm_compute. Qed.

(** The client that asks for the blob of the example: the handler panics
    in the first round, the task of the server ends, and the read of the
    first field element fails. *)
Example spec_example_client :
  (blob_get (HintType := KonaHintType) (spec_commitment 2)
     {| server_kv := ∅; last_hint := None |}).2
  = Err (preimage_err task_ended).
Proof. by vm_compute. Qed.

Lemma field_elements_canonical_witness :
  ∃ v, kv_get (fetch_hint (Hint_new EigenDABlob spec_commitment_4) cfg1
                 providers1 (∅ : gmap bytes bytes)).1
         (field_element_key (cert_of spec_blob 4) 3) = Some v
       ∧ length v = 32 ∧ head v = Some x00.
Proof.
  apply (field_elements_canonical cfg1 providers1 spec_commitment_4 spec_blob
           (cert_of spec_blob 4) ∅);
    [eval_run|by vm_compute|by vm_compute| |cbn; lia].
  apply (bool_decide_unpack _). by vm_compute.
Defined.

End spec_example.
