(* ===== verification/Beacon.v ===== *)
(** * Beacon: the blobs of the beacon chain

    The part of [EigenDASource::load_blobs] that follows the scan of the
    transactions: when the scan recorded blob hashes, the source asks the
    blob provider for their blobs, fills one [BlobData] per hash from the
    blobs in the order of the answer, decodes each and appends what it
    decodes to, and reads the whole as one list of frames
    ([Source.blob_frames], [Source.fill_blob]).

    The loop is compared with a reference: the concatenation of the
    payloads of the first blobs of the answer, one per hash
    ([payloads]).  The lemmas give the loop on every branch: it succeeds
    when the answer has a usable blob for every hash; it stops with
    [InvalidLength] at the first hash the answer has no blob for, and with
    [MissingData] at the first blob that is empty or all zeros; a blob
    that does not decode contributes nothing and the loop goes on. *)

From S2P Require Import Prelude Bytes Proxy Source SourceRuns.
From stdpp Require Import strings.

(** A blob [BlobData::fill] takes: not empty and not all zeros. *)
Definition usable (blob : bytes) : Prop := blob ≠ [] ∧ is_zero blob = false.

#[export] Instance usable_dec blob : Decision (usable blob).
Proof. unfold usable. apply _. Defined.

(** What a blob adds to the data of the block: the bytes it decodes to,
    and nothing when it does not decode. *)
Definition payload `{BlobDataDecoder} (blob : bytes) : bytes :=
  match BlobData_decode {| bd_data := Some blob; bd_calldata := None |} with
  | Ok d => d
  | Err _ => []
  end.

Definition payloads `{BlobDataDecoder} (blobs : list bytes) : bytes :=
  mjoin (payload <$> blobs).

(** A decoder that knows one encoding version: a blob decodes to the
    bytes after its first byte when that byte is [00] or [01]. *)
Definition versioned_blob_data : BlobDataDecoder := {|
  BlobData_decode self :=
    match bd_data self with
    | None => Err BlobMissingData
    | Some (v :: d) =>
        if bool_decide (byte_to_Z v ≤ 1)%Z then Ok d
        else Err BlobInvalidEncodingVersion
    | Some [] => Err BlobInvalidLength
    end;
  blob_data_error_text := blob_data_error_text (BlobDataDecoder := plain_blob_data);
  blob_provider_backend_text :=
    blob_provider_backend_text (BlobDataDecoder := plain_blob_data);
|}.

(** * Lemmas *)

Section beacon.
Context `{ChainProvider F, BlobProvider B, EigenDAProvider E, SignerRecovery,
  ProtoDecoder, RlpListDecoder, BlobDataDecoder}.
Implicit Types (blobs : list bytes) (blob data : bytes) (index k : nat)
  (hashes : list IndexedBlobHash) (self : EigenDASource F B E)
  (e : source_error).

(** The error of the source for an error of [fill]. *)
Definition fill_error (e : blob_data_error) : source_error :=
  SourceError (Backend (blob_data_error_text e)).

(** ** One iteration *)

Lemma fill_blob_usable blobs data index blob :
  blobs !! index = Some blob → usable blob →
  fill_blob blobs (data, index) = Ok (data ++ payload blob, S index).
Proof.
  intros Hblob [Hne Hzero]. unfold fill_blob, BlobData_fill, payload. cbn.
  rewrite Hblob, bool_decide_eq_false_2, Hzero, Nat.add_1_r by done. cbn.
  destruct (BlobData_decode _); by rewrite ?app_nil_r.
Qed.

Lemma fill_blob_missing blobs data index :
  blobs !! index = None →
  fill_blob blobs (data, index) = Err (fill_error BlobInvalidLength).
Proof. intros Hblob. unfold fill_blob, BlobData_fill. cbn. by rewrite Hblob. Qed.

Lemma fill_blob_unusable blobs data index blob :
  blobs !! index = Some blob → ¬ usable blob →
  fill_blob blobs (data, index) = Err (fill_error BlobMissingData).
Proof.
  intros Hblob Hun. unfold fill_blob, BlobData_fill. cbn. rewrite Hblob.
  destruct (bool_decide (blob = []) || is_zero blob) eqn:Hb; [done|].
  apply orb_false_iff in Hb as [Hne%bool_decide_eq_false Hz]. by destruct Hun.
Qed.

(** A blob that does not decode leaves the data as it was and moves the
    index on. *)
Lemma fill_blob_undecodable blobs data index blob err :
  blobs !! index = Some blob → usable blob →
  BlobData_decode {| bd_data := Some blob; bd_calldata := None |} = Err err →
  fill_blob blobs (data, index) = Ok (data, S index).
Proof.
  intros Hblob Hus Herr. rewrite (fill_blob_usable _ _ _ blob) by done.
  unfold payload. by rewrite Herr, app_nil_r.
Qed.

(** ** The loop *)

Lemma payloads_cons blob blobs :
  payloads (blob :: blobs) = payload blob ++ payloads blobs.
Proof. done. Qed.

(** The loop over the hashes takes the blobs in order from the index it
    starts with, one for each hash. *)
Lemma fill_blobs_usable {X} blobs (hs : list X) data index :
  index + length hs ≤ length blobs →
  Forall usable (take (length hs) (drop index blobs)) →
  fold_res (λ acc _, fill_blob blobs acc) hs (data, index)
  = Ok (data ++ payloads (take (length hs) (drop index blobs)),
        index + length hs).
Proof.
  revert data index. induction hs as [|h hs IH]; intros data index Hlen Hus.
  { cbn. by rewrite app_nil_r, Nat.add_0_r. }
  cbn [length] in *.
  destruct (lookup_lt_is_Some_2 blobs index) as [blob Hblob]; [lia|].
  rewrite (drop_S _ _ _ Hblob) in Hus |- *. cbn [take] in Hus |- *.
  apply Forall_cons in Hus as [Hblob' Hus].
  cbn [fold_res]. rewrite (fill_blob_usable _ _ _ blob) by done.
  cbn [res_bind]. rewrite IH by (done || lia).
  rewrite payloads_cons, app_assoc. do 2 f_equal. lia.
Qed.

(** The loop stops at the first iteration that fails. *)
Lemma fill_blobs_stops {X} blobs (hs : list X) data index k e :
  k < length hs → index + k ≤ length blobs →
  Forall usable (take k (drop index blobs)) →
  (∀ data', fill_blob blobs (data', index + k) = Err e) →
  fold_res (λ acc _, fill_blob blobs acc) hs (data, index) = Err e.
Proof.
  intros Hk Hlen Hus Hfail.
  rewrite <-(take_drop k hs), fold_res_app.
  assert (length (take k hs) = k) as Htake by (rewrite length_take; lia).
  rewrite fill_blobs_usable, Htake by (by rewrite Htake). cbn.
  destruct (drop k hs) as [|h hs'] eqn:Hdrop.
  { apply (f_equal length) in Hdrop. rewrite length_drop in Hdrop. cbn in Hdrop. lia. }
  cbn. by rewrite Hfail.
Qed.

(** ** The frames of the blobs *)

Lemma blob_frames_fetched block_ref hashes self fetcher blobs :
  get_blobs block_ref hashes (blob_fetcher self) = (fetcher, Ok blobs) →
  blob_frames block_ref hashes self
  = ((on_blob_fetcher (get_blobs block_ref hashes) self).1,
     let? filled := fold_res (λ acc _, fill_blob blobs acc) hashes ([], 0) in
     map_err (λ msg, SourceError (RLPDecodeError msg)) (rlp_decode_list filled.1)).
Proof.
  intros Hget. unfold blob_frames, st_bind, st_map_err, st_lift, on_blob_fetcher.
  rewrite Hget. cbn. by destruct (fold_res _ _ _).
Qed.

(** The provider fails: the source fails with the text of its error, as
    the blob provider of the pipeline renders it. *)
Lemma blob_frames_fetch_error block_ref hashes self fetcher msg :
  get_blobs block_ref hashes (blob_fetcher self) = (fetcher, Err msg) →
  blob_frames block_ref hashes self
  = ((on_blob_fetcher (get_blobs block_ref hashes) self).1,
     Err (SourceError (Backend (blob_provider_backend_text msg)))).
Proof.
  intros Hget. unfold blob_frames, st_bind, st_map_err, st_lift, on_blob_fetcher.
  by rewrite Hget.
Qed.

(** The answer has fewer blobs than there are hashes: the loop fails at
    the first hash without a blob. *)
Lemma blob_frames_too_few block_ref hashes self fetcher blobs :
  get_blobs block_ref hashes (blob_fetcher self) = (fetcher, Ok blobs) →
  length blobs < length hashes → Forall usable blobs →
  (blob_frames block_ref hashes self).2 = Err (fill_error BlobInvalidLength).
Proof.
  intros Hget Hlen Hus. rewrite (blob_frames_fetched _ _ _ _ _ Hget). cbn.
  rewrite (fill_blobs_stops blobs hashes [] 0 (length blobs)
             (fill_error BlobInvalidLength)); [done|lia|done| |].
  - by rewrite drop_0, firstn_all.
  - intros data'. apply fill_blob_missing, lookup_ge_None_2. lia.
Qed.

(** A blob of the answer is empty or all zeros: the loop fails when it
    comes to it, whatever the blobs before it added. *)
Lemma blob_frames_unusable block_ref hashes self fetcher blobs k blob :
  get_blobs block_ref hashes (blob_fetcher self) = (fetcher, Ok blobs) →
  k < length hashes → blobs !! k = Some blob → ¬ usable blob →
  Forall usable (take k blobs) →
  (blob_frames block_ref hashes self).2 = Err (fill_error BlobMissingData).
Proof.
  intros Hget Hk Hblob Hun Hus. rewrite (blob_frames_fetched _ _ _ _ _ Hget). cbn.
  rewrite (fill_blobs_stops blobs hashes [] 0 k (fill_error BlobMissingData));
    [done|done| |by rewrite drop_0|].
  - apply lookup_lt_Some in Hblob. lia.
  - intros data'. by apply (fill_blob_unusable _ _ _ blob).
Qed.

(** The frames of a block are those of the scan, followed by those of
    the beacon blobs when the scan recorded a hash. *)
Lemma fetch_frames_Ok_inv block_ref addr self self' frames :
  fetch_frames block_ref addr self = (self', Ok frames) →
  ∃ self1 self2 info scanned hashes,
    on_chain_provider
      (block_info_and_transactions_by_hash (block_hash block_ref)) self
    = (self1, Ok info)
    ∧ data_from_eigen_da info.2 addr self1 = (self2, Ok (scanned, hashes))
    ∧ (hashes = [] ∧ self' = self2 ∧ frames = scanned
       ∨ hashes ≠ [] ∧ ∃ beacon,
           blob_frames block_ref hashes self2 = (self', Ok beacon)
           ∧ frames = scanned ++ beacon).
Proof.
  unfold fetch_frames.
  intros (self1 & info & Hinfo & Hrest)%st_bind_inv.
  apply st_bind_inv in Hrest as (self2 & [scanned hashes] & Hscan & Hrest).
  apply st_map_err_Ok in Hinfo. exists self1, self2, info, scanned, hashes.
  split_and!; [done..|]. cbn in Hrest. case_bool_decide as Hh.
  - right. split; [done|].
    apply st_bind_inv in Hrest as (self3 & beacon & Hbeacon & [= <- <-]).
    by exists beacon.
  - left. injection Hrest as <- <-. split; [|done].
    by destruct (decide (hashes = [])).
Qed.

(** * The properties *)

(** C18: the frames of the beacon blobs.  When the blob provider
    answers with a usable blob for every recorded hash, the source reads
    the frames from the payloads of the first blobs of the answer, one per
    hash and in the order of the answer, and only the blob provider has
    changed; a blob that does not decode adds nothing, and blobs beyond the
    number of hashes are not looked at. *)
Theorem beacon_blobs_in_order block_ref hashes self fetcher blobs :
  get_blobs block_ref hashes (blob_fetcher self) = (fetcher, Ok blobs) →
  length hashes ≤ length blobs →
  Forall usable (take (length hashes) blobs) →
  blob_frames block_ref hashes self
  = ((on_blob_fetcher (get_blobs block_ref hashes) self).1,
     map_err (λ msg, SourceError (RLPDecodeError msg))
       (rlp_decode_list (payloads (take (length hashes) blobs)))).
Proof.
  intros Hget Hlen Hus. rewrite (blob_frames_fetched _ _ _ _ _ Hget).
  by rewrite fill_blobs_usable by (by rewrite ?drop_0).
Qed.

End beacon.

(** * Blocks with blobs

    A blob transaction of the batcher with two blobs, before a transaction
    with a frame in its calldata. *)

Definition tx_blobs2 : TxEnvelope :=
  Eip4844 (TxEip4844 {| to := Some inbox; input := [];
                        blob_versioned_hashes := [[xb1]; [xb2]];
                        signature := batcher |}).

Definition block2 : BlockInfo :=
  {| block_hash := [x02]; block_number := 2; parent_hash := [x01];
     timestamp := 24 |}.

Definition hashes2 : list IndexedBlobHash :=
  [{| hash := [xb1]; index := 0 |}; {| hash := [xb2]; index := 1 |}].

(** A blob provider that answers every request with the same blobs. *)
Definition fixed_blobs (answer : list bytes) : BlobProvider nat := {|
  get_blobs _ _ := λ calls, (S calls, Ok answer);
|}.

#[local] Instance beacon_chain : ChainProvider nat :=
  table_chain [([x02], (block2, [tx_blobs2; tx_frame]))].
#[local] Instance beacon_eigen_da : EigenDAProvider nat := table_eigen_da [].
#[local] Existing Instances plain_signer flat_proto flat_rlp.

Section plain.
#[local] Existing Instance plain_blob_data.
#[local] Instance beacon_blobs : BlobProvider nat :=
  table_blobs [([xb1], [x01; xdd]); ([xb2], [x02; xee; xff])].

Lemma beacon_blobs_in_order_witness :
  blob_frames block2 hashes2 source1
  = ((on_blob_fetcher (get_blobs block2 hashes2) source1).1,
     map_err (λ msg, SourceError (RLPDecodeError msg))
       (rlp_decode_list
          (payloads (take (length hashes2) [[x01; xdd]; [x02; xee; xff]])))).
Proof.
  apply (beacon_blobs_in_order block2 hashes2 source1 1
           [[x01; xdd]; [x02; xee; xff]]); [done|cbn; lia|].
  apply (bool_decide_unpack _). by vm_compute.
Defined.

(** The two blobs hold one frame and one frame. *)
Example beacon_frames :
  (blob_frames block2 hashes2 source1).2 = Ok [[xdd]; [xee; xff]].
Proof. by vm_compute. Qed.

(** The frame of the calldata comes first, although its transaction is
    the second of the block; the blob provider was asked once. *)
Example fetch_frames_block2 :
  (fetch_frames block2 batcher source1).2 = Ok [[x0a; x0b]; [xdd]; [xee; xff]]
  ∧ blob_fetcher (fetch_frames block2 batcher source1).1 = 1.
Proof. by vm_compute. Qed.

End plain.

Section answers.
#[local] Existing Instance plain_blob_data.

(** An answer of one blob for two hashes, and an answer whose second
    blob is all zeros. *)
Example beacon_too_few :
  (blob_frames (H0 := fixed_blobs [[x01; xdd]]) block2 hashes2 source1).2
  = Err (SourceError (Backend "invalid length")).
Proof. by vm_compute. Qed.

Example beacon_zero_blob :
  (blob_frames (H0 := fixed_blobs [[x01; xdd]; [x00; x00]]) block2 hashes2
     source1).2
  = Err (SourceError (Backend "missing data")).
Proof. by vm_compute. Qed.

(** An answer of three blobs for two hashes: the third is not read. *)
Example beacon_too_many :
  (blob_frames (H0 := fixed_blobs [[x01; xdd]; [x01; xee]; [x07]]) block2
     hashes2 source1).2
  = Ok [[xdd]; [xee]].
Proof. by vm_compute. Qed.

End answers.

Section versioned.
#[local] Existing Instance versioned_blob_data.

(** Three blobs of which the second has an encoding version the decoder
    does not know: the source returns the frames of the first and the
    third, and no error. *)
Definition hashes3 : list IndexedBlobHash :=
  hashes2 ++ [{| hash := [xb3]; index := 2 |}].

Example undecodable_blob_skipped :
  (blob_frames
     (H0 := fixed_blobs [[x00; x01; xdd]; [x05; x01; xaa]; [x01; x01; xcc]])
     block2 hashes3 source1).2
  = Ok [[xdd]; [xcc]].
Proof. by vm_compute. Qed.

End versioned.
